(** * Jet-hadron correlations: staged extraction pipeline and background fit

    A shallow embedding of the parts of [jet_hadron/analysis] that the
    specification talks about:

    - [correlations_helpers.py]: the mixed-event normalization estimator;
    - [fit.py]: the Fourier / reaction-plane background functions, the
      definition of the cost functions and the propagation of the fit
      covariance onto the background function;
    - [correlations.py]: the per-bin [Correlations] object with its stage
      flags, the caching policy of the projection stages, the records it
      writes to and reads from its ROOT and YAML files, the subtraction of
      the fits, the yield and width extraction and the [CorrelationsManager]
      loops.

    Floating point numbers are modelled by exact numbers: rationals [Q] where
    the code only adds, multiplies, divides and compares, reals [R] where it
    calls [cos], [sin] or uses [pi] symbolically.  Rounding is therefore not
    part of the model.  Python exceptions are modelled by explicit error
    results. *)

From Stdlib Require Import QArith Qround Qabs Qreals Reals Lra Lia.
From Stdlib Require Import List String Ascii Bool.
From stdpp Require Import base option gmap strings list.

Import ListNotations.
Local Open Scope string_scope.
Local Open Scope list_scope.

(* ===================================================================== *)
(** * The background functions of [fit.py] (real valued) *)
(* ===================================================================== *)

Module Fit.

Local Open Scope R_scope.

(** [params.ReactionPlaneOrientation] as [fit.py] uses it: [all] is the
    inclusive (all angles) class. *)
Inductive ReactionPlaneOrientation : Set :=
| all
| in_plane
| mid_plane
| out_of_plane.

(** [fitConfig["epResolutionParameters"]]. *)
Record ResolutionParameters : Set := {
  R22 : R;
  R42 : R;
  R62 : R;
  R82 : R;
}.

(** The type of a background function once the orientation is chosen:
    [f x B v2_t v2_a v4_t v4_a v1 v3]. *)
Definition BackgroundFunction : Type := R -> R -> R -> R -> R -> R -> R -> R -> R.

(** [Fourier(x, BG, v2_t, v2_a, v4_t, v4_a, v1, v3)]. *)
Definition Fourier : BackgroundFunction :=
  fun x BG v2_t v2_a v4_t v4_a v1 v3 =>
    BG * (1 + 2 * v1 * cos x + 2 * v2_t * v2_a * cos (2 * x)
            + 2 * v3 * cos (3 * x) + 2 * v4_t * v4_a * cos (4 * x)).

(** [Background(x, phi, c, resolutionParameters, B, ...)]: the reaction
    plane dependent background, which re-derives the effective harmonics and
    the effective pedestal and hands them to [Fourier]. *)
Definition Background (phi c : R) (resolutionParameters : ResolutionParameters)
  : BackgroundFunction :=
  fun x B v2_t v2_a v4_t v4_a v1 v3 =>
    let r22 := R22 resolutionParameters in
    let r42 := R42 resolutionParameters in
    let r62 := R62 resolutionParameters in
    let r82 := R82 resolutionParameters in
    let num := v2_t + cos (2 * phi) * sin (2 * c) / (2 * c) * r22
               + v4_t * cos (2 * phi) * sin (2 * c) / (2 * c) * r22
               + v2_t * cos (4 * phi) * sin (4 * c) / (4 * c) * r42
               + v4_t * cos (6 * phi) * sin (6 * c) / (6 * c) * r62 in
    let den := 1 + 2 * v2_t * cos (2 * phi) * sin (2 * c) / (2 * c) * r22
               + 2 * v4_t * cos (4 * phi) * sin (4 * c) / (4 * c) * r42 in
    let v2R := num / den in
    let num2 := v4_t + cos (4 * phi) * sin (4 * c) / (4 * c) * r42
                + v2_t * cos (2 * phi) * sin (2 * c) / (2 * c) * r22
                + v2_t * cos (6 * phi) * sin (6 * c) / (6 * c) * r62
                + v4_t * cos (8 * phi) * sin (8 * c) / (8 * c) * r82 in
    let v4R := num2 / den in
    let BR := B * den * c * 2 / PI in
    let factor := if Req_EM_T c (PI / 12) then 2 else 1 in
    let BR := BR * factor in
    Fourier x BR v2R v2_a v4R v4_a v1 v3.

(** [BackgroundWrapperEP(phi, c, resolutionParameters)] only renames the
    arguments. *)
Definition BackgroundWrapperEP (phi c : R) (resolutionParameters : ResolutionParameters)
  : BackgroundFunction :=
  fun x B v2_t v2_a v4_t v4_a v1 v3 =>
    Background phi c resolutionParameters x B v2_t v2_a v4_t v4_a v1 v3.

(** [GetBackgroundDominatedFitFunction(epAngle, fitConfig)]: all angles
    background is [Fourier]; the other orientations look up the centre
    [phiS[epAngle]] and the width [c[epAngle]] of their event plane bin and
    use the reaction plane background. *)
Definition GetBackgroundDominatedFitFunction
    (epAngle : ReactionPlaneOrientation) (epResolutionParameters : ResolutionParameters)
  : BackgroundFunction :=
  match epAngle with
  | all => Fourier
  | in_plane => BackgroundWrapperEP 0 (PI / 6) epResolutionParameters
  | mid_plane => BackgroundWrapperEP (PI / 4) (PI / 12) epResolutionParameters
  | out_of_plane => BackgroundWrapperEP (PI / 2) (PI / 6) epResolutionParameters
  end.

End Fit.

(* ===================================================================== *)
(** * Python exceptions *)
(* ===================================================================== *)

(** The exceptions the modelled code can raise, with their message or key. *)
Inductive exn : Set :=
| ValueError (msg : string)
| RuntimeError (msg : string)
| KeyError (key : string)
| ZeroDivisionError
| AttributeError (msg : string)
| TypeError (msg : string)
| IndexError (msg : string)
| UnboundLocalError (name : string)
| FileNotFoundError (path : string).

(** A computation either returns or raises. *)
Inductive result (A : Type) : Type :=
| Ok (a : A)
| Raise (e : exn).

Arguments Ok {A} a.
Arguments Raise {A} e.

Definition bind {A B : Type} (r : result A) (k : A -> result B) : result B :=
  match r with
  | Ok a => k a
  | Raise e => Raise e
  end.

Notation "'try' x <- r ; k" := (bind r (fun x => k))
  (at level 10, x name, r at level 100, k at level 200).
Notation "'try' ' p <- r ; k" := (bind r (fun p => k))
  (at level 10, p pattern, r at level 100, k at level 200).

Definition is_ok {A : Type} (r : result A) : bool :=
  match r with Ok _ => true | Raise _ => false end.

(* ===================================================================== *)
(** * Numbers shared by the modules *)
(* ===================================================================== *)

(** [pachyderm.utils.epsilon], the machine epsilon [2^-52]. *)
Definition epsilon : Q := 1 # 4503599627370496.

(** [np.pi] is the double nearest to pi, which is a rational number. *)
Definition np_pi : Q := 884279719003555 # 281474976710656.

(* ===================================================================== *)
(** * The histogram interfaces the code consumes *)
(* ===================================================================== *)

(** The part of ROOT's [TAxis], [TH1] and [TH2] that the helpers call, for
    axes with fixed-width bins.  Bin [0] is the underflow bin and bin
    [nbins + 1] the overflow bin. *)
Module ROOT.

Local Open Scope Q_scope.

Record TAxis : Set := {
  fNbins : positive;
  fXmin : Q;
  fXmax : Q;
}.

Definition GetNbins (a : TAxis) : Z := Zpos (fNbins a).

(** [TAxis::FindBin(x)]. *)
Definition FindBin (a : TAxis) (x : Q) : Z :=
  if Qlt_le_dec x (fXmin a) then 0%Z
  else if Qlt_le_dec x (fXmax a) then
    (1 + Qfloor (inject_Z (GetNbins a) * (x - fXmin a) / (fXmax a - fXmin a)))%Z
  else (GetNbins a + 1)%Z.

(** [TAxis::GetBinWidth(bin)]: the same for every bin of a fixed-width axis. *)
Definition GetBinWidth (a : TAxis) (bin : Z) : Q :=
  (fXmax a - fXmin a) / inject_Z (GetNbins a).

Definition GetBinLowEdge (a : TAxis) (bin : Z) : Q :=
  fXmin a + inject_Z (bin - 1) * GetBinWidth a bin.

Definition GetBinUpEdge (a : TAxis) (bin : Z) : Q :=
  fXmin a + inject_Z bin * GetBinWidth a bin.

(** A one dimensional histogram: its axis and the content of every bin. *)
Record TH1 : Type := {
  h1_name : string;
  h1_xaxis : TAxis;
  h1_content : Z -> Q;
}.

(** A two dimensional histogram; [h2_content binx biny]. *)
Record TH2 : Type := {
  h2_name : string;
  h2_xaxis : TAxis;
  h2_yaxis : TAxis;
  h2_content : Z -> Z -> Q;
}.

(** The loop [for (inbin = firstbin; inbin <= lastbin; ++inbin) cont += ...]
    of [TH2::DoProjection], written with the number of iterations left. *)
Fixpoint accumulate (f : Z -> Q) (inbin : Z) (iterations : nat) (cont : Q) : Q :=
  match iterations with
  | O => cont
  | S n => accumulate f (inbin + 1) n (cont + f inbin)
  end.

(** [TH2::ProjectionX(name, firstybin, lastybin)] for a histogram with no
    axis range set: the bin range is clipped to the bins of the y axis
    (under- and overflow included), and each output bin sums the contents of
    the selected y bins. *)
Definition ProjectionX (h : TH2) (name : string) (firstybin lastybin : Z) : TH1 :=
  let inNbin := GetNbins (h2_yaxis h) in
  let firstbin := if (firstybin <? 0)%Z then 0%Z else firstybin in
  let lastbin := if (lastybin <? 0)%Z then (inNbin + 1)%Z else lastybin in
  let lastbin := if (lastbin >? inNbin + 1)%Z then (inNbin + 1)%Z else lastbin in
  {| h1_name := name;
     h1_xaxis := h2_xaxis h;
     h1_content := fun binx =>
       accumulate (fun biny => h2_content h binx biny) firstbin
                  (Z.to_nat (lastbin - firstbin + 1)) 0 |}.

(** [TH1::Scale(c)]. *)
Definition Scale (h : TH1) (c : Q) : TH1 :=
  {| h1_name := h1_name h;
     h1_xaxis := h1_xaxis h;
     h1_content := fun binx => h1_content h binx * c |}.

End ROOT.

(** The part of [pachyderm] that the helpers call. *)
Module Pachyderm.

Local Open Scope Q_scope.

(** [histogram.Histogram1D(hist).y]: the contents of the bins
    [1 .. nbins], without under- and overflow. *)
Definition Histogram1D_y (h : ROOT.TH1) : list Q :=
  List.map (fun i => ROOT.h1_content h (Z.of_nat i))
           (List.seq 1 (Pos.to_nat (ROOT.fNbins (ROOT.h1_xaxis h)))).

(** [np.cumsum(arr)]. *)
Fixpoint cumsum_from (acc : Q) (arr : list Q) : list Q :=
  match arr with
  | [] => []
  | x :: rest => (acc + x) :: cumsum_from (acc + x) rest
  end.

Definition cumsum (arr : list Q) : list Q := cumsum_from 0 arr.

(** [utils.moving_average(arr, n)]:
    [ret = np.cumsum(arr); ret[n:] = ret[n:] - ret[:-n]; return ret[n - 1:] / n]. *)
Definition moving_average (arr : list Q) (n : nat) : list Q :=
  let ret := cumsum arr in
  let ret := List.firstn n ret
             ++ List.map (fun p => fst p - snd p)
                         (List.combine (List.skipn n ret)
                                       (List.firstn (List.length ret - n) ret)) in
  List.map (fun r => r / inject_Z (Z.of_nat n)) (List.skipn (n - 1) ret).

End Pachyderm.

(** The sum of a list of numbers. *)
Definition sum_list (l : list Q) : Q := List.fold_right Qplus 0%Q l.

(** Python's builtin [max] of a sequence: the first of the largest
    elements; [ValueError] on an empty sequence. *)
Fixpoint max_from (current : Q) (rest : list Q) : Q :=
  match rest with
  | [] => current
  | x :: rest' => if Qlt_le_dec current x then max_from x rest' else max_from current rest'
  end.

Definition py_max (l : list Q) : result Q :=
  match l with
  | [] => Raise (ValueError "max() arg is an empty sequence")
  | x :: rest => Ok (max_from x rest)
  end.

(* ===================================================================== *)
(** * [correlations_helpers.py] *)
(* ===================================================================== *)

Module CorrelationsHelpers.

Local Open Scope Q_scope.

(** What the helpers write to the logger. *)
Inductive log_record : Type :=
| InfoScaleFactor (scale : Q)
| WarningCouldNotNormalize (hist_name : string).

(** [_peak_finding_objects_from_mixed_event(mixed_event, eta_limits)]:
    the 1D peak finding histogram and the array of its values.  The
    division by the projection length raises on zero. *)
Definition _peak_finding_objects_from_mixed_event
    (mixed_event : ROOT.TH2) (eta_limits : Q * Q)
  : result (ROOT.TH1 * list Q * list log_record) :=
  let yaxis := ROOT.h2_yaxis mixed_event in
  let eta_limit_bins :=
    (ROOT.FindBin yaxis (fst eta_limits + epsilon),
     ROOT.FindBin yaxis (snd eta_limits - epsilon)) in
  let projection_length :=
    ROOT.GetBinUpEdge yaxis (snd eta_limit_bins)
    - ROOT.GetBinLowEdge yaxis (fst eta_limit_bins) in
  if Qeq_bool projection_length 0 then Raise ZeroDivisionError
  else
    let scale := ROOT.GetBinWidth yaxis 1 / projection_length in
    let peak_finding_hist :=
      ROOT.ProjectionX mixed_event (String.append (ROOT.h2_name mixed_event) "_peak_finding_hist")
                       (fst eta_limit_bins) (snd eta_limit_bins) in
    let peak_finding_hist := ROOT.Scale peak_finding_hist scale in
    let peak_finding_hist_array := Pachyderm.Histogram1D_y peak_finding_hist in
    Ok (peak_finding_hist, peak_finding_hist_array, [InfoScaleFactor scale]).

(** [measure_mixed_event_normalization(mixed_event, eta_limits)]: the
    normalization and what was logged. *)
Definition measure_mixed_event_normalization
    (mixed_event : ROOT.TH2) (eta_limits : Q * Q) : result (Q * list log_record) :=
  try '(peak_finding_hist, peak_finding_hist_array, log) <-
    _peak_finding_objects_from_mixed_event mixed_event eta_limits ;
  let moving_avg := Pachyderm.moving_average peak_finding_hist_array 36 in
  try max_moving_avg <- py_max moving_avg ;
  let mixed_event_normalization := max_moving_avg in
  if negb (negb (Qeq_bool mixed_event_normalization 0)) then
    Ok (1, log ++ [WarningCouldNotNormalize (ROOT.h2_name mixed_event)])
  else
    Ok (mixed_event_normalization, log).

End CorrelationsHelpers.

(** ** What the specification says the estimator computes

    Written from the words of the specification, to be compared with
    [CorrelationsHelpers.measure_mixed_event_normalization]. *)
Module MixedEventSpec.
Local Open Scope Q_scope.

(** The bins [first .. last] of an axis. *)
Definition bin_range (first last : Z) : list Z :=
  List.map (fun k => (first + Z.of_nat k)%Z) (List.seq 0 (Z.to_nat (last - first + 1))).

(** The eta window in bins. *)
Definition eta_window_bins (mixed_event : ROOT.TH2) (eta_limits : Q * Q) : Z * Z :=
  (ROOT.FindBin (ROOT.h2_yaxis mixed_event) (fst eta_limits + epsilon),
   ROOT.FindBin (ROOT.h2_yaxis mixed_event) (snd eta_limits - epsilon)).

(** The width of the projected eta window. *)
Definition window_width (mixed_event : ROOT.TH2) (eta_limits : Q * Q) : Q :=
  let '(first, last) := eta_window_bins mixed_event eta_limits in
  ROOT.GetBinUpEdge (ROOT.h2_yaxis mixed_event) last
  - ROOT.GetBinLowEdge (ROOT.h2_yaxis mixed_event) first.

(** The projection onto delta phi within the eta window, scaled by the ratio
    of one delta eta bin width to the window width: one value per delta phi
    bin. *)
Definition scaled_projection (mixed_event : ROOT.TH2) (eta_limits : Q * Q) : list Q :=
  let '(first, last) := eta_window_bins mixed_event eta_limits in
  List.map
    (fun binx =>
       sum_list (List.map (ROOT.h2_content mixed_event (Z.of_nat binx)) (bin_range first last))
       * (ROOT.GetBinWidth (ROOT.h2_yaxis mixed_event) 1 / window_width mixed_event eta_limits))
    (List.seq 1 (Pos.to_nat (ROOT.fNbins (ROOT.h2_xaxis mixed_event)))).

(** The mean of the [n] values starting at position [j]. *)
Definition window_mean (arr : list Q) (n j : nat) : Q :=
  sum_list (List.firstn n (List.skipn j arr)) / inject_Z (Z.of_nat n).

(** The moving average: the means of all the windows of [n] consecutive values. *)
Definition window_means (arr : list Q) (n : nat) : list Q :=
  List.map (window_mean arr n) (List.seq 0 (List.length arr + 1 - n)).

(** [m] is the maximum of [l]. *)
Definition is_maximum (m : Q) (l : list Q) : Prop :=
  (exists x, List.In x l /\ x == m) /\ (forall x, List.In x l -> x <= m).

End MixedEventSpec.

(* ===================================================================== *)
(** * [fit.py]: the [JetHEPFit] class *)
(* ===================================================================== *)

(** A Python [dict] with string keys, in insertion order. *)
Module Dict.

Definition t (V : Type) : Type := list (string * V).

(** [d[key]], [KeyError] when the key is missing. *)
Fixpoint get {V : Type} (d : t V) (key : string) : result V :=
  match d with
  | [] => Raise (KeyError key)
  | (k, v) :: rest => if String.eqb k key then Ok v else get rest key
  end.

(** [d[key] = value]: an existing key keeps its position. *)
Fixpoint set {V : Type} (d : t V) (key : string) (value : V) : t V :=
  match d with
  | [] => [(key, value)]
  | (k, v) :: rest =>
      if String.eqb k key then (k, value) :: rest else (k, v) :: set rest key value
  end.

Definition keys {V : Type} (d : t V) : list string := List.map fst d.
Definition values {V : Type} (d : t V) : list V := List.map snd d.

End Dict.

(** Python list operations on lists of names. *)
Module PyList.

(** [l.index(name)]. *)
Fixpoint index (l : list string) (name : string) : option nat :=
  match l with
  | [] => None
  | s :: rest => if String.eqb s name then Some 0%nat else option_map S (index rest name)
  end.

(** [l.pop(i)], keeping only the remaining list. *)
Fixpoint pop (l : list string) (i : nat) : list string :=
  match l, i with
  | [], _ => []
  | _ :: rest, O => rest
  | s :: rest, S i' => s :: pop rest i'
  end.

(** [name in l]. *)
Definition contains (l : list string) (name : string) : bool :=
  List.existsb (String.eqb name) l.

End PyList.

(** Python string operations. *)
Module PyStr.

(** [sub in s]. *)
Fixpoint contains (sub s : string) : bool :=
  String.prefix sub s
  || match s with
     | EmptyString => false
     | String _ rest => contains sub rest
     end.

Fixpoint drop (n : nat) (s : string) : string :=
  match n, s with
  | O, _ => s
  | S n', String _ rest => drop n' rest
  | S _, EmptyString => EmptyString
  end.

(** [s.replace(old, new)] for a non-empty [old]: every occurrence, from the
    left, is replaced.  [fuel] bounds the number of characters visited. *)
Fixpoint replace_fuel (fuel : nat) (old new s : string) : string :=
  match fuel with
  | O => s
  | S fuel' =>
      match s with
      | EmptyString => EmptyString
      | String ch rest =>
          if String.prefix old s
          then String.append new (replace_fuel fuel' old new (drop (String.length old) s))
          else String ch (replace_fuel fuel' old new rest)
      end
  end.

Definition replace (old new s : string) : string :=
  replace_fuel (String.length s) old new s.

(** [s.endswith(suffix)]. *)
Definition endswith (s suffix : string) : bool :=
  (String.length suffix <=? String.length s)%nat
  && String.eqb (drop (String.length s - String.length suffix) s) suffix.

End PyStr.

Module JetHEPFit.

Import Fit.
Local Open Scope Q_scope.

(** [analysis_objects.CorrelationType]. *)
Inductive CorrelationType : Set :=
| signal_dominated
| background_dominated
| near_side
| away_side.

Definition CorrelationType_eqb (a b : CorrelationType) : bool :=
  match a, b with
  | signal_dominated, signal_dominated
  | background_dominated, background_dominated
  | near_side, near_side
  | away_side, away_side => true
  | _, _ => false
  end.

Definition is_all (epAngle : ReactionPlaneOrientation) : bool :=
  match epAngle with all => true | _ => false end.

Definition ReactionPlaneOrientation_str (epAngle : ReactionPlaneOrientation) : string :=
  match epAngle with
  | all => "all"
  | in_plane => "in_plane"
  | mid_plane => "mid_plane"
  | out_of_plane => "out_of_plane"
  end.

Definition CorrelationType_str (t : CorrelationType) : string :=
  match t with
  | signal_dominated => "signal_dominated"
  | background_dominated => "background_dominated"
  | near_side => "near_side"
  | away_side => "away_side"
  end.

(** The entries of [fitConfig] that decide which fits are defined. *)
Record FitConfig : Type := {
  includeSignalInFit : bool;
  allAnglesSignal : bool;
  allAnglesBackground : bool;
  (** jet pt bin -> track pt bins fitted with a log likelihood *)
  logLikelihoodTrackPtBins : gmap nat (list nat);
}.

(** [observable.hist]: the bin centers, the values and their errors. *)
Record HistArray : Set := {
  hist_x : list Q;
  hist_array : list Q;
  hist_errors : list Q;
}.

Record Observable : Set := {
  correlationType : CorrelationType;
  jetPtBin : nat;
  trackPtBin : nat;
  hist : HistArray;
}.

(** The fit function [GetFitFunction] selects, named by its constructor
    ([GetSignalDominatedFitFunction] or [GetBackgroundDominatedFitFunction])
    and the orientation it was built for. *)
Inductive FitFunction : Set :=
| SignalDominatedFitFunction (epAngle : ReactionPlaneOrientation)
| BackgroundDominatedFitFunction (epAngle : ReactionPlaneOrientation).

(** The [probfit] cost functions with the data handed to them. *)
Inductive CostFunction : Set :=
| UnbinnedLH (f : FitFunction) (data : list Q)
| Chi2Regression (f : FitFunction) (x y error : list Q).

(** [JetHEPFit.GetFitFunction]: [fitFunctionMap] only has the signal and the
    background dominated types. *)
Definition GetFitFunction (fitType : CorrelationType) (epAngle : ReactionPlaneOrientation)
  : result FitFunction :=
  match fitType with
  | signal_dominated => Ok (SignalDominatedFitFunction epAngle)
  | background_dominated => Ok (BackgroundDominatedFitFunction epAngle)
  | other => Raise (KeyError (CorrelationType_str other))
  end.

(** [JetHEPFit.CheckIfFitIsEnabled]. *)
Definition CheckIfFitIsEnabled (cfg : FitConfig) (epAngle : ReactionPlaneOrientation)
    (correlationType : CorrelationType) : bool :=
  let retVal := true in
  if CorrelationType_eqb correlationType signal_dominated then
    let retVal := if negb (includeSignalInFit cfg) then false else retVal in
    let retVal := if negb (is_all epAngle) && allAnglesSignal cfg then false else retVal in
    retVal
  else
    let retVal := if is_all epAngle && negb (allAnglesBackground cfg) then false else retVal in
    let retVal := if negb (is_all epAngle) && allAnglesBackground cfg then false else retVal in
    retVal.

(** The body of the loop of [DefineFits] for an enabled observable: retrieve
    the data, restrict the background dominated data to the near side, and
    define the cost function. *)
Definition define_cost_function (cfg : FitConfig) (epAngle : ReactionPlaneOrientation)
    (observable : Observable) : result CostFunction :=
  let x := hist_x (hist observable) in
  let y := hist_array (hist observable) in
  let errors := hist_errors (hist observable) in
  try fitFunc <- GetFitFunction (correlationType observable) epAngle ;
  let '(x, y, errors) :=
    if CorrelationType_eqb (correlationType observable) background_dominated then
      let NSrange := (List.length x / 2)%nat in
      (List.firstn NSrange x, List.firstn NSrange y, List.firstn NSrange errors)
    else (x, y, errors) in
  if List.existsb (Nat.eqb (trackPtBin observable))
       (default [] (logLikelihoodTrackPtBins cfg !! jetPtBin observable))
  then Ok (UnbinnedLH fitFunc x)
  else Ok (Chi2Regression fitFunc x y errors).

(** [self.fits]: (jet pt bin, track pt bin) -> (orientation, type) -> cost. *)
Definition Fits : Type := gmap (nat * nat) (gmap (string * string) CostFunction).

(** One analysis object: its orientation and its observables, the signal
    dominated ones ([dPhiArray]) followed by the background dominated ones
    ([dPhiSideBandArray]). *)
Record JetHAnalysis : Set := {
  reaction_plane_orientation : ReactionPlaneOrientation;
  dPhiArray : list Observable;
  dPhiSideBandArray : list Observable;
}.

Definition define_fit (cfg : FitConfig) (epAngle : ReactionPlaneOrientation)
    (fits : Fits) (observable : Observable) : result Fits :=
  if negb (CheckIfFitIsEnabled cfg epAngle (correlationType observable)) then Ok fits
  else
    let key := (jetPtBin observable, trackPtBin observable) in
    let fits := match fits !! key with
                | None => <[key := ∅]> fits
                | Some _ => fits
                end in
    try costFunction <- define_cost_function cfg epAngle observable ;
    Ok (<[key := <[(ReactionPlaneOrientation_str epAngle,
                    CorrelationType_str (correlationType observable)) := costFunction]>
                   (default ∅ (fits !! key))]> fits).

Fixpoint foldM {A B : Type} (f : B -> A -> result B) (l : list A) (b : B) : result B :=
  match l with
  | [] => Ok b
  | a :: rest => try b' <- f b a ; foldM f rest b'
  end.

(** [JetHEPFit.DefineFits]. *)
Definition DefineFits (cfg : FitConfig) (analyses : list JetHAnalysis) (fits : Fits)
  : result Fits :=
  foldM (fun fits jetH =>
           foldM (define_fit cfg (reaction_plane_orientation jetH))
                 (dPhiArray jetH ++ dPhiSideBandArray jetH) fits)
        analyses fits.

(** The data a cost function was given. *)
Definition cost_x (c : CostFunction) : list Q :=
  match c with UnbinnedLH _ data => data | Chi2Regression _ x _ _ => x end.

Definition cost_y_errors (c : CostFunction) : option (list Q * list Q) :=
  match c with UnbinnedLH _ _ => None | Chi2Regression _ _ y error => Some (y, error) end.

(** ** Propagation of the fit errors *)

(** A value of [minuit.fitarg]: a number, a pair of limits or a flag. *)
Inductive FitArg : Set :=
| ArgFloat (value : Q)
| ArgLimit (lower upper : Q)
| ArgBool (flag : bool).

(** [value == True]. *)
Definition equals_True (v : FitArg) : bool :=
  match v with
  | ArgBool b => b
  | ArgFloat q => Qeq_bool q 1
  | ArgLimit _ _ => false
  end.

(** [analysis_objects.FitContainer]. *)
Record FitContainer : Type := {
  values : gmap string Q;
  params : Dict.t FitArg;
  covarianceMatrix : gmap (string * string) Q;
}.

(** [lst.index(value)] on the list of argument values: the first position
    whose value compares equal. *)
Definition value_eqb (a b : option Q) : bool :=
  match a, b with
  | None, None => true
  | Some p, Some q => Qeq_bool p q
  | _, _ => false
  end.

Fixpoint index_of_value (l : list (option Q)) (v : option Q) : option nat :=
  match l with
  | [] => None
  | a :: rest => if value_eqb a v then Some 0%nat else option_map S (index_of_value rest v)
  end.

(** [JetHEPFit.GetArgsForFunc(func, xValue, fitContainer)], with
    [describe = probfit.describe(func)]. *)
Definition GetArgsForFunc (describe : list string) (xValue : option Q)
    (fitContainer : FitContainer) : result (Dict.t (option Q)) :=
  match PyList.index describe "x" with
  | None => Raise (ValueError "'x' is not in list")
  | Some ix =>
      let funcDescription := PyList.pop describe ix in
      foldM (fun argsForFuncCall name =>
               match values fitContainer !! name with
               | None => Raise (KeyError name)
               | Some v => Ok (Dict.set argsForFuncCall name (Some v))
               end)
            funcDescription [("x", xValue)]
  end.

(** The parameters that enter the error: the arguments of the function
    without ["x"] and without the parameters that the fit kept fixed. *)
Definition free_parameters (describe : list string) (fitContainer : FitContainer)
  : result (list string) :=
  match PyList.index describe "x" with
  | None => Raise (ValueError "'x' is not in list")
  | Some ix =>
      let funcArgs := PyList.pop describe ix in
      Ok (List.fold_left
            (fun funcArgs '(param, v) =>
               if PyStr.contains "fix_" param && equals_True v then
                 let funcArgParamName := PyStr.replace "fix_" EmptyString param in
                 match PyList.index funcArgs funcArgParamName with
                 | Some i => PyList.pop funcArgs i
                 | None => funcArgs
                 end
               else funcArgs)
            (params fitContainer) funcArgs)
  end.

(** The position [CalculateRPFError] finds for the argument named [name]:
    the first position whose value equals the value of [name]. *)
Definition index_used (argsForFuncCall : Dict.t (option Q)) (name : string) : option nat :=
  match Dict.get argsForFuncCall name with
  | Ok v => index_of_value (Dict.values argsForFuncCall) v
  | Raise _ => None
  end.

Section Gradient.

(** [nd.Gradient(funcWrap)]: the numerical gradient of the fit function with
    respect to all of its arguments, evaluated at a list of argument values. *)
Variable partialDerivatives : list (option Q) -> list Q.

(** One term [errorVal += ...] of the double loop. *)
Definition error_term (fitContainer : FitContainer) (argsForFuncCall : Dict.t (option Q))
    (partialDerivative : list Q) (iName jName : string) (errorVal : Q) : result Q :=
  let listOfArgsForFuncCall := Dict.values argsForFuncCall in
  try iValue <- Dict.get argsForFuncCall iName ;
  try jValue <- Dict.get argsForFuncCall jName ;
  match index_of_value listOfArgsForFuncCall iValue,
        index_of_value listOfArgsForFuncCall jValue with
  | Some iNameIndex, Some jNameIndex =>
      match List.nth_error partialDerivative iNameIndex,
            List.nth_error partialDerivative jNameIndex,
            covarianceMatrix fitContainer !! (iName, jName) with
      | Some di, Some dj, Some cov => Ok (errorVal + di * dj * cov)
      | Some _, Some _, None => Raise (KeyError (String.append iName (String.append "," jName)))
      | _, _, _ => Raise (ValueError "index out of bounds")
      end
  | _, _ => Raise (ValueError "value is not in list")
  end.

(** The error squared at one bin center (the value before [np.sqrt]). *)
Definition error_squared_at (fitContainer : FitContainer) (funcArgs : list string)
    (argsForFuncCall : Dict.t (option Q)) (val : Q) : result Q :=
  let argsForFuncCall := Dict.set argsForFuncCall "x" (Some val) in
  let partialDerivative := partialDerivatives (Dict.values argsForFuncCall) in
  foldM (fun errorVal iName =>
           foldM (fun errorVal jName =>
                    error_term fitContainer argsForFuncCall partialDerivative
                               iName jName errorVal)
                 funcArgs errorVal)
        funcArgs 0.

(** [JetHEPFit.CalculateRPFError], up to the final [np.sqrt]: the squared
    error at every bin center. *)
Definition CalculateRPFError_squared (describe : list string) (binCenters : list Q)
    (fitContainer : FitContainer) : result (list Q) :=
  try argsForFuncCall <- GetArgsForFunc describe None fitContainer ;
  try funcArgs <- free_parameters describe fitContainer ;
  foldM (fun errorVals val =>
           try errorVal <- error_squared_at fitContainer funcArgs argsForFuncCall val ;
           Ok (errorVals ++ [errorVal]))
        binCenters [].

(** [JetHEPFit.CalculateRPFError]: the square root of the sum at every bin
    center.  (Of a negative sum [np.sqrt] makes [nan]; [sqrt] makes 0.) *)
Definition CalculateRPFError (describe : list string) (binCenters : list Q)
    (fitContainer : FitContainer) : result (list R) :=
  try errorVals <- CalculateRPFError_squared describe binCenters fitContainer ;
  Ok (List.map (fun errorVal => sqrt (Q2R errorVal)) errorVals).

End Gradient.

(** ** The propagated error according to the specification

    [error^2 = sum_i sum_j (df/dtheta_i) (df/dtheta_j) Cov(theta_i, theta_j)]
    over the free parameters, where [df/dtheta_i] is the entry of the
    gradient at the position of the argument named [theta_i]. *)
Definition derivative_for (argument_names : list string) (gradient : list Q)
    (name : string) : Q :=
  match PyList.index argument_names name with
  | Some i => List.nth i gradient 0
  | None => 0
  end.

Definition propagated_error_squared (argument_names free : list string)
    (gradient : list Q) (cov : string -> string -> Q) : Q :=
  sum_list
    (List.map (fun i =>
       sum_list
         (List.map (fun j =>
            derivative_for argument_names gradient i
            * derivative_for argument_names gradient j * cov i j) free))
       free).

End JetHEPFit.

(* --------------------------------------------------------------------- *)
(** ** Propagation of the fit errors ([JetHEPFit.CalculateRPFError]) *)
(* --------------------------------------------------------------------- *)

Module RPFErrorExample.

Import JetHEPFit.
Local Open Scope Q_scope.

(** [probfit.describe(Fourier)]. *)
Definition fourier_args : list string :=
  ["x"; "BG"; "v2_t"; "v2_a"; "v4_t"; "v4_a"; "v1"; "v3"].

(** The parameters left free by the default [minuit] arguments ([v1] is fixed). *)
Definition free_names : list string := ["BG"; "v2_t"; "v2_a"; "v4_t"; "v4_a"; "v3"].

(** A fit result in which [v2_t] and [v4_t] both sit at their lower limit 0. *)
Definition example_values : gmap string Q :=
  list_to_map [("BG", 1); ("v2_t", 0); ("v2_a", 1 # 10); ("v4_t", 0);
               ("v4_a", 1 # 5); ("v1", 0); ("v3", 1 # 20)].

Definition example_params : Dict.t FitArg :=
  [("v2_t", ArgFloat 0); ("limit_v2_t", ArgLimit 0 (1 # 2)); ("error_v2_t", ArgFloat (1 # 1000));
   ("v2_a", ArgFloat (1 # 10)); ("limit_v2_a", ArgLimit 0 (1 # 2)); ("error_v2_a", ArgFloat (1 # 1000));
   ("v4_t", ArgFloat 0); ("limit_v4_t", ArgLimit 0 (1 # 2)); ("error_v4_t", ArgFloat (1 # 1000));
   ("v4_a", ArgFloat (1 # 5)); ("limit_v4_a", ArgLimit 0 (1 # 2)); ("error_v4_a", ArgFloat (1 # 1000));
   ("v3", ArgFloat (1 # 20)); ("limit_v3", ArgLimit (- (1 # 10)) (1 # 2)); ("error_v3", ArgFloat (1 # 1000));
   ("v1", ArgFloat 0); ("fix_v1", ArgBool true)].

(** A covariance matrix whose only non-zero entry is the variance of [v4_t]. *)
Definition example_covariance : gmap (string * string) Q :=
  list_to_map
    (List.flat_map
       (fun i => List.map
          (fun j => ((i, j), if String.eqb i "v4_t" && String.eqb j "v4_t" then 1 else 0))
          free_names)
       free_names).

Definition example_fit : FitContainer :=
  {| values := example_values;
     params := example_params;
     covarianceMatrix := example_covariance |}.

End RPFErrorExample.

(* ===================================================================== *)
(** * Methods that mutate their object and may raise *)
(* ===================================================================== *)

(** A method is a function of the state that returns or raises and leaves
    the state as it was when it returned or raised. *)
Module Py.

Definition M (S A : Type) : Type := S -> result A * S.

Definition ret {S A : Type} (a : A) : M S A := fun s => (Ok a, s).

Definition raise {S A : Type} (e : exn) : M S A := fun s => (Raise e, s).

Definition bindM {S A B : Type} (m : M S A) (k : A -> M S B) : M S B :=
  fun s =>
    match m s with
    | (Ok a, s') => k a s'
    | (Raise e, s') => (Raise e, s')
    end.

Definition get {S : Type} : M S S := fun s => (Ok s, s).

Definition modify {S : Type} (f : S -> S) : M S unit := fun s => (Ok tt, f s).

Definition lift {S A : Type} (r : result A) : M S A := fun s => (r, s).

(** [for a in l: body(a)]. *)
Fixpoint for_each {S A : Type} (l : list A) (body : A -> M S unit) : M S unit :=
  match l with
  | [] => ret tt
  | a :: rest => bindM (body a) (fun _ => for_each rest body)
  end.

(** [post m s Q]: running [m] from [s] ends, returning or raising, in a
    result and a state that satisfy [Q]. *)
Definition post {S A : Type} (m : M S A) (s : S) (Q : result A -> S -> Prop) : Prop :=
  Q (fst (m s)) (snd (m s)).

End Py.

Notation "'do' x <- m ; k" := (Py.bindM m (fun x => k))
  (at level 10, x name, m at level 100, k at level 200).
Notation "'do' ' p <- m ; k" := (Py.bindM m (fun p => k))
  (at level 10, p pattern, m at level 100, k at level 200).
Notation "'run' m ; k" := (Py.bindM m (fun _ => k))
  (at level 10, m at level 100, k at level 200).

(* ===================================================================== *)
(** * [correlations.py]: the analysis object of one bin *)
(* ===================================================================== *)

(** [pachyderm.histogram.Histogram1D]: bin edges, values and squared errors.
    The one dimensional correlations are kept in this form. *)
Module Histogram.

Local Open Scope Q_scope.

Record Histogram1D : Type := {
  bin_edges : list Q;
  y : list Q;
  errors_squared : list Q;
}.

(** [h.x]: the bin centers, one per pair of neighbouring edges. *)
Fixpoint bin_centers (edges : list Q) : list Q :=
  match edges with
  | low :: ((up :: _) as rest) => ((low + up) / 2) :: bin_centers rest
  | _ => []
  end.

Definition x (h : Histogram1D) : list Q := bin_centers (bin_edges h).

(** [value * np.ones(n)]. *)
Definition constant_array (value : Q) (n : nat) : list Q :=
  List.map (fun one => value * one) (List.repeat 1 n).

(** Element-wise operation of two arrays of the same shape. *)
Fixpoint zip_with (f : Q -> Q -> Q) (a b : list Q) : list Q :=
  match a, b with
  | p :: a', q :: b' => f p q :: zip_with f a' b'
  | _, _ => []
  end.

Fixpoint all_equal (a b : list Q) : bool :=
  match a, b with
  | [], [] => true
  | p :: a', q :: b' => Qeq_bool p q && all_equal a' b'
  | _, _ => false
  end.

(** [self - other]: the bin edges must agree ([np.allclose], here without
    its tolerance), the values are subtracted and the squared errors are
    added.  Arrays of different lengths cannot be combined. *)
Definition sub (self other : Histogram1D) : result Histogram1D :=
  if negb (all_equal (bin_edges self) (bin_edges other)) then
    Raise (TypeError "Binning is different for given histograms.")
  else if negb (Nat.eqb (List.length (y self)) (List.length (y other))
                && Nat.eqb (List.length (errors_squared self))
                           (List.length (errors_squared other))) then
    Raise (ValueError "operands could not be broadcast together")
  else
    Ok {| bin_edges := bin_edges self;
          y := zip_with Qminus (y self) (y other);
          errors_squared := zip_with Qplus (errors_squared self) (errors_squared other) |}.

End Histogram.

Module Correlations.

Import Histogram.
Local Open Scope Q_scope.

(** [params.SelectedRange]. *)
Record SelectedRange : Type := {
  range_min : Q;
  range_max : Q;
}.

(** [params.ReactionPlaneOrientation] as [correlations.py] uses it. *)
Inductive ReactionPlaneOrientation : Set :=
| inclusive
| in_plane
| mid_plane
| out_of_plane.

(** [params.CollisionEnergy] as [correlations.py] uses it. *)
Inductive CollisionEnergy : Set :=
| two_seven_six
| five_zero_two.

(** [params.EventActivity] as [correlations.py] uses it. *)
Module EventActivity.

Inductive t : Set :=
| inclusive
| central
| semi_central.

End EventActivity.

Definition is_inclusive (o : ReactionPlaneOrientation) : bool :=
  match o with inclusive => true | _ => false end.

Definition orientation_str (o : ReactionPlaneOrientation) : string :=
  match o with
  | inclusive => "inclusive"
  | in_plane => "in_plane"
  | mid_plane => "mid_plane"
  | out_of_plane => "out_of_plane"
  end.

(** A jet or track pt bin: its range and the text its bounds are printed as
    in the identifiers. *)
Record PtBin : Type := {
  pt_min : Q;
  pt_max : Q;
  pt_label : string;
}.

(** [analysis_objects.ExtractedObservable], by the arguments it is
    constructed with. *)
Record ExtractedObservable : Type := {
  value : Q;
  error : Q;
}.

(** [PedestalFitResult]. *)
Record PedestalFitResult : Type := {
  pedestal_value : Q;
  pedestal_error : Q;
}.

(** [DeltaEtaFitObjects]. *)
Record DeltaEtaFitObjects : Type := {
  fit_near_side : PedestalFitResult;
  fit_away_side : PedestalFitResult;
}.

(** [CorrelationYields]. *)
Record CorrelationYields : Type := {
  yield_near_side : ExtractedObservable;
  yield_away_side : ExtractedObservable;
}.

(** A user argument of a fit: a number, a flag or a pair of limits. *)
Inductive UserArgument : Set :=
| Number (q : Q)
| Flag (b : bool)
| Limits (lower upper : Q).

(** [fitting.FitPedestalWithExtendedGaussian], by the arguments it is
    constructed with: the range the fit is restricted to and the arguments
    handed to the minimizer. *)
Record FitPedestalWithExtendedGaussian : Type := {
  fit_range : SelectedRange;
  user_arguments : Dict.t UserArgument;
}.

(** What the minimizer returns for a width fit. *)
Record WidthFitResult : Type := {
  width : Q;
  width_error : Q;
}.

(** [extracted.ExtractedWidth], by the arguments it is constructed with;
    [properties] is the dictionary with the entries ["name"] and
    ["fit_range"]. *)
Record ExtractedWidth : Type := {
  properties_name : string;
  properties_fit_range : SelectedRange;
  fit_obj : FitPedestalWithExtendedGaussian;
  fit_args : Dict.t UserArgument;
  fit_result : option WidthFitResult;
}.

(** [CorrelationWidths]. *)
Record CorrelationWidths : Type := {
  width_near_side : ExtractedWidth;
  width_away_side : ExtractedWidth;
}.

(** [rpf.fit.FitComponent]: the part of the reaction plane fit that belongs
    to one orientation. *)
Record FitComponent : Type := {
  evaluate_background : list Q -> list Q;
  calculate_background_function_errors : list Q -> list Q;
  values_at_minimum : gmap string Q;
  errors_on_parameters : gmap string Q;
}.

(** The entries of [task_config] that the modelled methods read. *)
Record TaskConfig : Type := {
  deltaEtaRanges_signalDominated : Q * Q;
  deltaEtaRanges_backgroundDominated : Q * Q;
  deltaPhiRanges_nearSide : Q * Q;
  deltaPhiRanges_awaySide : Q * Q;
  delta_phi_yield_limit : Q;
  delta_eta_yield_limit : Q;
  processingOptions : gmap string bool;
}.

(** The three stage flags. *)
Record StageFlags : Type := {
  flag_ran_projections : bool;
  flag_ran_fitting : bool;
  flag_ran_post_fit_processing : bool;
}.

(** [CorrelationHistograms2D], with the trigger spectrum and the number of
    triggers. *)
Record Hists2D : Type := {
  raw : option ROOT.TH2;
  mixed_event : option ROOT.TH2;
  signal : option ROOT.TH2;
  number_of_triggers_hist : option Histogram1D;
  number_of_triggers : Q;
}.

(** [CorrelationHistogramsDeltaPhi]. *)
Record HistsDeltaPhi : Type := {
  signal_dominated : option Histogram1D;
  background_dominated : option Histogram1D;
}.

(** [CorrelationHistogramsDeltaEta]. *)
Record HistsDeltaEta : Type := {
  near_side : option Histogram1D;
  away_side : option Histogram1D;
}.

(** The [Correlations] object.  The attributes that never change after
    construction come first. *)
Record Correlations : Type := {
  jet_pt : PtBin;
  track_pt : PtBin;
  reaction_plane_orientation : ReactionPlaneOrientation;
  collision_energy : CollisionEnergy;
  event_activity : EventActivity.t;
  jet_pt_identifier : string;
  track_pt_identifier : string;
  identifier : string;
  output_filename : string;
  output_filename_yaml : string;
  task_config : TaskConfig;
  signal_dominated_eta_region : SelectedRange;
  background_dominated_eta_region : SelectedRange;
  near_side_phi_region : SelectedRange;
  away_side_phi_region : SelectedRange;
  (* mutable state *)
  processing_options : gmap string bool;
  flags : StageFlags;
  correlation_hists_2d : Hists2D;
  correlation_hists_delta_phi : HistsDeltaPhi;
  correlation_hists_delta_eta : HistsDeltaEta;
  correlation_hists_delta_phi_subtracted : HistsDeltaPhi;
  correlation_hists_delta_eta_subtracted : HistsDeltaEta;
  yields_delta_phi : CorrelationYields;
  yields_delta_eta : CorrelationYields;
  widths_delta_phi : CorrelationWidths;
  widths_delta_eta : CorrelationWidths;
  fit_object : option FitComponent;
  fit_objects_delta_eta : DeltaEtaFitObjects;
}.

Definition ran_projections (c : Correlations) : bool := flag_ran_projections (flags c).
Definition ran_fitting (c : Correlations) : bool := flag_ran_fitting (flags c).
Definition ran_post_fit_processing (c : Correlations) : bool :=
  flag_ran_post_fit_processing (flags c).

(** Assignment to one attribute: [self.<attribute> = v]. *)
Definition set_processing_options (v : gmap string bool) (c : Correlations) : Correlations :=
  {| jet_pt := jet_pt c;
     track_pt := track_pt c;
     reaction_plane_orientation := reaction_plane_orientation c;
     collision_energy := collision_energy c;
     event_activity := event_activity c;
     jet_pt_identifier := jet_pt_identifier c;
     track_pt_identifier := track_pt_identifier c;
     identifier := identifier c;
     output_filename := output_filename c;
     output_filename_yaml := output_filename_yaml c;
     task_config := task_config c;
     signal_dominated_eta_region := signal_dominated_eta_region c;
     background_dominated_eta_region := background_dominated_eta_region c;
     near_side_phi_region := near_side_phi_region c;
     away_side_phi_region := away_side_phi_region c;
     processing_options := v;
     flags := flags c;
     correlation_hists_2d := correlation_hists_2d c;
     correlation_hists_delta_phi := correlation_hists_delta_phi c;
     correlation_hists_delta_eta := correlation_hists_delta_eta c;
     correlation_hists_delta_phi_subtracted := correlation_hists_delta_phi_subtracted c;
     correlation_hists_delta_eta_subtracted := correlation_hists_delta_eta_subtracted c;
     yields_delta_phi := yields_delta_phi c;
     yields_delta_eta := yields_delta_eta c;
     widths_delta_phi := widths_delta_phi c;
     widths_delta_eta := widths_delta_eta c;
     fit_object := fit_object c;
     fit_objects_delta_eta := fit_objects_delta_eta c |}.

Definition set_flags (v : StageFlags) (c : Correlations) : Correlations :=
  {| jet_pt := jet_pt c;
     track_pt := track_pt c;
     reaction_plane_orientation := reaction_plane_orientation c;
     collision_energy := collision_energy c;
     event_activity := event_activity c;
     jet_pt_identifier := jet_pt_identifier c;
     track_pt_identifier := track_pt_identifier c;
     identifier := identifier c;
     output_filename := output_filename c;
     output_filename_yaml := output_filename_yaml c;
     task_config := task_config c;
     signal_dominated_eta_region := signal_dominated_eta_region c;
     background_dominated_eta_region := background_dominated_eta_region c;
     near_side_phi_region := near_side_phi_region c;
     away_side_phi_region := away_side_phi_region c;
     processing_options := processing_options c;
     flags := v;
     correlation_hists_2d := correlation_hists_2d c;
     correlation_hists_delta_phi := correlation_hists_delta_phi c;
     correlation_hists_delta_eta := correlation_hists_delta_eta c;
     correlation_hists_delta_phi_subtracted := correlation_hists_delta_phi_subtracted c;
     correlation_hists_delta_eta_subtracted := correlation_hists_delta_eta_subtracted c;
     yields_delta_phi := yields_delta_phi c;
     yields_delta_eta := yields_delta_eta c;
     widths_delta_phi := widths_delta_phi c;
     widths_delta_eta := widths_delta_eta c;
     fit_object := fit_object c;
     fit_objects_delta_eta := fit_objects_delta_eta c |}.

Definition set_correlation_hists_2d (v : Hists2D) (c : Correlations) : Correlations :=
  {| jet_pt := jet_pt c;
     track_pt := track_pt c;
     reaction_plane_orientation := reaction_plane_orientation c;
     collision_energy := collision_energy c;
     event_activity := event_activity c;
     jet_pt_identifier := jet_pt_identifier c;
     track_pt_identifier := track_pt_identifier c;
     identifier := identifier c;
     output_filename := output_filename c;
     output_filename_yaml := output_filename_yaml c;
     task_config := task_config c;
     signal_dominated_eta_region := signal_dominated_eta_region c;
     background_dominated_eta_region := background_dominated_eta_region c;
     near_side_phi_region := near_side_phi_region c;
     away_side_phi_region := away_side_phi_region c;
     processing_options := processing_options c;
     flags := flags c;
     correlation_hists_2d := v;
     correlation_hists_delta_phi := correlation_hists_delta_phi c;
     correlation_hists_delta_eta := correlation_hists_delta_eta c;
     correlation_hists_delta_phi_subtracted := correlation_hists_delta_phi_subtracted c;
     correlation_hists_delta_eta_subtracted := correlation_hists_delta_eta_subtracted c;
     yields_delta_phi := yields_delta_phi c;
     yields_delta_eta := yields_delta_eta c;
     widths_delta_phi := widths_delta_phi c;
     widths_delta_eta := widths_delta_eta c;
     fit_object := fit_object c;
     fit_objects_delta_eta := fit_objects_delta_eta c |}.

Definition set_correlation_hists_delta_phi (v : HistsDeltaPhi) (c : Correlations) : Correlations :=
  {| jet_pt := jet_pt c;
     track_pt := track_pt c;
     reaction_plane_orientation := reaction_plane_orientation c;
     collision_energy := collision_energy c;
     event_activity := event_activity c;
     jet_pt_identifier := jet_pt_identifier c;
     track_pt_identifier := track_pt_identifier c;
     identifier := identifier c;
     output_filename := output_filename c;
     output_filename_yaml := output_filename_yaml c;
     task_config := task_config c;
     signal_dominated_eta_region := signal_dominated_eta_region c;
     background_dominated_eta_region := background_dominated_eta_region c;
     near_side_phi_region := near_side_phi_region c;
     away_side_phi_region := away_side_phi_region c;
     processing_options := processing_options c;
     flags := flags c;
     correlation_hists_2d := correlation_hists_2d c;
     correlation_hists_delta_phi := v;
     correlation_hists_delta_eta := correlation_hists_delta_eta c;
     correlation_hists_delta_phi_subtracted := correlation_hists_delta_phi_subtracted c;
     correlation_hists_delta_eta_subtracted := correlation_hists_delta_eta_subtracted c;
     yields_delta_phi := yields_delta_phi c;
     yields_delta_eta := yields_delta_eta c;
     widths_delta_phi := widths_delta_phi c;
     widths_delta_eta := widths_delta_eta c;
     fit_object := fit_object c;
     fit_objects_delta_eta := fit_objects_delta_eta c |}.

Definition set_correlation_hists_delta_eta (v : HistsDeltaEta) (c : Correlations) : Correlations :=
  {| jet_pt := jet_pt c;
     track_pt := track_pt c;
     reaction_plane_orientation := reaction_plane_orientation c;
     collision_energy := collision_energy c;
     event_activity := event_activity c;
     jet_pt_identifier := jet_pt_identifier c;
     track_pt_identifier := track_pt_identifier c;
     identifier := identifier c;
     output_filename := output_filename c;
     output_filename_yaml := output_filename_yaml c;
     task_config := task_config c;
     signal_dominated_eta_region := signal_dominated_eta_region c;
     background_dominated_eta_region := background_dominated_eta_region c;
     near_side_phi_region := near_side_phi_region c;
     away_side_phi_region := away_side_phi_region c;
     processing_options := processing_options c;
     flags := flags c;
     correlation_hists_2d := correlation_hists_2d c;
     correlation_hists_delta_phi := correlation_hists_delta_phi c;
     correlation_hists_delta_eta := v;
     correlation_hists_delta_phi_subtracted := correlation_hists_delta_phi_subtracted c;
     correlation_hists_delta_eta_subtracted := correlation_hists_delta_eta_subtracted c;
     yields_delta_phi := yields_delta_phi c;
     yields_delta_eta := yields_delta_eta c;
     widths_delta_phi := widths_delta_phi c;
     widths_delta_eta := widths_delta_eta c;
     fit_object := fit_object c;
     fit_objects_delta_eta := fit_objects_delta_eta c |}.

Definition set_correlation_hists_delta_phi_subtracted (v : HistsDeltaPhi) (c : Correlations) : Correlations :=
  {| jet_pt := jet_pt c;
     track_pt := track_pt c;
     reaction_plane_orientation := reaction_plane_orientation c;
     collision_energy := collision_energy c;
     event_activity := event_activity c;
     jet_pt_identifier := jet_pt_identifier c;
     track_pt_identifier := track_pt_identifier c;
     identifier := identifier c;
     output_filename := output_filename c;
     output_filename_yaml := output_filename_yaml c;
     task_config := task_config c;
     signal_dominated_eta_region := signal_dominated_eta_region c;
     background_dominated_eta_region := background_dominated_eta_region c;
     near_side_phi_region := near_side_phi_region c;
     away_side_phi_region := away_side_phi_region c;
     processing_options := processing_options c;
     flags := flags c;
     correlation_hists_2d := correlation_hists_2d c;
     correlation_hists_delta_phi := correlation_hists_delta_phi c;
     correlation_hists_delta_eta := correlation_hists_delta_eta c;
     correlation_hists_delta_phi_subtracted := v;
     correlation_hists_delta_eta_subtracted := correlation_hists_delta_eta_subtracted c;
     yields_delta_phi := yields_delta_phi c;
     yields_delta_eta := yields_delta_eta c;
     widths_delta_phi := widths_delta_phi c;
     widths_delta_eta := widths_delta_eta c;
     fit_object := fit_object c;
     fit_objects_delta_eta := fit_objects_delta_eta c |}.

Definition set_correlation_hists_delta_eta_subtracted (v : HistsDeltaEta) (c : Correlations) : Correlations :=
  {| jet_pt := jet_pt c;
     track_pt := track_pt c;
     reaction_plane_orientation := reaction_plane_orientation c;
     collision_energy := collision_energy c;
     event_activity := event_activity c;
     jet_pt_identifier := jet_pt_identifier c;
     track_pt_identifier := track_pt_identifier c;
     identifier := identifier c;
     output_filename := output_filename c;
     output_filename_yaml := output_filename_yaml c;
     task_config := task_config c;
     signal_dominated_eta_region := signal_dominated_eta_region c;
     background_dominated_eta_region := background_dominated_eta_region c;
     near_side_phi_region := near_side_phi_region c;
     away_side_phi_region := away_side_phi_region c;
     processing_options := processing_options c;
     flags := flags c;
     correlation_hists_2d := correlation_hists_2d c;
     correlation_hists_delta_phi := correlation_hists_delta_phi c;
     correlation_hists_delta_eta := correlation_hists_delta_eta c;
     correlation_hists_delta_phi_subtracted := correlation_hists_delta_phi_subtracted c;
     correlation_hists_delta_eta_subtracted := v;
     yields_delta_phi := yields_delta_phi c;
     yields_delta_eta := yields_delta_eta c;
     widths_delta_phi := widths_delta_phi c;
     widths_delta_eta := widths_delta_eta c;
     fit_object := fit_object c;
     fit_objects_delta_eta := fit_objects_delta_eta c |}.

Definition set_yields_delta_phi (v : CorrelationYields) (c : Correlations) : Correlations :=
  {| jet_pt := jet_pt c;
     track_pt := track_pt c;
     reaction_plane_orientation := reaction_plane_orientation c;
     collision_energy := collision_energy c;
     event_activity := event_activity c;
     jet_pt_identifier := jet_pt_identifier c;
     track_pt_identifier := track_pt_identifier c;
     identifier := identifier c;
     output_filename := output_filename c;
     output_filename_yaml := output_filename_yaml c;
     task_config := task_config c;
     signal_dominated_eta_region := signal_dominated_eta_region c;
     background_dominated_eta_region := background_dominated_eta_region c;
     near_side_phi_region := near_side_phi_region c;
     away_side_phi_region := away_side_phi_region c;
     processing_options := processing_options c;
     flags := flags c;
     correlation_hists_2d := correlation_hists_2d c;
     correlation_hists_delta_phi := correlation_hists_delta_phi c;
     correlation_hists_delta_eta := correlation_hists_delta_eta c;
     correlation_hists_delta_phi_subtracted := correlation_hists_delta_phi_subtracted c;
     correlation_hists_delta_eta_subtracted := correlation_hists_delta_eta_subtracted c;
     yields_delta_phi := v;
     yields_delta_eta := yields_delta_eta c;
     widths_delta_phi := widths_delta_phi c;
     widths_delta_eta := widths_delta_eta c;
     fit_object := fit_object c;
     fit_objects_delta_eta := fit_objects_delta_eta c |}.

Definition set_yields_delta_eta (v : CorrelationYields) (c : Correlations) : Correlations :=
  {| jet_pt := jet_pt c;
     track_pt := track_pt c;
     reaction_plane_orientation := reaction_plane_orientation c;
     collision_energy := collision_energy c;
     event_activity := event_activity c;
     jet_pt_identifier := jet_pt_identifier c;
     track_pt_identifier := track_pt_identifier c;
     identifier := identifier c;
     output_filename := output_filename c;
     output_filename_yaml := output_filename_yaml c;
     task_config := task_config c;
     signal_dominated_eta_region := signal_dominated_eta_region c;
     background_dominated_eta_region := background_dominated_eta_region c;
     near_side_phi_region := near_side_phi_region c;
     away_side_phi_region := away_side_phi_region c;
     processing_options := processing_options c;
     flags := flags c;
     correlation_hists_2d := correlation_hists_2d c;
     correlation_hists_delta_phi := correlation_hists_delta_phi c;
     correlation_hists_delta_eta := correlation_hists_delta_eta c;
     correlation_hists_delta_phi_subtracted := correlation_hists_delta_phi_subtracted c;
     correlation_hists_delta_eta_subtracted := correlation_hists_delta_eta_subtracted c;
     yields_delta_phi := yields_delta_phi c;
     yields_delta_eta := v;
     widths_delta_phi := widths_delta_phi c;
     widths_delta_eta := widths_delta_eta c;
     fit_object := fit_object c;
     fit_objects_delta_eta := fit_objects_delta_eta c |}.

Definition set_widths_delta_phi (v : CorrelationWidths) (c : Correlations) : Correlations :=
  {| jet_pt := jet_pt c;
     track_pt := track_pt c;
     reaction_plane_orientation := reaction_plane_orientation c;
     collision_energy := collision_energy c;
     event_activity := event_activity c;
     jet_pt_identifier := jet_pt_identifier c;
     track_pt_identifier := track_pt_identifier c;
     identifier := identifier c;
     output_filename := output_filename c;
     output_filename_yaml := output_filename_yaml c;
     task_config := task_config c;
     signal_dominated_eta_region := signal_dominated_eta_region c;
     background_dominated_eta_region := background_dominated_eta_region c;
     near_side_phi_region := near_side_phi_region c;
     away_side_phi_region := away_side_phi_region c;
     processing_options := processing_options c;
     flags := flags c;
     correlation_hists_2d := correlation_hists_2d c;
     correlation_hists_delta_phi := correlation_hists_delta_phi c;
     correlation_hists_delta_eta := correlation_hists_delta_eta c;
     correlation_hists_delta_phi_subtracted := correlation_hists_delta_phi_subtracted c;
     correlation_hists_delta_eta_subtracted := correlation_hists_delta_eta_subtracted c;
     yields_delta_phi := yields_delta_phi c;
     yields_delta_eta := yields_delta_eta c;
     widths_delta_phi := v;
     widths_delta_eta := widths_delta_eta c;
     fit_object := fit_object c;
     fit_objects_delta_eta := fit_objects_delta_eta c |}.

Definition set_widths_delta_eta (v : CorrelationWidths) (c : Correlations) : Correlations :=
  {| jet_pt := jet_pt c;
     track_pt := track_pt c;
     reaction_plane_orientation := reaction_plane_orientation c;
     collision_energy := collision_energy c;
     event_activity := event_activity c;
     jet_pt_identifier := jet_pt_identifier c;
     track_pt_identifier := track_pt_identifier c;
     identifier := identifier c;
     output_filename := output_filename c;
     output_filename_yaml := output_filename_yaml c;
     task_config := task_config c;
     signal_dominated_eta_region := signal_dominated_eta_region c;
     background_dominated_eta_region := background_dominated_eta_region c;
     near_side_phi_region := near_side_phi_region c;
     away_side_phi_region := away_side_phi_region c;
     processing_options := processing_options c;
     flags := flags c;
     correlation_hists_2d := correlation_hists_2d c;
     correlation_hists_delta_phi := correlation_hists_delta_phi c;
     correlation_hists_delta_eta := correlation_hists_delta_eta c;
     correlation_hists_delta_phi_subtracted := correlation_hists_delta_phi_subtracted c;
     correlation_hists_delta_eta_subtracted := correlation_hists_delta_eta_subtracted c;
     yields_delta_phi := yields_delta_phi c;
     yields_delta_eta := yields_delta_eta c;
     widths_delta_phi := widths_delta_phi c;
     widths_delta_eta := v;
     fit_object := fit_object c;
     fit_objects_delta_eta := fit_objects_delta_eta c |}.

Definition set_fit_object (v : option FitComponent) (c : Correlations) : Correlations :=
  {| jet_pt := jet_pt c;
     track_pt := track_pt c;
     reaction_plane_orientation := reaction_plane_orientation c;
     collision_energy := collision_energy c;
     event_activity := event_activity c;
     jet_pt_identifier := jet_pt_identifier c;
     track_pt_identifier := track_pt_identifier c;
     identifier := identifier c;
     output_filename := output_filename c;
     output_filename_yaml := output_filename_yaml c;
     task_config := task_config c;
     signal_dominated_eta_region := signal_dominated_eta_region c;
     background_dominated_eta_region := background_dominated_eta_region c;
     near_side_phi_region := near_side_phi_region c;
     away_side_phi_region := away_side_phi_region c;
     processing_options := processing_options c;
     flags := flags c;
     correlation_hists_2d := correlation_hists_2d c;
     correlation_hists_delta_phi := correlation_hists_delta_phi c;
     correlation_hists_delta_eta := correlation_hists_delta_eta c;
     correlation_hists_delta_phi_subtracted := correlation_hists_delta_phi_subtracted c;
     correlation_hists_delta_eta_subtracted := correlation_hists_delta_eta_subtracted c;
     yields_delta_phi := yields_delta_phi c;
     yields_delta_eta := yields_delta_eta c;
     widths_delta_phi := widths_delta_phi c;
     widths_delta_eta := widths_delta_eta c;
     fit_object := v;
     fit_objects_delta_eta := fit_objects_delta_eta c |}.

Definition set_fit_objects_delta_eta (v : DeltaEtaFitObjects) (c : Correlations) : Correlations :=
  {| jet_pt := jet_pt c;
     track_pt := track_pt c;
     reaction_plane_orientation := reaction_plane_orientation c;
     collision_energy := collision_energy c;
     event_activity := event_activity c;
     jet_pt_identifier := jet_pt_identifier c;
     track_pt_identifier := track_pt_identifier c;
     identifier := identifier c;
     output_filename := output_filename c;
     output_filename_yaml := output_filename_yaml c;
     task_config := task_config c;
     signal_dominated_eta_region := signal_dominated_eta_region c;
     background_dominated_eta_region := background_dominated_eta_region c;
     near_side_phi_region := near_side_phi_region c;
     away_side_phi_region := away_side_phi_region c;
     processing_options := processing_options c;
     flags := flags c;
     correlation_hists_2d := correlation_hists_2d c;
     correlation_hists_delta_phi := correlation_hists_delta_phi c;
     correlation_hists_delta_eta := correlation_hists_delta_eta c;
     correlation_hists_delta_phi_subtracted := correlation_hists_delta_phi_subtracted c;
     correlation_hists_delta_eta_subtracted := correlation_hists_delta_eta_subtracted c;
     yields_delta_phi := yields_delta_phi c;
     yields_delta_eta := yields_delta_eta c;
     widths_delta_phi := widths_delta_phi c;
     widths_delta_eta := widths_delta_eta c;
     fit_object := fit_object c;
     fit_objects_delta_eta := v |}.

(** ** Construction *)

Definition np_pi_times (values : Q * Q) : Q * Q :=
  (np_pi * fst values, np_pi * snd values).

Definition shifted_to_away_side (values : Q * Q) : Q * Q :=
  (np_pi + np_pi * fst values, np_pi + np_pi * snd values).

Definition selected_range (values : Q * Q) : SelectedRange :=
  {| range_min := fst values; range_max := snd values |}.

(** [Correlations.__init__].  The reaction plane orientation, the collision
    energy, the event activity, the flag of the jets, the output file name
    and the task configuration are attributes that the base class sets
    from its arguments. *)
Definition init (jet_pt_bin track_pt_bin : PtBin)
    (orientation : ReactionPlaneOrientation) (energy : CollisionEnergy)
    (activity : EventActivity.t) (constituent_cut_biased_jets : bool)
    (configured_output_filename : string) (config : TaskConfig) : Correlations :=
  let jet_pt_identifier :=
    String.append (if constituent_cut_biased_jets then "jetPtBiased" else "jetPt")
                  (String.append "_" (pt_label jet_pt_bin)) in
  let track_pt_identifier := String.append "trackPt_" (pt_label track_pt_bin) in
  let output_filename :=
    if negb (PyStr.endswith configured_output_filename ".root")
    then String.append configured_output_filename ".root"
    else configured_output_filename in
  let signal_dominated_eta_region :=
    selected_range (deltaEtaRanges_signalDominated config) in
  let background_dominated_eta_region :=
    selected_range (deltaEtaRanges_backgroundDominated config) in
  let near_side_phi_region :=
    selected_range (np_pi_times (deltaPhiRanges_nearSide config)) in
  let away_side_phi_region :=
    selected_range (shifted_to_away_side (deltaPhiRanges_awaySide config)) in
  {| jet_pt := jet_pt_bin;
     track_pt := track_pt_bin;
     reaction_plane_orientation := orientation;
     collision_energy := energy;
     event_activity := activity;
     jet_pt_identifier := jet_pt_identifier;
     track_pt_identifier := track_pt_identifier;
     identifier := String.append jet_pt_identifier (String.append "_" track_pt_identifier);
     output_filename := output_filename;
     output_filename_yaml := PyStr.replace ".root" ".yaml" output_filename;
     task_config := config;
     signal_dominated_eta_region := signal_dominated_eta_region;
     background_dominated_eta_region := background_dominated_eta_region;
     near_side_phi_region := near_side_phi_region;
     away_side_phi_region := away_side_phi_region;
     processing_options := processingOptions config;
     flags := {| flag_ran_projections := false;
                 flag_ran_fitting := false;
                 flag_ran_post_fit_processing := false |};
     correlation_hists_2d :=
       {| raw := None; mixed_event := None; signal := None;
          number_of_triggers_hist := None; number_of_triggers := 0 |};
     correlation_hists_delta_phi :=
       {| signal_dominated := None; background_dominated := None |};
     correlation_hists_delta_eta := {| near_side := None; away_side := None |};
     correlation_hists_delta_phi_subtracted :=
       {| signal_dominated := None; background_dominated := None |};
     correlation_hists_delta_eta_subtracted := {| near_side := None; away_side := None |};
     yields_delta_phi :=
       {| yield_near_side := {| value := -1; error := -1 |};
          yield_away_side := {| value := -1; error := -1 |} |};
     yields_delta_eta :=
       {| yield_near_side := {| value := -1; error := -1 |};
          yield_away_side := {| value := -1; error := -1 |} |};
     widths_delta_phi :=
       {| width_near_side :=
            {| properties_name := EmptyString;
               properties_fit_range := near_side_phi_region;
               fit_obj :=
                 {| fit_range := near_side_phi_region;
                    user_arguments :=
                      [("mean", Number 0); ("fix_mean", Flag true);
                       ("width", Number (15 # 100)); ("limit_width", Limits (5 # 100) 1)] |};
               fit_args := [];
               fit_result := None |};
          width_away_side :=
            {| properties_name := EmptyString;
               properties_fit_range := away_side_phi_region;
               fit_obj :=
                 {| fit_range := near_side_phi_region;
                    user_arguments :=
                      [("mean", Number np_pi); ("fix_mean", Flag true);
                       ("width", Number (3 # 10)); ("limit_width", Limits (5 # 100) (15 # 10))] |};
               fit_args := [];
               fit_result := None |} |};
     widths_delta_eta :=
       {| width_near_side :=
            {| properties_name := EmptyString;
               properties_fit_range := signal_dominated_eta_region;
               fit_obj :=
                 {| fit_range := signal_dominated_eta_region;
                    user_arguments :=
                      [("mean", Number 0); ("fix_mean", Flag true);
                       ("width", Number (15 # 100)); ("limit_width", Limits (5 # 100) 1)] |};
               fit_args := [];
               fit_result := None |};
          width_away_side :=
            {| properties_name := EmptyString;
               properties_fit_range := signal_dominated_eta_region;
               fit_obj :=
                 {| fit_range := near_side_phi_region;
                    user_arguments :=
                      [("mean", Number 0); ("fix_mean", Flag true);
                       ("width", Number (3 # 10)); ("limit_width", Limits (5 # 100) (15 # 10))] |};
               fit_args := [];
               fit_result := None |} |};
     fit_object := None;
     fit_objects_delta_eta :=
       {| fit_near_side := {| pedestal_value := -1; pedestal_error := -1 |};
          fit_away_side := {| pedestal_value := -1; pedestal_error := -1 |} |} |}.

(** ** The names of the observables *)

Definition name_2d (c : Correlations) (type : string) : string :=
  String.append "jetH_delta_eta_delta_phi_"
    (String.append (identifier c) (String.append "_" type)).

Definition name_1d (c : Correlations) (axis type : string) : string :=
  String.append "jetH_"
    (String.append axis
       (String.append "_" (String.append (identifier c) (String.append "_" type)))).

Definition name_1d_subtracted (c : Correlations) (axis type : string) : string :=
  String.append (name_1d c axis type) "_subtracted".

Definition name_number_of_triggers : string := "jetH_number_of_triggers".

(** ** The output files *)

Inductive RootObject : Type :=
| RootTH2 (h : ROOT.TH2)
| RootTH1 (h : Histogram1D).

Inductive YamlObject : Type :=
| YamlHistogram (h : Histogram1D)
| YamlDeltaEtaFits (fits : DeltaEtaFitObjects)
| YamlYields (yields : CorrelationYields)
| YamlWidths (widths : CorrelationWidths).

(** The ROOT files and the YAML files below the output prefix, by file
    name; a file holds named objects. *)
Record Files : Type := {
  root_files : gmap string (gmap string RootObject);
  yaml_files : gmap string (gmap string YamlObject);
}.

(** The state a method of [Correlations] works on: the files, the messages
    that the stages log at level [info] (without those of the file helpers
    and of the collaborators), and the object itself. *)
Record State : Type := {
  files : Files;
  log : list string;
  self : Correlations;
}.

Definition M (A : Type) : Type := Py.M State A.

Definition update_self (f : Correlations -> Correlations) : M unit :=
  Py.modify (fun s => {| files := files s; log := log s; self := f (self s) |}).

Definition update_files (f : Files -> Files) : M unit :=
  Py.modify (fun s => {| files := f (files s); log := log s; self := self s |}).

Definition logger_info (msg : string) : M unit :=
  Py.modify (fun s => {| files := files s; log := log s ++ [msg]; self := self s |}).

Definition get_self : M Correlations := do s <- Py.get ; Py.ret (self s).
Definition get_files : M Files := do s <- Py.get ; Py.ret (files s).

(** [self.processing_options[key]]. *)
Definition processing_option (options : gmap string bool) (key : string) : result bool :=
  match options !! key with
  | Some b => Ok b
  | None => Raise (KeyError key)
  end.

(** [hist.Write(name)] for every observable that has a histogram, in a
    file opened with mode [UPDATE]. *)
Definition write_objects {V : Type} (objects : list (string * option V))
    (file : gmap string V) : gmap string V :=
  List.fold_left
    (fun file '(name, hist) =>
       match hist with
       | Some h => <[name := h]> file
       | None => file
       end)
    objects file.

Definition _write_hists_to_root_file (hists : list (string * option RootObject)) : M unit :=
  do c <- get_self ;
  update_files (fun f =>
    {| root_files :=
         <[output_filename c :=
             write_objects hists (default ∅ (root_files f !! output_filename c))]>
           (root_files f);
       yaml_files := yaml_files f |}).

(** The YAML file is read, updated and written back. *)
Definition write_to_yaml (objects : list (string * option YamlObject)) : M unit :=
  do c <- get_self ;
  update_files (fun f =>
    {| root_files := root_files f;
       yaml_files :=
         <[output_filename_yaml c :=
             write_objects objects (default ∅ (yaml_files f !! output_filename_yaml c))]>
           (yaml_files f) |}).

(** Opening the ROOT file for reading. *)
Definition open_root_file : M (gmap string RootObject) :=
  do c <- get_self ;
  do f <- get_files ;
  match root_files f !! output_filename c with
  | Some file => Py.ret file
  | None => Py.raise (FileNotFoundError (output_filename c))
  end.

(** Opening the YAML file for reading. *)
Definition open_yaml_file : M (gmap string YamlObject) :=
  do c <- get_self ;
  do f <- get_files ;
  match yaml_files f !! output_filename_yaml c with
  | Some file => Py.ret file
  | None => Py.raise (FileNotFoundError (output_filename_yaml c))
  end.

Definition as_TH2 (o : option RootObject) : option ROOT.TH2 :=
  match o with Some (RootTH2 h) => Some h | _ => None end.

Definition as_TH1 (o : option RootObject) : option Histogram1D :=
  match o with Some (RootTH1 h) => Some h | _ => None end.

Definition as_histogram (o : option YamlObject) : option Histogram1D :=
  match o with Some (YamlHistogram h) => Some h | _ => None end.

Definition the_hist {A : Type} (what : string) (hist : option A) : result A :=
  match hist with
  | Some h => Ok h
  | None => Raise (AttributeError what)
  end.

(** ** Reading and writing the observables *)

Definition _write_2d_correlations : M unit :=
  do c <- get_self ;
  let h := correlation_hists_2d c in
  _write_hists_to_root_file
    [(name_2d c "raw", option_map RootTH2 (raw h));
     (name_2d c "mixed_event", option_map RootTH2 (mixed_event h));
     (name_2d c "signal", option_map RootTH2 (signal h))].

Definition _write_number_of_triggers_hist : M unit :=
  do c <- get_self ;
  _write_hists_to_root_file
    [(name_number_of_triggers,
      option_map RootTH1 (number_of_triggers_hist (correlation_hists_2d c)))].

Definition _write_1d_correlations : M unit :=
  do c <- get_self ;
  run _write_hists_to_root_file
    [(name_1d c "delta_phi" "signal_dominated",
      option_map RootTH1 (signal_dominated (correlation_hists_delta_phi c)));
     (name_1d c "delta_phi" "background_dominated",
      option_map RootTH1 (background_dominated (correlation_hists_delta_phi c)))] ;
  _write_hists_to_root_file
    [(name_1d c "delta_eta" "near_side",
      option_map RootTH1 (near_side (correlation_hists_delta_eta c)));
     (name_1d c "delta_eta" "away_side",
      option_map RootTH1 (away_side (correlation_hists_delta_eta c)))].

Definition write_1d_subtracted_delta_phi_correlations : M unit :=
  do c <- get_self ;
  write_to_yaml
    [(name_1d_subtracted c "delta_phi" "signal_dominated",
      option_map YamlHistogram (signal_dominated (correlation_hists_delta_phi_subtracted c)));
     (name_1d_subtracted c "delta_phi" "background_dominated",
      option_map YamlHistogram
        (background_dominated (correlation_hists_delta_phi_subtracted c)))].

Definition write_1d_subtracted_delta_eta_correlations : M unit :=
  do c <- get_self ;
  write_to_yaml
    [(name_1d_subtracted c "delta_eta" "near_side",
      option_map YamlHistogram (near_side (correlation_hists_delta_eta_subtracted c)));
     (name_1d_subtracted c "delta_eta" "away_side",
      option_map YamlHistogram (away_side (correlation_hists_delta_eta_subtracted c)))].

Definition write_delta_eta_fit_results : M unit :=
  do c <- get_self ;
  write_to_yaml
    [(String.append (identifier c) "_fit_objects_delta_eta",
      Some (YamlDeltaEtaFits (fit_objects_delta_eta c)))].

Definition write_yields_to_YAML : M unit :=
  do c <- get_self ;
  write_to_yaml
    [(String.append (identifier c) "_yields_delta_phi", Some (YamlYields (yields_delta_phi c)));
     (String.append (identifier c) "_yields_delta_eta", Some (YamlYields (yields_delta_eta c)))].

Definition write_widths_to_YAML : M unit :=
  do c <- get_self ;
  write_to_yaml
    [(String.append (identifier c) "_widths_delta_phi", Some (YamlWidths (widths_delta_phi c)));
     (String.append (identifier c) "_widths_delta_eta", Some (YamlWidths (widths_delta_eta c)))].

Definition _init_2d_correlations_hists_from_root_file : M unit :=
  do c <- get_self ;
  do f <- open_root_file ;
  update_self (fun c =>
    set_correlation_hists_2d
      {| raw := as_TH2 (f !! name_2d c "raw");
         mixed_event := as_TH2 (f !! name_2d c "mixed_event");
         signal := as_TH2 (f !! name_2d c "signal");
         number_of_triggers_hist := number_of_triggers_hist (correlation_hists_2d c);
         number_of_triggers := number_of_triggers (correlation_hists_2d c) |} c).

Definition _init_number_of_triggers_hist_from_root_file : M unit :=
  do f <- open_root_file ;
  update_self (fun c =>
    set_correlation_hists_2d
      {| raw := raw (correlation_hists_2d c);
         mixed_event := mixed_event (correlation_hists_2d c);
         signal := signal (correlation_hists_2d c);
         number_of_triggers_hist := as_TH1 (f !! name_number_of_triggers);
         number_of_triggers := number_of_triggers (correlation_hists_2d c) |} c).

Definition _init_1d_correlations_hists_from_root_file : M unit :=
  do f <- open_root_file ;
  run update_self (fun c =>
    set_correlation_hists_delta_phi
      {| signal_dominated := as_TH1 (f !! name_1d c "delta_phi" "signal_dominated");
         background_dominated :=
           as_TH1 (f !! name_1d c "delta_phi" "background_dominated") |} c) ;
  do f <- open_root_file ;
  update_self (fun c =>
    set_correlation_hists_delta_eta
      {| near_side := as_TH1 (f !! name_1d c "delta_eta" "near_side");
         away_side := as_TH1 (f !! name_1d c "delta_eta" "away_side") |} c).

Definition init_1d_subtracted_delta_phi_corerlations_from_file : M unit :=
  do f <- open_yaml_file ;
  update_self (fun c =>
    set_correlation_hists_delta_phi_subtracted
      {| signal_dominated :=
           as_histogram (f !! name_1d_subtracted c "delta_phi" "signal_dominated");
         background_dominated :=
           as_histogram (f !! name_1d_subtracted c "delta_phi" "background_dominated") |} c).

Definition init_1d_subtracted_delta_eta_corerlations_from_file : M unit :=
  do f <- open_yaml_file ;
  update_self (fun c =>
    set_correlation_hists_delta_eta_subtracted
      {| near_side := as_histogram (f !! name_1d_subtracted c "delta_eta" "near_side");
         away_side := as_histogram (f !! name_1d_subtracted c "delta_eta" "away_side") |} c).

Definition init_delta_eta_fit_information : M unit :=
  do c <- get_self ;
  do f <- open_yaml_file ;
  match f !! String.append (identifier c) "_fit_objects_delta_eta" with
  | Some (YamlDeltaEtaFits fits) => update_self (set_fit_objects_delta_eta fits)
  | _ => Py.raise (KeyError (String.append (identifier c) "_fit_objects_delta_eta"))
  end.

Definition init_yields_from_file : M unit :=
  do c <- get_self ;
  do f <- open_yaml_file ;
  match f !! String.append (identifier c) "_yields_delta_phi" with
  | Some (YamlYields yields) =>
      run update_self (set_yields_delta_phi yields) ;
      match f !! String.append (identifier c) "_yields_delta_eta" with
      | Some (YamlYields yields) => update_self (set_yields_delta_eta yields)
      | _ => Py.raise (KeyError (String.append (identifier c) "_yields_delta_eta"))
      end
  | _ => Py.raise (KeyError (String.append (identifier c) "_yields_delta_phi"))
  end.

Definition init_widths_from_file : M unit :=
  do c <- get_self ;
  do f <- open_yaml_file ;
  match f !! String.append (identifier c) "_widths_delta_phi" with
  | Some (YamlWidths widths) =>
      run update_self (set_widths_delta_phi widths) ;
      match f !! String.append (identifier c) "_widths_delta_eta" with
      | Some (YamlWidths widths) => update_self (set_widths_delta_eta widths)
      | _ => Py.raise (KeyError (String.append (identifier c) "_widths_delta_eta"))
      end
  | _ => Py.raise (KeyError (String.append (identifier c) "_widths_delta_phi"))
  end.

(** ** Scaling by the bin width ([correlations_helpers.py]) *)

(** [hist.GetXaxis().GetBinWidth(1)] of a one dimensional histogram, by its
    bin edges.  A ROOT histogram has at least one bin; a list of fewer than
    two edges stands for no histogram, and is given the width 0. *)
Definition first_bin_width (hist : Histogram1D) : Q :=
  match bin_edges hist with
  | low :: up :: _ => up - low
  | _ => 0
  end.

(** [calculate_bin_width_scale_factor(hist, additional_scale_factor)]: the
    y and the z axis of a one dimensional histogram have one bin of width 1.
    The widths are Python floats, so that the division by a zero width
    raises. *)
Definition calculate_bin_width_scale_factor (hist : Histogram1D)
    (additional_scale_factor : Q) : result Q :=
  let bin_width_scale_factor := first_bin_width hist in
  let bin_width_scale_factor := bin_width_scale_factor * 1 in
  let bin_width_scale_factor := bin_width_scale_factor * 1 in
  if Qeq_bool bin_width_scale_factor 0 then Raise ZeroDivisionError
  else Ok (additional_scale_factor / bin_width_scale_factor).

(** [TH1::Scale(c)] of a histogram that stores its errors: the contents are
    multiplied by [c] and the squared errors by [c * c]. *)
Definition Scale (hist : Histogram1D) (c : Q) : Histogram1D :=
  {| bin_edges := bin_edges hist;
     y := List.map (fun content => content * c) (y hist);
     errors_squared := List.map (fun error_squared => error_squared * (c * c))
                                (errors_squared hist) |}.

(** [scale_by_bin_width(observable.hist)]; an observable without a histogram
    holds [None], which has no axis. *)
Definition scale_by_bin_width (hist : option Histogram1D) : result (option Histogram1D) :=
  match hist with
  | None => Raise (AttributeError "GetXaxis")
  | Some h =>
      try scale_factor <- calculate_bin_width_scale_factor h 1 ;
      Ok (Some (Scale h scale_factor))
  end.

(** ** The plots ([plot.correlations]) *)

(** The functions of [jet_hadron.plot.correlations] that the projection
    stages call, with the arguments they are given.  A plot leaves the
    object and the output files as they are; it may raise. *)
Record PlotCorrelations : Type := {
  plot_2d_correlations : Correlations -> result unit;
  plot_RPF_fit_regions : Correlations -> string -> result unit;
  plot_1d_correlations : Correlations -> bool -> result unit;
  delta_eta_unsubtracted :
    HistsDeltaEta -> PtBin -> PtBin -> ReactionPlaneOrientation -> string -> result unit;
}.

(** ** The stages of one analysis object *)

Section Pipeline.

(** The collaborators: the projectors, the plots, the minimizer and the
    integration of a histogram.  They are taken as they come; each of the
    fallible ones may raise.

    [_create_2d_raw_and_mixed_correlations] returns the raw and the mixed
    event correlation, the trigger spectrum and the number of triggers,
    [_create_2d_signal_correlation] the signal correlation,
    [_setup_1d_projectors] sets up the projectors, which are not part of
    the state here, and [_create_1d_correlations] returns the four one
    dimensional correlations that the projectors fill.
    [_compare_unsubtracted_1d_signal_correlation_to_joel] reads the
    correlations to compare with from a file of its own and plots the
    comparison. *)
Variable _create_2d_raw_and_mixed_correlations :
  Correlations -> result (ROOT.TH2 * ROOT.TH2 * Histogram1D * Q).
Variable _create_2d_signal_correlation : Correlations -> result ROOT.TH2.
Variable plot_correlations : PlotCorrelations.
Variable _setup_1d_projectors : Correlations -> result unit.
Variable _create_1d_correlations : Correlations -> result (HistsDeltaPhi * HistsDeltaEta).
Variable _compare_unsubtracted_1d_signal_correlation_to_joel : Correlations -> result unit.
Variable fit_pedestal_to_delta_eta_background_dominated_region :
  Histogram1D -> SelectedRange -> result (Q * Q).
Variable integral : Histogram1D -> Q -> Q -> Q * Q.
Variable fit_pedestal_with_extended_gaussian :
  FitPedestalWithExtendedGaussian -> Histogram1D -> result WidthFitResult.

(** [Correlations._run_2d_projections]. *)
Definition _run_2d_projections : M unit :=
  do c <- get_self ;
  do fs <- get_files ;
  let file_exists :=
    match root_files fs !! output_filename c with Some _ => true | None => false end in
  do generate <- Py.lift (processing_option (processing_options c) "generate2DCorrelations") ;
  run (if generate || negb file_exists then
         run logger_info "Projecting 2D correlations" ;
         do '(raw_hist, mixed_event_hist, triggers, n_trig) <-
           Py.lift (_create_2d_raw_and_mixed_correlations c) ;
         run update_self (fun c =>
           set_correlation_hists_2d
             {| raw := Some raw_hist;
                mixed_event := Some mixed_event_hist;
                signal := signal (correlation_hists_2d c);
                number_of_triggers_hist := Some triggers;
                number_of_triggers := n_trig |} c) ;
         do c <- get_self ;
         do signal_hist <- Py.lift (_create_2d_signal_correlation c) ;
         run update_self (fun c =>
           set_correlation_hists_2d
             {| raw := raw (correlation_hists_2d c);
                mixed_event := mixed_event (correlation_hists_2d c);
                signal := Some signal_hist;
                number_of_triggers_hist := number_of_triggers_hist (correlation_hists_2d c);
                number_of_triggers := number_of_triggers (correlation_hists_2d c) |} c) ;
         run _write_2d_correlations ;
         run _write_number_of_triggers_hist ;
         (* Ensure we execute the next step *)
         update_self (fun c =>
           set_processing_options
             (<["generate1DCorrelations" := true]> (processing_options c)) c)
       else
         run logger_info "Loading 2D correlations and trigger jet spectra from file" ;
         run _init_2d_correlations_hists_from_root_file ;
         _init_number_of_triggers_hist_from_root_file) ;
  (* Plotting *)
  do c <- get_self ;
  do plot <- Py.lift (processing_option (processing_options c) "plot2DCorrelations") ;
  run (if plot then
         run logger_info "Plotting 2D correlations" ;
         run Py.lift (plot_2d_correlations plot_correlations c) ;
         logger_info "Plotting RPF example region"
       else Py.ret tt) ;
  do plot <- Py.lift (processing_option (processing_options c) "plotRPFHighlights") ;
  if plot then
    Py.lift (plot_RPF_fit_regions plot_correlations c
               (String.append "highlight_RPF_regions_" (identifier c)))
  else Py.ret tt.

(** [Correlations._post_1d_projection_scaling]: the delta phi correlations
    first, then the delta eta correlations, each in the order of its
    fields. *)
Definition _post_1d_projection_scaling : M unit :=
  do c <- get_self ;
  do signal_dominated_hist <-
    Py.lift (scale_by_bin_width (signal_dominated (correlation_hists_delta_phi c))) ;
  run update_self (fun c =>
    set_correlation_hists_delta_phi
      {| signal_dominated := signal_dominated_hist;
         background_dominated := background_dominated (correlation_hists_delta_phi c) |} c) ;
  do background_dominated_hist <-
    Py.lift (scale_by_bin_width (background_dominated (correlation_hists_delta_phi c))) ;
  run update_self (fun c =>
    set_correlation_hists_delta_phi
      {| signal_dominated := signal_dominated (correlation_hists_delta_phi c);
         background_dominated := background_dominated_hist |} c) ;
  do near_side_hist <-
    Py.lift (scale_by_bin_width (near_side (correlation_hists_delta_eta c))) ;
  run update_self (fun c =>
    set_correlation_hists_delta_eta
      {| near_side := near_side_hist;
         away_side := away_side (correlation_hists_delta_eta c) |} c) ;
  do away_side_hist <-
    Py.lift (scale_by_bin_width (away_side (correlation_hists_delta_eta c))) ;
  update_self (fun c =>
    set_correlation_hists_delta_eta
      {| near_side := near_side (correlation_hists_delta_eta c);
         away_side := away_side_hist |} c).

(** [Correlations._run_1d_projections]. *)
Definition _run_1d_projections : M unit :=
  do c <- get_self ;
  do generate <- Py.lift (processing_option (processing_options c) "generate1DCorrelations") ;
  run (if generate then
         (* Setup the projectors here. *)
         run logger_info "Setting up 1D correlations projectors." ;
         run Py.lift (_setup_1d_projectors c) ;
         (* Project in 1D *)
         run logger_info "Projecting 1D correlations" ;
         do '(delta_phi, delta_eta) <- Py.lift (_create_1d_correlations c) ;
         run update_self (fun c =>
           set_correlation_hists_delta_eta delta_eta
             (set_correlation_hists_delta_phi delta_phi c)) ;
         run logger_info "Performing post projection histogram scaling" ;
         run _post_1d_projection_scaling ;
         (* Write the properly scaled projections *)
         run _write_1d_correlations ;
         (* Ensure that the next step in the chain is run *)
         update_self (fun c =>
           set_processing_options (<["fit1DCorrelations" := true]> (processing_options c)) c)
       else
         run logger_info "Loading 1D correlations from file" ;
         _init_1d_correlations_hists_from_root_file) ;
  (* Plot the correlations *)
  do c <- get_self ;
  do plot <- Py.lift (processing_option (processing_options c) "plot1DCorrelations") ;
  if plot then
    run (match collision_energy c, event_activity c with
         | two_seven_six, EventActivity.central =>
             run logger_info "Comparing unsubtracted correlations to Joel's." ;
             Py.lift (_compare_unsubtracted_1d_signal_correlation_to_joel c)
         | _, _ =>
             logger_info
               "Skipping comparison with Joel since we're not analyzing the right system."
         end) ;
    run logger_info "Plotting 1D correlations" ;
    do with_root <-
      Py.lift (processing_option (processing_options c) "plot1DCorrelationsWithROOT") ;
    run Py.lift (plot_1d_correlations plot_correlations c with_root) ;
    Py.lift (delta_eta_unsubtracted plot_correlations (correlation_hists_delta_eta c)
               (jet_pt c) (track_pt c) (reaction_plane_orientation c) (identifier c))
  else Py.ret tt.

Definition set_ran_projections (b : bool) (c : Correlations) : Correlations :=
  set_flags {| flag_ran_projections := b;
               flag_ran_fitting := ran_fitting c;
               flag_ran_post_fit_processing := ran_post_fit_processing c |} c.

Definition set_ran_fitting (b : bool) (c : Correlations) : Correlations :=
  set_flags {| flag_ran_projections := ran_projections c;
               flag_ran_fitting := b;
               flag_ran_post_fit_processing := ran_post_fit_processing c |} c.

Definition set_ran_post_fit_processing (b : bool) (c : Correlations) : Correlations :=
  set_flags {| flag_ran_projections := ran_projections c;
               flag_ran_fitting := ran_fitting c;
               flag_ran_post_fit_processing := b |} c.

(** [Correlations.run_projections]. *)
Definition run_projections : M unit :=
  run _run_2d_projections ;
  run _run_1d_projections ;
  (* Store that we've completed this step. *)
  update_self (set_ran_projections true).

(** [Correlations.fit_delta_eta_correlations]. *)
Definition fit_delta_eta_correlations : M unit :=
  do c <- get_self ;
  do near <- Py.lift (the_hist "near_side" (near_side (correlation_hists_delta_eta c))) ;
  do '(constant, error) <-
    Py.lift (fit_pedestal_to_delta_eta_background_dominated_region near
               (background_dominated_eta_region c)) ;
  run update_self (fun c =>
    set_fit_objects_delta_eta
      {| fit_near_side := {| pedestal_value := constant; pedestal_error := error |};
         fit_away_side := fit_away_side (fit_objects_delta_eta c) |} c) ;
  do away <- Py.lift (the_hist "away_side" (away_side (correlation_hists_delta_eta c))) ;
  do '(constant, error) <-
    Py.lift (fit_pedestal_to_delta_eta_background_dominated_region away
               (background_dominated_eta_region c)) ;
  update_self (fun c =>
    set_fit_objects_delta_eta
      {| fit_near_side := fit_near_side (fit_objects_delta_eta c);
         fit_away_side := {| pedestal_value := constant; pedestal_error := error |} |} c).

(** [array ** 2]. *)
Definition squared (a : list Q) : list Q := List.map (fun v => v * v) a.

(** [Correlations.subtract_background_fit_function_from_signal_dominated]. *)
Definition subtract_background_fit_function_from_signal_dominated : M unit :=
  do c <- get_self ;
  do signal_dominated_hist <-
    Py.lift (the_hist "signal_dominated" (signal_dominated (correlation_hists_delta_phi c))) ;
  let x := Histogram.x signal_dominated_hist in
  do fit <- Py.lift (the_hist "fit_object" (fit_object c)) ;
  let fit_hist :=
    {| bin_edges := bin_edges signal_dominated_hist;
       y := evaluate_background fit x;
       errors_squared := squared (calculate_background_function_errors fit x) |} in
  do subtracted <- Py.lift (Histogram.sub signal_dominated_hist fit_hist) ;
  update_self (fun c =>
    set_correlation_hists_delta_phi_subtracted
      {| signal_dominated := Some subtracted;
         background_dominated :=
           background_dominated (correlation_hists_delta_phi_subtracted c) |} c).

(** The constant histogram that stands for the pedestal. *)
Definition pedestal_background_hist (fit : PedestalFitResult) (correlation_hist : Histogram1D)
  : Histogram1D :=
  {| bin_edges := bin_edges correlation_hist;
     y := constant_array (pedestal_value fit) (List.length (Histogram.x correlation_hist));
     errors_squared :=
       squared (constant_array (pedestal_error fit)
                               (List.length (Histogram.x correlation_hist))) |}.

(** [Correlations.subtract_delta_eta_correlations]: the near-side pedestal
    is used for both the near side and the away side. *)
Definition subtract_delta_eta_correlations : M unit :=
  do c <- get_self ;
  let fit := fit_near_side (fit_objects_delta_eta c) in
  do correlation_hist <-
    Py.lift (the_hist "near_side" (near_side (correlation_hists_delta_eta c))) ;
  let background_hist := pedestal_background_hist fit correlation_hist in
  do subtracted_hist <- Py.lift (Histogram.sub correlation_hist background_hist) ;
  run update_self (fun c =>
    set_correlation_hists_delta_eta_subtracted
      {| near_side := Some subtracted_hist;
         away_side := away_side (correlation_hists_delta_eta_subtracted c) |} c) ;
  do correlation_hist <-
    Py.lift (the_hist "away_side" (away_side (correlation_hists_delta_eta c))) ;
  let background_hist := pedestal_background_hist fit correlation_hist in
  do subtracted_hist <- Py.lift (Histogram.sub correlation_hist background_hist) ;
  update_self (fun c =>
    set_correlation_hists_delta_eta_subtracted
      {| near_side := near_side (correlation_hists_delta_eta_subtracted c);
         away_side := Some subtracted_hist |} c).

(** [Correlations._extract_yield_from_hist].  The quotient by an empty
    track pt bin is [inf] or [nan] in [numpy]; the model has no such
    values, and its quotient means nothing there. *)
Definition _extract_yield_from_hist (c : Correlations) (hist : option Histogram1D)
    (central_value yield_limit : Q) : result ExtractedObservable :=
  try h <- the_hist "integral" hist ;
  let '(yield_value, yield_error) :=
    integral h (central_value - yield_limit + epsilon)
               (central_value + yield_limit - epsilon) in
  let track_pt_bin_width := pt_max (track_pt c) - pt_min (track_pt c) in
  let yield_value := yield_value / track_pt_bin_width in
  let yield_error := yield_error / track_pt_bin_width in
  Ok {| value := yield_value; error := yield_error |}.

(** [Correlations.extract_yields]. *)
Definition extract_yields : M unit :=
  (* Delta phi yields: (attribute_name, central_value) *)
  do c <- get_self ;
  do observable <-
    Py.lift (_extract_yield_from_hist c
               (signal_dominated (correlation_hists_delta_phi_subtracted c))
               0 (delta_phi_yield_limit (task_config c))) ;
  run update_self (fun c =>
    set_yields_delta_phi {| yield_near_side := observable;
                            yield_away_side := yield_away_side (yields_delta_phi c) |} c) ;
  do c <- get_self ;
  do observable <-
    Py.lift (_extract_yield_from_hist c
               (signal_dominated (correlation_hists_delta_phi_subtracted c))
               np_pi (delta_phi_yield_limit (task_config c))) ;
  run update_self (fun c =>
    set_yields_delta_phi {| yield_near_side := yield_near_side (yields_delta_phi c);
                            yield_away_side := observable |} c) ;
  (* Delta eta yields *)
  do c <- get_self ;
  do observable <-
    Py.lift (_extract_yield_from_hist c
               (near_side (correlation_hists_delta_eta_subtracted c))
               0 (delta_eta_yield_limit (task_config c))) ;
  run update_self (fun c =>
    set_yields_delta_eta {| yield_near_side := observable;
                            yield_away_side := yield_away_side (yields_delta_eta c) |} c) ;
  do c <- get_self ;
  do observable <-
    Py.lift (_extract_yield_from_hist c
               (away_side (correlation_hists_delta_eta_subtracted c))
               0 (delta_eta_yield_limit (task_config c))) ;
  update_self (fun c =>
    set_yields_delta_eta {| yield_near_side := yield_near_side (yields_delta_eta c);
                            yield_away_side := observable |} c).

(** Storing a seed in the user arguments of a width fit. *)
Definition seed_width (w : ExtractedWidth) (width_value width_error : Q) : ExtractedWidth :=
  {| properties_name := properties_name w;
     properties_fit_range := properties_fit_range w;
     fit_obj :=
       {| fit_range := fit_range (fit_obj w);
          user_arguments :=
            Dict.set (Dict.set (user_arguments (fit_obj w)) "width" (Number width_value))
                     "error_width" (Number width_error) |};
     fit_args := fit_args w;
     fit_result := fit_result w |}.

Definition with_fit_result (w : ExtractedWidth) (r : WidthFitResult) : ExtractedWidth :=
  {| properties_name := properties_name w;
     properties_fit_range := properties_fit_range w;
     fit_obj := fit_obj w;
     fit_args := fit_args w;
     fit_result := Some r |}.

(** [Correlations._retrieve_widths_from_RPF]. *)
Definition _retrieve_widths_from_RPF : M bool :=
  do c <- get_self ;
  do fit <- Py.lift (the_hist "fit_object" (fit_object c)) ;
  match values_at_minimum fit !! "ns_sigma", errors_on_parameters fit !! "ns_sigma" with
  | Some width_value, Some width_error =>
      run update_self (fun c =>
        set_widths_delta_phi
          {| width_near_side := seed_width (width_near_side (widths_delta_phi c))
                                           width_value width_error;
             width_away_side := width_away_side (widths_delta_phi c) |} c) ;
      match values_at_minimum fit !! "as_sigma", errors_on_parameters fit !! "as_sigma" with
      | Some width_value, Some width_error =>
          run update_self (fun c =>
            set_widths_delta_phi
              {| width_near_side := width_near_side (widths_delta_phi c);
                 width_away_side := seed_width (width_away_side (widths_delta_phi c))
                                               width_value width_error |} c) ;
          Py.ret true
      | _, _ => Py.ret false
      end
  | _, _ => Py.ret false
  end.

(** [Correlations._fit_and_extract_delta_phi_widths]. *)
Definition _fit_and_extract_delta_phi_widths : M unit :=
  do c <- get_self ;
  let subtracted := signal_dominated (correlation_hists_delta_phi_subtracted c) in
  do h <- Py.lift (the_hist "signal_dominated" subtracted) ;
  do r <- Py.lift (fit_pedestal_with_extended_gaussian
                     (fit_obj (width_near_side (widths_delta_phi c))) h) ;
  run update_self (fun c =>
    set_widths_delta_phi
      {| width_near_side := with_fit_result (width_near_side (widths_delta_phi c)) r;
         width_away_side := width_away_side (widths_delta_phi c) |} c) ;
  do r <- Py.lift (fit_pedestal_with_extended_gaussian
                     (fit_obj (width_away_side (widths_delta_phi c))) h) ;
  update_self (fun c =>
    set_widths_delta_phi
      {| width_near_side := width_near_side (widths_delta_phi c);
         width_away_side := with_fit_result (width_away_side (widths_delta_phi c)) r |} c).

(** [Correlations._fit_and_extract_delta_eta_widths]. *)
Definition _fit_and_extract_delta_eta_widths : M unit :=
  do c <- get_self ;
  do h <- Py.lift (the_hist "near_side" (near_side (correlation_hists_delta_eta_subtracted c))) ;
  do r <- Py.lift (fit_pedestal_with_extended_gaussian
                     (fit_obj (width_near_side (widths_delta_eta c))) h) ;
  run update_self (fun c =>
    set_widths_delta_eta
      {| width_near_side := with_fit_result (width_near_side (widths_delta_eta c)) r;
         width_away_side := width_away_side (widths_delta_eta c) |} c) ;
  do h <- Py.lift (the_hist "away_side" (away_side (correlation_hists_delta_eta_subtracted c))) ;
  do r <- Py.lift (fit_pedestal_with_extended_gaussian
                     (fit_obj (width_away_side (widths_delta_eta c))) h) ;
  update_self (fun c =>
    set_widths_delta_eta
      {| width_near_side := width_near_side (widths_delta_eta c);
         width_away_side := with_fit_result (width_away_side (widths_delta_eta c)) r |} c).

(** [Correlations.extract_widths]. *)
Definition extract_widths : M unit :=
  do _ <- _retrieve_widths_from_RPF ;
  run _fit_and_extract_delta_phi_widths ;
  _fit_and_extract_delta_eta_widths.

End Pipeline.

End Correlations.

(* ===================================================================== *)
(** * [correlations.py]: the manager of all the bins *)
(* ===================================================================== *)

Module CorrelationsManager.

Import Histogram.
Import Correlations.
Local Open Scope Q_scope.

(** [three_orientations.ReactionPlaneFit] after a fit: its components, by
    the orientation their index names. *)
Record ReactionPlaneFit : Type := {
  components : list (string * FitComponent);
}.

(** The part of the manager that is fixed at construction: its processing
    options and, for [iterate_with_selected_objects_in_order] with the
    selection [reaction_plane_orientation], the groups of analysis objects
    that share jet and track pt: the fit key of the group and the positions
    of its members in [analyses]. *)
Record Manager : Type := {
  manager_processing_options : gmap string bool;
  groups : list (string * list nat);
}.

(** The state the manager works on. *)
Record ManagerState : Type := {
  m_files : Files;
  m_log : list string;
  analyses : list Correlations;
  fit_objects : Dict.t ReactionPlaneFit;
}.

Definition MM (A : Type) : Type := Py.M ManagerState A.

(** Calling a method of the analysis object at position [i]. *)
Definition on_analysis {A : Type} (i : nat) (method : Correlations.M A) : MM A :=
  fun st =>
    match analyses st !! i with
    | None => (Raise (IndexError "analyses"), st)
    | Some a =>
        let '(r, s) := method {| files := m_files st; log := m_log st; self := a |} in
        (r, {| m_files := files s;
               m_log := log s;
               analyses := <[i := self s]> (analyses st);
               fit_objects := fit_objects st |})
    end.

Definition analysis_at (i : nat) : MM Correlations := on_analysis i get_self.

(** [iterate_with_selected_objects(self.analyses)]: every analysis object. *)
Definition all_analyses : MM (list nat) :=
  do st <- Py.get ; Py.ret (List.seq 0 (List.length (analyses st))).

Definition store_fit_object (key : string) (fit : ReactionPlaneFit) : MM unit :=
  Py.modify (fun st =>
    {| m_files := m_files st;
       m_log := m_log st;
       analyses := analyses st;
       fit_objects := Dict.set (fit_objects st) key fit |}).

Section Manager.

Variable _create_2d_raw_and_mixed_correlations :
  Correlations -> result (ROOT.TH2 * ROOT.TH2 * Histogram1D * Q).
Variable _create_2d_signal_correlation : Correlations -> result ROOT.TH2.
Variable plot_correlations : PlotCorrelations.
Variable _setup_1d_projectors : Correlations -> result unit.
Variable _create_1d_correlations : Correlations -> result (HistsDeltaPhi * HistsDeltaEta).
Variable _compare_unsubtracted_1d_signal_correlation_to_joel : Correlations -> result unit.
Variable fit_pedestal_to_delta_eta_background_dominated_region :
  Histogram1D -> SelectedRange -> result (Q * Q).
Variable integral : Histogram1D -> Q -> Q -> Q * Q.
Variable fit_pedestal_with_extended_gaussian :
  FitPedestalWithExtendedGaussian -> Histogram1D -> result WidthFitResult.

(** The reaction plane fit of one group, from the signal and the background
    input histograms by orientation: whether it succeeded, and the fit; and
    the fit read back from the file of a group. *)
Variable reaction_plane_fit :
  list (string * option Histogram1D) -> list (string * option Histogram1D) ->
  result (bool * ReactionPlaneFit).
Variable read_fit_results : string -> result ReactionPlaneFit.

Variable manager : Manager.

Definition manager_option (key : string) : MM bool :=
  Py.lift (processing_option (manager_processing_options manager) key).

(** [CorrelationsManager._fit_delta_eta_correlations]. *)
Definition _fit_delta_eta_correlations : MM unit :=
  do indices <- all_analyses ;
  Py.for_each indices (fun i =>
    do fit_correlations <- manager_option "fit_correlations" ;
    if fit_correlations then
      run on_analysis i
            (Correlations.fit_delta_eta_correlations
               fit_pedestal_to_delta_eta_background_dominated_region) ;
      on_analysis i write_delta_eta_fit_results
    else
      on_analysis i init_delta_eta_fit_information).

(** The first loop over the members of a group in [_reaction_plane_fit]:
    the sanity check and the input histograms. *)
Fixpoint collect_input_hists (members : list nat)
    (inclusive_analysis : option Correlations)
    (signal background : list (string * option Histogram1D))
  : MM (option Correlations * list (string * option Histogram1D)
        * list (string * option Histogram1D)) :=
  match members with
  | [] => Py.ret (inclusive_analysis, signal, background)
  | i :: rest =>
      do analysis <- analysis_at i ;
      if negb (ran_projections analysis) then
        Py.raise (ValueError "Hists must be projected before running the fit.")
      else
        let key := orientation_str (reaction_plane_orientation analysis) in
        if is_inclusive (reaction_plane_orientation analysis) then
          collect_input_hists rest (Some analysis)
            (signal ++ [(key, signal_dominated (correlation_hists_delta_phi analysis))])
            background
        else
          collect_input_hists rest inclusive_analysis signal
            (background ++ [(key, background_dominated (correlation_hists_delta_phi analysis))])
  end.

(** Storing the component of each orientation in the analysis objects. *)
Definition store_components (fit : ReactionPlaneFit) (members : list nat) : MM unit :=
  Py.for_each (components fit) (fun '(index_orientation, fit_component) =>
    Py.for_each members (fun i =>
      do analysis <- analysis_at i ;
      if PyStr.contains (orientation_str (reaction_plane_orientation analysis))
                        index_orientation
      then on_analysis i (update_self (set_fit_object (Some fit_component)))
      else Py.ret tt)).

(** [CorrelationsManager._reaction_plane_fit] (without the plots). *)
Definition _reaction_plane_fit : MM unit :=
  Py.for_each (groups manager) (fun '(fit_key_index, members) =>
    do '(inclusive_analysis, signal_hists, background_hists) <-
      collect_input_hists members None [] [] ;
    match inclusive_analysis with
    | None => Py.raise (UnboundLocalError "inclusive_analysis")
    | Some inclusive_analysis =>
        let rpf_filename :=
          String.append "RPFitResult_"
            (String.append (identifier inclusive_analysis) ".yaml") in
        do fit_correlations <- manager_option "fit_correlations" ;
        do fit_obj <-
          (if fit_correlations then
             do '(fit_success, fit_obj) <-
               Py.lift (reaction_plane_fit signal_hists background_hists) ;
             if negb fit_success then
               Py.raise (RuntimeError
                           (String.append "Fit failed for " (identifier inclusive_analysis)))
             else Py.ret fit_obj
           else Py.lift (read_fit_results rpf_filename)) ;
        (* Store the fit results in the manager. *)
        run store_fit_object fit_key_index fit_obj ;
        (* Store the results relevant to each component in the individual analysis. *)
        run store_components fit_obj members ;
        (* Update progress *)
        Py.for_each members (fun i =>
          on_analysis i (update_self (set_ran_fitting true)))
    end).

(** [CorrelationsManager.fit]. *)
Definition fit : MM bool :=
  run _fit_delta_eta_correlations ;
  run _reaction_plane_fit ;
  Py.ret true.

(** [CorrelationsManager._subtract_reaction_plane_fits] (without the
    plots): the groups are paired with the keys of [self.fit_objects]. *)
Definition _subtract_reaction_plane_fits : MM unit :=
  do st <- Py.get ;
  Py.for_each (List.combine (groups manager) (Dict.keys (fit_objects st)))
    (fun '((_, members), rp_fit) =>
       run Py.for_each members (fun i =>
         do analysis <- analysis_at i ;
         (* Sanity check *)
         if negb (ran_fitting analysis) then
           Py.raise (RuntimeError "Must run the fitting before subtracting!")
         else
           do subtract_correlations <- manager_option "subtract_correlations" ;
           if subtract_correlations then
             run on_analysis i subtract_background_fit_function_from_signal_dominated ;
             on_analysis i write_1d_subtracted_delta_phi_correlations
           else
             on_analysis i init_1d_subtracted_delta_phi_corerlations_from_file) ;
       (* Update progress *)
       Py.for_each members (fun i =>
         on_analysis i (update_self (set_ran_post_fit_processing true)))).

(** [CorrelationsManager._subtract_delta_eta_fits] (without the plots). *)
Definition _subtract_delta_eta_fits : MM unit :=
  do indices <- all_analyses ;
  Py.for_each indices (fun i =>
    do subtract_correlations <- manager_option "subtract_correlations" ;
    if subtract_correlations then
      run on_analysis i subtract_delta_eta_correlations ;
      on_analysis i write_1d_subtracted_delta_eta_correlations
    else
      on_analysis i init_1d_subtracted_delta_eta_corerlations_from_file).

(** [CorrelationsManager.subtract_fits]. *)
Definition subtract_fits : MM bool :=
  run _subtract_reaction_plane_fits ;
  run _subtract_delta_eta_fits ;
  Py.ret true.

(** [CorrelationsManager.extract_yields] (without the plots). *)
Definition extract_yields : MM bool :=
  do indices <- all_analyses ;
  run Py.for_each indices (fun i =>
    do analysis <- analysis_at i ;
    if negb (ran_post_fit_processing analysis) then
      Py.raise (RuntimeError
                  "Must run the post fit processing step before extracting yields!")
    else
      do extract <- manager_option "extract_yields" ;
      if extract then
        run on_analysis i (Correlations.extract_yields integral) ;
        on_analysis i write_yields_to_YAML
      else
        on_analysis i init_yields_from_file) ;
  Py.ret true.

(** [CorrelationsManager.extract_widths] (without the plots). *)
Definition extract_widths : MM bool :=
  do indices <- all_analyses ;
  run Py.for_each indices (fun i =>
    do analysis <- analysis_at i ;
    if negb (ran_post_fit_processing analysis) then
      Py.raise (RuntimeError
                  "Must run the post fit processing step before extracting widths!")
    else
      do extract <- manager_option "extract_widths" ;
      if extract then
        run on_analysis i (Correlations.extract_widths fit_pedestal_with_extended_gaussian) ;
        on_analysis i write_widths_to_YAML
      else
        on_analysis i init_widths_from_file) ;
  Py.ret true.

(** The projection step of [CorrelationsManager.run]. *)
Definition run_all_projections : MM unit :=
  do indices <- all_analyses ;
  Py.for_each indices (fun i =>
    on_analysis i
      (Correlations.run_projections _create_2d_raw_and_mixed_correlations
         _create_2d_signal_correlation plot_correlations _setup_1d_projectors
         _create_1d_correlations _compare_unsubtracted_1d_signal_correlation_to_joel)).

(** [CorrelationsManager.run], from the first analysis step on. *)
Definition run_manager : MM bool :=
  run run_all_projections ;
  do _ <- fit ;
  do _ <- subtract_fits ;
  do _ <- extract_yields ;
  do _ <- extract_widths ;
  Py.ret true.

End Manager.

End CorrelationsManager.

(* ===================================================================== *)
(** * Vocabulary of the properties *)
(* ===================================================================== *)

Module Properties.

Import Histogram.
Import Correlations.
Local Open Scope Q_scope.

(** No two arguments of the function call have the same value. *)
Definition values_differ (l : list (option Q)) : Prop :=
  forall i j a b,
    List.nth_error l i = Some a -> List.nth_error l j = Some b ->
    JetHEPFit.value_eqb a b = true -> i = j.

(** [name] is an argument of the function call with an entry in the
    gradient. *)
Definition has_derivative (argsForFuncCall : Dict.t (option Q))
    (partialDerivative : list Q) (name : string) : Prop :=
  exists p, PyList.index (Dict.keys argsForFuncCall) name = Some p
            /\ (p < List.length partialDerivative)%nat.

(** A histogram whose arrays have one entry per bin. *)
Definition well_formed (h : Histogram1D) : Prop :=
  List.length (y h) = List.length (Histogram.x h)
  /\ List.length (errors_squared h) = List.length (Histogram.x h).

(** [background] is constant: in every bin its value is [pedestal_value]
    and its error is [pedestal_error], that is its squared error is the
    square of [pedestal_error]; it has the binning of [data]. *)
Definition constant_background (fit : PedestalFitResult) (data background : Histogram1D)
  : Prop :=
  bin_edges background = bin_edges data
  /\ List.length (y background) = List.length (Histogram.x data)
  /\ List.length (errors_squared background) = List.length (Histogram.x data)
  /\ List.Forall (fun v => v == pedestal_value fit) (y background)
  /\ List.Forall (fun e2 => e2 == pedestal_error fit * pedestal_error fit)
                 (errors_squared background).

(** [subtracted] is [data] minus the pedestal: bin by bin the value is the
    data value minus the pedestal value, and the error is the quadrature sum
    of the data error and the pedestal error (the squared errors add up). *)
Definition pedestal_subtracted (fit : PedestalFitResult) (data subtracted : Histogram1D)
  : Prop :=
  bin_edges subtracted = bin_edges data
  /\ List.length (y subtracted) = List.length (y data)
  /\ List.length (errors_squared subtracted) = List.length (errors_squared data)
  /\ (forall i d, List.nth_error (y data) i = Some d ->
        exists d', List.nth_error (y subtracted) i = Some d'
                   /\ d' == d - pedestal_value fit)
  /\ (forall i e2, List.nth_error (errors_squared data) i = Some e2 ->
        exists e2', List.nth_error (errors_squared subtracted) i = Some e2'
                    /\ e2' == e2 + pedestal_error fit * pedestal_error fit).

(** The yield of [hist] around [center]: the integral over
    [center - limit + epsilon, center + limit - epsilon], value and error
    divided by the width of the track pt bin. *)
Definition yield_per_unit_track_pt (integral : Histogram1D -> Q -> Q -> Q * Q)
    (track_pt_bin : PtBin) (hist : Histogram1D) (center limit : Q) : ExtractedObservable :=
  let integrated := integral hist (center - limit + epsilon) (center + limit - epsilon) in
  {| value := fst integrated / (pt_max track_pt_bin - pt_min track_pt_bin);
     error := snd integrated / (pt_max track_pt_bin - pt_min track_pt_bin) |}.

(** The 2D projection stage runs in compute mode: the 2D correlations are
    generated because the option asks for it or because there is no output
    file to load them from. *)
Definition runs_2d_in_compute_mode (s : State) : Prop :=
  exists generate : bool,
    processing_options (self s) !! "generate2DCorrelations" = Some generate
    /\ (generate = true \/ root_files (files s) !! output_filename (self s) = None).

(** The one dimensional correlations of the object [c] are the correlations
    [created] that the projectors returned, each scaled by its bin width. *)
Definition holds_the_projected (created : HistsDeltaPhi * HistsDeltaEta) (c : Correlations)
  : Prop :=
  scale_by_bin_width (signal_dominated (fst created))
  = Ok (signal_dominated (correlation_hists_delta_phi c))
  /\ scale_by_bin_width (background_dominated (fst created))
     = Ok (background_dominated (correlation_hists_delta_phi c))
  /\ scale_by_bin_width (near_side (snd created))
     = Ok (near_side (correlation_hists_delta_eta c))
  /\ scale_by_bin_width (away_side (snd created))
     = Ok (away_side (correlation_hists_delta_eta c)).

(** The ROOT file of the object [c] holds the one dimensional correlations
    of [c] under their names. *)
Definition stores_the_projected (fs : Files) (c : Correlations) : Prop :=
  exists file,
    root_files fs !! output_filename c = Some file
    /\ as_TH1 (file !! name_1d c "delta_phi" "signal_dominated")
       = signal_dominated (correlation_hists_delta_phi c)
    /\ as_TH1 (file !! name_1d c "delta_phi" "background_dominated")
       = background_dominated (correlation_hists_delta_phi c)
    /\ as_TH1 (file !! name_1d c "delta_eta" "near_side")
       = near_side (correlation_hists_delta_eta c)
    /\ as_TH1 (file !! name_1d c "delta_eta" "away_side")
       = away_side (correlation_hists_delta_eta c).

(** A flag is left as it was or set. *)
Definition unchanged_or_set (before after : bool) : Prop :=
  after = before \/ after = true.

(** The three stage flags of an analysis object are left as they were or
    set. *)
Definition flags_monotonic (before after : Correlations) : Prop :=
  unchanged_or_set (ran_projections before) (ran_projections after)
  /\ unchanged_or_set (ran_fitting before) (ran_fitting after)
  /\ unchanged_or_set (ran_post_fit_processing before) (ran_post_fit_processing after).

(** A method of the analysis object that, returning or raising, leaves
    every flag as it was or sets it. *)
Definition keeps_flags {A : Type} (method : Correlations.M A) : Prop :=
  forall s : State, flags_monotonic (self s) (self (snd (method s))).

(** The same for the analysis objects of the manager, position by
    position. *)
Definition all_flags_monotonic
    (before after : CorrelationsManager.ManagerState) : Prop :=
  forall (i : nat) (a : Correlations),
    CorrelationsManager.analyses before !! i = Some a ->
    exists a', CorrelationsManager.analyses after !! i = Some a' /\ flags_monotonic a a'.

Definition keeps_all_flags {A : Type} (stage : CorrelationsManager.MM A) : Prop :=
  forall st : CorrelationsManager.ManagerState, all_flags_monotonic st (snd (stage st)).

End Properties.

(* ===================================================================== *)
(** * A small analysis, used to evaluate the definitions *)
(* ===================================================================== *)

Module Example.

Import Histogram.
Import Correlations.
Import CorrelationsManager.
Local Open Scope Q_scope.

(** A mixed event with 72 delta phi bins and 20 delta eta bins, every bin
    filled with 10. *)
Definition delta_phi_axis : ROOT.TAxis :=
  {| ROOT.fNbins := 72; ROOT.fXmin := - (3 # 2); ROOT.fXmax := 9 # 2 |}.

Definition delta_eta_axis : ROOT.TAxis :=
  {| ROOT.fNbins := 20; ROOT.fXmin := - 1; ROOT.fXmax := 1 |}.

Definition uniform_mixed_event : ROOT.TH2 :=
  {| ROOT.h2_name := "mixed_event";
     ROOT.h2_xaxis := delta_phi_axis;
     ROOT.h2_yaxis := delta_eta_axis;
     ROOT.h2_content := fun _ _ => 10 |}.

Definition eta_limits : Q * Q := (- (3 # 10), 3 # 10).

(** A one dimensional correlation with two bins. *)
Definition correlation : Histogram1D :=
  {| bin_edges := [- 1; 0; 1]; y := [3; 5]; errors_squared := [1; 4] |}.

Definition config : TaskConfig :=
  {| deltaEtaRanges_signalDominated := (0, 6 # 10);
     deltaEtaRanges_backgroundDominated := (8 # 10, 12 # 10);
     deltaPhiRanges_nearSide := (- (1 # 2), 1 # 2);
     deltaPhiRanges_awaySide := (- (1 # 2), 1 # 2);
     delta_phi_yield_limit := 1;
     delta_eta_yield_limit := 6 # 10;
     processingOptions :=
       {[ "generate2DCorrelations" := true; "generate1DCorrelations" := false;
          "plot2DCorrelations" := false; "plotRPFHighlights" := false;
          "plot1DCorrelations" := false ]} |}.

Definition jet_pt_bin : PtBin := {| pt_min := 20; pt_max := 40; pt_label := "20_40" |}.
Definition track_pt_bin : PtBin := {| pt_min := 1; pt_max := 2; pt_label := "1_2" |}.

(** A freshly constructed bin. *)
Definition fresh : Correlations :=
  Correlations.init jet_pt_bin track_pt_bin inclusive two_seven_six EventActivity.central
    false "correlations" config.

(** Collaborators that return fixed histograms. *)
Definition project_2d (_ : Correlations)
  : result (ROOT.TH2 * ROOT.TH2 * Histogram1D * Q) :=
  Ok (uniform_mixed_event, uniform_mixed_event, correlation, 8).

Definition divide_2d (_ : Correlations) : result ROOT.TH2 := Ok uniform_mixed_event.

Definition plots : PlotCorrelations :=
  {| plot_2d_correlations := fun _ => Ok tt;
     plot_RPF_fit_regions := fun _ _ => Ok tt;
     plot_1d_correlations := fun _ _ => Ok tt;
     delta_eta_unsubtracted := fun _ _ _ _ _ => Ok tt |}.

Definition setup_projectors (_ : Correlations) : result unit := Ok tt.

Definition compare_to_joel (_ : Correlations) : result unit := Ok tt.

Definition project_1d (_ : Correlations) : result (HistsDeltaPhi * HistsDeltaEta) :=
  Ok ({| signal_dominated := Some correlation; background_dominated := Some correlation |},
      {| near_side := Some correlation; away_side := Some correlation |}).

(** A stand-in for the integration: the sums over all the bins. *)
Definition integrate (h : Histogram1D) (low up : Q) : Q * Q :=
  (sum_list (y h), sum_list (errors_squared h)).

Definition start : State :=
  {| files := {| root_files := ∅; yaml_files := ∅ |}; log := []; self := fresh |}.

(** The bin after its projections have run, before any fit. *)
Definition projected : State :=
  snd (run_projections project_2d divide_2d plots setup_projectors project_1d
         compare_to_joel start).

(** The bin with subtracted histograms. *)
Definition subtracted : State :=
  {| files := files projected;
     log := log projected;
     self :=
       set_correlation_hists_delta_eta_subtracted
         {| near_side := Some correlation; away_side := Some correlation |}
         (set_correlation_hists_delta_phi_subtracted
            {| signal_dominated := Some correlation; background_dominated := None |}
            (self projected)) |}.

(** A manager with this one bin, told to compute every stage. *)
Definition manager : Manager :=
  {| manager_processing_options :=
       {[ "fit_correlations" := true; "subtract_correlations" := true;
          "extract_yields" := true; "extract_widths" := true ]};
     groups := [("jetPt_20_40_trackPt_1_2", [0%nat])] |}.

(** The manager after the projections, before any fit. *)
Definition before_fit : ManagerState :=
  {| m_files := files projected;
     m_log := log projected;
     analyses := [self projected];
     fit_objects := [] |}.

Definition subtracted_near_side_name : string :=
  "jetH_delta_eta_jetPt_20_40_trackPt_1_2_near_side_subtracted".

Definition subtracted_away_side_name : string :=
  "jetH_delta_eta_jetPt_20_40_trackPt_1_2_away_side_subtracted".

(** The persisted record named [name], if any. *)
Definition persisted (st : ManagerState) (name : string) : option Histogram1D :=
  match yaml_files (m_files st) !! "correlations.yaml" with
  | Some file => as_histogram (file !! name)
  | None => None
  end.

End Example.

(* ===================================================================== *)
(** * Vocabulary of the properties of the fit *)
(* ===================================================================== *)

Module FitProperties.

Import Fit.

(** The cost function that is stored for an observable, if any. *)
Definition stored_cost (fits : JetHEPFit.Fits) (jetPtBin trackPtBin : nat)
    (epAngle : ReactionPlaneOrientation) (correlationType : JetHEPFit.CorrelationType)
  : option JetHEPFit.CostFunction :=
  inner ← fits !! (jetPtBin, trackPtBin) ;
  inner !! (JetHEPFit.ReactionPlaneOrientation_str epAngle,
            JetHEPFit.CorrelationType_str correlationType).

(** The observables of the analysis objects, each with the orientation of
    its analysis object. *)
Definition observables (analyses : list JetHEPFit.JetHAnalysis)
  : list (ReactionPlaneOrientation * JetHEPFit.Observable) :=
  List.flat_map
    (fun jetH =>
       List.map (fun observable => (JetHEPFit.reaction_plane_orientation jetH, observable))
                (JetHEPFit.dPhiArray jetH ++ JetHEPFit.dPhiSideBandArray jetH))
    analyses.

(** One step of the loop of [CalculateRPFError] over the parameters of the
    fit: an entry ["fix_..."] that equals [True] removes the parameter it
    names from the arguments. *)
Definition drop_fixed (funcArgs : list string) (entry : string * JetHEPFit.FitArg)
  : list string :=
  let '(param, v) := entry in
  if PyStr.contains "fix_" param && JetHEPFit.equals_True v then
    match PyList.index funcArgs (PyStr.replace "fix_" EmptyString param) with
    | Some i => PyList.pop funcArgs i
    | None => funcArgs
    end
  else funcArgs.

End FitProperties.

(** A small fit: one bin with the signal dominated observable of the all
    angles analysis and the background dominated observables of the all
    angles and of the in-plane analysis. *)
Module FitExample.

Import Fit JetHEPFit.
Local Open Scope Q_scope.

Definition data : HistArray :=
  {| hist_x := [0; 1; 2; 3]; hist_array := [5; 6; 7; 8]; hist_errors := [1; 1; 1; 1] |}.

Definition observable (type : CorrelationType) : Observable :=
  {| correlationType := type; jetPtBin := 0; trackPtBin := 2; hist := data |}.

Definition analyses : list JetHAnalysis :=
  [ {| reaction_plane_orientation := all;
       dPhiArray := [observable signal_dominated];
       dPhiSideBandArray := [observable background_dominated] |};
    {| reaction_plane_orientation := in_plane;
       dPhiArray := [observable signal_dominated];
       dPhiSideBandArray := [observable background_dominated] |} ].

(** The all angles background is fitted, with the signal. *)
Definition all_angles_config : FitConfig :=
  {| includeSignalInFit := true;
     allAnglesSignal := true;
     allAnglesBackground := true;
     logLikelihoodTrackPtBins := ∅ |}.

(** A fit function of two parameters, its fit result with different values
    and the gradient that the fit function has there. *)
Definition describe : list string := ["x"; "BG"; "v3"].

Definition fit_result : FitContainer :=
  {| values := list_to_map [("BG", 2); ("v3", 1 # 20)];
     params := [("BG", ArgFloat 2); ("v3", ArgFloat (1 # 20)); ("v1", ArgFloat 0);
                ("fix_v1", ArgBool true)];
     covarianceMatrix :=
       list_to_map [(("BG", "BG"), 1 # 100); (("BG", "v3"), 1 # 1000);
                    (("v3", "BG"), 1 # 1000); (("v3", "v3"), 1 # 400)] |}.

Definition gradient (args : list (option Q)) : list Q := [0; 1; 4].

End FitExample.

(* ===================================================================== *)
(** * A mixed event that is too coarse to be normalized *)
(* ===================================================================== *)

Module MixedEventExample.

Local Open Scope Q_scope.

(** A mixed event with 18 delta phi bins only. *)
Definition coarse_mixed_event : ROOT.TH2 :=
  {| ROOT.h2_name := "mixed_event";
     ROOT.h2_xaxis := {| ROOT.fNbins := 18; ROOT.fXmin := - (3 # 2); ROOT.fXmax := 9 # 2 |};
     ROOT.h2_yaxis := {| ROOT.fNbins := 20; ROOT.fXmin := - 1; ROOT.fXmax := 1 |};
     ROOT.h2_content := fun _ _ => 10 |}.

End MixedEventExample.

(* ===================================================================== *)
(** * Vocabulary of the properties of the stored records *)
(* ===================================================================== *)

Module Persistence.

Import Histogram.
Import Correlations.

(** [reader] is an analysis object of the same bin with the same output
    files, as a later run constructs it from the same configuration. *)
Definition same_bin (writer reader : Correlations) : Prop :=
  identifier reader = identifier writer
  /\ output_filename reader = output_filename writer
  /\ output_filename_yaml reader = output_filename_yaml writer.

(** The state in which [reader] finds the files [fs]. *)
Definition reading (fs : Files) (log : list string) (reader : Correlations) : State :=
  {| files := fs; log := log; self := reader |}.

(** The YAML file of the analysis object as it is, empty if it does not
    exist. *)
Definition yaml_file (s : State) : gmap string YamlObject :=
  default ∅ (yaml_files (files s) !! output_filename_yaml (self s)).

(** The names under which the histograms of a bin are written to the ROOT
    file. *)
Definition root_names (c : Correlations) : list string :=
  [ name_2d c "raw"; name_2d c "mixed_event"; name_2d c "signal";
    name_number_of_triggers;
    name_1d c "delta_phi" "signal_dominated"; name_1d c "delta_phi" "background_dominated";
    name_1d c "delta_eta" "near_side"; name_1d c "delta_eta" "away_side" ].

(** The names under which the records of a bin are written to the YAML
    file. *)
Definition yaml_names (c : Correlations) : list string :=
  [ name_1d_subtracted c "delta_phi" "signal_dominated";
    name_1d_subtracted c "delta_phi" "background_dominated";
    name_1d_subtracted c "delta_eta" "near_side";
    name_1d_subtracted c "delta_eta" "away_side";
    String.append (identifier c) "_fit_objects_delta_eta";
    String.append (identifier c) "_yields_delta_phi";
    String.append (identifier c) "_yields_delta_eta";
    String.append (identifier c) "_widths_delta_phi";
    String.append (identifier c) "_widths_delta_eta" ].

(** The options of an object that is told to load its projections and not
    to plot them. *)
Definition loads_projections (reader : Correlations) : Prop :=
  processing_options reader !! "generate2DCorrelations" = Some false
  /\ processing_options reader !! "generate1DCorrelations" = Some false
  /\ processing_options reader !! "plot2DCorrelations" = Some false
  /\ processing_options reader !! "plotRPFHighlights" = Some false
  /\ processing_options reader !! "plot1DCorrelations" = Some false.

(** The ROOT file of the bin holds the histograms of the object [c] under
    their names. *)
Definition projections_stored (fs : Files) (c : Correlations) : Prop :=
  exists file,
    root_files fs !! output_filename c = Some file
    /\ as_TH2 (file !! name_2d c "raw") = raw (correlation_hists_2d c)
    /\ as_TH2 (file !! name_2d c "mixed_event") = mixed_event (correlation_hists_2d c)
    /\ as_TH2 (file !! name_2d c "signal") = signal (correlation_hists_2d c)
    /\ as_TH1 (file !! name_number_of_triggers)
       = number_of_triggers_hist (correlation_hists_2d c)
    /\ as_TH1 (file !! name_1d c "delta_phi" "signal_dominated")
       = signal_dominated (correlation_hists_delta_phi c)
    /\ as_TH1 (file !! name_1d c "delta_phi" "background_dominated")
       = background_dominated (correlation_hists_delta_phi c)
    /\ as_TH1 (file !! name_1d c "delta_eta" "near_side")
       = near_side (correlation_hists_delta_eta c)
    /\ as_TH1 (file !! name_1d c "delta_eta" "away_side")
       = away_side (correlation_hists_delta_eta c).

(** The histograms of two objects are the same: the three two dimensional
    correlations, the trigger spectrum and the four one dimensional
    correlations. *)
Definition same_projections (c c' : Correlations) : Prop :=
  raw (correlation_hists_2d c') = raw (correlation_hists_2d c)
  /\ mixed_event (correlation_hists_2d c') = mixed_event (correlation_hists_2d c)
  /\ signal (correlation_hists_2d c') = signal (correlation_hists_2d c)
  /\ number_of_triggers_hist (correlation_hists_2d c')
     = number_of_triggers_hist (correlation_hists_2d c)
  /\ correlation_hists_delta_phi c' = correlation_hists_delta_phi c
  /\ correlation_hists_delta_eta c' = correlation_hists_delta_eta c.

(** What reading a histogram back gives after a write: the written
    histogram or, as an object without a histogram is not written, whatever
    the file held under the name before. *)
Definition read_back (written : option Histogram1D) (before : gmap string YamlObject)
    (name : string) : option Histogram1D :=
  match written with
  | Some h => Some h
  | None => as_histogram (before !! name)
  end.

(** The value and the error with which a width fit is seeded. *)
Definition width_seed (w : ExtractedWidth) : result UserArgument * result UserArgument :=
  (Dict.get (user_arguments (fit_obj w)) "width",
   Dict.get (user_arguments (fit_obj w)) "error_width").

End Persistence.

(** The example bin with the component of a reaction plane fit: a flat
    background 1 with the error 1/2, and the widths of both peaks. *)
Module FittedExample.

Import Histogram.
Import Correlations.
Local Open Scope Q_scope.

Definition component : FitComponent :=
  {| evaluate_background := List.map (fun _ => 1);
     calculate_background_function_errors := List.map (fun _ => 1 # 2);
     values_at_minimum := {[ "ns_sigma" := 1 # 4; "as_sigma" := 1 # 2 ]};
     errors_on_parameters := {[ "ns_sigma" := 1 # 100; "as_sigma" := 1 # 50 ]} |}.

Definition fitted : State :=
  {| files := files Example.projected;
     log := log Example.projected;
     self := set_fit_object (Some component) (self Example.projected) |}.

End FittedExample.

(** A later run of the example bin that is told to load its projections. *)
Module LoadExample.

Import Correlations.

Definition config : TaskConfig :=
  {| deltaEtaRanges_signalDominated := deltaEtaRanges_signalDominated Example.config;
     deltaEtaRanges_backgroundDominated := deltaEtaRanges_backgroundDominated Example.config;
     deltaPhiRanges_nearSide := deltaPhiRanges_nearSide Example.config;
     deltaPhiRanges_awaySide := deltaPhiRanges_awaySide Example.config;
     delta_phi_yield_limit := delta_phi_yield_limit Example.config;
     delta_eta_yield_limit := delta_eta_yield_limit Example.config;
     processingOptions :=
       {[ "generate2DCorrelations" := false; "generate1DCorrelations" := false;
          "plot2DCorrelations" := false; "plotRPFHighlights" := false;
          "plot1DCorrelations" := false ]} |}.

Definition reader : Correlations :=
  Correlations.init Example.jet_pt_bin Example.track_pt_bin inclusive two_seven_six
    EventActivity.central false "correlations" config.

End LoadExample.

(* ===================================================================== *)
(** * Vocabulary of the properties of the stages of the manager *)
(* ===================================================================== *)

Module StageOrder.

Import Correlations.
Import CorrelationsManager.

(** Every analysis object of the state satisfies [P]. *)
Definition every_analysis (P : Correlations -> bool) (st : ManagerState) : Prop :=
  forall (i : nat) (a : Correlations), analyses st !! i = Some a -> P a = true.

(** Every member of the groups [gs] is an analysis object of the state and
    satisfies [P]. *)
Definition every_member (gs : list (string * list nat)) (P : Correlations -> bool)
    (st : ManagerState) : Prop :=
  forall (key : string) (members : list nat) (i : nat),
    List.In (key, members) gs -> List.In i members ->
    exists a, analyses st !! i = Some a /\ P a = true.

(** Every analysis object of [before] is still there in [after] and
    satisfies [P]. *)
Definition every_analysis_then (P : Correlations -> bool) (before after : ManagerState)
  : Prop :=
  forall (i : nat) (a : Correlations),
    analyses before !! i = Some a ->
    exists a', analyses after !! i = Some a' /\ P a' = true.

(** A step of the manager that changes no analysis object but the one at
    position [i]. *)
Definition touches_only {A : Type} (i : nat) (step : MM A) : Prop :=
  forall (st : ManagerState) (k : nat),
    k <> i -> analyses (snd (step st)) !! k = analyses st !! k.

(** A step of the manager that leaves the flag [flag] of every analysis
    object as it is. *)
Definition keeps_flag {A : Type} (flag : Correlations -> bool) (step : MM A) : Prop :=
  forall st : ManagerState,
    List.map flag (analyses (snd (step st))) = List.map flag (analyses st).

(** A method that leaves the three stage flags of its object as they are. *)
Definition leaves_flags {A : Type} (method : Correlations.M A) : Prop :=
  forall s : State, flags (self (snd (method s))) = flags (self s).

(** A method that leaves the flag [flag] of its object as it is. *)
Definition leaves_flag {A : Type} (flag : Correlations -> bool) (method : Correlations.M A)
  : Prop :=
  forall s : State, flag (self (snd (method s))) = flag (self s).

(** The flags after the projection stage: the projection flag is set when
    the stage returned, and nothing else changes. *)
Definition flags_after_projections (returned : bool) (before : StageFlags) : StageFlags :=
  if returned then
    {| flag_ran_projections := true;
       flag_ran_fitting := flag_ran_fitting before;
       flag_ran_post_fit_processing := flag_ran_post_fit_processing before |}
  else before.

(** The groups that the delta phi subtraction reaches: as many as there are
    stored reaction plane fits. *)
Definition reached_groups (manager : Manager) (st : ManagerState)
  : list (string * list nat) :=
  List.firstn (List.length (fit_objects st)) (groups manager).

End StageOrder.

(** A run of the manager over the example bin, with collaborators that
    return fixed results. *)
Module ManagerExample.

Import Histogram.
Import Correlations.
Import CorrelationsManager.
Local Open Scope Q_scope.

Definition reaction_plane_fit (_ _ : list (string * option Histogram1D))
  : result (bool * ReactionPlaneFit) :=
  Ok (true, {| components := [("inclusive", FittedExample.component)] |}).

Definition read_fit_results (_ : string) : result ReactionPlaneFit :=
  Ok {| components := [("inclusive", FittedExample.component)] |}.

Definition fit_pedestal (_ : Histogram1D) (_ : SelectedRange) : result (Q * Q) :=
  Ok (1, 1 # 10).

Definition fit_widths (_ : FitPedestalWithExtendedGaussian) (_ : Histogram1D)
  : result WidthFitResult :=
  Ok {| width := 1 # 4; width_error := 1 # 100 |}.

(** The manager before its first stage. *)
Definition start : ManagerState :=
  {| m_files := files Example.start;
     m_log := [];
     analyses := [Example.fresh];
     fit_objects := [] |}.

(** After the reaction plane fit. *)
Definition fitted : ManagerState :=
  snd (_reaction_plane_fit reaction_plane_fit read_fit_results Example.manager
         Example.before_fit).

(** After the subtraction of the fits. *)
Definition subtracted : ManagerState :=
  snd (subtract_fits Example.manager fitted).

End ManagerExample.

(* ===================================================================== *)
(** * The mixed-event normalization *)
(* ===================================================================== *)

Section MixedEventProofs.

Import MixedEventSpec.
Import CorrelationsHelpers.
Local Open Scope Q_scope.

Lemma sum_list_app l1 l2 : sum_list (l1 ++ l2) == sum_list l1 + sum_list l2.
Proof.
  induction l1 as [|x l1 IH]; simpl.
  - ring.
  - rewrite IH. ring.
Qed.

Lemma accumulate_sum f : forall n b acc,
  ROOT.accumulate f b n acc == acc + sum_list (List.map f (bin_range b (b + Z.of_nat n - 1))).
Proof.
  unfold bin_range.
  induction n as [|n IH]; intros b acc.
  - replace (b + Z.of_nat 0 - 1 - b + 1)%Z with 0%Z by lia. simpl. ring.
  - replace (b + Z.of_nat (S n) - 1 - b + 1)%Z with (Z.of_nat (S n)) by lia.
    rewrite Nat2Z.id. cbn [ROOT.accumulate List.seq List.map sum_list List.fold_right].
    rewrite IH.
    replace (b + 1 + Z.of_nat n - 1 - (b + 1) + 1)%Z with (Z.of_nat n) by lia.
    rewrite Nat2Z.id.
    rewrite <- List.seq_shift, List.map_map.
    replace (b + Z.of_nat 0)%Z with b by lia.
    assert (E : List.map (fun x => f (b + 1 + Z.of_nat x)%Z) (List.seq 0 n)
              = List.map f (List.map (fun k => (b + Z.of_nat k)%Z) (List.map S (List.seq 0 n)))).
    { rewrite !List.map_map. apply List.map_ext. intros a. f_equal. lia. }
    rewrite E. rewrite List.map_map. fold (sum_list). 
    rewrite !List.map_map. unfold sum_list. ring.
Qed.

Lemma cumsum_from_length : forall arr acc, List.length (Pachyderm.cumsum_from acc arr) = List.length arr.
Proof. induction arr as [|x arr IH]; intros acc; simpl; [reflexivity | now rewrite IH]. Qed.

Lemma cumsum_from_nth : forall arr acc i,
  (i < List.length arr)%nat ->
  List.nth i (Pachyderm.cumsum_from acc arr) 0 == acc + sum_list (List.firstn (S i) arr).
Proof.
  induction arr as [|x arr IH]; intros acc i Hi; simpl in Hi; [lia|].
  destruct i as [|i].
  - simpl. destruct arr; simpl; ring.
  - cbn [Pachyderm.cumsum_from List.nth]. rewrite IH by lia.
    change (List.firstn (S (S i)) (x :: arr)) with (x :: List.firstn (S i) arr).
    unfold sum_list. cbn [List.fold_right]. ring.
Qed.

Lemma sum_list_firstn_skipn : forall (arr : list Q) j n,
  sum_list (List.firstn (j + n) arr)
  == sum_list (List.firstn j arr) + sum_list (List.firstn n (List.skipn j arr)).
Proof.
  intros arr j; revert arr.
  induction j as [|j IH]; intros arr n.
  - change (List.firstn 0 arr) with (@nil Q). change (List.skipn 0 arr) with arr.
    change (0 + n)%nat with n. unfold sum_list at 2. cbn [List.fold_right]. ring.
  - destruct arr as [|x arr].
    + change (List.skipn (S j) (@nil Q)) with (@nil Q). rewrite !List.firstn_nil.
      unfold sum_list. cbn [List.fold_right]. ring.
    + change (List.firstn (S j + n) (x :: arr)) with (x :: List.firstn (j + n) arr).
      change (List.firstn (S j) (x :: arr)) with (x :: List.firstn j arr).
      change (List.skipn (S j) (x :: arr)) with (List.skipn j arr).
      change (sum_list (x :: List.firstn (j + n) arr)) with (x + sum_list (List.firstn (j + n) arr)).
      change (sum_list (x :: List.firstn j arr)) with (x + sum_list (List.firstn j arr)).
      rewrite IH. ring.
Qed.

Lemma nth_map_sub_combine : forall (A B : list Q) k,
  (k < List.length A)%nat -> (k < List.length B)%nat ->
  List.nth k (List.map (fun p => fst p - snd p) (List.combine A B)) 0
  = List.nth k A 0 - List.nth k B 0.
Proof.
  induction A as [|a A IH]; intros B k HA HB; simpl in HA; [lia|].
  destruct B as [|b B]; simpl in HB; [lia|].
  destruct k as [|k]; simpl; [reflexivity|].
  apply IH; lia.
Qed.

Lemma moving_average_length arr n :
  (0 < n)%nat ->
  List.length (Pachyderm.moving_average arr n) = (List.length arr + 1 - n)%nat.
Proof.
  intros Hn. unfold Pachyderm.moving_average, Pachyderm.cumsum.
  rewrite List.length_map, List.length_skipn, List.length_app, List.length_map,
    List.length_combine, !List.length_firstn, List.length_skipn, cumsum_from_length.
  lia.
Qed.

Lemma moving_average_nth arr n j :
  (0 < n)%nat -> (j < List.length arr + 1 - n)%nat ->
  List.nth j (Pachyderm.moving_average arr n) 0 == window_mean arr n j.
Proof.
  intros Hn Hj. unfold Pachyderm.moving_average, Pachyderm.cumsum, window_mean.
  set (cs := Pachyderm.cumsum_from 0 arr).
  assert (Hlen : List.length cs = List.length arr) by apply cumsum_from_length.
  set (L := List.firstn n cs ++ _).
  assert (HL : List.nth (n - 1 + j) L 0
               == sum_list (List.firstn n (List.skipn j arr))).
  { subst L. destruct j as [|j].
    - rewrite List.app_nth1 by (rewrite List.length_firstn; lia).
      replace (n - 1 + 0)%nat with (n - 1)%nat by lia.
      rewrite List.nth_firstn.
      destruct (Nat.ltb_spec (n - 1) n) as [_|]; [|lia].
      subst cs. rewrite cumsum_from_nth by lia.
      replace (S (n - 1)) with n by lia. change (List.skipn 0 arr) with arr. ring.
    - rewrite List.app_nth2 by (rewrite List.length_firstn; lia).
      rewrite List.length_firstn.
      replace (n - 1 + S j - Nat.min n (List.length cs))%nat with j by lia.
      rewrite nth_map_sub_combine
        by (rewrite ?List.length_skipn, ?List.length_firstn; lia).
      rewrite List.nth_skipn, List.nth_firstn.
      destruct (Nat.ltb_spec j (List.length cs - n)) as [_|]; [|lia].
      subst cs. rewrite !cumsum_from_nth by lia.
      replace (S (n + j)) with (S j + n)%nat by lia.
      rewrite sum_list_firstn_skipn. ring. }
  rewrite <- HL.
  assert (E : forall d, List.nth j (List.map (fun r => r / inject_Z (Z.of_nat n)) (List.skipn (n - 1) L)) d
              = List.nth (n - 1 + j) L 0 / inject_Z (Z.of_nat n)).
  { intros d. rewrite <- List.nth_skipn.
    rewrite (List.nth_indep _ d (0 / inject_Z (Z.of_nat n))).
    - apply (List.map_nth (fun r => r / inject_Z (Z.of_nat n))).
    - rewrite List.length_map, List.length_skipn. subst L.
      rewrite List.length_app, List.length_map, List.length_combine, !List.length_firstn,
        List.length_skipn. lia. }
  rewrite E. reflexivity.
Qed.

Lemma max_from_ge_current : forall rest current, current <= max_from current rest.
Proof.
  induction rest as [|x rest IH]; intros current; simpl.
  - apply Qle_refl.
  - destruct (Qlt_le_dec current x) as [Hlt|Hle].
    + apply Qle_trans with x; [apply Qlt_le_weak, Hlt | apply IH].
    + apply IH.
Qed.

Lemma max_from_upper_bound : forall rest current x,
  List.In x (current :: rest) -> x <= max_from current rest.
Proof.
  induction rest as [|y rest IH]; intros current x Hin.
  - destruct Hin as [<-|[]]. apply Qle_refl.
  - simpl. destruct Hin as [<-|Hin].
    + apply (max_from_ge_current (y :: rest)).
    + destruct (Qlt_le_dec current y) as [Hlt|Hle].
      * apply IH. exact Hin.
      * destruct Hin as [<-|Hin].
        -- apply Qle_trans with current; [exact Hle | apply max_from_ge_current].
        -- apply IH. right. exact Hin.
Qed.

Lemma max_from_In : forall rest current, List.In (max_from current rest) (current :: rest).
Proof.
  induction rest as [|y rest IH]; intros current; simpl.
  - left. reflexivity.
  - destruct (Qlt_le_dec current y).
    + right. apply IH.
    + destruct (IH current) as [H|H]; [left; exact H | right; right; exact H].
Qed.

Lemma FindBin_range a x : (0 <= ROOT.FindBin a x <= ROOT.GetNbins a + 1)%Z.
Proof.
  unfold ROOT.FindBin, ROOT.GetNbins.
  destruct (Qlt_le_dec x (ROOT.fXmin a)) as [H1|H1]; [lia|].
  destruct (Qlt_le_dec x (ROOT.fXmax a)) as [H2|H2]; [|lia].
  set (t := inject_Z (Z.pos (ROOT.fNbins a)) * (x - ROOT.fXmin a) / (ROOT.fXmax a - ROOT.fXmin a)).
  assert (Hd : 0 < ROOT.fXmax a - ROOT.fXmin a).
  { apply -> Qlt_minus_iff. apply Qle_lt_trans with x; assumption. }
  assert (Ht0 : 0 <= t).
  { unfold t. apply Qle_shift_div_l; [exact Hd|]. rewrite Qmult_0_l.
    apply Qmult_le_0_compat; [discriminate | apply -> Qle_minus_iff; exact H1]. }
  assert (Htn : t < inject_Z (Z.pos (ROOT.fNbins a))).
  { unfold t. apply Qlt_shift_div_r; [exact Hd|].
    apply Qmult_lt_l; [reflexivity|].
    apply Qplus_lt_le_compat; [exact H2 | apply Qle_refl]. }
  assert (F0 : (0 <= Qfloor t)%Z) by (apply (Qfloor_resp_le 0 t Ht0)).
  assert (Fn : (Qfloor t < Z.pos (ROOT.fNbins a))%Z).
  { rewrite Zlt_Qlt. apply Qle_lt_trans with t; [apply Qfloor_le | exact Htn]. }
  lia.
Qed.

Lemma FindBin_monotone a x y : x <= y -> (ROOT.FindBin a x <= ROOT.FindBin a y)%Z.
Proof.
  intros Hxy.
  pose proof (FindBin_range a x) as Rx. pose proof (FindBin_range a y) as Ry.
  unfold ROOT.FindBin in *.
  destruct (Qlt_le_dec x (ROOT.fXmin a)) as [X1|X1]; [lia|].
  destruct (Qlt_le_dec y (ROOT.fXmin a)) as [Y1|Y1].
  { exfalso. apply (Qlt_irrefl y). apply Qlt_le_trans with (ROOT.fXmin a); [exact Y1|].
    apply Qle_trans with x; assumption. }
  destruct (Qlt_le_dec x (ROOT.fXmax a)) as [X2|X2];
    destruct (Qlt_le_dec y (ROOT.fXmax a)) as [Y2|Y2]; try lia.
  - apply Zplus_le_compat_l. apply Qfloor_resp_le.
    assert (Hd : 0 < ROOT.fXmax a - ROOT.fXmin a).
    { apply -> Qlt_minus_iff. apply Qle_lt_trans with x; assumption. }
    unfold Qdiv. apply Qmult_le_compat_r.
    + apply Qmult_le_l; [reflexivity|].
      apply Qplus_le_compat; [exact Hxy | apply Qle_refl].
    + apply Qinv_le_0_compat, Qlt_le_weak, Hd.
  - exfalso. apply (Qlt_irrefl y). apply Qlt_le_trans with (ROOT.fXmax a); [exact Y2|].
    apply Qle_trans with x; assumption.
Qed.

Lemma window_width_eq mixed_event eta_limits :
  window_width mixed_event eta_limits
  == inject_Z (snd (eta_window_bins mixed_event eta_limits)
               - fst (eta_window_bins mixed_event eta_limits) + 1)
     * ROOT.GetBinWidth (ROOT.h2_yaxis mixed_event) 1.
Proof.
  unfold window_width. destruct (eta_window_bins mixed_event eta_limits) as [first last].
  unfold ROOT.GetBinUpEdge, ROOT.GetBinLowEdge, ROOT.GetBinWidth. cbn [fst snd].
  unfold Z.sub. rewrite !inject_Z_plus, !inject_Z_opp.
  change (inject_Z 1) with 1. ring.
Qed.

Lemma GetBinWidth_pos a bin : ROOT.fXmin a < ROOT.fXmax a -> 0 < ROOT.GetBinWidth a bin.
Proof.
  intros H. unfold ROOT.GetBinWidth. apply Qlt_shift_div_l; [reflexivity|].
  rewrite Qmult_0_l. apply -> Qlt_minus_iff. exact H.
Qed.

Lemma window_width_pos mixed_event eta_limits :
  ROOT.fXmin (ROOT.h2_yaxis mixed_event) < ROOT.fXmax (ROOT.h2_yaxis mixed_event) ->
  fst eta_limits + epsilon <= snd eta_limits - epsilon ->
  0 < window_width mixed_event eta_limits.
Proof.
  intros Hy Hwin. rewrite window_width_eq.
  apply Qmult_lt_0_compat; [|apply GetBinWidth_pos, Hy].
  unfold eta_window_bins. cbn [fst snd].
  pose proof (FindBin_monotone (ROOT.h2_yaxis mixed_event) _ _ Hwin) as Hm.
  change 0 with (inject_Z 0). rewrite <- Zlt_Qlt. lia.
Qed.

Lemma Forall2_Qeq_map_pointwise (A : Type) (f g : A -> Q) (l : list A) :
  (forall a, List.In a l -> f a == g a) -> List.Forall2 Qeq (List.map f l) (List.map g l).
Proof.
  induction l as [|a l IH]; intros H; simpl; constructor.
  - apply H. left. reflexivity.
  - apply IH. intros b Hb. apply H. right. exact Hb.
Qed.

Lemma Forall2_Qeq_nth (l l' : list Q) :
  List.length l = List.length l' ->
  (forall i, (i < List.length l)%nat -> List.nth i l 0 == List.nth i l' 0) ->
  List.Forall2 Qeq l l'.
Proof.
  revert l'. induction l as [|x l IH]; intros [|x' l'] Hlen H; simpl in Hlen; try discriminate.
  - constructor.
  - constructor.
    + apply (H 0%nat). simpl. lia.
    + apply IH; [lia|]. intros i Hi. apply (H (S i)). simpl. lia.
Qed.

Lemma sum_list_Forall2 (l l' : list Q) :
  List.Forall2 Qeq l l' -> sum_list l == sum_list l'.
Proof.
  induction 1 as [|x x' l l' Hx _ IH].
  - reflexivity.
  - change (x + sum_list l == x' + sum_list l'). rewrite Hx, IH. reflexivity.
Qed.

Lemma Forall2_In_l (A B : Type) (P : A -> B -> Prop) (l : list A) (l' : list B) (x : A) :
  List.Forall2 P l l' -> List.In x l -> exists y, List.In y l' /\ P x y.
Proof.
  induction 1 as [|a b l l' Hab _ IH]; intros Hin; [destruct Hin|].
  destruct Hin as [<-|Hin].
  - exists b. split; [left; reflexivity | exact Hab].
  - destruct (IH Hin) as (y & Hy & Pxy). exists y. split; [right; exact Hy | exact Pxy].
Qed.

Lemma Forall2_In_r (A B : Type) (P : A -> B -> Prop) (l : list A) (l' : list B) (y : B) :
  List.Forall2 P l l' -> List.In y l' -> exists x, List.In x l /\ P x y.
Proof.
  induction 1 as [|a b l l' Hab _ IH]; intros Hin; [destruct Hin|].
  destruct Hin as [<-|Hin].
  - exists a. split; [left; reflexivity | exact Hab].
  - destruct (IH Hin) as (x & Hx & Pxy). exists x. split; [right; exact Hx | exact Pxy].
Qed.

Lemma Forall2_Qeq_trans (l1 l2 l3 : list Q) :
  List.Forall2 Qeq l1 l2 -> List.Forall2 Qeq l2 l3 -> List.Forall2 Qeq l1 l3.
Proof.
  intros H. revert l3. induction H as [|x y l1 l2 Hxy _ IH]; intros l3 H23.
  - inversion H23. constructor.
  - inversion H23 as [|? z ? l3' Hyz H23' ]; subst. constructor.
    + rewrite Hxy. exact Hyz.
    + apply IH, H23'.
Qed.

Lemma window_means_Forall2 (arr arr' : list Q) (n : nat) :
  List.Forall2 Qeq arr arr' ->
  List.Forall2 Qeq (window_means arr n) (window_means arr' n).
Proof.
  intros H. unfold window_means. rewrite <- (Forall2_length _ _ _ H).
  apply Forall2_Qeq_map_pointwise. intros j _. unfold window_mean.
  rewrite (sum_list_Forall2 (List.firstn n (List.skipn j arr)) (List.firstn n (List.skipn j arr'))).
  - reflexivity.
  - apply Forall2_take, Forall2_drop, H.
Qed.

Lemma moving_average_window_means (arr : list Q) (n : nat) :
  (0 < n)%nat ->
  List.Forall2 Qeq (Pachyderm.moving_average arr n) (window_means arr n).
Proof.
  intros Hn. apply Forall2_Qeq_nth.
  - rewrite moving_average_length by exact Hn. unfold window_means.
    rewrite List.length_map, List.length_seq. reflexivity.
  - intros j Hj. rewrite moving_average_length in Hj by exact Hn.
    rewrite moving_average_nth by assumption.
    unfold window_means.
    rewrite (List.nth_indep _ 0 (window_mean arr n 0))
      by (rewrite List.length_map, List.length_seq; exact Hj).
    rewrite List.map_nth, List.seq_nth by exact Hj. reflexivity.
Qed.

Lemma is_maximum_transfer (l l' : list Q) (m : Q) :
  List.Forall2 Qeq l l' -> List.In m l -> (forall x, List.In x l -> x <= m) ->
  is_maximum m l'.
Proof.
  intros H Hin Hub. split.
  - destruct (Forall2_In_l _ _ _ _ _ _ H Hin) as (y & Hy & E).
    exists y. split; [exact Hy | symmetry; exact E].
  - intros y Hy. destruct (Forall2_In_r _ _ _ _ _ _ H Hy) as (x & Hx & E).
    rewrite <- E. apply Hub, Hx.
Qed.

Lemma accumulate_bin_range f first last :
  ROOT.accumulate f first (Z.to_nat (last - first + 1)) 0
  == sum_list (List.map f (bin_range first last)).
Proof.
  rewrite accumulate_sum. unfold bin_range.
  replace (first + Z.of_nat (Z.to_nat (last - first + 1)) - 1 - first + 1)%Z
    with (Z.of_nat (Z.to_nat (last - first + 1))) by lia.
  rewrite Nat2Z.id. ring.
Qed.

Lemma peak_finding_array_spec mixed_event eta_limits name :
  let yaxis := ROOT.h2_yaxis mixed_event in
  let first := ROOT.FindBin yaxis (fst eta_limits + epsilon) in
  let last := ROOT.FindBin yaxis (snd eta_limits - epsilon) in
  List.Forall2 Qeq
    (Pachyderm.Histogram1D_y
       (ROOT.Scale (ROOT.ProjectionX mixed_event name first last)
          (ROOT.GetBinWidth yaxis 1
           / (ROOT.GetBinUpEdge yaxis last - ROOT.GetBinLowEdge yaxis first))))
    (scaled_projection mixed_event eta_limits).
Proof.
  intros yaxis first last.
  unfold scaled_projection, window_width, eta_window_bins, Pachyderm.Histogram1D_y.
  fold yaxis. fold first. fold last.
  cbn [ROOT.Scale ROOT.ProjectionX ROOT.h1_xaxis ROOT.h1_content].
  apply Forall2_Qeq_map_pointwise. intros binx _.
  pose proof (FindBin_range yaxis (fst eta_limits + epsilon)) as R1.
  pose proof (FindBin_range yaxis (snd eta_limits - epsilon)) as R2.
  fold first in R1. fold last in R2. fold yaxis.
  destruct (Z.ltb_spec first 0) as [?|_]; [lia|].
  destruct (Z.ltb_spec last 0) as [?|_]; [lia|].
  destruct (Z.gtb_spec last (ROOT.GetNbins yaxis + 1)) as [?|_]; [lia|].
  rewrite accumulate_bin_range. reflexivity.
Qed.

(** C1.  For a mixed event histogram whose delta eta axis is not empty,
    an eta window that selects at least one bin, and at least 36 delta phi
    bins, [measure_mixed_event_normalization] returns: with the projection
    onto delta phi within the eta window, scaled by the ratio of one delta eta
    bin width to the width of the projected window, and [m] the maximum of
    its moving average over 36 bins, the result is [m], unless [m] is zero,
    in which case a warning is logged and the result is 1.  The result is
    never zero. *)
Theorem measure_mixed_event_normalization_spec
    (mixed_event : ROOT.TH2) (eta_limits : Q * Q) :
  ROOT.fXmin (ROOT.h2_yaxis mixed_event) < ROOT.fXmax (ROOT.h2_yaxis mixed_event) ->
  fst eta_limits + epsilon <= snd eta_limits - epsilon ->
  (36 <= Pos.to_nat (ROOT.fNbins (ROOT.h2_xaxis mixed_event)))%nat ->
  exists (m norm : Q) (log : list log_record),
    is_maximum m (window_means (scaled_projection mixed_event eta_limits) 36)
    /\ measure_mixed_event_normalization mixed_event eta_limits = Ok (norm, log)
    /\ ((m == 0 /\ norm = 1
         /\ List.In (WarningCouldNotNormalize (ROOT.h2_name mixed_event)) log)
        \/ (~ m == 0 /\ norm = m
            /\ ~ List.In (WarningCouldNotNormalize (ROOT.h2_name mixed_event)) log))
    /\ ~ norm == 0.
Proof.
  intros Hy Hwin Hx.
  pose proof (window_width_pos mixed_event eta_limits Hy Hwin) as Hpos.
  unfold measure_mixed_event_normalization, _peak_finding_objects_from_mixed_event.
  cbn [fst snd].
  set (yaxis := ROOT.h2_yaxis mixed_event) in *.
  set (first := ROOT.FindBin yaxis (fst eta_limits + epsilon)).
  set (last := ROOT.FindBin yaxis (snd eta_limits - epsilon)).
  assert (Hw : window_width mixed_event eta_limits
               = ROOT.GetBinUpEdge yaxis last - ROOT.GetBinLowEdge yaxis first) by reflexivity.
  rewrite <- Hw.
  destruct (Qeq_bool (window_width mixed_event eta_limits) 0) eqn:Ez.
  { apply Qeq_bool_eq in Ez. rewrite Ez in Hpos. discriminate Hpos. }
  cbn [bind].
  set (arr := Pachyderm.Histogram1D_y _).
  assert (Harr : List.Forall2 Qeq arr (scaled_projection mixed_event eta_limits)).
  { subst arr. rewrite Hw. apply peak_finding_array_spec. }
  assert (Hlen : List.length arr = Pos.to_nat (ROOT.fNbins (ROOT.h2_xaxis mixed_event))).
  { subst arr. unfold Pachyderm.Histogram1D_y. rewrite List.length_map, List.length_seq.
    reflexivity. }
  pose proof (moving_average_window_means arr 36 ltac:(lia)) as Hma.
  pose proof (moving_average_length arr 36 ltac:(lia)) as Hmalen.
  destruct (Pachyderm.moving_average arr 36) as [|a0 rest] eqn:Ema.
  { simpl in Hmalen. lia. }
  cbn [py_max bind].
  set (m := max_from a0 rest).
  assert (Hmax : is_maximum m (window_means (scaled_projection mixed_event eta_limits) 36)).
  { apply is_maximum_transfer with (l := a0 :: rest).
    - apply Forall2_Qeq_trans with (l2 := window_means arr 36);
        [exact Hma | apply window_means_Forall2, Harr].
    - apply max_from_In.
    - intros x Hin. apply max_from_upper_bound, Hin. }
  rewrite negb_involutive.
  destruct (Qeq_bool m 0) eqn:Em.
  - exists m, 1, ([InfoScaleFactor (ROOT.GetBinWidth yaxis 1 / window_width mixed_event eta_limits)]
                  ++ [WarningCouldNotNormalize (ROOT.h2_name mixed_event)]).
    split; [exact Hmax|]. split; [reflexivity|]. split.
    + left. split; [apply Qeq_bool_eq, Em|]. split; [reflexivity|].
      apply List.in_or_app. right. left. reflexivity.
    + discriminate.
  - exists m, m, [InfoScaleFactor (ROOT.GetBinWidth yaxis 1 / window_width mixed_event eta_limits)].
    apply Qeq_bool_neq in Em.
    split; [exact Hmax|]. split; [reflexivity|]. split.
    + right. split; [exact Em|]. split; [reflexivity|].
      intros [H|[]]. discriminate H.
    + exact Em.
Qed.

(** Whatever the input, a returned normalization is not zero. *)
Lemma measure_mixed_event_normalization_never_zero mixed_event eta_limits norm log :
  measure_mixed_event_normalization mixed_event eta_limits = Ok (norm, log) ->
  ~ norm == 0.
Proof.
  unfold measure_mixed_event_normalization.
  destruct (_peak_finding_objects_from_mixed_event mixed_event eta_limits)
    as [[[hist arr] l]|e]; cbn [bind]; [|discriminate].
  destruct (py_max (Pachyderm.moving_average arr 36)) as [m|e]; cbn [bind]; [|discriminate].
  rewrite negb_involutive. destruct (Qeq_bool m 0) eqn:Em; intros [= <- <-].
  - discriminate.
  - apply Qeq_bool_neq, Em.
Qed.

(** With fewer than 36 delta phi bins the moving average is empty and
    [max] raises. *)
Lemma measure_mixed_event_normalization_short_histogram mixed_event eta_limits :
  (Pos.to_nat (ROOT.fNbins (ROOT.h2_xaxis mixed_event)) < 36)%nat ->
  is_ok (measure_mixed_event_normalization mixed_event eta_limits) = false.
Proof.
  intros Hx. unfold measure_mixed_event_normalization, _peak_finding_objects_from_mixed_event.
  destruct (Qeq_bool _ 0); [reflexivity|]. cbn [bind].
  set (arr := Pachyderm.Histogram1D_y _).
  assert (Hlen : List.length arr = Pos.to_nat (ROOT.fNbins (ROOT.h2_xaxis mixed_event))).
  { subst arr. unfold Pachyderm.Histogram1D_y. rewrite List.length_map, List.length_seq.
    reflexivity. }
  pose proof (moving_average_length arr 36 ltac:(lia)) as Hmalen.
  destruct (Pachyderm.moving_average arr 36) as [|a0 rest]; [reflexivity|].
  simpl in Hmalen. lia.
Qed.

End MixedEventProofs.

(* ===================================================================== *)
(** * Properties of the background functions and of the cost functions *)
(* ===================================================================== *)

(** C5.  For the inclusive (all angles) orientation the background fit
    function is the plain Fourier series
    [BG (1 + 2 v1 cos x + 2 v2_t v2_a cos 2x + 2 v3 cos 3x + 2 v4_t v4_a cos 4x)],
    and at [v1 = v3 = 0] it equals
    [BG (1 + 2 v2_t v2_a cos 2x + 2 v4_t v4_a cos 4x)], with the same
    pedestal [BG]. *)
Theorem inclusive_background_is_plain_fourier
    (resolution : Fit.ResolutionParameters) (x BG v2_t v2_a v4_t v4_a : R) :
  Fit.GetBackgroundDominatedFitFunction Fit.all resolution = Fit.Fourier
  /\ (forall v1 v3 : R,
        Fit.GetBackgroundDominatedFitFunction Fit.all resolution x BG v2_t v2_a v4_t v4_a v1 v3
        = (BG * (1 + 2 * v1 * cos x + 2 * v2_t * v2_a * cos (2 * x)
                 + 2 * v3 * cos (3 * x) + 2 * v4_t * v4_a * cos (4 * x)))%R)
  /\ Fit.GetBackgroundDominatedFitFunction Fit.all resolution x BG v2_t v2_a v4_t v4_a 0%R 0%R
     = (BG * (1 + 2 * v2_t * v2_a * cos (2 * x) + 2 * v4_t * v4_a * cos (4 * x)))%R.
Proof.
  split; [reflexivity|]. split; [intros; reflexivity|].
  cbn [Fit.GetBackgroundDominatedFitFunction]. unfold Fit.Fourier. ring.
Qed.

(** C6.  The cost function of a background dominated observable is given
    only the first half of the data: [x], [y] and the errors are cut to the
    indices below [len(x) / 2] (rounded down), whichever cost function is
    chosen; the cost function of a signal dominated observable is given the
    full arrays. *)
Theorem background_dominated_cost_uses_first_half
    (cfg : JetHEPFit.FitConfig) (epAngle : Fit.ReactionPlaneOrientation)
    (jetPtBin trackPtBin : nat) (h : JetHEPFit.HistArray) :
  let NSrange := (List.length (JetHEPFit.hist_x h) / 2)%nat in
  let observable type :=
    {| JetHEPFit.correlationType := type;
       JetHEPFit.jetPtBin := jetPtBin;
       JetHEPFit.trackPtBin := trackPtBin;
       JetHEPFit.hist := h |} in
  (exists cost,
      JetHEPFit.define_cost_function cfg epAngle (observable JetHEPFit.background_dominated)
      = Ok cost
      /\ JetHEPFit.cost_x cost = List.firstn NSrange (JetHEPFit.hist_x h)
      /\ (forall i, List.nth_error (JetHEPFit.cost_x cost) i
                    = if (i <? NSrange)%nat then List.nth_error (JetHEPFit.hist_x h) i
                      else None)
      /\ (forall y errors, JetHEPFit.cost_y_errors cost = Some (y, errors) ->
            y = List.firstn NSrange (JetHEPFit.hist_array h)
            /\ errors = List.firstn NSrange (JetHEPFit.hist_errors h)))
  /\ (exists cost,
        JetHEPFit.define_cost_function cfg epAngle (observable JetHEPFit.signal_dominated)
        = Ok cost
        /\ JetHEPFit.cost_x cost = JetHEPFit.hist_x h
        /\ (forall y errors, JetHEPFit.cost_y_errors cost = Some (y, errors) ->
              y = JetHEPFit.hist_array h /\ errors = JetHEPFit.hist_errors h)).
Proof.
  intros NSrange observable. unfold JetHEPFit.define_cost_function. cbn.
  split.
  - destruct (List.existsb _ _).
    + eexists. split; [reflexivity|]. cbn. split; [reflexivity|].
      split; [intros i; apply List.nth_error_firstn | discriminate].
    + eexists. split; [reflexivity|]. cbn. split; [reflexivity|].
      split; [intros i; apply List.nth_error_firstn|].
      intros y errors [= <- <-]. split; reflexivity.
  - destruct (List.existsb _ _).
    + eexists. split; [reflexivity|]. cbn. split; [reflexivity | discriminate].
    + eexists. split; [reflexivity|]. cbn. split; [reflexivity|].
      intros y errors [= <- <-]. split; reflexivity.
Qed.

(* ===================================================================== *)
(** * Propagation of the fit errors *)
(* ===================================================================== *)

Section RPFErrorProofs.

Import JetHEPFit.
Local Open Scope Q_scope.

Lemma error_term_eval fitContainer argsForFuncCall pd iName jName errorVal ii jj di dj c :
  index_used argsForFuncCall iName = Some ii ->
  index_used argsForFuncCall jName = Some jj ->
  List.nth_error pd ii = Some di ->
  List.nth_error pd jj = Some dj ->
  covarianceMatrix fitContainer !! (iName, jName) = Some c ->
  error_term fitContainer argsForFuncCall pd iName jName errorVal
  = Ok (errorVal + di * dj * c).
Proof.
  unfold index_used, error_term. intros Hi Hj Hdi Hdj Hc.
  destruct (Dict.get argsForFuncCall iName) as [vi|]; [|discriminate].
  destruct (Dict.get argsForFuncCall jName) as [vj|]; [|discriminate].
  cbn [bind]. rewrite Hi, Hj, Hdi, Hdj, Hc. reflexivity.
Qed.

End RPFErrorProofs.

Ltac closed_lookup :=
  match goal with
  | |- ?l = Some _ =>
      let v := eval vm_compute in l in
      apply (@eq_trans _ l v); [vm_compute; reflexivity | reflexivity]
  end.

(** The sums of [CalculateRPFError] at the example fit, for every gradient. *)
Lemma CalculateRPFError_squared_at_example (g0 g1 g2 g3 g4 g5 g6 g7 : Q) :
  let gradient := [g0; g1; g2; g3; g4; g5; g6; g7] in
  exists e : Q,
    JetHEPFit.CalculateRPFError_squared (fun _ => gradient)
      RPFErrorExample.fourier_args [1 # 2] RPFErrorExample.example_fit = Ok [e]
    /\ (e == g2 * g2)%Q.
Proof.
  intros gradient. subst gradient. eexists. split.
  - unfold JetHEPFit.CalculateRPFError_squared.
    assert (Hargs : JetHEPFit.GetArgsForFunc RPFErrorExample.fourier_args None
                      RPFErrorExample.example_fit
                    = Ok [("x", None); ("BG", Some 1%Q); ("v2_t", Some 0%Q);
                          ("v2_a", Some (1 # 10)%Q); ("v4_t", Some 0%Q);
                          ("v4_a", Some (1 # 5)%Q); ("v1", Some 0%Q); ("v3", Some (1 # 20)%Q)])
      by (vm_compute; reflexivity).
    assert (Hfree : JetHEPFit.free_parameters RPFErrorExample.fourier_args
                      RPFErrorExample.example_fit
                    = Ok RPFErrorExample.free_names) by (vm_compute; reflexivity).
    rewrite Hargs, Hfree. cbn [bind JetHEPFit.foldM]. unfold JetHEPFit.error_squared_at.
    cbn [Dict.set String.eqb Ascii.eqb Bool.eqb].
    unfold RPFErrorExample.free_names. cbn [JetHEPFit.foldM].
    repeat (erewrite error_term_eval;
            [cbn [bind] | closed_lookup | closed_lookup | reflexivity | reflexivity
             | closed_lookup ]).
    cbn [app]. reflexivity.
  - ring.
Qed.

(** The propagated error squared at the example fit, for every gradient. *)
Lemma propagated_error_squared_at_example (g0 g1 g2 g3 g4 g5 g6 g7 : Q) :
  (JetHEPFit.propagated_error_squared RPFErrorExample.fourier_args
     RPFErrorExample.free_names [g0; g1; g2; g3; g4; g5; g6; g7]
     (fun i j => default 0%Q (RPFErrorExample.example_covariance !! (i, j)))
   == g4 * g4)%Q.
Proof.
  unfold JetHEPFit.propagated_error_squared, RPFErrorExample.free_names,
    JetHEPFit.derivative_for, RPFErrorExample.fourier_args.
  cbn [List.map PyList.index String.eqb Ascii.eqb Bool.eqb option_map List.nth sum_list
       List.fold_right].
  repeat match goal with
  | |- context [default 0%Q (RPFErrorExample.example_covariance !! ?k)] =>
      let v := eval vm_compute in (default 0%Q (RPFErrorExample.example_covariance !! k)) in
      replace (default 0%Q (RPFErrorExample.example_covariance !! k)) with v
        by (vm_compute; reflexivity)
  end.
  ring.
Qed.

(** C4 (evaluation at the failing input).  The fit result has
    [v2_t = v4_t = 0] and a covariance matrix whose only entry is
    [Var(v4_t) = 1]; [v1] is fixed and left out of the sum.  The propagated
    error is then [sqrt ((df/dv4_t)^2)], with [df/dv4_t] the entry of the
    gradient at the position of [v4_t] (here [g4]).  [CalculateRPFError]
    looks the position up by value, finds the position of [v2_t], and
    returns [sqrt ((df/dv2_t)^2)] (here [g2]) instead, for every gradient
    [g0, ..., g7]. *)
Theorem CalculateRPFError_looks_up_derivative_by_value (g0 g1 g2 g3 g4 g5 g6 g7 : Q) :
  let gradient := [g0; g1; g2; g3; g4; g5; g6; g7] in
  JetHEPFit.free_parameters RPFErrorExample.fourier_args RPFErrorExample.example_fit
  = Ok RPFErrorExample.free_names
  /\ JetHEPFit.CalculateRPFError (fun _ => gradient)
       RPFErrorExample.fourier_args [1 # 2] RPFErrorExample.example_fit
     = Ok [sqrt (Q2R (g2 * g2))]
  /\ sqrt (Q2R (JetHEPFit.propagated_error_squared RPFErrorExample.fourier_args
                  RPFErrorExample.free_names gradient
                  (fun i j => default 0%Q (RPFErrorExample.example_covariance !! (i, j)))))
     = sqrt (Q2R (g4 * g4)).
Proof.
  intros gradient. subst gradient.
  split; [vm_compute; reflexivity|]. split.
  - destruct (CalculateRPFError_squared_at_example g0 g1 g2 g3 g4 g5 g6 g7) as (e & He & Ee).
    unfold JetHEPFit.CalculateRPFError. cbv zeta in He. rewrite He. cbn [bind List.map].
    rewrite (Qeq_eqR _ _ Ee). reflexivity.
  - rewrite (Qeq_eqR _ _ (propagated_error_squared_at_example g0 g1 g2 g3 g4 g5 g6 g7)).
    reflexivity.
Qed.

Section RPFErrorDistinctValues.

Import JetHEPFit.
Import Properties.
Local Open Scope Q_scope.

Lemma sum_list_cons (a : Q) (l : list Q) : sum_list (a :: l) = a + sum_list l.
Proof. reflexivity. Qed.

Lemma value_eqb_refl (v : option Q) : value_eqb v v = true.
Proof. destruct v as [q|]; [apply Qeq_eq_bool; reflexivity | reflexivity]. Qed.

Lemma values_differ_tail v l : values_differ (v :: l) -> values_differ l.
Proof.
  intros H i j a b Hi Hj E.
  assert (S i = S j) by (eapply H; [exact Hi | exact Hj | exact E]). lia.
Qed.

Lemma Dict_get_in_values (d : Dict.t (option Q)) name v :
  Dict.get d name = Ok v -> exists p, List.nth_error (Dict.values d) p = Some v.
Proof.
  induction d as [|[k w] d IH]; cbn; [discriminate|].
  destruct (String.eqb k name).
  - intros [= ->]. exists 0%nat. reflexivity.
  - intros H. destruct (IH H) as (p & Hp). exists (S p). exact Hp.
Qed.

Lemma Dict_get_raise_index (d : Dict.t (option Q)) name e :
  Dict.get d name = Raise e -> PyList.index (Dict.keys d) name = None.
Proof.
  induction d as [|[k w] d IH]; cbn; [reflexivity|].
  destruct (String.eqb k name); [discriminate|].
  intros H. specialize (IH H). unfold Dict.keys in IH. rewrite IH. reflexivity.
Qed.

(** With pairwise different values, the position found by value is the
    position of the argument. *)
Lemma index_used_is_position (d : Dict.t (option Q)) (name : string) :
  values_differ (Dict.values d) ->
  index_used d name = PyList.index (Dict.keys d) name.
Proof.
  induction d as [|[k v] d IH]; intros Hdiff; [reflexivity|].
  unfold index_used in *. cbn [Dict.get Dict.keys Dict.values List.map fst snd PyList.index].
  destruct (String.eqb k name) eqn:Ek.
  - cbn [index_of_value]. rewrite value_eqb_refl. reflexivity.
  - specialize (IH (values_differ_tail _ _ Hdiff)).
    destruct (Dict.get d name) as [w|e] eqn:Eget.
    + cbn [index_of_value].
      destruct (value_eqb v w) eqn:Evw.
      * exfalso. destruct (Dict_get_in_values _ _ _ Eget) as (p & Hp).
        assert (0%nat = S p) by (eapply (Hdiff 0%nat (S p) v w); [reflexivity | exact Hp | exact Evw]).
        discriminate.
      * change (List.map snd d) with (Dict.values d).
        change (List.map fst d) with (Dict.keys d). rewrite IH. reflexivity.
    + change (List.map fst d) with (Dict.keys d).
      rewrite (Dict_get_raise_index _ _ _ Eget). reflexivity.
Qed.

Variable fitContainer : FitContainer.
Variable argsForFuncCall : Dict.t (option Q).
Variable partialDerivative : list Q.

Hypothesis Hdiffer : values_differ (Dict.values argsForFuncCall).

Local Abbreviation has_derivative := (Properties.has_derivative argsForFuncCall partialDerivative).
Local Abbreviation D := (derivative_for (Dict.keys argsForFuncCall) partialDerivative).
Local Abbreviation C := (fun i j : string => default 0 (covarianceMatrix fitContainer !! (i, j))).

Lemma error_term_by_name iName jName errorVal :
  has_derivative iName -> has_derivative jName ->
  is_Some (covarianceMatrix fitContainer !! (iName, jName)) ->
  error_term fitContainer argsForFuncCall partialDerivative iName jName errorVal
  = Ok (errorVal + D iName * D jName * C iName jName).
Proof.
  intros (pi & Hpi & Li) (pj & Hpj & Lj) [c Hc].
  destruct (List.nth_error partialDerivative pi) as [di|] eqn:Edi;
    [|apply List.nth_error_None in Edi; lia].
  destruct (List.nth_error partialDerivative pj) as [dj|] eqn:Edj;
    [|apply List.nth_error_None in Edj; lia].
  rewrite (error_term_eval fitContainer argsForFuncCall partialDerivative iName jName
             errorVal pi pj di dj c);
    try assumption;
    try (rewrite index_used_is_position by exact Hdiffer; assumption).
  unfold derivative_for. cbv beta. rewrite Hpi, Hpj, Hc. cbn [default].
  rewrite (List.nth_error_nth _ _ 0 Edi), (List.nth_error_nth _ _ 0 Edj). reflexivity.
Qed.

Lemma inner_loop_by_name iName (names : list string) :
  has_derivative iName ->
  (forall j, List.In j names ->
     has_derivative j /\ is_Some (covarianceMatrix fitContainer !! (iName, j))) ->
  forall errorVal,
  exists r,
    foldM (fun errorVal jName =>
             error_term fitContainer argsForFuncCall partialDerivative iName jName errorVal)
          names errorVal = Ok r
    /\ r == errorVal + sum_list (List.map (fun j => D iName * D j * C iName j) names).
Proof.
  intros Hi. induction names as [|j names IH]; intros Hall errorVal.
  - exists errorVal. split; [reflexivity|]. cbn [List.map]. unfold sum_list.
    cbn [List.fold_right]. ring.
  - cbn [foldM]. destruct (Hall j (or_introl eq_refl)) as (Hj & Hc).
    rewrite (error_term_by_name iName j errorVal Hi Hj Hc). cbn [bind].
    destruct (IH (fun j' Hj' => Hall j' (or_intror Hj'))
                 (errorVal + D iName * D j * C iName j)) as (r & Er & Hr).
    exists r. split; [exact Er|]. rewrite Hr. cbn [List.map]. rewrite sum_list_cons.
    cbv beta. ring.
Qed.

Lemma outer_loop_by_name (free names : list string) :
  (forall i, List.In i names -> has_derivative i) ->
  (forall j, List.In j free -> has_derivative j) ->
  (forall i j, List.In i names -> List.In j free ->
     is_Some (covarianceMatrix fitContainer !! (i, j))) ->
  forall errorVal,
  exists r,
    foldM (fun errorVal iName =>
             foldM (fun errorVal jName =>
                      error_term fitContainer argsForFuncCall partialDerivative
                                 iName jName errorVal)
                   free errorVal)
          names errorVal = Ok r
    /\ r == errorVal
            + sum_list (List.map (fun i =>
                 sum_list (List.map (fun j => D i * D j * C i j) free)) names).
Proof.
  intros Hnames Hfree Hcov. induction names as [|i names IH]; intros errorVal.
  - exists errorVal. split; [reflexivity|]. cbn [List.map]. unfold sum_list.
    cbn [List.fold_right]. ring.
  - cbn [foldM].
    destruct (inner_loop_by_name i free (Hnames i (or_introl eq_refl))
                (fun j Hj => conj (Hfree j Hj) (Hcov i j (or_introl eq_refl) Hj)) errorVal)
      as (r1 & E1 & H1).
    rewrite E1. cbn [bind].
    destruct (IH (fun i' Hi' => Hnames i' (or_intror Hi'))
                 (fun i' j Hi' Hj => Hcov i' j (or_intror Hi') Hj) r1) as (r & Er & Hr).
    exists r. split; [exact Er|]. rewrite Hr, H1.
    cbn [List.map]. rewrite sum_list_cons. cbv beta. ring.
Qed.

End RPFErrorDistinctValues.

(** Where no two arguments of the fit function have the same value, the
    double loop of [CalculateRPFError] computes the propagated error squared
    [sum_i sum_j (df/dtheta_i) (df/dtheta_j) Cov(theta_i, theta_j)] over the
    free parameters. *)
Lemma CalculateRPFError_propagates_covariance_when_values_differ
    (fitContainer : JetHEPFit.FitContainer)
    (argsForFuncCall : Dict.t (option Q)) (partialDerivative : list Q)
    (free : list string) :
  Properties.values_differ (Dict.values argsForFuncCall) ->
  (forall i, List.In i free ->
     Properties.has_derivative argsForFuncCall partialDerivative i) ->
  (forall i j, List.In i free -> List.In j free ->
     is_Some (JetHEPFit.covarianceMatrix fitContainer !! (i, j))) ->
  exists r,
    JetHEPFit.foldM
      (fun errorVal iName =>
         JetHEPFit.foldM
           (fun errorVal jName =>
              JetHEPFit.error_term fitContainer argsForFuncCall partialDerivative
                iName jName errorVal)
           free errorVal)
      free 0%Q = Ok r
    /\ (r == JetHEPFit.propagated_error_squared (Dict.keys argsForFuncCall) free
               partialDerivative
               (fun i j => default 0%Q (JetHEPFit.covarianceMatrix fitContainer !! (i, j))))%Q.
Proof.
  intros Hdiffer Hfree Hcov.
  destruct (outer_loop_by_name fitContainer argsForFuncCall partialDerivative Hdiffer
              free free Hfree Hfree Hcov 0%Q) as (r & Er & Hr).
  exists r. split; [exact Er|]. rewrite Hr. unfold JetHEPFit.propagated_error_squared.
  ring.
Qed.

(* ===================================================================== *)
(** * Properties of the analysis object *)
(* ===================================================================== *)

(** C10.  At construction the away-side width fit objects are given the
    near-side phi region as their fit range: the away-side delta phi width
    fit (whose properties record the away-side range) and the away-side
    delta eta width fit (whose properties record the signal dominated eta
    range). *)
Theorem away_side_width_fits_use_near_side_range
    (jet_pt_bin track_pt_bin : Correlations.PtBin)
    (orientation : Correlations.ReactionPlaneOrientation)
    (energy : Correlations.CollisionEnergy) (activity : Correlations.EventActivity.t)
    (biased : bool) (filename : string) (config : Correlations.TaskConfig) :
  let c :=
    Correlations.init jet_pt_bin track_pt_bin orientation energy activity biased filename
      config in
  let near_side_phi :=
    {| Correlations.range_min := (np_pi * fst (Correlations.deltaPhiRanges_nearSide config))%Q;
       Correlations.range_max := (np_pi * snd (Correlations.deltaPhiRanges_nearSide config))%Q |} in
  let away_side_phi :=
    {| Correlations.range_min :=
         (np_pi + np_pi * fst (Correlations.deltaPhiRanges_awaySide config))%Q;
       Correlations.range_max :=
         (np_pi + np_pi * snd (Correlations.deltaPhiRanges_awaySide config))%Q |} in
  let signal_eta :=
    {| Correlations.range_min := fst (Correlations.deltaEtaRanges_signalDominated config);
       Correlations.range_max := snd (Correlations.deltaEtaRanges_signalDominated config) |} in
  Correlations.near_side_phi_region c = near_side_phi
  /\ Correlations.away_side_phi_region c = away_side_phi
  /\ Correlations.signal_dominated_eta_region c = signal_eta
  /\ Correlations.fit_range
       (Correlations.fit_obj (Correlations.width_away_side (Correlations.widths_delta_phi c)))
     = near_side_phi
  /\ Correlations.properties_fit_range
       (Correlations.width_away_side (Correlations.widths_delta_phi c))
     = away_side_phi
  /\ Correlations.fit_range
       (Correlations.fit_obj (Correlations.width_away_side (Correlations.widths_delta_eta c)))
     = near_side_phi
  /\ Correlations.properties_fit_range
       (Correlations.width_away_side (Correlations.widths_delta_eta c))
     = signal_eta.
Proof.
  repeat split; reflexivity.
Qed.

Section SubtractionProofs.

Import Histogram.
Import Correlations.
Import Properties.
Local Open Scope Q_scope.

Lemma all_equal_refl (l : list Q) : all_equal l l = true.
Proof.
  induction l as [|q l IH]; [reflexivity|].
  cbn [all_equal]. rewrite IH, andb_true_r. apply Qeq_eq_bool. reflexivity.
Qed.

Lemma constant_array_length (v : Q) (n : nat) : List.length (constant_array v n) = n.
Proof. unfold constant_array. rewrite List.length_map. apply List.repeat_length. Qed.

Lemma constant_array_Forall (v : Q) (n : nat) :
  List.Forall (fun a => a == v) (constant_array v n).
Proof.
  unfold constant_array. induction n as [|n IH]; cbn [List.repeat List.map]; constructor.
  - ring.
  - exact IH.
Qed.

Lemma squared_length (a : list Q) : List.length (squared a) = List.length a.
Proof. unfold squared. apply List.length_map. Qed.

Lemma squared_Forall (v : Q) (a : list Q) :
  List.Forall (fun q => q == v) a -> List.Forall (fun q => q == v * v) (squared a).
Proof.
  unfold squared. induction 1 as [|q a Hq _ IH]; cbn [List.map]; constructor.
  - rewrite Hq. reflexivity.
  - exact IH.
Qed.

Lemma pedestal_background_hist_constant (fit : PedestalFitResult) (data : Histogram1D) :
  constant_background fit data (pedestal_background_hist fit data).
Proof.
  unfold constant_background, pedestal_background_hist. cbn.
  split; [reflexivity|].
  split; [apply constant_array_length|].
  split; [rewrite squared_length; apply constant_array_length|].
  split; [apply constant_array_Forall | apply squared_Forall, constant_array_Forall].
Qed.

Lemma zip_with_length (f : Q -> Q -> Q) (a b : list Q) :
  List.length a = List.length b -> List.length (zip_with f a b) = List.length a.
Proof.
  revert b. induction a as [|p a IH]; intros [|q b] H; cbn in *; try congruence.
  f_equal. apply IH. congruence.
Qed.

Lemma zip_with_nth_error (f : Q -> Q -> Q) (P : Q -> Prop) (a b : list Q) (i : nat) (p : Q) :
  List.length a = List.length b -> List.Forall P b ->
  List.nth_error a i = Some p ->
  exists q, P q /\ List.nth_error (zip_with f a b) i = Some (f p q).
Proof.
  revert b i. induction a as [|p0 a IH]; intros [|q0 b] i Hlen HP Hi; cbn in Hlen;
    try discriminate; try (destruct i; discriminate).
  inversion HP as [|? ? Hq0 HPb]; subst.
  destruct i as [|i]; cbn in *.
  - injection Hi as <-. exists q0. split; [exact Hq0 | reflexivity].
  - apply IH; [congruence | exact HPb | exact Hi].
Qed.

Lemma sub_pedestal (fit : PedestalFitResult) (data : Histogram1D) :
  well_formed data ->
  exists subtracted,
    Histogram.sub data (pedestal_background_hist fit data) = Ok subtracted
    /\ pedestal_subtracted fit data subtracted.
Proof.
  intros [Hy He].
  destruct (pedestal_background_hist_constant fit data) as (Hedges & Hly & Hle & Hvy & Hve).
  unfold Histogram.sub. rewrite Hedges, all_equal_refl. cbn [negb].
  rewrite Hly, Hle, Hy, He, !Nat.eqb_refl. cbn [andb negb].
  eexists. split; [reflexivity|].
  unfold pedestal_subtracted. cbn.
  split; [reflexivity|].
  assert (Ly : List.length (y data) = List.length (y (pedestal_background_hist fit data)))
    by congruence.
  assert (Le : List.length (errors_squared data)
               = List.length (errors_squared (pedestal_background_hist fit data)))
    by congruence.
  split; [apply zip_with_length, Ly|].
  split; [apply zip_with_length, Le|].
  split.
  - intros i d Hd.
    destruct (zip_with_nth_error Qminus _ (y data) _ i d Ly Hvy Hd) as (q & Hq & Hn).
    eexists. split; [exact Hn|]. rewrite Hq. reflexivity.
  - intros i e2 He2.
    destruct (zip_with_nth_error Qplus _ (errors_squared data) _ i e2 Le Hve He2)
      as (q & Hq & Hn).
    eexists. split; [exact Hn|]. rewrite Hq. reflexivity.
Qed.

End SubtractionProofs.

(** C3.  The delta eta subtraction builds, for the near side and for the
    away side, a constant background histogram whose value and error in every
    bin are those of the near-side pedestal fit, and subtracts it from the
    correlation of that side: the values are reduced by the near-side
    pedestal and the squared errors grow by the square of its error, so that
    the error is the quadrature sum of the data error and the pedestal
    error.  The away-side pedestal fit is not used. *)
Theorem delta_eta_subtraction_uses_near_side_pedestal
    (s : Correlations.State) (near away : Histogram.Histogram1D) :
  let c := Correlations.self s in
  let pedestal := Correlations.fit_near_side (Correlations.fit_objects_delta_eta c) in
  Correlations.near_side (Correlations.correlation_hists_delta_eta c) = Some near ->
  Correlations.away_side (Correlations.correlation_hists_delta_eta c) = Some away ->
  Properties.well_formed near ->
  Properties.well_formed away ->
  Properties.constant_background pedestal near
    (Correlations.pedestal_background_hist pedestal near)
  /\ Properties.constant_background pedestal away
       (Correlations.pedestal_background_hist pedestal away)
  /\ exists s' subtracted_near subtracted_away,
       Correlations.subtract_delta_eta_correlations s = (Ok tt, s')
       /\ Correlations.near_side
            (Correlations.correlation_hists_delta_eta_subtracted (Correlations.self s'))
          = Some subtracted_near
       /\ Correlations.away_side
            (Correlations.correlation_hists_delta_eta_subtracted (Correlations.self s'))
          = Some subtracted_away
       /\ Properties.pedestal_subtracted pedestal near subtracted_near
       /\ Properties.pedestal_subtracted pedestal away subtracted_away.
Proof.
  intros c pedestal Hnear Haway Wnear Waway.
  split; [apply pedestal_background_hist_constant|].
  split; [apply pedestal_background_hist_constant|].
  destruct (sub_pedestal pedestal near Wnear) as (sn & En & Pn).
  destruct (sub_pedestal pedestal away Waway) as (sa & Ea & Pa).
  destruct s as [fs lg self0]. cbn in c. subst c.
  unfold Correlations.subtract_delta_eta_correlations, Correlations.get_self,
    Correlations.update_self, Py.bindM, Py.get, Py.ret, Py.lift, Py.modify.
  cbn. rewrite Hnear. cbn. fold pedestal. rewrite En. cbn. rewrite Haway. cbn.
  fold pedestal. rewrite Ea. cbn.
  eexists. exists sn, sa. split; [reflexivity|]. cbn.
  split; [reflexivity|]. split; [reflexivity|]. split; assumption.
Qed.

(** C9.  For a genuine track pt bin, the yields are the integrals of the
    subtracted histograms over
    [center - limit + epsilon, center + limit - epsilon], value and error
    divided by the width [track_pt.max - track_pt.min] of the track pt bin:
    for delta phi the centers are 0 (near side) and pi (away side) with the
    configured delta phi limit, for delta eta both centers are 0 with the
    configured delta eta limit. *)
Theorem yields_are_integrals_per_unit_track_pt
    (integral : Histogram.Histogram1D -> Q -> Q -> Q * Q)
    (s : Correlations.State) (delta_phi near away : Histogram.Histogram1D) :
  let c := Correlations.self s in
  let phi_limit := Correlations.delta_phi_yield_limit (Correlations.task_config c) in
  let eta_limit := Correlations.delta_eta_yield_limit (Correlations.task_config c) in
  let yield := Properties.yield_per_unit_track_pt integral (Correlations.track_pt c) in
  Correlations.signal_dominated (Correlations.correlation_hists_delta_phi_subtracted c)
  = Some delta_phi ->
  Correlations.near_side (Correlations.correlation_hists_delta_eta_subtracted c) = Some near ->
  Correlations.away_side (Correlations.correlation_hists_delta_eta_subtracted c) = Some away ->
  (Correlations.pt_min (Correlations.track_pt c)
   < Correlations.pt_max (Correlations.track_pt c))%Q ->
  exists s',
    Correlations.extract_yields integral s = (Ok tt, s')
    /\ Correlations.yields_delta_phi (Correlations.self s')
       = {| Correlations.yield_near_side := yield delta_phi 0%Q phi_limit;
            Correlations.yield_away_side := yield delta_phi np_pi phi_limit |}
    /\ Correlations.yields_delta_eta (Correlations.self s')
       = {| Correlations.yield_near_side := yield near 0%Q eta_limit;
            Correlations.yield_away_side := yield away 0%Q eta_limit |}.
Proof.
  intros c phi_limit eta_limit yield Hphi Hnear Haway _.
  destruct s as [fs lg self0]. cbn in c. subst c.
  unfold Correlations.extract_yields, Correlations._extract_yield_from_hist,
    Correlations.get_self, Correlations.update_self, Py.bindM, Py.get, Py.ret, Py.lift,
    Py.modify, bind.
  cbn. rewrite Hphi. cbn. rewrite Hnear. cbn. rewrite Haway. cbn.
  subst yield phi_limit eta_limit. unfold Properties.yield_per_unit_track_pt.
  repeat match goal with
         | |- context [integral ?h ?a ?b] =>
             let v := fresh "v" in let e := fresh "e" in
             destruct (integral h a b) as [v e] eqn:?
         end.
  cbn. eexists. split; [reflexivity|]. split; reflexivity.
Qed.

(* ===================================================================== *)
(** * Stepping through a method *)
(* ===================================================================== *)

Section PostRules.

Context {S : Type}.

Lemma post_ret (A : Type) (a : A) (s : S) Q : Q (Ok a) s -> Py.post (Py.ret a) s Q.
Proof. exact (fun H => H). Qed.

Lemma post_raise (A : Type) (e : exn) (s : S) (Q : result A -> S -> Prop) :
  Q (Raise e) s -> Py.post (Py.raise e) s Q.
Proof. exact (fun H => H). Qed.

Lemma post_lift (A : Type) (r : result A) (s : S) Q : Q r s -> Py.post (Py.lift r) s Q.
Proof. exact (fun H => H). Qed.

Lemma post_get (s : S) Q : Q (Ok s) s -> Py.post Py.get s Q.
Proof. exact (fun H => H). Qed.

Lemma post_modify (f : S -> S) (s : S) Q : Q (Ok tt) (f s) -> Py.post (Py.modify f) s Q.
Proof. exact (fun H => H). Qed.

Lemma post_bind (A B : Type) (m : Py.M S A) (k : A -> Py.M S B) (s : S) Q :
  Py.post m s (fun r s1 =>
                 match r with
                 | Ok a => Py.post (k a) s1 Q
                 | Raise e => Q (Raise e) s1
                 end) ->
  Py.post (Py.bindM m k) s Q.
Proof.
  unfold Py.post, Py.bindM. destruct (m s) as [[a|e] s1]; cbn; exact (fun H => H).
Qed.

Lemma post_weaken (A : Type) (m : Py.M S A) (s : S) (Q Q' : result A -> S -> Prop) :
  Py.post m s Q -> (forall r s1, Q r s1 -> Q' r s1) -> Py.post m s Q'.
Proof. unfold Py.post. intros H HQ. apply HQ, H. Qed.

Lemma post_run (A : Type) (m : Py.M S A) (s : S) (Q : result A -> S -> Prop) r s1 :
  Py.post m s Q -> m s = (r, s1) -> Q r s1.
Proof. unfold Py.post. intros H E. rewrite E in H. exact H. Qed.

End PostRules.

Section PostCorrelations.

Import Correlations.

Lemma post_get_self (s : State) Q : Q (Ok (self s)) s -> Py.post get_self s Q.
Proof. exact (fun H => H). Qed.

Lemma post_get_files (s : State) Q : Q (Ok (files s)) s -> Py.post get_files s Q.
Proof. exact (fun H => H). Qed.

Lemma post_update_self (f : Correlations -> Correlations) (s : State) Q :
  Q (Ok tt) {| files := files s; log := log s; self := f (self s) |} ->
  Py.post (update_self f) s Q.
Proof. exact (fun H => H). Qed.

Lemma post_logger_info (msg : string) (s : State) Q :
  Q (Ok tt) {| files := files s; log := log s ++ [msg]; self := self s |} ->
  Py.post (logger_info msg) s Q.
Proof. exact (fun H => H). Qed.

(** Writing to a file changes the files only. *)
Lemma post_write_hists_to_root_file hists (s : State) Q :
  (forall fs, Q (Ok tt) {| files := fs; log := log s; self := self s |}) ->
  Py.post (_write_hists_to_root_file hists) s Q.
Proof. intros H. apply H. Qed.

Lemma post_write_2d_correlations (s : State) Q :
  (forall fs, Q (Ok tt) {| files := fs; log := log s; self := self s |}) ->
  Py.post _write_2d_correlations s Q.
Proof. intros H. apply H. Qed.

Lemma post_write_number_of_triggers_hist (s : State) Q :
  (forall fs, Q (Ok tt) {| files := fs; log := log s; self := self s |}) ->
  Py.post _write_number_of_triggers_hist s Q.
Proof. intros H. apply H. Qed.

Lemma post_write_1d_correlations (s : State) Q :
  (forall fs, Q (Ok tt) {| files := fs; log := log s; self := self s |}) ->
  Py.post _write_1d_correlations s Q.
Proof. intros H. apply H. Qed.

End PostCorrelations.

(** One step of a method of the analysis object. *)
Ltac post_step :=
  match goal with
  | |- Py.post (Py.bindM _ _) _ _ => apply post_bind
  | |- Py.post Correlations.get_self _ _ => apply post_get_self
  | |- Py.post Correlations.get_files _ _ => apply post_get_files
  | |- Py.post (Correlations.update_self _) _ _ => apply post_update_self
  | |- Py.post (Correlations.logger_info _) _ _ => apply post_logger_info
  | |- Py.post (Correlations._write_hists_to_root_file _) _ _ =>
      apply post_write_hists_to_root_file; intros ?
  | |- Py.post Correlations._write_2d_correlations _ _ =>
      apply post_write_2d_correlations; intros ?
  | |- Py.post Correlations._write_number_of_triggers_hist _ _ =>
      apply post_write_number_of_triggers_hist; intros ?
  | |- Py.post Correlations._write_1d_correlations _ _ =>
      apply post_write_1d_correlations; intros ?
  | |- Py.post (Py.lift _) _ _ => apply post_lift
  | |- Py.post (Py.ret _) _ _ => apply post_ret
  | |- Py.post (Py.raise _) _ _ => apply post_raise
  | |- Py.post (let '(_, _) := ?p in _) _ _ => destruct p
  end;
  cbn [Correlations.self Correlations.files Correlations.log].

(* ===================================================================== *)
(** * The stage flags *)
(* ===================================================================== *)

Section FlagProofs.

Import Histogram.
Import Correlations.
Import Properties.

Lemma unchanged_or_set_refl (b : bool) : unchanged_or_set b b.
Proof. left. reflexivity. Qed.

Lemma unchanged_or_set_trans (a b c : bool) :
  unchanged_or_set a b -> unchanged_or_set b c -> unchanged_or_set a c.
Proof.
  unfold unchanged_or_set. intros [-> | ->] [-> | ->]; auto.
Qed.

Lemma unchanged_or_set_true (b : bool) : unchanged_or_set b true.
Proof. right. reflexivity. Qed.

Lemma flags_monotonic_refl (c : Correlations) : flags_monotonic c c.
Proof. repeat split; apply unchanged_or_set_refl. Qed.

Lemma flags_monotonic_trans (a b c : Correlations) :
  flags_monotonic a b -> flags_monotonic b c -> flags_monotonic a c.
Proof.
  intros (H1 & H2 & H3) (K1 & K2 & K3).
  repeat split; eapply unchanged_or_set_trans; eassumption.
Qed.

(** Assignments that do not touch the flags. *)
Lemma flags_monotonic_same_flags (c c' : Correlations) :
  flags c' = flags c -> flags_monotonic c c'.
Proof.
  intros E. unfold flags_monotonic, ran_projections, ran_fitting, ran_post_fit_processing.
  rewrite E. repeat split; apply unchanged_or_set_refl.
Qed.

Lemma flags_monotonic_set_ran_projections (c : Correlations) :
  flags_monotonic c (set_ran_projections true c).
Proof. repeat split; (apply unchanged_or_set_true || apply unchanged_or_set_refl). Qed.

Lemma flags_monotonic_set_ran_fitting (c : Correlations) :
  flags_monotonic c (set_ran_fitting true c).
Proof. repeat split; (apply unchanged_or_set_true || apply unchanged_or_set_refl). Qed.

Lemma flags_monotonic_set_ran_post_fit_processing (c : Correlations) :
  flags_monotonic c (set_ran_post_fit_processing true c).
Proof. repeat split; (apply unchanged_or_set_true || apply unchanged_or_set_refl). Qed.

(** *** The combinators *)

Lemma keeps_flags_ret (A : Type) (a : A) : keeps_flags (Py.ret a).
Proof. intros s. apply flags_monotonic_refl. Qed.

Lemma keeps_flags_raise (A : Type) (e : exn) : keeps_flags (@Py.raise State A e).
Proof. intros s. apply flags_monotonic_refl. Qed.

Lemma keeps_flags_lift (A : Type) (r : result A) : keeps_flags (Py.lift r).
Proof. intros s. apply flags_monotonic_refl. Qed.

Lemma keeps_flags_get : keeps_flags Py.get.
Proof. intros s. apply flags_monotonic_refl. Qed.

Lemma keeps_flags_bind (A B : Type) (m : M A) (k : A -> M B) :
  keeps_flags m -> (forall a, keeps_flags (k a)) -> keeps_flags (Py.bindM m k).
Proof.
  intros Hm Hk s. unfold Py.bindM. specialize (Hm s).
  destruct (m s) as [[a|e] s1]; cbn in *.
  - eapply flags_monotonic_trans; [exact Hm | apply Hk].
  - exact Hm.
Qed.

Lemma keeps_flags_update_self (f : Correlations -> Correlations) :
  (forall c, flags_monotonic c (f c)) -> keeps_flags (update_self f).
Proof. intros Hf s. cbn. apply Hf. Qed.

Lemma keeps_flags_update_files (f : Files -> Files) : keeps_flags (update_files f).
Proof. intros s. apply flags_monotonic_refl. Qed.

Lemma keeps_flags_logger_info (msg : string) : keeps_flags (logger_info msg).
Proof. intros s. apply flags_monotonic_refl. Qed.

End FlagProofs.

Create HintDb flags discriminated.

#[export] Hint Resolve keeps_flags_ret keeps_flags_raise keeps_flags_lift keeps_flags_get
  keeps_flags_update_files keeps_flags_logger_info flags_monotonic_refl
  flags_monotonic_set_ran_projections flags_monotonic_set_ran_fitting
  flags_monotonic_set_ran_post_fit_processing : flags.

(** Walks through a method: binds, branches and the primitive steps. *)
Ltac keeps_flags_step :=
  match goal with
  | |- Properties.keeps_flags (Py.bindM _ _) => apply keeps_flags_bind; [|intros]
  | |- Properties.keeps_flags (Correlations.update_self _) =>
      apply keeps_flags_update_self; intros;
      first [ solve [auto with flags]
            | apply flags_monotonic_same_flags; reflexivity ]
  | |- Properties.keeps_flags (match ?x with _ => _ end) => destruct x
  | |- Properties.keeps_flags (if ?b then _ else _) => destruct b
  | |- Properties.keeps_flags (let '(_, _) := ?p in _) => destruct p
  | |- Properties.keeps_flags _ => solve [auto with flags]
  end.

Ltac keeps_flags_auto := repeat keeps_flags_step.

Section MethodFlagProofs.

Import Histogram.
Import Correlations.
Import Properties.

Variable _create_2d_raw_and_mixed_correlations :
  Correlations -> result (ROOT.TH2 * ROOT.TH2 * Histogram1D * Q).
Variable _create_2d_signal_correlation : Correlations -> result ROOT.TH2.
Variable plot_correlations : PlotCorrelations.
Variable _setup_1d_projectors : Correlations -> result unit.
Variable _create_1d_correlations : Correlations -> result (HistsDeltaPhi * HistsDeltaEta).
Variable _compare_unsubtracted_1d_signal_correlation_to_joel : Correlations -> result unit.
Variable fit_pedestal_to_delta_eta_background_dominated_region :
  Histogram1D -> SelectedRange -> result (Q * Q).
Variable integral : Histogram1D -> Q -> Q -> Q * Q.
Variable fit_pedestal_with_extended_gaussian :
  FitPedestalWithExtendedGaussian -> Histogram1D -> result WidthFitResult.

Lemma keeps_flags_get_self : keeps_flags get_self.
Proof. unfold get_self. keeps_flags_auto. Qed.

Lemma keeps_flags_get_files : keeps_flags get_files.
Proof. unfold get_files. keeps_flags_auto. Qed.

#[local] Hint Resolve keeps_flags_get_self keeps_flags_get_files : flags.

Lemma keeps_flags_write_root hists : keeps_flags (_write_hists_to_root_file hists).
Proof. unfold _write_hists_to_root_file. keeps_flags_auto. Qed.

Lemma keeps_flags_write_yaml objects : keeps_flags (write_to_yaml objects).
Proof. unfold write_to_yaml. keeps_flags_auto. Qed.

Lemma keeps_flags_open_root_file : keeps_flags open_root_file.
Proof. unfold open_root_file. keeps_flags_auto. Qed.

Lemma keeps_flags_open_yaml_file : keeps_flags open_yaml_file.
Proof. unfold open_yaml_file. keeps_flags_auto. Qed.

#[local] Hint Resolve keeps_flags_write_root keeps_flags_write_yaml keeps_flags_open_root_file
  keeps_flags_open_yaml_file : flags.

Lemma keeps_flags_run_2d_projections :
  keeps_flags (_run_2d_projections _create_2d_raw_and_mixed_correlations
                 _create_2d_signal_correlation plot_correlations).
Proof.
  unfold _run_2d_projections, _write_2d_correlations, _write_number_of_triggers_hist,
    _init_2d_correlations_hists_from_root_file, _init_number_of_triggers_hist_from_root_file.
  keeps_flags_auto.
Qed.

Lemma keeps_flags_run_1d_projections :
  keeps_flags (_run_1d_projections plot_correlations _setup_1d_projectors
                 _create_1d_correlations
                 _compare_unsubtracted_1d_signal_correlation_to_joel).
Proof.
  unfold _run_1d_projections, _post_1d_projection_scaling, _write_1d_correlations,
    _init_1d_correlations_hists_from_root_file.
  keeps_flags_auto.
Qed.

Lemma keeps_flags_run_projections :
  keeps_flags (run_projections _create_2d_raw_and_mixed_correlations
                 _create_2d_signal_correlation plot_correlations _setup_1d_projectors
                 _create_1d_correlations
                 _compare_unsubtracted_1d_signal_correlation_to_joel).
Proof.
  unfold run_projections.
  apply keeps_flags_bind; [apply keeps_flags_run_2d_projections | intros].
  apply keeps_flags_bind; [apply keeps_flags_run_1d_projections | intros].
  keeps_flags_auto.
Qed.

Lemma keeps_flags_fit_delta_eta_correlations :
  keeps_flags (fit_delta_eta_correlations
                 fit_pedestal_to_delta_eta_background_dominated_region).
Proof. unfold fit_delta_eta_correlations. keeps_flags_auto. Qed.

Lemma keeps_flags_subtract_background_fit_function_from_signal_dominated :
  keeps_flags subtract_background_fit_function_from_signal_dominated.
Proof. unfold subtract_background_fit_function_from_signal_dominated. keeps_flags_auto. Qed.

Lemma keeps_flags_subtract_delta_eta_correlations :
  keeps_flags subtract_delta_eta_correlations.
Proof. unfold subtract_delta_eta_correlations. keeps_flags_auto. Qed.

Lemma keeps_flags_extract_yields : keeps_flags (extract_yields integral).
Proof. unfold extract_yields. keeps_flags_auto. Qed.

Lemma keeps_flags_extract_widths :
  keeps_flags (extract_widths fit_pedestal_with_extended_gaussian).
Proof.
  unfold extract_widths, _retrieve_widths_from_RPF, _fit_and_extract_delta_phi_widths,
    _fit_and_extract_delta_eta_widths.
  keeps_flags_auto.
Qed.

Lemma keeps_flags_reading_and_writing :
  keeps_flags write_1d_subtracted_delta_phi_correlations
  /\ keeps_flags write_1d_subtracted_delta_eta_correlations
  /\ keeps_flags write_delta_eta_fit_results
  /\ keeps_flags write_yields_to_YAML
  /\ keeps_flags write_widths_to_YAML
  /\ keeps_flags init_1d_subtracted_delta_phi_corerlations_from_file
  /\ keeps_flags init_1d_subtracted_delta_eta_corerlations_from_file
  /\ keeps_flags init_delta_eta_fit_information
  /\ keeps_flags init_yields_from_file
  /\ keeps_flags init_widths_from_file.
Proof.
  unfold write_1d_subtracted_delta_phi_correlations,
    write_1d_subtracted_delta_eta_correlations, write_delta_eta_fit_results,
    write_yields_to_YAML, write_widths_to_YAML,
    init_1d_subtracted_delta_phi_corerlations_from_file,
    init_1d_subtracted_delta_eta_corerlations_from_file, init_delta_eta_fit_information,
    init_yields_from_file, init_widths_from_file.
  repeat apply conj; keeps_flags_auto.
Qed.

End MethodFlagProofs.

Section ManagerFlagProofs.

Import Histogram.
Import Correlations.
Import CorrelationsManager.
Import Properties.

Lemma all_flags_monotonic_refl (st : ManagerState) : all_flags_monotonic st st.
Proof. intros i a H. exists a. split; [exact H | apply flags_monotonic_refl]. Qed.

Lemma all_flags_monotonic_trans (st1 st2 st3 : ManagerState) :
  all_flags_monotonic st1 st2 -> all_flags_monotonic st2 st3 ->
  all_flags_monotonic st1 st3.
Proof.
  intros H12 H23 i a Ha.
  destruct (H12 i a Ha) as (a2 & Ha2 & F12).
  destruct (H23 i a2 Ha2) as (a3 & Ha3 & F23).
  exists a3. split; [exact Ha3 | eapply flags_monotonic_trans; eassumption].
Qed.

Lemma keeps_all_flags_ret (A : Type) (a : A) : keeps_all_flags (Py.ret a).
Proof. intros st. apply all_flags_monotonic_refl. Qed.

Lemma keeps_all_flags_raise (A : Type) (e : exn) :
  keeps_all_flags (@Py.raise ManagerState A e).
Proof. intros st. apply all_flags_monotonic_refl. Qed.

Lemma keeps_all_flags_lift (A : Type) (r : result A) : keeps_all_flags (Py.lift r).
Proof. intros st. apply all_flags_monotonic_refl. Qed.

Lemma keeps_all_flags_get : keeps_all_flags Py.get.
Proof. intros st. apply all_flags_monotonic_refl. Qed.

Lemma keeps_all_flags_bind (A B : Type) (m : MM A) (k : A -> MM B) :
  keeps_all_flags m -> (forall a, keeps_all_flags (k a)) -> keeps_all_flags (Py.bindM m k).
Proof.
  intros Hm Hk st. unfold Py.bindM. specialize (Hm st).
  destruct (m st) as [[a|e] st1]; cbn in *.
  - eapply all_flags_monotonic_trans; [exact Hm | apply Hk].
  - exact Hm.
Qed.

Lemma keeps_all_flags_for_each (A : Type) (l : list A) (body : A -> MM unit) :
  (forall a, keeps_all_flags (body a)) -> keeps_all_flags (Py.for_each l body).
Proof.
  intros Hbody. induction l as [|a l IH]; cbn [Py.for_each].
  - apply keeps_all_flags_ret.
  - apply keeps_all_flags_bind; [apply Hbody | intros _; exact IH].
Qed.

Lemma keeps_all_flags_on_analysis (A : Type) (i : nat) (method : Correlations.M A) :
  keeps_flags method -> keeps_all_flags (on_analysis i method).
Proof.
  intros Hm st. unfold on_analysis.
  destruct (analyses st !! i) as [a|] eqn:Ei; [|apply all_flags_monotonic_refl].
  specialize (Hm {| files := m_files st; log := m_log st; self := a |}).
  destruct (method _) as [r s]. cbn in *.
  intros j b Hj. cbn.
  destruct (decide (i = j)) as [<-|Hne].
  - rewrite list_lookup_insert_eq by (eapply lookup_lt_Some; exact Ei).
    exists (self s). split; [reflexivity|]. congruence.
  - rewrite list_lookup_insert_ne by exact Hne.
    exists b. split; [exact Hj | apply flags_monotonic_refl].
Qed.

Lemma keeps_all_flags_store_fit_object key fit : keeps_all_flags (store_fit_object key fit).
Proof.
  intros st i a H. exists a. split; [exact H | apply flags_monotonic_refl].
Qed.

End ManagerFlagProofs.

#[export] Hint Resolve keeps_all_flags_ret keeps_all_flags_raise keeps_all_flags_lift
  keeps_all_flags_get keeps_all_flags_store_fit_object : flags.

Ltac keeps_all_flags_step :=
  match goal with
  | |- Properties.keeps_all_flags (Py.bindM _ _) => apply keeps_all_flags_bind; [|intros]
  | |- Properties.keeps_all_flags (Py.for_each _ _) => apply keeps_all_flags_for_each; intros
  | |- Properties.keeps_all_flags (CorrelationsManager.on_analysis _ _) =>
      apply keeps_all_flags_on_analysis
  | |- Properties.keeps_all_flags (match ?x with _ => _ end) => destruct x
  | |- Properties.keeps_all_flags (if ?b then _ else _) => destruct b
  | |- Properties.keeps_all_flags (let '(_, _) := ?p in _) => destruct p
  | |- Properties.keeps_all_flags _ => solve [auto with flags]
  | |- Properties.keeps_flags _ => solve [auto with flags] || keeps_flags_step
  end.

Ltac keeps_all_flags_auto := repeat keeps_all_flags_step.

Section StageFlagProofs.

Import Histogram.
Import Correlations.
Import CorrelationsManager.
Import Properties.

Variable _create_2d_raw_and_mixed_correlations :
  Correlations -> result (ROOT.TH2 * ROOT.TH2 * Histogram1D * Q).
Variable _create_2d_signal_correlation : Correlations -> result ROOT.TH2.
Variable plot_correlations : PlotCorrelations.
Variable _setup_1d_projectors : Correlations -> result unit.
Variable _create_1d_correlations : Correlations -> result (HistsDeltaPhi * HistsDeltaEta).
Variable _compare_unsubtracted_1d_signal_correlation_to_joel : Correlations -> result unit.
Variable fit_pedestal_to_delta_eta_background_dominated_region :
  Histogram1D -> SelectedRange -> result (Q * Q).
Variable integral : Histogram1D -> Q -> Q -> Q * Q.
Variable fit_pedestal_with_extended_gaussian :
  FitPedestalWithExtendedGaussian -> Histogram1D -> result WidthFitResult.
Variable reaction_plane_fit :
  list (string * option Histogram1D) -> list (string * option Histogram1D) ->
  result (bool * ReactionPlaneFit).
Variable read_fit_results : string -> result ReactionPlaneFit.
Variable manager : Manager.

#[local] Hint Resolve keeps_flags_get_self keeps_flags_run_projections
  keeps_flags_fit_delta_eta_correlations
  keeps_flags_subtract_background_fit_function_from_signal_dominated
  keeps_flags_subtract_delta_eta_correlations keeps_flags_extract_yields
  keeps_flags_extract_widths : flags.

Lemma keeps_all_flags_analysis_at i : keeps_all_flags (analysis_at i).
Proof. unfold analysis_at. keeps_all_flags_auto. Qed.

Lemma keeps_all_flags_all_analyses : keeps_all_flags all_analyses.
Proof. unfold all_analyses. keeps_all_flags_auto. Qed.

Lemma keeps_all_flags_manager_option key : keeps_all_flags (manager_option manager key).
Proof. unfold manager_option. keeps_all_flags_auto. Qed.

#[local] Hint Resolve keeps_all_flags_analysis_at keeps_all_flags_all_analyses
  keeps_all_flags_manager_option : flags.

Lemma keeps_all_flags_collect_input_hists members :
  forall inclusive_analysis signal background,
    keeps_all_flags (collect_input_hists members inclusive_analysis signal background).
Proof.
  induction members as [|i members IH]; intros; cbn [collect_input_hists].
  - keeps_all_flags_auto.
  - apply keeps_all_flags_bind; [auto with flags | intros analysis].
    destruct (negb _); [auto with flags|].
    destruct (is_inclusive _); apply IH.
Qed.

#[local] Hint Resolve keeps_all_flags_collect_input_hists : flags.

Lemma keeps_all_flags_fit_delta_eta_correlations :
  keeps_all_flags (_fit_delta_eta_correlations
                     fit_pedestal_to_delta_eta_background_dominated_region manager).
Proof.
  pose proof keeps_flags_reading_and_writing as (_ & _ & ? & _ & _ & _ & _ & ? & _ & _).
  unfold _fit_delta_eta_correlations. keeps_all_flags_auto.
Qed.

Lemma keeps_all_flags_reaction_plane_fit :
  keeps_all_flags (_reaction_plane_fit reaction_plane_fit read_fit_results manager).
Proof.
  unfold _reaction_plane_fit, store_components. keeps_all_flags_auto.
Qed.

Lemma keeps_all_flags_subtract_reaction_plane_fits :
  keeps_all_flags (_subtract_reaction_plane_fits manager).
Proof.
  pose proof keeps_flags_reading_and_writing as (? & _ & _ & _ & _ & ? & _ & _ & _ & _).
  unfold _subtract_reaction_plane_fits. keeps_all_flags_auto.
Qed.

Lemma keeps_all_flags_subtract_delta_eta_fits :
  keeps_all_flags (_subtract_delta_eta_fits manager).
Proof.
  pose proof keeps_flags_reading_and_writing as (_ & ? & _ & _ & _ & _ & ? & _ & _ & _).
  unfold _subtract_delta_eta_fits. keeps_all_flags_auto.
Qed.

Lemma keeps_all_flags_extract_yields :
  keeps_all_flags (CorrelationsManager.extract_yields integral manager).
Proof.
  pose proof keeps_flags_reading_and_writing as (_ & _ & _ & ? & _ & _ & _ & _ & ? & _).
  unfold CorrelationsManager.extract_yields. keeps_all_flags_auto.
Qed.

Lemma keeps_all_flags_extract_widths :
  keeps_all_flags (CorrelationsManager.extract_widths
                     fit_pedestal_with_extended_gaussian manager).
Proof.
  pose proof keeps_flags_reading_and_writing as (_ & _ & _ & _ & ? & _ & _ & _ & _ & ?).
  unfold CorrelationsManager.extract_widths. keeps_all_flags_auto.
Qed.

Lemma keeps_all_flags_run_all_projections :
  keeps_all_flags (run_all_projections _create_2d_raw_and_mixed_correlations
                     _create_2d_signal_correlation plot_correlations _setup_1d_projectors
                     _create_1d_correlations
                     _compare_unsubtracted_1d_signal_correlation_to_joel).
Proof. unfold run_all_projections. keeps_all_flags_auto. Qed.

End StageFlagProofs.

(** C7.  The three stage flags are unset at construction, and every
    operation of the pipeline, whether it returns or raises, leaves each flag
    of each bin as it was or sets it: the methods of the analysis object
    (projections, pedestal fit, the two subtractions, yield and width
    extraction) and the stages of the manager (projections, fit, subtraction
    of the fits, yield and width extraction, and the whole run).  No flag is
    ever reset. *)
Theorem stage_flags_start_unset_and_are_monotonic
    (_create_2d_raw_and_mixed_correlations :
       Correlations.Correlations ->
       result (ROOT.TH2 * ROOT.TH2 * Histogram.Histogram1D * Q))
    (_create_2d_signal_correlation : Correlations.Correlations -> result ROOT.TH2)
    (plot_correlations : Correlations.PlotCorrelations)
    (_setup_1d_projectors : Correlations.Correlations -> result unit)
    (_create_1d_correlations :
       Correlations.Correlations ->
       result (Correlations.HistsDeltaPhi * Correlations.HistsDeltaEta))
    (_compare_unsubtracted_1d_signal_correlation_to_joel :
       Correlations.Correlations -> result unit)
    (fit_pedestal_to_delta_eta_background_dominated_region :
       Histogram.Histogram1D -> Correlations.SelectedRange -> result (Q * Q))
    (integral : Histogram.Histogram1D -> Q -> Q -> Q * Q)
    (fit_pedestal_with_extended_gaussian :
       Correlations.FitPedestalWithExtendedGaussian -> Histogram.Histogram1D ->
       result Correlations.WidthFitResult)
    (reaction_plane_fit :
       list (string * option Histogram.Histogram1D) ->
       list (string * option Histogram.Histogram1D) ->
       result (bool * CorrelationsManager.ReactionPlaneFit))
    (read_fit_results : string -> result CorrelationsManager.ReactionPlaneFit)
    (manager : CorrelationsManager.Manager) :
  (forall jet_pt_bin track_pt_bin orientation energy activity biased filename config,
      let c :=
        Correlations.init jet_pt_bin track_pt_bin orientation energy activity biased
          filename config in
      Correlations.ran_projections c = false
      /\ Correlations.ran_fitting c = false
      /\ Correlations.ran_post_fit_processing c = false)
  /\ Properties.keeps_flags
       (Correlations.run_projections _create_2d_raw_and_mixed_correlations
          _create_2d_signal_correlation plot_correlations _setup_1d_projectors
          _create_1d_correlations _compare_unsubtracted_1d_signal_correlation_to_joel)
  /\ Properties.keeps_flags
       (Correlations.fit_delta_eta_correlations
          fit_pedestal_to_delta_eta_background_dominated_region)
  /\ Properties.keeps_flags
       Correlations.subtract_background_fit_function_from_signal_dominated
  /\ Properties.keeps_flags Correlations.subtract_delta_eta_correlations
  /\ Properties.keeps_flags (Correlations.extract_yields integral)
  /\ Properties.keeps_flags
       (Correlations.extract_widths fit_pedestal_with_extended_gaussian)
  /\ Properties.keeps_all_flags
       (CorrelationsManager.run_all_projections _create_2d_raw_and_mixed_correlations
          _create_2d_signal_correlation plot_correlations _setup_1d_projectors
          _create_1d_correlations _compare_unsubtracted_1d_signal_correlation_to_joel)
  /\ Properties.keeps_all_flags
       (CorrelationsManager.fit fit_pedestal_to_delta_eta_background_dominated_region
          reaction_plane_fit read_fit_results manager)
  /\ Properties.keeps_all_flags (CorrelationsManager.subtract_fits manager)
  /\ Properties.keeps_all_flags (CorrelationsManager.extract_yields integral manager)
  /\ Properties.keeps_all_flags
       (CorrelationsManager.extract_widths fit_pedestal_with_extended_gaussian manager)
  /\ Properties.keeps_all_flags
       (CorrelationsManager.run_manager _create_2d_raw_and_mixed_correlations
          _create_2d_signal_correlation plot_correlations _setup_1d_projectors
          _create_1d_correlations _compare_unsubtracted_1d_signal_correlation_to_joel
          fit_pedestal_to_delta_eta_background_dominated_region integral
          fit_pedestal_with_extended_gaussian reaction_plane_fit read_fit_results manager).
Proof.
  assert (Hfit : Properties.keeps_all_flags
            (CorrelationsManager.fit fit_pedestal_to_delta_eta_background_dominated_region
               reaction_plane_fit read_fit_results manager)).
  { unfold CorrelationsManager.fit.
    apply keeps_all_flags_bind; [apply keeps_all_flags_fit_delta_eta_correlations | intros].
    apply keeps_all_flags_bind; [apply keeps_all_flags_reaction_plane_fit | intros].
    apply keeps_all_flags_ret. }
  assert (Hsub : Properties.keeps_all_flags (CorrelationsManager.subtract_fits manager)).
  { unfold CorrelationsManager.subtract_fits.
    apply keeps_all_flags_bind; [apply keeps_all_flags_subtract_reaction_plane_fits | intros].
    apply keeps_all_flags_bind; [apply keeps_all_flags_subtract_delta_eta_fits | intros].
    apply keeps_all_flags_ret. }
  split; [intros; repeat split; reflexivity|].
  split; [apply keeps_flags_run_projections|].
  split; [apply keeps_flags_fit_delta_eta_correlations|].
  split; [apply keeps_flags_subtract_background_fit_function_from_signal_dominated|].
  split; [apply keeps_flags_subtract_delta_eta_correlations|].
  split; [apply keeps_flags_extract_yields|].
  split; [apply keeps_flags_extract_widths|].
  split; [apply keeps_all_flags_run_all_projections|].
  split; [exact Hfit|].
  split; [exact Hsub|].
  split; [apply keeps_all_flags_extract_yields|].
  split; [apply keeps_all_flags_extract_widths|].
  unfold CorrelationsManager.run_manager.
  apply keeps_all_flags_bind; [apply keeps_all_flags_run_all_projections | intros].
  apply keeps_all_flags_bind; [exact Hfit | intros].
  apply keeps_all_flags_bind; [exact Hsub | intros].
  apply keeps_all_flags_bind; [apply keeps_all_flags_extract_yields | intros].
  apply keeps_all_flags_bind; [apply keeps_all_flags_extract_widths | intros].
  apply keeps_all_flags_ret.
Qed.

(* ===================================================================== *)
(** * The order of the stages *)
(* ===================================================================== *)

Section StageOrderProofs.

Import Correlations.
Import CorrelationsManager.

(** Where the loop of the delta phi subtraction reaches a bin that was not
    fitted, it raises before it subtracts or writes anything. *)
Lemma subtract_reaction_plane_fits_checks_the_bins_it_reaches
    (manager : Manager) (st : ManagerState)
    (key : string) (i : nat) (members : list nat) (rest : list (string * list nat))
    (a : Correlations) :
  groups manager = (key, i :: members) :: rest ->
  fit_objects st <> [] ->
  analyses st !! i = Some a ->
  ran_fitting a = false ->
  _subtract_reaction_plane_fits manager st
  = (Raise (RuntimeError "Must run the fitting before subtracting!"), st).
Proof.
  intros Hgroups Hfits Ha Hflag.
  unfold _subtract_reaction_plane_fits. rewrite Hgroups.
  destruct (fit_objects st) as [|[k fit] fits] eqn:Efits; [contradiction|].
  unfold Py.bindM at 1. cbn [Py.get]. rewrite Efits.
  cbn [Dict.keys List.map fst List.combine Py.for_each].
  unfold Py.bindM, analysis_at, on_analysis. rewrite Ha. cbn. rewrite Hflag. cbn.
  unfold Py.raise. f_equal.
  destruct st as [fs lg an fo]. cbn in *. f_equal.
  apply list_insert_id. exact Ha.
Qed.

End StageOrderProofs.

(** C2 (evaluation at the failing input).  For a manager whose only bin has
    run its projections but no fit (its fitting flag is unset, its pedestals
    are the initial [-1], and no reaction plane fit is stored), the delta phi
    subtraction stage returns without an error and without a change, and the
    delta eta subtraction stage returns without an error and persists the
    subtracted near-side and away-side records, the data minus the pedestal
    [-1]. *)
Theorem subtraction_before_fit_is_not_rejected :
  List.map Correlations.ran_fitting (CorrelationsManager.analyses Example.before_fit)
  = [false]
  /\ CorrelationsManager.fit_objects Example.before_fit = []
  /\ Example.persisted Example.before_fit Example.subtracted_near_side_name = None
  /\ CorrelationsManager._subtract_reaction_plane_fits Example.manager Example.before_fit
     = (Ok tt, Example.before_fit)
  /\ fst (CorrelationsManager._subtract_delta_eta_fits Example.manager Example.before_fit)
     = Ok tt
  /\ Example.persisted
       (snd (CorrelationsManager._subtract_delta_eta_fits Example.manager Example.before_fit))
       Example.subtracted_near_side_name
     = Some {| Histogram.bin_edges := [(- 1)%Q; 0%Q; 1%Q];
               Histogram.y := [4%Q; 6%Q];
               Histogram.errors_squared := [2%Q; 5%Q] |}
  /\ Example.persisted
       (snd (CorrelationsManager._subtract_delta_eta_fits Example.manager Example.before_fit))
       Example.subtracted_away_side_name
     = Some {| Histogram.bin_edges := [(- 1)%Q; 0%Q; 1%Q];
               Histogram.y := [4%Q; 6%Q];
               Histogram.errors_squared := [2%Q; 5%Q] |}.
Proof.
  repeat apply conj; vm_compute; reflexivity.
Qed.

(* ===================================================================== *)
(** * The theorems at the example analysis *)
(* ===================================================================== *)

Lemma measure_mixed_event_normalization_spec_witness :
  (ROOT.fXmin (ROOT.h2_yaxis Example.uniform_mixed_event)
   < ROOT.fXmax (ROOT.h2_yaxis Example.uniform_mixed_event))%Q
  /\ (fst Example.eta_limits + epsilon <= snd Example.eta_limits - epsilon)%Q
  /\ (36 <= Pos.to_nat (ROOT.fNbins (ROOT.h2_xaxis Example.uniform_mixed_event)))%nat
  /\ exists (m norm : Q) (log : list CorrelationsHelpers.log_record),
       MixedEventSpec.is_maximum m
         (MixedEventSpec.window_means
            (MixedEventSpec.scaled_projection Example.uniform_mixed_event Example.eta_limits)
            36)
       /\ CorrelationsHelpers.measure_mixed_event_normalization
            Example.uniform_mixed_event Example.eta_limits = Ok (norm, log)
       /\ (((m == 0)%Q /\ norm = 1%Q
            /\ List.In (CorrelationsHelpers.WarningCouldNotNormalize
                          (ROOT.h2_name Example.uniform_mixed_event)) log)
           \/ (~ (m == 0)%Q /\ norm = m
               /\ ~ List.In (CorrelationsHelpers.WarningCouldNotNormalize
                               (ROOT.h2_name Example.uniform_mixed_event)) log))
       /\ ~ (norm == 0)%Q.
Proof.
  assert (H1 : (ROOT.fXmin (ROOT.h2_yaxis Example.uniform_mixed_event)
                < ROOT.fXmax (ROOT.h2_yaxis Example.uniform_mixed_event))%Q)
    by reflexivity.
  assert (H2 : (fst Example.eta_limits + epsilon <= snd Example.eta_limits - epsilon)%Q)
    by (vm_compute; discriminate).
  assert (H3 : (36 <= Pos.to_nat (ROOT.fNbins (ROOT.h2_xaxis Example.uniform_mixed_event)))%nat)
    by (vm_compute; lia).
  split; [exact H1|]. split; [exact H2|]. split; [exact H3|].
  exact (measure_mixed_event_normalization_spec Example.uniform_mixed_event
           Example.eta_limits H1 H2 H3).
Defined.

Lemma delta_eta_subtraction_uses_near_side_pedestal_witness :
  let c := Correlations.self Example.projected in
  let pedestal := Correlations.fit_near_side (Correlations.fit_objects_delta_eta c) in
  Correlations.near_side (Correlations.correlation_hists_delta_eta c)
  = Some Example.correlation
  /\ Correlations.away_side (Correlations.correlation_hists_delta_eta c)
     = Some Example.correlation
  /\ Properties.well_formed Example.correlation
  /\ Properties.constant_background pedestal Example.correlation
       (Correlations.pedestal_background_hist pedestal Example.correlation)
  /\ Properties.constant_background pedestal Example.correlation
       (Correlations.pedestal_background_hist pedestal Example.correlation)
  /\ exists s' subtracted_near subtracted_away,
       Correlations.subtract_delta_eta_correlations Example.projected = (Ok tt, s')
       /\ Correlations.near_side
            (Correlations.correlation_hists_delta_eta_subtracted (Correlations.self s'))
          = Some subtracted_near
       /\ Correlations.away_side
            (Correlations.correlation_hists_delta_eta_subtracted (Correlations.self s'))
          = Some subtracted_away
       /\ Properties.pedestal_subtracted pedestal Example.correlation subtracted_near
       /\ Properties.pedestal_subtracted pedestal Example.correlation subtracted_away.
Proof.
  intros c pedestal.
  assert (H1 : Correlations.near_side (Correlations.correlation_hists_delta_eta c)
               = Some Example.correlation) by (vm_compute; reflexivity).
  assert (H2 : Correlations.away_side (Correlations.correlation_hists_delta_eta c)
               = Some Example.correlation) by (vm_compute; reflexivity).
  assert (H3 : Properties.well_formed Example.correlation) by (split; reflexivity).
  split; [exact H1|]. split; [exact H2|]. split; [exact H3|].
  exact (delta_eta_subtraction_uses_near_side_pedestal Example.projected
           Example.correlation Example.correlation H1 H2 H3 H3).
Defined.

Lemma yields_are_integrals_per_unit_track_pt_witness :
  let c := Correlations.self Example.subtracted in
  let phi_limit := Correlations.delta_phi_yield_limit (Correlations.task_config c) in
  let eta_limit := Correlations.delta_eta_yield_limit (Correlations.task_config c) in
  let yield :=
    Properties.yield_per_unit_track_pt Example.integrate (Correlations.track_pt c) in
  Correlations.signal_dominated (Correlations.correlation_hists_delta_phi_subtracted c)
  = Some Example.correlation
  /\ Correlations.near_side (Correlations.correlation_hists_delta_eta_subtracted c)
     = Some Example.correlation
  /\ Correlations.away_side (Correlations.correlation_hists_delta_eta_subtracted c)
     = Some Example.correlation
  /\ (Correlations.pt_min (Correlations.track_pt c)
      < Correlations.pt_max (Correlations.track_pt c))%Q
  /\ exists s',
       Correlations.extract_yields Example.integrate Example.subtracted = (Ok tt, s')
       /\ Correlations.yields_delta_phi (Correlations.self s')
          = {| Correlations.yield_near_side := yield Example.correlation 0%Q phi_limit;
               Correlations.yield_away_side := yield Example.correlation np_pi phi_limit |}
       /\ Correlations.yields_delta_eta (Correlations.self s')
          = {| Correlations.yield_near_side := yield Example.correlation 0%Q eta_limit;
               Correlations.yield_away_side := yield Example.correlation 0%Q eta_limit |}.
Proof.
  intros c phi_limit eta_limit yield.
  assert (H1 : Correlations.signal_dominated
                 (Correlations.correlation_hists_delta_phi_subtracted c)
               = Some Example.correlation) by reflexivity.
  assert (H2 : Correlations.near_side (Correlations.correlation_hists_delta_eta_subtracted c)
               = Some Example.correlation) by reflexivity.
  assert (H3 : Correlations.away_side (Correlations.correlation_hists_delta_eta_subtracted c)
               = Some Example.correlation) by reflexivity.
  assert (H4 : (Correlations.pt_min (Correlations.track_pt c)
                < Correlations.pt_max (Correlations.track_pt c))%Q)
    by (vm_compute; reflexivity).
  split; [exact H1|]. split; [exact H2|]. split; [exact H3|]. split; [exact H4|].
  exact (yields_are_integrals_per_unit_track_pt Example.integrate Example.subtracted
           Example.correlation Example.correlation Example.correlation H1 H2 H3 H4).
Defined.

(* ===================================================================== *)
(** * Which fits are defined ([JetHEPFit.DefineFits]) *)
(* ===================================================================== *)

Section DefineFitsProofs.

Import Fit JetHEPFit FitProperties.

Lemma ReactionPlaneOrientation_str_inj (a b : ReactionPlaneOrientation) :
  ReactionPlaneOrientation_str a = ReactionPlaneOrientation_str b -> a = b.
Proof. destruct a, b; cbn; intros H; first [reflexivity | discriminate H]. Qed.

Lemma CorrelationType_str_inj (a b : CorrelationType) :
  CorrelationType_str a = CorrelationType_str b -> a = b.
Proof. destruct a, b; cbn; intros H; first [reflexivity | discriminate H]. Qed.

Lemma foldM_app (A B : Type) (f : B -> A -> result B) (l1 l2 : list A) (b : B) :
  foldM f (l1 ++ l2) b = bind (foldM f l1 b) (foldM f l2).
Proof.
  revert b. induction l1 as [|a l1 IH]; intros b; cbn [foldM List.app bind]; [reflexivity|].
  destruct (f b a) as [b'|e]; cbn [bind]; [apply IH | reflexivity].
Qed.

Lemma foldM_map (A A' B : Type) (g : A -> A') (f : B -> A' -> result B) (l : list A) (b : B) :
  foldM f (List.map g l) b = foldM (fun b a => f b (g a)) l b.
Proof.
  revert b. induction l as [|a l IH]; intros b; cbn [foldM List.map]; [reflexivity|].
  destruct (f b (g a)) as [b'|e]; cbn [bind]; [apply IH | reflexivity].
Qed.

(** [DefineFits] is one loop over the observables. *)
Lemma DefineFits_observables (cfg : FitConfig) (analyses : list JetHAnalysis) (fits : Fits) :
  DefineFits cfg analyses fits
  = foldM (fun fits '(epAngle, observable) => define_fit cfg epAngle fits observable)
          (observables analyses) fits.
Proof.
  unfold DefineFits, observables. revert fits.
  induction analyses as [|jetH analyses IH]; intros fits; [reflexivity|].
  cbn [foldM List.flat_map].
  rewrite (foldM_app _ _ _ (List.map _ _) (List.flat_map _ _)), foldM_map. cbv beta iota.
  destruct (foldM _ (dPhiArray jetH ++ dPhiSideBandArray jetH) fits) as [fits'|e];
    cbn [bind]; [apply IH | reflexivity].
Qed.

(** What one step stores. *)
Lemma stored_cost_define_fit (cfg : FitConfig) (epAngle : ReactionPlaneOrientation)
    (fits fits' : Fits) (observable : Observable) :
  define_fit cfg epAngle fits observable = Ok fits' ->
  forall j t ep ty,
    ((j, t) = (jetPtBin observable, trackPtBin observable)
     /\ ep = epAngle /\ ty = correlationType observable
     /\ CheckIfFitIsEnabled cfg ep ty = true
     /\ is_Some (stored_cost fits' j t ep ty))
    \/ (((j, t) <> (jetPtBin observable, trackPtBin observable)
         \/ ep <> epAngle \/ ty <> correlationType observable
         \/ CheckIfFitIsEnabled cfg epAngle (correlationType observable) = false)
        /\ stored_cost fits' j t ep ty = stored_cost fits j t ep ty).
Proof.
  unfold define_fit. intros H j t ep ty.
  destruct (CheckIfFitIsEnabled cfg epAngle (correlationType observable)) eqn:En;
    cbn [negb] in H.
  2:{ injection H as <-. right. split; [|reflexivity]. do 3 right. reflexivity. }
  destruct (define_cost_function cfg epAngle observable) as [cost|e]; cbn [bind] in H;
    [|discriminate H].
  injection H as <-. unfold stored_cost.
  set (key := (jetPtBin observable, trackPtBin observable)).
  set (fits1 := match fits !! key with Some _ => fits | None => <[key := ∅]> fits end).
  assert (Hdefault : default ∅ (fits1 !! key) = default ∅ (fits !! key)).
  { subst fits1. destruct (fits !! key) as [inner|] eqn:Ef.
    - rewrite Ef. reflexivity.
    - rewrite (lookup_insert_eq fits key). reflexivity. }
  assert (Hother : forall k, k <> key -> fits1 !! k = fits !! k).
  { intros k Hk. subst fits1. destruct (fits !! key) as [inner|]; [reflexivity|].
    apply (lookup_insert_ne fits). intros E. apply Hk. symmetry. exact E. }
  rewrite Hdefault.
  destruct (decide ((j, t) = key)) as [Ek|Nk].
  - rewrite Ek, (lookup_insert_eq fits1 key). cbn [mbind option_bind].
    destruct (decide ((ReactionPlaneOrientation_str ep, CorrelationType_str ty)
                      = (ReactionPlaneOrientation_str epAngle,
                         CorrelationType_str (correlationType observable)))) as [Ei|Ni].
    + injection Ei as Eep Ety.
      apply ReactionPlaneOrientation_str_inj in Eep. apply CorrelationType_str_inj in Ety.
      subst ep ty. left. repeat split; try assumption.
      rewrite lookup_insert_eq. eexists; reflexivity.
    + right. split.
      * destruct (decide (ReactionPlaneOrientation_str ep
                          = ReactionPlaneOrientation_str epAngle)) as [E1|N1];
          [|right; left; intros ->; apply N1; reflexivity].
        destruct (decide (CorrelationType_str ty
                          = CorrelationType_str (correlationType observable))) as [E2|N2];
          [|right; right; left; intros ->; apply N2; reflexivity].
        destruct Ni. rewrite E1, E2. reflexivity.
      * rewrite lookup_insert_ne by (intros E; apply Ni; symmetry; exact E).
        destruct (fits !! key) as [inner|]; cbn; [reflexivity | apply lookup_empty].
  - right. split; [left; exact Nk|].
    rewrite (lookup_insert_ne fits1) by (intros E; apply Nk; symmetry; exact E).
    rewrite Hother by exact Nk. reflexivity.
Qed.

Lemma defined_fits_are_enabled (cfg : FitConfig)
    (l : list (ReactionPlaneOrientation * Observable)) :
  forall fits fits',
    foldM (fun fits '(epAngle, observable) => define_fit cfg epAngle fits observable) l fits
    = Ok fits' ->
    forall j t ep ty,
      is_Some (stored_cost fits' j t ep ty) ->
      is_Some (stored_cost fits j t ep ty)
      \/ (CheckIfFitIsEnabled cfg ep ty = true
          /\ exists observable,
               List.In (ep, observable) l
               /\ jetPtBin observable = j /\ trackPtBin observable = t
               /\ correlationType observable = ty).
Proof.
  induction l as [|[epAngle observable] l IH]; intros fits fits' H j t ep ty Hs.
  - injection H as <-. left. exact Hs.
  - cbn [foldM] in H.
    destruct (define_fit cfg epAngle fits observable) as [fits1|e] eqn:E1; cbn [bind] in H;
      [|discriminate H].
    destruct (IH _ _ H j t ep ty Hs) as [Hs1|(En & o & Hin & Ho)].
    + destruct (stored_cost_define_fit _ _ _ _ _ E1 j t ep ty)
        as [(Ek & -> & -> & En & _)|(_ & Eq)].
      * right. split; [exact En|]. exists observable. injection Ek as -> ->.
        split; [left; reflexivity | repeat split].
      * left. rewrite <- Eq. exact Hs1.
    + right. split; [exact En|]. exists o. split; [right; exact Hin | exact Ho].
Qed.

Lemma enabled_fits_are_defined (cfg : FitConfig)
    (l : list (ReactionPlaneOrientation * Observable)) :
  forall fits fits',
    foldM (fun fits '(epAngle, observable) => define_fit cfg epAngle fits observable) l fits
    = Ok fits' ->
    forall j t ep ty,
      (is_Some (stored_cost fits j t ep ty)
       \/ (CheckIfFitIsEnabled cfg ep ty = true
           /\ exists observable,
                List.In (ep, observable) l
                /\ jetPtBin observable = j /\ trackPtBin observable = t
                /\ correlationType observable = ty)) ->
      is_Some (stored_cost fits' j t ep ty).
Proof.
  induction l as [|[epAngle observable] l IH]; intros fits fits' H j t ep ty Hs.
  - injection H as <-. destruct Hs as [Hs|(_ & o & [] & _)]. exact Hs.
  - cbn [foldM] in H.
    destruct (define_fit cfg epAngle fits observable) as [fits1|e] eqn:E1; cbn [bind] in H;
      [|discriminate H].
    apply (IH _ _ H).
    destruct (stored_cost_define_fit _ _ _ _ _ E1 j t ep ty)
      as [(_ & _ & _ & _ & Hs1)|(Hne & Eq)]; [left; exact Hs1|].
    destruct Hs as [Hs|(En & o & [Hin|Hin] & Hj & Ht & Hty)].
    + left. rewrite Eq. exact Hs.
    + injection Hin as -> ->. subst j t ty.
      destruct Hne as [N|[N|[N|N]]]; try (destruct (N eq_refl)).
      rewrite N in En. discriminate En.
    + right. split; [exact En|]. exists o. repeat split; assumption.
Qed.

(** Only an observable that is neither signal nor background dominated
    makes the definition of its fit raise. *)
Lemma fits_of_fittable_observables_are_defined (cfg : FitConfig)
    (l : list (ReactionPlaneOrientation * Observable)) :
  (forall ep o, List.In (ep, o) l ->
     correlationType o = signal_dominated \/ correlationType o = background_dominated) ->
  forall fits,
  exists fits',
    foldM (fun fits '(epAngle, observable) => define_fit cfg epAngle fits observable) l fits
    = Ok fits'.
Proof.
  induction l as [|[ep o] l IH]; intros Hl fits; [exists fits; reflexivity|].
  cbn [foldM].
  assert (H1 : exists fits1, define_fit cfg ep fits o = Ok fits1).
  { unfold define_fit, define_cost_function.
    destruct (CheckIfFitIsEnabled cfg ep (correlationType o)); cbn [negb];
      [|eexists; reflexivity].
    destruct (Hl ep o (or_introl eq_refl)) as [-> | ->]; cbn;
      destruct (List.existsb _ _); eexists; reflexivity. }
  destruct H1 as [fits1 ->]. cbn [bind].
  apply IH. intros ep' o' H. apply (Hl ep' o'). right. exact H.
Qed.

Lemma stored_cost_empty j t ep ty : stored_cost ∅ j t ep ty = None.
Proof. reflexivity. Qed.

End DefineFitsProofs.

(** X4.  When [DefineFits] returns, starting without any fit, a cost function is
    stored for a jet pt bin, a track pt bin, an orientation and a
    correlation type exactly when the fit of that orientation and type is
    enabled and the analysis objects have such an observable. *)
Theorem DefineFits_defines_the_enabled_fits
    (cfg : JetHEPFit.FitConfig) (analyses : list JetHEPFit.JetHAnalysis)
    (fits : JetHEPFit.Fits) (jetPtBin trackPtBin : nat)
    (epAngle : Fit.ReactionPlaneOrientation) (correlationType : JetHEPFit.CorrelationType) :
  JetHEPFit.DefineFits cfg analyses ∅ = Ok fits ->
  is_Some (FitProperties.stored_cost fits jetPtBin trackPtBin epAngle correlationType)
  <-> (JetHEPFit.CheckIfFitIsEnabled cfg epAngle correlationType = true
       /\ exists observable,
            List.In (epAngle, observable) (FitProperties.observables analyses)
            /\ JetHEPFit.jetPtBin observable = jetPtBin
            /\ JetHEPFit.trackPtBin observable = trackPtBin
            /\ JetHEPFit.correlationType observable = correlationType).
Proof.
  rewrite DefineFits_observables. intros H. split.
  - intros Hs. destruct (defined_fits_are_enabled _ _ _ _ H _ _ _ _ Hs) as [[c Hc]|Hen].
    + rewrite stored_cost_empty in Hc. discriminate Hc.
    + exact Hen.
  - intros Hen. apply (enabled_fits_are_defined _ _ _ _ H). right. exact Hen.
Qed.

(** X5.  [DefineFits] never defines both the all angles background fit and the
    background fit of a reaction plane orientation for one bin: they would
    count the same data twice. *)
Theorem DefineFits_never_fits_the_background_twice
    (cfg : JetHEPFit.FitConfig) (analyses : list JetHEPFit.JetHAnalysis)
    (fits : JetHEPFit.Fits) (jetPtBin trackPtBin : nat)
    (epAngle : Fit.ReactionPlaneOrientation) :
  JetHEPFit.DefineFits cfg analyses ∅ = Ok fits ->
  epAngle <> Fit.all ->
  is_Some (FitProperties.stored_cost fits jetPtBin trackPtBin Fit.all
             JetHEPFit.background_dominated) ->
  FitProperties.stored_cost fits jetPtBin trackPtBin epAngle JetHEPFit.background_dominated
  = None.
Proof.
  rewrite DefineFits_observables. intros H Hep Hall.
  destruct (defined_fits_are_enabled _ _ _ _ H _ _ _ _ Hall) as [[c Hc]|(Hen & _)].
  { rewrite stored_cost_empty in Hc. discriminate Hc. }
  destruct (FitProperties.stored_cost fits jetPtBin trackPtBin epAngle
              JetHEPFit.background_dominated) as [c|] eqn:Es; [|reflexivity].
  destruct (defined_fits_are_enabled _ _ _ _ H jetPtBin trackPtBin epAngle
              JetHEPFit.background_dominated) as [[c' Hc]|(Hen' & _)].
  { rewrite Es. eexists; reflexivity. }
  { rewrite stored_cost_empty in Hc. discriminate Hc. }
  exfalso. unfold JetHEPFit.CheckIfFitIsEnabled in Hen, Hen'. cbn in Hen, Hen'.
  destruct (JetHEPFit.allAnglesBackground cfg), epAngle; cbn in Hen, Hen';
    first [discriminate | contradiction].
Qed.

(* ===================================================================== *)
(** * The arguments of the fit function and the free parameters *)
(* ===================================================================== *)

Section FitArgumentsProofs.

Import JetHEPFit FitProperties.

Lemma PyList_index_In (l : list string) (name : string) (i : nat) :
  PyList.index l name = Some i -> List.In name l.
Proof.
  revert i. induction l as [|s l IH]; intros i; cbn; [discriminate|].
  destruct (String.eqb s name) eqn:E.
  - intros _. left. apply String.eqb_eq, E.
  - destruct (PyList.index l name) as [k|]; [|discriminate].
    intros _. right. apply (IH k eq_refl).
Qed.

Lemma PyList_index_None (l : list string) (name : string) :
  PyList.index l name = None -> ~ List.In name l.
Proof.
  induction l as [|s l IH]; cbn; [intros _ []|].
  destruct (String.eqb s name) eqn:E; [discriminate|].
  destruct (PyList.index l name) as [k|]; [discriminate|].
  intros _ [->|H]; [rewrite String.eqb_refl in E; discriminate E | exact (IH eq_refl H)].
Qed.

(** Popping the position of a name removes its first occurrence. *)
Lemma PyList_pop_index_In (l : list string) (name : string) (i : nat) :
  PyList.index l name = Some i ->
  forall n, List.In n (PyList.pop l i) -> List.In n l.
Proof.
  revert i. induction l as [|s l IH]; intros i; cbn; [discriminate|].
  destruct (String.eqb s name) eqn:E.
  - intros [= <-] n Hn. right. exact Hn.
  - destruct (PyList.index l name) as [k|] eqn:Ek; [|discriminate].
    intros [= <-] n [->|Hn]; [left; reflexivity | right; apply (IH k eq_refl n Hn)].
Qed.

Lemma PyList_pop_index_NoDup (l : list string) (name : string) (i : nat) :
  List.NoDup l -> PyList.index l name = Some i ->
  List.NoDup (PyList.pop l i) /\ ~ List.In name (PyList.pop l i).
Proof.
  intros Hnd. revert i. induction Hnd as [|s l Hs Hnd IH]; intros i; cbn; [discriminate|].
  destruct (String.eqb s name) eqn:E.
  - intros [= <-]. apply String.eqb_eq in E. subst s. split; assumption.
  - destruct (PyList.index l name) as [k|] eqn:Ek; [|discriminate].
    intros [= <-]. destruct (IH k eq_refl) as (Hnd' & Hname). split.
    + constructor; [|exact Hnd'].
      intros Hin. apply Hs. apply (PyList_pop_index_In l name k Ek s Hin).
    + intros [->|Hin]; [rewrite String.eqb_refl in E; discriminate E | exact (Hname Hin)].
Qed.

Lemma PyList_pop_index_keeps (l : list string) (name : string) (i : nat) :
  PyList.index l name = Some i ->
  forall n, List.In n l -> n <> name -> List.In n (PyList.pop l i).
Proof.
  revert i. induction l as [|s l IH]; intros i; cbn; [discriminate|].
  destruct (String.eqb s name) eqn:E.
  - intros [= <-] n [->|Hn] Hne; [|exact Hn].
    apply String.eqb_eq in E. contradiction.
  - destruct (PyList.index l name) as [k|] eqn:Ek; [|discriminate].
    intros [= <-] n [->|Hn] Hne; [left; reflexivity | right; apply (IH k eq_refl n Hn Hne)].
Qed.

Lemma Dict_set_fresh (V : Type) (d : Dict.t V) (key : string) (value : V) :
  ~ List.In key (Dict.keys d) -> Dict.set d key value = d ++ [(key, value)].
Proof.
  induction d as [|[k v] d IH]; cbn; [reflexivity|].
  intros Hk. destruct (String.eqb k key) eqn:E.
  - apply String.eqb_eq in E. destruct Hk. left. exact E.
  - rewrite IH; [reflexivity|]. intros H. apply Hk. right. exact H.
Qed.

(** The loop of [GetArgsForFunc] appends the names in order. *)
Lemma GetArgsForFunc_loop (fitContainer : FitContainer) (names : list string) :
  List.NoDup names ->
  (forall n, List.In n names -> is_Some (values fitContainer !! n)) ->
  forall argsForFuncCall : Dict.t (option Q),
    (forall n, List.In n names -> ~ List.In n (Dict.keys argsForFuncCall)) ->
    foldM (fun argsForFuncCall name =>
             match values fitContainer !! name with
             | None => Raise (KeyError name)
             | Some v => Ok (Dict.set argsForFuncCall name (Some v))
             end)
          names argsForFuncCall
    = Ok (argsForFuncCall ++ List.map (fun n => (n, values fitContainer !! n)) names).
Proof.
  intros Hnd. induction Hnd as [|n names Hn Hnd IH]; intros Hall args Hfresh.
  - cbn. rewrite List.app_nil_r. reflexivity.
  - cbn [foldM List.map].
    destruct (Hall n (or_introl eq_refl)) as [v Hv]. rewrite Hv. cbn [bind].
    rewrite Dict_set_fresh by (apply Hfresh; left; reflexivity).
    rewrite IH.
    + rewrite <- List.app_assoc. reflexivity.
    + intros m Hm. apply Hall. right. exact Hm.
    + intros m Hm. unfold Dict.keys. rewrite List.map_app, List.in_app_iff.
      intros [H|[<-|[]]]; [|exact (Hn Hm)].
      apply (Hfresh m (or_intror Hm)). exact H.
Qed.

(** The loop stops at the first name without a value. *)
Lemma GetArgsForFunc_loop_raises (fitContainer : FitContainer) (names : list string) :
  forall (argsForFuncCall : Dict.t (option Q)) (e : exn),
    foldM (fun argsForFuncCall name =>
             match values fitContainer !! name with
             | None => Raise (KeyError name)
             | Some v => Ok (Dict.set argsForFuncCall name (Some v))
             end)
          names argsForFuncCall
    = Raise e ->
    exists name, e = KeyError name /\ List.In name names
                 /\ values fitContainer !! name = None.
Proof.
  induction names as [|n names IH]; intros args e; cbn [foldM]; [discriminate|].
  destruct (values fitContainer !! n) as [v|] eqn:Ev; cbn [bind].
  - intros H. destruct (IH _ _ H) as (m & -> & Hm & Hv).
    exists m. split; [reflexivity|]. split; [right; exact Hm | exact Hv].
  - intros [= <-]. exists n. split; [reflexivity|]. split; [left; reflexivity | exact Ev].
Qed.

Lemma foldM_ok_all (fitContainer : FitContainer) (names : list string) :
  forall (argsForFuncCall d : Dict.t (option Q)),
    foldM (fun argsForFuncCall name =>
             match values fitContainer !! name with
             | None => Raise (KeyError name)
             | Some v => Ok (Dict.set argsForFuncCall name (Some v))
             end)
          names argsForFuncCall
    = Ok d ->
    forall n, List.In n names -> is_Some (values fitContainer !! n).
Proof.
  induction names as [|m names IH]; intros args d; cbn [foldM]; [intros _ n []|].
  destruct (values fitContainer !! m) as [v|] eqn:Ev; cbn [bind]; [|discriminate].
  intros H n [<-|Hn]; [eexists; exact Ev | exact (IH _ _ H n Hn)].
Qed.

(** ** The parameters that the fit kept fixed *)

Lemma prefix_of_contains (sub s : string) :
  PyStr.contains sub s = false -> String.prefix sub s = false.
Proof.
  destruct s; cbn; intros H; apply orb_false_iff in H; apply H.
Qed.

(** Where the old text does not occur, nothing is replaced. *)
Lemma replace_fuel_without (old new : string) (s : string) :
  PyStr.contains old s = false ->
  forall fuel, PyStr.replace_fuel fuel old new s = s.
Proof.
  induction s as [|ch s IH]; intros H fuel; destruct fuel; cbn [PyStr.replace_fuel];
    try reflexivity.
  rewrite (prefix_of_contains _ _ H).
  cbn [PyStr.contains] in H. apply orb_false_iff in H. rewrite (IH (proj2 H)). reflexivity.
Qed.

Lemma replace_fuel_step (fuel : nat) (old new : string) (ch : ascii) (rest : string) :
  PyStr.replace_fuel (S fuel) old new (String ch rest)
  = if String.prefix old (String ch rest)
    then String.append new
           (PyStr.replace_fuel fuel old new (PyStr.drop (String.length old) (String ch rest)))
    else String ch (PyStr.replace_fuel fuel old new rest).
Proof. reflexivity. Qed.

Lemma replace_fix_prefix (name : string) :
  PyStr.contains "fix_" name = false ->
  PyStr.replace "fix_" EmptyString (String.append "fix_" name) = name.
Proof.
  intros H. unfold PyStr.replace.
  change (String.append "fix_" name) with (String "f" (String "i" (String "x" (String "_" name)))).
  change (String.length (String "f" (String "i" (String "x" (String "_" name)))))
    with (S (S (S (S (String.length name))))).
  assert (Hprefix : String.prefix "fix_" (String "f" (String "i" (String "x" (String "_" name))))
                    = true) by (cbn; destruct name; reflexivity).
  rewrite replace_fuel_step, Hprefix.
  change (PyStr.drop (String.length "fix_")
            (String "f" (String "i" (String "x" (String "_" name))))) with name.
  change (String.append EmptyString ?s) with s.
  apply replace_fuel_without. exact H.
Qed.

Lemma contains_fix_prefix (name : string) :
  PyStr.contains "fix_" (String.append "fix_" name) = true.
Proof. cbn. destruct name; reflexivity. Qed.

Lemma drop_fixed_In funcArgs entry n :
  List.In n (drop_fixed funcArgs entry) -> List.In n funcArgs.
Proof.
  destruct entry as [param v]. cbn.
  destruct (PyStr.contains "fix_" param && equals_True v); [|exact (fun H => H)].
  destruct (PyList.index funcArgs _) as [i|] eqn:E; [|exact (fun H => H)].
  apply (PyList_pop_index_In _ _ _ E).
Qed.

Lemma drop_fixed_NoDup funcArgs entry :
  List.NoDup funcArgs -> List.NoDup (drop_fixed funcArgs entry).
Proof.
  intros Hnd. destruct entry as [param v]. cbn.
  destruct (PyStr.contains "fix_" param && equals_True v); [|exact Hnd].
  destruct (PyList.index funcArgs _) as [i|] eqn:E; [|exact Hnd].
  apply (PyList_pop_index_NoDup _ _ _ Hnd E).
Qed.

Lemma drop_fixed_loop_In (entries : list (string * FitArg)) :
  forall funcArgs n,
    List.In n (List.fold_left drop_fixed entries funcArgs) -> List.In n funcArgs.
Proof.
  induction entries as [|entry entries IH]; intros funcArgs n; cbn [List.fold_left];
    [exact (fun H => H)|].
  intros H. apply (drop_fixed_In funcArgs entry), IH, H.
Qed.

Lemma drop_fixed_loop_NoDup (entries : list (string * FitArg)) :
  forall funcArgs,
    List.NoDup funcArgs -> List.NoDup (List.fold_left drop_fixed entries funcArgs).
Proof.
  induction entries as [|entry entries IH]; intros funcArgs Hnd; cbn [List.fold_left];
    [exact Hnd|].
  apply IH, drop_fixed_NoDup, Hnd.
Qed.

Lemma drop_fixed_loop_removes (entries : list (string * FitArg)) :
  forall funcArgs param v,
    List.NoDup funcArgs ->
    List.In (param, v) entries ->
    PyStr.contains "fix_" param && equals_True v = true ->
    ~ List.In (PyStr.replace "fix_" EmptyString param)
              (List.fold_left drop_fixed entries funcArgs).
Proof.
  induction entries as [|entry entries IH]; intros funcArgs param v Hnd Hin Hfix;
    [destruct Hin|].
  cbn [List.fold_left]. destruct Hin as [->|Hin].
  - intros H. apply drop_fixed_loop_In in H. revert H.
    cbn [drop_fixed]. rewrite Hfix.
    destruct (PyList.index funcArgs _) as [i|] eqn:E.
    + apply (PyList_pop_index_NoDup _ _ _ Hnd E).
    + apply PyList_index_None, E.
  - apply (IH _ param v); [apply drop_fixed_NoDup, Hnd | exact Hin | exact Hfix].
Qed.

Lemma drop_fixed_loop_keeps (entries : list (string * FitArg)) :
  forall funcArgs n,
    List.In n funcArgs ->
    (forall param v, List.In (param, v) entries ->
       PyStr.contains "fix_" param && equals_True v = true ->
       PyStr.replace "fix_" EmptyString param <> n) ->
    List.In n (List.fold_left drop_fixed entries funcArgs).
Proof.
  induction entries as [|[param v] entries IH]; intros funcArgs n Hn Hfree;
    cbn [List.fold_left]; [exact Hn|].
  apply IH; [|intros p w Hp; apply Hfree; right; exact Hp].
  cbn [drop_fixed].
  destruct (PyStr.contains "fix_" param && equals_True v) eqn:Efix; [|exact Hn].
  destruct (PyList.index funcArgs _) as [i|] eqn:E; [|exact Hn].
  apply (PyList_pop_index_keeps _ _ _ E n Hn).
  intros ->. exact (Hfree param v (or_introl eq_refl) Efix eq_refl).
Qed.

Lemma free_parameters_unfold (describe : list string) (fitContainer : FitContainer) (ix : nat) :
  PyList.index describe "x" = Some ix ->
  free_parameters describe fitContainer
  = Ok (List.fold_left drop_fixed (params fitContainer) (PyList.pop describe ix)).
Proof. unfold free_parameters. intros ->. reflexivity. Qed.

End FitArgumentsProofs.

(** X6.  For a fit function whose arguments have different names, among them
    ["x"]: when [GetArgsForFunc] returns, every other argument has a value
    in the fit result, and the arguments of the call are ["x"] with the given
    value followed by the other arguments, in the order of the function,
    each with its value; when it raises, it raises the [KeyError] of an
    argument without a value. *)
Theorem GetArgsForFunc_orders_the_arguments
    (describe : list string) (ix : nat) (xValue : option Q)
    (fitContainer : JetHEPFit.FitContainer) :
  List.NoDup describe ->
  PyList.index describe "x" = Some ix ->
  match JetHEPFit.GetArgsForFunc describe xValue fitContainer with
  | Ok argsForFuncCall =>
      (forall name, List.In name describe -> name <> "x" ->
         is_Some (JetHEPFit.values fitContainer !! name))
      /\ argsForFuncCall
         = ("x", xValue)
           :: List.map (fun name => (name, JetHEPFit.values fitContainer !! name))
                       (PyList.pop describe ix)
  | Raise e =>
      exists name, e = KeyError name /\ List.In name describe /\ name <> "x"
                   /\ JetHEPFit.values fitContainer !! name = None
  end.
Proof.
  intros Hnd Hix. unfold JetHEPFit.GetArgsForFunc. rewrite Hix.
  destruct (PyList_pop_index_NoDup _ _ _ Hnd Hix) as (Hnd' & Hx).
  match goal with
  | |- context [JetHEPFit.foldM ?f ?l ?b] => destruct (JetHEPFit.foldM f l b) as [d|e] eqn:E
  end.
  - pose proof (foldM_ok_all _ _ _ _ E) as Hall. split.
    + intros name Hin Hne. apply Hall. apply (PyList_pop_index_keeps _ _ _ Hix); assumption.
    + rewrite (GetArgsForFunc_loop fitContainer _ Hnd' Hall) in E.
      * injection E as <-. reflexivity.
      * intros n Hn [<-|[]]. exact (Hx Hn).
  - destruct (GetArgsForFunc_loop_raises _ _ _ _ E) as (name & -> & Hin & Hv).
    exists name. split; [reflexivity|].
    split; [apply (PyList_pop_index_In _ _ _ Hix), Hin|].
    split; [intros ->; exact (Hx Hin) | exact Hv].
Qed.

Lemma GetArgsForFunc_orders_the_arguments_witness :
  List.NoDup FitExample.describe
  /\ PyList.index FitExample.describe "x" = Some 0%nat
  /\ match JetHEPFit.GetArgsForFunc FitExample.describe (Some 3%Q) FitExample.fit_result with
     | Ok argsForFuncCall =>
         (forall name, List.In name FitExample.describe -> name <> "x" ->
            is_Some (JetHEPFit.values FitExample.fit_result !! name))
         /\ argsForFuncCall
            = ("x", Some 3%Q)
              :: List.map
                   (fun name => (name, JetHEPFit.values FitExample.fit_result !! name))
                   (PyList.pop FitExample.describe 0)
     | Raise e =>
         exists name, e = KeyError name /\ List.In name FitExample.describe /\ name <> "x"
                      /\ JetHEPFit.values FitExample.fit_result !! name = None
     end.
Proof.
  assert (Hnd : List.NoDup FitExample.describe).
  { unfold FitExample.describe. repeat constructor; cbn; intuition discriminate. }
  split; [exact Hnd|]. split; [reflexivity|].
  exact (GetArgsForFunc_orders_the_arguments FitExample.describe 0 (Some 3%Q)
           FitExample.fit_result Hnd eq_refl).
Defined.

(** X7.  The parameters that enter the propagated error are arguments of the fit
    function other than ["x"], each once; a parameter [name] is left out when
    the fit has an entry ["fix_" + name] that equals [True], and an argument
    is kept when no such entry of the fit reduces to its name. *)
Theorem fixed_parameters_are_not_free
    (describe : list string) (fitContainer : JetHEPFit.FitContainer) (free : list string) :
  List.NoDup describe ->
  JetHEPFit.free_parameters describe fitContainer = Ok free ->
  List.NoDup free
  /\ (forall name, List.In name free -> List.In name describe /\ name <> "x")
  /\ (forall name v,
        List.In (String.append "fix_" name, v) (JetHEPFit.params fitContainer) ->
        JetHEPFit.equals_True v = true ->
        PyStr.contains "fix_" name = false ->
        ~ List.In name free)
  /\ (forall name,
        List.In name describe -> name <> "x" ->
        (forall param v,
           List.In (param, v) (JetHEPFit.params fitContainer) ->
           PyStr.contains "fix_" param && JetHEPFit.equals_True v = true ->
           PyStr.replace "fix_" EmptyString param <> name) ->
        List.In name free).
Proof.
  intros Hnd. unfold JetHEPFit.free_parameters.
  destruct (PyList.index describe "x") as [ix|] eqn:Hix; [|discriminate].
  change (Ok (List.fold_left FitProperties.drop_fixed (JetHEPFit.params fitContainer)
                (PyList.pop describe ix)) = Ok free ->
          List.NoDup free
          /\ (forall name, List.In name free -> List.In name describe /\ name <> "x")
          /\ (forall name v,
                List.In (String.append "fix_" name, v) (JetHEPFit.params fitContainer) ->
                JetHEPFit.equals_True v = true ->
                PyStr.contains "fix_" name = false ->
                ~ List.In name free)
          /\ (forall name,
                List.In name describe -> name <> "x" ->
                (forall param v,
                   List.In (param, v) (JetHEPFit.params fitContainer) ->
                   PyStr.contains "fix_" param && JetHEPFit.equals_True v = true ->
                   PyStr.replace "fix_" EmptyString param <> name) ->
                List.In name free)).
  intros [= <-].
  destruct (PyList_pop_index_NoDup _ _ _ Hnd Hix) as (Hnd' & Hx).
  split; [apply drop_fixed_loop_NoDup, Hnd'|]. split.
  { intros name Hin. apply drop_fixed_loop_In in Hin. split.
    - apply (PyList_pop_index_In _ _ _ Hix), Hin.
    - intros ->. exact (Hx Hin). }
  split.
  { intros name v Hin Htrue Hname.
    rewrite <- (replace_fix_prefix name Hname).
    apply (drop_fixed_loop_removes _ _ _ v Hnd' Hin).
    rewrite contains_fix_prefix, Htrue. reflexivity. }
  intros name Hin Hne Hfree.
  apply drop_fixed_loop_keeps; [|exact Hfree].
  apply (PyList_pop_index_keeps _ _ _ Hix); assumption.
Qed.

(** X8.  Where no two arguments of the call of the fit function have the same
    value at a bin center, the squared error that [CalculateRPFError]
    computes there is the covariance of the fit propagated through the
    gradient, [sum_i sum_j (df/dtheta_i) (df/dtheta_j) Cov(theta_i, theta_j)]
    over the free parameters, each derivative taken at the position of its
    own argument. *)
Theorem error_at_bin_center_propagates_covariance
    (partialDerivatives : list (option Q) -> list Q)
    (fitContainer : JetHEPFit.FitContainer) (funcArgs : list string)
    (argsForFuncCall : Dict.t (option Q)) (val : Q) :
  let args := Dict.set argsForFuncCall "x" (Some val) in
  let gradient := partialDerivatives (Dict.values args) in
  Properties.values_differ (Dict.values args) ->
  (forall i, List.In i funcArgs -> Properties.has_derivative args gradient i) ->
  (forall i j, List.In i funcArgs -> List.In j funcArgs ->
     is_Some (JetHEPFit.covarianceMatrix fitContainer !! (i, j))) ->
  exists errorVal,
    JetHEPFit.error_squared_at partialDerivatives fitContainer funcArgs argsForFuncCall val
    = Ok errorVal
    /\ (errorVal
        == JetHEPFit.propagated_error_squared (Dict.keys args) funcArgs gradient
             (fun i j => default 0%Q (JetHEPFit.covarianceMatrix fitContainer !! (i, j))))%Q.
Proof.
  intros args gradient Hdiffer Hfree Hcov. unfold JetHEPFit.error_squared_at.
  exact (CalculateRPFError_propagates_covariance_when_values_differ fitContainer args
           gradient funcArgs Hdiffer Hfree Hcov).
Qed.

Lemma error_at_bin_center_propagates_covariance_witness :
  let funcArgs := ["BG"; "v3"] in
  let argsForFuncCall := [("x", None); ("BG", Some 2%Q); ("v3", Some (1 # 20)%Q)] in
  let args := Dict.set argsForFuncCall "x" (Some 3%Q) in
  let gradient := FitExample.gradient (Dict.values args) in
  Properties.values_differ (Dict.values args)
  /\ (forall i, List.In i funcArgs -> Properties.has_derivative args gradient i)
  /\ (forall i j, List.In i funcArgs -> List.In j funcArgs ->
        is_Some (JetHEPFit.covarianceMatrix FitExample.fit_result !! (i, j)))
  /\ exists errorVal,
       JetHEPFit.error_squared_at FitExample.gradient FitExample.fit_result funcArgs
         argsForFuncCall 3%Q
       = Ok errorVal
       /\ (errorVal
           == JetHEPFit.propagated_error_squared (Dict.keys args) funcArgs gradient
                (fun i j =>
                   default 0%Q
                     (JetHEPFit.covarianceMatrix FitExample.fit_result !! (i, j))))%Q.
Proof.
  intros funcArgs argsForFuncCall args gradient.
  assert (Hdiffer : Properties.values_differ (Dict.values args)).
  { intros i j a b Hi Hj E.
    destruct i as [|[|[|i]]]; destruct j as [|[|[|j]]]; cbn in Hi, Hj;
      try (destruct i; discriminate Hi); try (destruct j; discriminate Hj);
      try reflexivity;
      injection Hi as <-; injection Hj as <-; vm_compute in E; discriminate E. }
  assert (Hfree : forall i, List.In i funcArgs -> Properties.has_derivative args gradient i).
  { intros i [<-|[<-|[]]];
      [exists 1%nat | exists 2%nat]; split; first [reflexivity | cbn; lia]. }
  assert (Hcov : forall i j, List.In i funcArgs -> List.In j funcArgs ->
            is_Some (JetHEPFit.covarianceMatrix FitExample.fit_result !! (i, j))).
  { intros i j [<-|[<-|[]]] [<-|[<-|[]]]; vm_compute; eexists; reflexivity. }
  split; [exact Hdiffer|]. split; [exact Hfree|]. split; [exact Hcov|].
  exact (error_at_bin_center_propagates_covariance FitExample.gradient FitExample.fit_result
           funcArgs argsForFuncCall 3%Q Hdiffer Hfree Hcov).
Defined.

Lemma fixed_parameters_are_not_free_witness :
  let describe := ["x"; "BG"; "v1"; "v3"] in
  List.NoDup describe
  /\ JetHEPFit.free_parameters describe FitExample.fit_result = Ok ["BG"; "v3"]
  /\ List.NoDup ["BG"; "v3"]
  /\ (forall name, List.In name ["BG"; "v3"] -> List.In name describe /\ name <> "x")
  /\ (forall name v,
        List.In (String.append "fix_" name, v) (JetHEPFit.params FitExample.fit_result) ->
        JetHEPFit.equals_True v = true ->
        PyStr.contains "fix_" name = false ->
        ~ List.In name ["BG"; "v3"])
  /\ (forall name,
        List.In name describe -> name <> "x" ->
        (forall param v,
           List.In (param, v) (JetHEPFit.params FitExample.fit_result) ->
           PyStr.contains "fix_" param && JetHEPFit.equals_True v = true ->
           PyStr.replace "fix_" EmptyString param <> name) ->
        List.In name ["BG"; "v3"]).
Proof.
  intros describe.
  assert (Hnd : List.NoDup describe).
  { unfold describe. repeat constructor; cbn; intuition discriminate. }
  assert (Hfree : JetHEPFit.free_parameters describe FitExample.fit_result = Ok ["BG"; "v3"])
    by reflexivity.
  split; [exact Hnd|]. split; [exact Hfree|].
  exact (fixed_parameters_are_not_free describe FitExample.fit_result ["BG"; "v3"] Hnd Hfree).
Defined.

(** The fits of the example are defined without an error. *)
Lemma FitExample_fits_are_defined :
  exists fits,
    JetHEPFit.DefineFits FitExample.all_angles_config FitExample.analyses ∅ = Ok fits.
Proof.
  rewrite DefineFits_observables. apply fits_of_fittable_observables_are_defined.
  intros ep o [[= <- <-]|[[= <- <-]|[[= <- <-]|[[= <- <-]|[]]]]];
    first [left; reflexivity | right; reflexivity].
Qed.

Lemma DefineFits_defines_the_enabled_fits_witness :
  exists fits,
    JetHEPFit.DefineFits FitExample.all_angles_config FitExample.analyses ∅ = Ok fits
    /\ (is_Some (FitProperties.stored_cost fits 0 2 Fit.all JetHEPFit.signal_dominated)
        <-> (JetHEPFit.CheckIfFitIsEnabled FitExample.all_angles_config Fit.all
               JetHEPFit.signal_dominated = true
             /\ exists observable,
                  List.In (Fit.all, observable)
                          (FitProperties.observables FitExample.analyses)
                  /\ JetHEPFit.jetPtBin observable = 0%nat
                  /\ JetHEPFit.trackPtBin observable = 2%nat
                  /\ JetHEPFit.correlationType observable = JetHEPFit.signal_dominated)).
Proof.
  destruct FitExample_fits_are_defined as [fits E].
  exists fits. split; [exact E|].
  exact (DefineFits_defines_the_enabled_fits FitExample.all_angles_config FitExample.analyses
           fits 0 2 Fit.all JetHEPFit.signal_dominated E).
Defined.

Lemma DefineFits_never_fits_the_background_twice_witness :
  exists fits,
    JetHEPFit.DefineFits FitExample.all_angles_config FitExample.analyses ∅ = Ok fits
    /\ Fit.in_plane <> Fit.all
    /\ is_Some (FitProperties.stored_cost fits 0 2 Fit.all JetHEPFit.background_dominated)
    /\ FitProperties.stored_cost fits 0 2 Fit.in_plane JetHEPFit.background_dominated = None.
Proof.
  destruct FitExample_fits_are_defined as [fits E].
  assert (Hall : is_Some (FitProperties.stored_cost fits 0 2 Fit.all
                            JetHEPFit.background_dominated)).
  { rewrite DefineFits_observables in E.
    apply (enabled_fits_are_defined _ _ _ _ E). right.
    split; [reflexivity|]. exists (FitExample.observable JetHEPFit.background_dominated).
    split; [right; left; reflexivity | repeat split]. }
  exists fits. split; [exact E|]. split; [discriminate|]. split; [exact Hall|].
  apply (DefineFits_never_fits_the_background_twice FitExample.all_angles_config
           FitExample.analyses fits 0 2 Fit.in_plane E); [discriminate | exact Hall].
Defined.

(* ===================================================================== *)
(** * The mixed-event normalization on its whole domain *)
(* ===================================================================== *)

(** X9.  Whatever the histogram and the eta window, a normalization that
    [measure_mixed_event_normalization] returns is not zero, so that one can
    divide by it. *)
Theorem mixed_event_normalization_is_never_zero
    (mixed_event : ROOT.TH2) (eta_limits : Q * Q) (norm : Q)
    (log : list CorrelationsHelpers.log_record) :
  CorrelationsHelpers.measure_mixed_event_normalization mixed_event eta_limits
  = Ok (norm, log) ->
  ~ (norm == 0)%Q.
Proof. apply measure_mixed_event_normalization_never_zero. Qed.

(** X10.  A mixed event with fewer than 36 delta phi bins cannot be normalized:
    the moving average over 36 bins is empty and [max] raises a
    [ValueError], unless the eta window has no width, when the division for
    the scale factor raises first. *)
Theorem mixed_event_with_few_delta_phi_bins_raises
    (mixed_event : ROOT.TH2) (eta_limits : Q * Q) :
  (Pos.to_nat (ROOT.fNbins (ROOT.h2_xaxis mixed_event)) < 36)%nat ->
  CorrelationsHelpers.measure_mixed_event_normalization mixed_event eta_limits
  = Raise (if Qeq_bool (MixedEventSpec.window_width mixed_event eta_limits) 0
           then ZeroDivisionError
           else ValueError "max() arg is an empty sequence").
Proof.
  intros Hx.
  unfold CorrelationsHelpers.measure_mixed_event_normalization,
    CorrelationsHelpers._peak_finding_objects_from_mixed_event,
    MixedEventSpec.window_width, MixedEventSpec.eta_window_bins.
  cbn [fst snd].
  destruct (Qeq_bool _ 0); [reflexivity|]. cbn [bind].
  set (arr := Pachyderm.Histogram1D_y _).
  assert (Hlen : List.length arr = Pos.to_nat (ROOT.fNbins (ROOT.h2_xaxis mixed_event))).
  { subst arr. unfold Pachyderm.Histogram1D_y. rewrite List.length_map, List.length_seq.
    reflexivity. }
  pose proof (moving_average_length arr 36 ltac:(lia)) as Hmalen.
  destruct (Pachyderm.moving_average arr 36) as [|a0 rest]; [reflexivity|].
  simpl in Hmalen. lia.
Qed.

Lemma mixed_event_normalization_is_never_zero_witness :
  exists (norm : Q) (log : list CorrelationsHelpers.log_record),
    CorrelationsHelpers.measure_mixed_event_normalization Example.uniform_mixed_event
      Example.eta_limits
    = Ok (norm, log)
    /\ ~ (norm == 0)%Q.
Proof.
  destruct (CorrelationsHelpers.measure_mixed_event_normalization Example.uniform_mixed_event
              Example.eta_limits) as [[norm log]|e] eqn:E;
    [|vm_compute in E; discriminate E].
  exists norm, log. split; [reflexivity|].
  exact (mixed_event_normalization_is_never_zero Example.uniform_mixed_event
           Example.eta_limits norm log E).
Defined.

Lemma mixed_event_with_few_delta_phi_bins_raises_witness :
  (Pos.to_nat (ROOT.fNbins (ROOT.h2_xaxis MixedEventExample.coarse_mixed_event)) < 36)%nat
  /\ CorrelationsHelpers.measure_mixed_event_normalization
       MixedEventExample.coarse_mixed_event Example.eta_limits
     = Raise (if Qeq_bool (MixedEventSpec.window_width MixedEventExample.coarse_mixed_event
                             Example.eta_limits) 0
              then ZeroDivisionError
              else ValueError "max() arg is an empty sequence").
Proof.
  assert (H : (Pos.to_nat (ROOT.fNbins (ROOT.h2_xaxis MixedEventExample.coarse_mixed_event))
               < 36)%nat) by (vm_compute; lia).
  split; [exact H|].
  exact (mixed_event_with_few_delta_phi_bins_raises MixedEventExample.coarse_mixed_event
           Example.eta_limits H).
Defined.

(* ===================================================================== *)
(** * The subtraction of the reaction plane fit from the delta phi correlation *)
(* ===================================================================== *)

Section DeltaPhiSubtractionProofs.

Import Histogram.
Import Correlations.
Local Open Scope Q_scope.

Lemma zip_with_nth (f : Q -> Q -> Q) (a b : list Q) (i : nat) (p q : Q) :
  List.nth_error a i = Some p -> List.nth_error b i = Some q ->
  List.nth_error (zip_with f a b) i = Some (f p q).
Proof.
  revert b i. induction a as [|p0 a IH]; intros [|q0 b] [|i] Hp Hq; cbn in *;
    try discriminate.
  - injection Hp as <-. injection Hq as <-. reflexivity.
  - apply IH; assumption.
Qed.

Lemma squared_nth (a : list Q) (i : nat) (e : Q) :
  List.nth_error a i = Some e -> List.nth_error (squared a) i = Some (e * e).
Proof. intros H. unfold squared. rewrite List.nth_error_map, H. reflexivity. Qed.

End DeltaPhiSubtractionProofs.

(** X13.  The delta phi subtraction stores the signal dominated correlation minus
    the background of the reaction plane fit, evaluated at the bin centers of
    the correlation: in every bin the value is the data value minus the
    value of the background, and the squared error is the squared data error
    plus the square of the error of the background function (the errors add
    in quadrature).  Nothing else of the object changes. *)
Theorem delta_phi_subtraction_subtracts_the_fit_in_quadrature
    (s : Correlations.State) (data : Histogram.Histogram1D)
    (fit : Correlations.FitComponent) :
  let c := Correlations.self s in
  let background := Correlations.evaluate_background fit (Histogram.x data) in
  let background_errors :=
    Correlations.calculate_background_function_errors fit (Histogram.x data) in
  Correlations.signal_dominated (Correlations.correlation_hists_delta_phi c) = Some data ->
  Correlations.fit_object c = Some fit ->
  Properties.well_formed data ->
  List.length background = List.length (Histogram.x data) ->
  List.length background_errors = List.length (Histogram.x data) ->
  exists subtracted,
    Correlations.subtract_background_fit_function_from_signal_dominated s
    = (Ok tt,
       {| Correlations.files := Correlations.files s;
          Correlations.log := Correlations.log s;
          Correlations.self :=
            Correlations.set_correlation_hists_delta_phi_subtracted
              {| Correlations.signal_dominated := Some subtracted;
                 Correlations.background_dominated :=
                   Correlations.background_dominated
                     (Correlations.correlation_hists_delta_phi_subtracted c) |} c |})
    /\ Histogram.bin_edges subtracted = Histogram.bin_edges data
    /\ List.length (Histogram.y subtracted) = List.length (Histogram.y data)
    /\ List.length (Histogram.errors_squared subtracted)
       = List.length (Histogram.errors_squared data)
    /\ (forall i d b,
          List.nth_error (Histogram.y data) i = Some d ->
          List.nth_error background i = Some b ->
          List.nth_error (Histogram.y subtracted) i = Some (d - b)%Q)
    /\ (forall i e2 e,
          List.nth_error (Histogram.errors_squared data) i = Some e2 ->
          List.nth_error background_errors i = Some e ->
          List.nth_error (Histogram.errors_squared subtracted) i = Some (e2 + e * e)%Q).
Proof.
  intros c background background_errors Hdata Hfit [Wy We] Lb Le.
  destruct s as [fs lg self0]. cbn in c. subst c.
  unfold Correlations.subtract_background_fit_function_from_signal_dominated,
    Correlations.get_self, Correlations.update_self, Py.bindM, Py.get, Py.ret, Py.lift,
    Py.modify.
  cbn. rewrite Hdata. cbn. rewrite Hfit. cbn.
  fold background. fold background_errors.
  unfold Histogram.sub. cbn [Histogram.bin_edges Histogram.y Histogram.errors_squared].
  rewrite all_equal_refl. cbn [negb].
  rewrite squared_length, Lb, Le, Wy, We, !Nat.eqb_refl. cbn [andb negb].
  eexists. split; [reflexivity|]. cbn.
  split; [reflexivity|].
  split; [rewrite zip_with_length by congruence; congruence|].
  split; [rewrite zip_with_length by (rewrite squared_length; congruence); congruence|].
  split.
  - intros i d b Hd Hb. apply zip_with_nth; assumption.
  - intros i e2 e He2 He. apply zip_with_nth; [exact He2 | apply squared_nth, He].
Qed.

(** X14.  Before the reaction plane fit has stored its component in the object
    (or without a signal dominated correlation), the delta phi subtraction
    raises an [AttributeError] and leaves the object and the files as they
    were. *)
Theorem delta_phi_subtraction_needs_the_fit (s : Correlations.State) :
  Correlations.signal_dominated
    (Correlations.correlation_hists_delta_phi (Correlations.self s)) = None
  \/ Correlations.fit_object (Correlations.self s) = None ->
  exists what,
    Correlations.subtract_background_fit_function_from_signal_dominated s
    = (Raise (AttributeError what), s).
Proof.
  intros H. destruct s as [fs lg self0].
  unfold Correlations.subtract_background_fit_function_from_signal_dominated,
    Correlations.get_self, Correlations.update_self, Py.bindM, Py.get, Py.ret, Py.lift,
    Py.modify.
  cbn in *.
  destruct (Correlations.signal_dominated (Correlations.correlation_hists_delta_phi self0))
    as [data|]; cbn.
  - destruct H as [H|H]; [discriminate H|]. rewrite H. cbn. eexists. reflexivity.
  - eexists. reflexivity.
Qed.

Lemma delta_phi_subtraction_needs_the_fit_witness :
  (Correlations.signal_dominated
     (Correlations.correlation_hists_delta_phi (Correlations.self Example.projected)) = None
   \/ Correlations.fit_object (Correlations.self Example.projected) = None)
  /\ exists what,
       Correlations.subtract_background_fit_function_from_signal_dominated Example.projected
       = (Raise (AttributeError what), Example.projected).
Proof.
  assert (H : Correlations.signal_dominated
                (Correlations.correlation_hists_delta_phi
                   (Correlations.self Example.projected)) = None
              \/ Correlations.fit_object (Correlations.self Example.projected) = None)
    by (right; reflexivity).
  split; [exact H|].
  exact (delta_phi_subtraction_needs_the_fit Example.projected H).
Defined.

Lemma delta_phi_subtraction_subtracts_the_fit_in_quadrature_witness :
  let s := FittedExample.fitted in
  let c := Correlations.self s in
  let data := Example.correlation in
  let fit := FittedExample.component in
  let background := Correlations.evaluate_background fit (Histogram.x data) in
  let background_errors :=
    Correlations.calculate_background_function_errors fit (Histogram.x data) in
  Correlations.signal_dominated (Correlations.correlation_hists_delta_phi c) = Some data
  /\ Correlations.fit_object c = Some fit
  /\ Properties.well_formed data
  /\ List.length background = List.length (Histogram.x data)
  /\ List.length background_errors = List.length (Histogram.x data)
  /\ exists subtracted,
       Correlations.subtract_background_fit_function_from_signal_dominated s
       = (Ok tt,
          {| Correlations.files := Correlations.files s;
             Correlations.log := Correlations.log s;
             Correlations.self :=
               Correlations.set_correlation_hists_delta_phi_subtracted
                 {| Correlations.signal_dominated := Some subtracted;
                    Correlations.background_dominated :=
                      Correlations.background_dominated
                        (Correlations.correlation_hists_delta_phi_subtracted c) |} c |})
       /\ Histogram.bin_edges subtracted = Histogram.bin_edges data
       /\ List.length (Histogram.y subtracted) = List.length (Histogram.y data)
       /\ List.length (Histogram.errors_squared subtracted)
          = List.length (Histogram.errors_squared data)
       /\ (forall i d b,
             List.nth_error (Histogram.y data) i = Some d ->
             List.nth_error background i = Some b ->
             List.nth_error (Histogram.y subtracted) i = Some (d - b)%Q)
       /\ (forall i e2 e,
             List.nth_error (Histogram.errors_squared data) i = Some e2 ->
             List.nth_error background_errors i = Some e ->
             List.nth_error (Histogram.errors_squared subtracted) i
             = Some (e2 + e * e)%Q).
Proof.
  intros s c data fit background background_errors.
  assert (H1 : Correlations.signal_dominated (Correlations.correlation_hists_delta_phi c)
               = Some data) by (vm_compute; reflexivity).
  assert (H2 : Correlations.fit_object c = Some fit) by reflexivity.
  assert (H3 : Properties.well_formed data) by (split; reflexivity).
  assert (H4 : List.length background = List.length (Histogram.x data)) by reflexivity.
  assert (H5 : List.length background_errors = List.length (Histogram.x data))
    by reflexivity.
  split; [exact H1|]. split; [exact H2|]. split; [exact H3|]. split; [exact H4|].
  split; [exact H5|].
  exact (delta_phi_subtraction_subtracts_the_fit_in_quadrature s data fit H1 H2 H3 H4 H5).
Defined.

(* ===================================================================== *)
(** * The seeds of the width fits ([_retrieve_widths_from_RPF]) *)
(* ===================================================================== *)

Section DictProofs.

Lemma Dict_get_set_eq (V : Type) (d : Dict.t V) (key : string) (value : V) :
  Dict.get (Dict.set d key value) key = Ok value.
Proof.
  induction d as [|[k v] d IH]; cbn.
  - rewrite String.eqb_refl. reflexivity.
  - destruct (String.eqb k key) eqn:E; cbn; rewrite E; [reflexivity | exact IH].
Qed.

Lemma Dict_get_set_ne (V : Type) (d : Dict.t V) (key key' : string) (value : V) :
  key <> key' -> Dict.get (Dict.set d key value) key' = Dict.get d key'.
Proof.
  intros Hne. induction d as [|[k v] d IH]; cbn.
  - destruct (String.eqb key key') eqn:E; [|reflexivity].
    apply String.eqb_eq in E. contradiction.
  - destruct (String.eqb k key) eqn:E; cbn.
    + apply String.eqb_eq in E. subst k.
      destruct (String.eqb key key') eqn:E'; [|reflexivity].
      apply String.eqb_eq in E'. contradiction.
    + destruct (String.eqb k key'); [reflexivity | exact IH].
Qed.

End DictProofs.

Section WidthSeedProofs.

Import Histogram.
Import Correlations.
Import Persistence.

Lemma width_seed_seed_width (w : ExtractedWidth) (width_value width_error : Q) :
  width_seed (seed_width w width_value width_error)
  = (Ok (Number width_value), Ok (Number width_error)).
Proof.
  unfold width_seed, seed_width. cbn. f_equal.
  - rewrite Dict_get_set_ne by discriminate. apply Dict_get_set_eq.
  - apply Dict_get_set_eq.
Qed.

End WidthSeedProofs.

(** X15.  With the component of the reaction plane fit stored in the object,
    [_retrieve_widths_from_RPF] returns [True] exactly when the fit has the
    value and the error of both [ns_sigma] and [as_sigma]; both width fits
    are then seeded with them and keep their fit range.  Without the
    near-side width nothing changes; with the near-side width only, the
    near-side fit is seeded although [False] is returned. *)
Theorem widths_are_seeded_from_the_reaction_plane_fit
    (s : Correlations.State) (fit : Correlations.FitComponent) :
  let c := Correlations.self s in
  let near := (Correlations.values_at_minimum fit !! "ns_sigma",
               Correlations.errors_on_parameters fit !! "ns_sigma") in
  let away := (Correlations.values_at_minimum fit !! "as_sigma",
               Correlations.errors_on_parameters fit !! "as_sigma") in
  let s' := snd (Correlations._retrieve_widths_from_RPF s) in
  let widths := Correlations.widths_delta_phi (Correlations.self s') in
  Correlations.fit_object c = Some fit ->
  (exists stored : bool,
     fst (Correlations._retrieve_widths_from_RPF s) = Ok stored
     /\ (stored = true
         <-> exists ns ns_error as_ as_error,
               near = (Some ns, Some ns_error) /\ away = (Some as_, Some as_error)))
  /\ (forall ns ns_error,
        near = (Some ns, Some ns_error) ->
        Persistence.width_seed (Correlations.width_near_side widths)
        = (Ok (Correlations.Number ns), Ok (Correlations.Number ns_error)))
  /\ (forall ns ns_error as_ as_error,
        near = (Some ns, Some ns_error) -> away = (Some as_, Some as_error) ->
        Persistence.width_seed (Correlations.width_away_side widths)
        = (Ok (Correlations.Number as_), Ok (Correlations.Number as_error)))
  /\ (fst near = None \/ snd near = None -> s' = s)
  /\ Correlations.fit_range (Correlations.fit_obj (Correlations.width_near_side widths))
     = Correlations.fit_range
         (Correlations.fit_obj
            (Correlations.width_near_side (Correlations.widths_delta_phi c)))
  /\ Correlations.fit_range (Correlations.fit_obj (Correlations.width_away_side widths))
     = Correlations.fit_range
         (Correlations.fit_obj
            (Correlations.width_away_side (Correlations.widths_delta_phi c))).
Proof.
  intros c near away s' widths Hfit. subst s' widths near away c.
  destruct s as [fs lg self0].
  unfold Correlations._retrieve_widths_from_RPF, Correlations.get_self,
    Correlations.update_self, Py.bindM, Py.get, Py.ret, Py.lift, Py.modify.
  cbn in *. rewrite Hfit. cbn.
  destruct (Correlations.values_at_minimum fit !! "ns_sigma") as [ns|];
    destruct (Correlations.errors_on_parameters fit !! "ns_sigma") as [ns_error|]; cbn;
    try (split; [exists false; split; [reflexivity|];
                 split; [discriminate | intros (? & ? & ? & ? & [=] & _)]|];
         split; [intros ? ? [=]|]; split; [intros ? ? ? ? [=]|];
         split; [reflexivity|]; split; reflexivity).
  destruct (Correlations.values_at_minimum fit !! "as_sigma") as [as_|];
    destruct (Correlations.errors_on_parameters fit !! "as_sigma") as [as_error|]; cbn.
  - split.
    { exists true. split; [reflexivity|]. split; [|reflexivity].
      intros _. exists ns, ns_error, as_, as_error. split; reflexivity. }
    split; [intros ? ? [= <- <-]; apply width_seed_seed_width|].
    split; [intros ? ? ? ? _ [= <- <-]; apply width_seed_seed_width|].
    split; [intros [H|H]; discriminate H|]. split; reflexivity.
  - split.
    { exists false. split; [reflexivity|].
      split; [discriminate | intros (? & ? & ? & ? & _ & [=])]. }
    split; [intros ? ? [= <- <-]; apply width_seed_seed_width|].
    split; [intros ? ? ? ? _ [=]|].
    split; [intros [H|H]; discriminate H|]. split; reflexivity.
  - split.
    { exists false. split; [reflexivity|].
      split; [discriminate | intros (? & ? & ? & ? & _ & [=])]. }
    split; [intros ? ? [= <- <-]; apply width_seed_seed_width|].
    split; [intros ? ? ? ? _ [=]|].
    split; [intros [H|H]; discriminate H|]. split; reflexivity.
  - split.
    { exists false. split; [reflexivity|].
      split; [discriminate | intros (? & ? & ? & ? & _ & [=])]. }
    split; [intros ? ? [= <- <-]; apply width_seed_seed_width|].
    split; [intros ? ? ? ? _ [=]|].
    split; [intros [H|H]; discriminate H|]. split; reflexivity.
Qed.

Lemma widths_are_seeded_from_the_reaction_plane_fit_witness :
  let s := FittedExample.fitted in
  let fit := FittedExample.component in
  let c := Correlations.self s in
  let near := (Correlations.values_at_minimum fit !! "ns_sigma",
               Correlations.errors_on_parameters fit !! "ns_sigma") in
  let away := (Correlations.values_at_minimum fit !! "as_sigma",
               Correlations.errors_on_parameters fit !! "as_sigma") in
  let s' := snd (Correlations._retrieve_widths_from_RPF s) in
  let widths := Correlations.widths_delta_phi (Correlations.self s') in
  Correlations.fit_object c = Some fit
  /\ (exists stored : bool,
        fst (Correlations._retrieve_widths_from_RPF s) = Ok stored
        /\ (stored = true
            <-> exists ns ns_error as_ as_error,
                  near = (Some ns, Some ns_error) /\ away = (Some as_, Some as_error)))
  /\ (forall ns ns_error,
        near = (Some ns, Some ns_error) ->
        Persistence.width_seed (Correlations.width_near_side widths)
        = (Ok (Correlations.Number ns), Ok (Correlations.Number ns_error)))
  /\ (forall ns ns_error as_ as_error,
        near = (Some ns, Some ns_error) -> away = (Some as_, Some as_error) ->
        Persistence.width_seed (Correlations.width_away_side widths)
        = (Ok (Correlations.Number as_), Ok (Correlations.Number as_error)))
  /\ (fst near = None \/ snd near = None -> s' = s)
  /\ Correlations.fit_range (Correlations.fit_obj (Correlations.width_near_side widths))
     = Correlations.fit_range
         (Correlations.fit_obj
            (Correlations.width_near_side (Correlations.widths_delta_phi c)))
  /\ Correlations.fit_range (Correlations.fit_obj (Correlations.width_away_side widths))
     = Correlations.fit_range
         (Correlations.fit_obj
            (Correlations.width_away_side (Correlations.widths_delta_phi c))).
Proof.
  intros s fit c near away s' widths.
  assert (H : Correlations.fit_object c = Some fit) by reflexivity.
  split; [exact H|].
  exact (widths_are_seeded_from_the_reaction_plane_fit s fit H).
Defined.

(* ===================================================================== *)
(** * The records in the YAML file *)
(* ===================================================================== *)

Section YamlProofs.

Import Histogram.
Import Correlations.
Import Persistence.

Lemma append_inj_l (s a b : string) : String.append s a = String.append s b -> a = b.
Proof.
  induction s as [|ch s IH]; cbn; [exact (fun H => H)|].
  intros [= H]. exact (IH H).
Qed.

Lemma append_length (a b : string) :
  String.length (String.append a b) = (String.length a + String.length b)%nat.
Proof.
  induction a as [|ch a IH]; [reflexivity|].
  change (S (String.length (String.append a b)) = S (String.length a + String.length b)).
  f_equal. exact IH.
Qed.

(** What a reader finds in the YAML file after a write. *)
Lemma open_yaml_file_after_write (objects : list (string * option YamlObject))
    (s : State) (lg : list string) (reader : Correlations) :
  output_filename_yaml reader = output_filename_yaml (self s) ->
  open_yaml_file (reading (files (snd (write_to_yaml objects s))) lg reader)
  = (Ok (write_objects objects (yaml_file s)),
     reading (files (snd (write_to_yaml objects s))) lg reader).
Proof.
  intros Hname. unfold open_yaml_file, write_to_yaml, get_self, get_files, update_files,
    Py.bindM, Py.get, Py.ret, Py.modify, reading, yaml_file.
  cbn. rewrite Hname, lookup_insert_eq. reflexivity.
Qed.

Lemma bind_get_self (A : Type) (k : Correlations -> M A) (s : State) :
  Py.bindM get_self k s = k (self s) s.
Proof. reflexivity. Qed.

Lemma bind_returned (A B : Type) (m : M A) (k : A -> M B) (s s' : State) (a : A) :
  m s = (Ok a, s') -> Py.bindM m k s = k a s'.
Proof. intros H. unfold Py.bindM. rewrite H. reflexivity. Qed.

Lemma bind_raised (A B : Type) (m : M A) (k : A -> M B) (s s' : State) (e : exn) :
  m s = (Raise e, s') -> Py.bindM m k s = (Raise e, s').
Proof. intros H. unfold Py.bindM. rewrite H. reflexivity. Qed.

Lemma files_after_write_to_yaml (objects : list (string * option YamlObject)) (s : State) :
  self (snd (write_to_yaml objects s)) = self s
  /\ log (snd (write_to_yaml objects s)) = log s
  /\ root_files (files (snd (write_to_yaml objects s))) = root_files (files s).
Proof. repeat split. Qed.

End YamlProofs.

(** X16.  A YAML reader that does not find the YAML file raises
    [FileNotFoundError] and leaves the object as it was: this holds for the
    subtracted delta phi and delta eta correlations, the delta eta fit
    results, the yields and the widths. *)
Theorem reading_without_the_yaml_file_raises (s : Correlations.State) :
  Correlations.yaml_files (Correlations.files s)
    !! Correlations.output_filename_yaml (Correlations.self s) = None ->
  let not_found :=
    (Raise (FileNotFoundError (Correlations.output_filename_yaml (Correlations.self s))), s)
  in
  Correlations.init_1d_subtracted_delta_phi_corerlations_from_file s = not_found
  /\ Correlations.init_1d_subtracted_delta_eta_corerlations_from_file s = not_found
  /\ Correlations.init_delta_eta_fit_information s = not_found
  /\ Correlations.init_yields_from_file s = not_found
  /\ Correlations.init_widths_from_file s = not_found.
Proof.
  intros H not_found. subst not_found.
  unfold Correlations.init_1d_subtracted_delta_phi_corerlations_from_file,
    Correlations.init_1d_subtracted_delta_eta_corerlations_from_file,
    Correlations.init_delta_eta_fit_information, Correlations.init_yields_from_file,
    Correlations.init_widths_from_file, Correlations.open_yaml_file,
    Correlations.get_self, Correlations.get_files, Py.bindM, Py.get, Py.ret, Py.raise.
  cbn. rewrite H. repeat split.
Qed.

Lemma reading_without_the_yaml_file_raises_witness :
  let s := Example.start in
  Correlations.yaml_files (Correlations.files s)
    !! Correlations.output_filename_yaml (Correlations.self s) = None
  /\ let not_found :=
       (Raise (FileNotFoundError (Correlations.output_filename_yaml (Correlations.self s))),
        s) in
     Correlations.init_1d_subtracted_delta_phi_corerlations_from_file s = not_found
     /\ Correlations.init_1d_subtracted_delta_eta_corerlations_from_file s = not_found
     /\ Correlations.init_delta_eta_fit_information s = not_found
     /\ Correlations.init_yields_from_file s = not_found
     /\ Correlations.init_widths_from_file s = not_found.
Proof.
  intros s.
  assert (H : Correlations.yaml_files (Correlations.files s)
                !! Correlations.output_filename_yaml (Correlations.self s) = None)
    by reflexivity.
  split; [exact H|].
  exact (reading_without_the_yaml_file_raises s H).
Defined.

(** X17.  What a bin writes to the YAML file, another object of the same bin
    reads back unchanged: the delta eta fit results, the yields and the
    widths, whatever the file held before. *)
Theorem extracted_values_are_read_back
    (s : Correlations.State) (reader : Correlations.Correlations) (lg : list string) :
  let c := Correlations.self s in
  let after write := Correlations.files (snd (write s)) in
  Persistence.same_bin c reader ->
  (exists s',
     Correlations.init_delta_eta_fit_information
       (Persistence.reading (after Correlations.write_delta_eta_fit_results) lg reader)
     = (Ok tt, s')
     /\ Correlations.fit_objects_delta_eta (Correlations.self s')
        = Correlations.fit_objects_delta_eta c)
  /\ (exists s',
        Correlations.init_yields_from_file
          (Persistence.reading (after Correlations.write_yields_to_YAML) lg reader)
        = (Ok tt, s')
        /\ Correlations.yields_delta_phi (Correlations.self s')
           = Correlations.yields_delta_phi c
        /\ Correlations.yields_delta_eta (Correlations.self s')
           = Correlations.yields_delta_eta c)
  /\ (exists s',
        Correlations.init_widths_from_file
          (Persistence.reading (after Correlations.write_widths_to_YAML) lg reader)
        = (Ok tt, s')
        /\ Correlations.widths_delta_phi (Correlations.self s')
           = Correlations.widths_delta_phi c
        /\ Correlations.widths_delta_eta (Correlations.self s')
           = Correlations.widths_delta_eta c).
Proof.
  intros c after (Hid & _ & Hyaml). subst after c.
  assert (Hphi_eta : forall kind : string,
            String.append (Correlations.identifier (Correlations.self s))
                          (String.append kind "_delta_phi")
            <> String.append (Correlations.identifier (Correlations.self s))
                             (String.append kind "_delta_eta")).
  { intros kind E. apply append_inj_l, append_inj_l in E. discriminate E. }
  split; [|split].
  - change (Correlations.write_delta_eta_fit_results s) with
      (Correlations.write_to_yaml
         [(String.append (Correlations.identifier (Correlations.self s))
                         "_fit_objects_delta_eta",
           Some (Correlations.YamlDeltaEtaFits
                   (Correlations.fit_objects_delta_eta (Correlations.self s))))] s).
    unfold Correlations.init_delta_eta_fit_information.
    rewrite bind_get_self.
    rewrite (bind_returned _ _ _ _ _ _ _ (open_yaml_file_after_write _ s lg reader Hyaml)).
    cbn [Correlations.write_objects List.fold_left Persistence.reading Correlations.self].
    rewrite Hid, lookup_insert_eq.
    eexists. split; [reflexivity|]. reflexivity.
  - change (Correlations.write_yields_to_YAML s) with
      (Correlations.write_to_yaml
         [(String.append (Correlations.identifier (Correlations.self s)) "_yields_delta_phi",
           Some (Correlations.YamlYields
                   (Correlations.yields_delta_phi (Correlations.self s))));
          (String.append (Correlations.identifier (Correlations.self s)) "_yields_delta_eta",
           Some (Correlations.YamlYields
                   (Correlations.yields_delta_eta (Correlations.self s))))] s).
    unfold Correlations.init_yields_from_file.
    rewrite bind_get_self.
    rewrite (bind_returned _ _ _ _ _ _ _ (open_yaml_file_after_write _ s lg reader Hyaml)).
    cbn [Correlations.write_objects List.fold_left Persistence.reading Correlations.self].
    rewrite Hid.
    rewrite lookup_insert_ne by (apply not_eq_sym, (Hphi_eta "_yields")).
    rewrite !lookup_insert_eq.
    eexists. split; [reflexivity|]. split; reflexivity.
  - change (Correlations.write_widths_to_YAML s) with
      (Correlations.write_to_yaml
         [(String.append (Correlations.identifier (Correlations.self s)) "_widths_delta_phi",
           Some (Correlations.YamlWidths
                   (Correlations.widths_delta_phi (Correlations.self s))));
          (String.append (Correlations.identifier (Correlations.self s)) "_widths_delta_eta",
           Some (Correlations.YamlWidths
                   (Correlations.widths_delta_eta (Correlations.self s))))] s).
    unfold Correlations.init_widths_from_file.
    rewrite bind_get_self.
    rewrite (bind_returned _ _ _ _ _ _ _ (open_yaml_file_after_write _ s lg reader Hyaml)).
    cbn [Correlations.write_objects List.fold_left Persistence.reading Correlations.self].
    rewrite Hid.
    rewrite lookup_insert_ne by (apply not_eq_sym, (Hphi_eta "_widths")).
    rewrite !lookup_insert_eq.
    eexists. split; [reflexivity|]. split; reflexivity.
Qed.

Lemma extracted_values_are_read_back_witness :
  let s := Example.subtracted in
  let reader := Example.fresh in
  let lg : list string := [] in
  let c := Correlations.self s in
  let after write := Correlations.files (snd (write s)) in
  Persistence.same_bin c reader
  /\ (exists s',
        Correlations.init_delta_eta_fit_information
          (Persistence.reading (after Correlations.write_delta_eta_fit_results) lg reader)
        = (Ok tt, s')
        /\ Correlations.fit_objects_delta_eta (Correlations.self s')
           = Correlations.fit_objects_delta_eta c)
  /\ (exists s',
        Correlations.init_yields_from_file
          (Persistence.reading (after Correlations.write_yields_to_YAML) lg reader)
        = (Ok tt, s')
        /\ Correlations.yields_delta_phi (Correlations.self s')
           = Correlations.yields_delta_phi c
        /\ Correlations.yields_delta_eta (Correlations.self s')
           = Correlations.yields_delta_eta c)
  /\ (exists s',
        Correlations.init_widths_from_file
          (Persistence.reading (after Correlations.write_widths_to_YAML) lg reader)
        = (Ok tt, s')
        /\ Correlations.widths_delta_phi (Correlations.self s')
           = Correlations.widths_delta_phi c
        /\ Correlations.widths_delta_eta (Correlations.self s')
           = Correlations.widths_delta_eta c).
Proof.
  intros s reader lg c after.
  assert (H : Persistence.same_bin c reader) by (repeat split).
  split; [exact H|].
  exact (extracted_values_are_read_back s reader lg H).
Defined.

Section NameProofs.

Import Histogram.
Import Correlations.
Import Persistence.

Lemma append_assoc (a b c : string) :
  String.append (String.append a b) c = String.append a (String.append b c).
Proof.
  induction a as [|ch a IH]; [reflexivity|].
  change (String ch (String.append (String.append a b) c)
          = String ch (String.append a (String.append b c))).
  f_equal. exact IH.
Qed.

End NameProofs.

(** Two names are different: by their lengths, by the text before the
    identifier, or by the text after the identifier. *)
Ltac names_differ :=
  let E := fresh "E" in
  intros E;
  unfold Correlations.name_1d_subtracted, Correlations.name_1d, Correlations.name_2d,
    Correlations.name_number_of_triggers in E;
  rewrite ?append_assoc in E;
  first
    [ apply (f_equal String.length) in E; rewrite ?append_length in E;
      cbn [String.length] in E; lia
    | vm_compute in E; discriminate E
    | vm_compute in E; repeat (injection E as E); apply append_inj_l in E; discriminate E
    | apply append_inj_l in E; discriminate E ].

Ltac names_are_distinct :=
  repeat
    match goal with
    | |- List.NoDup [] => constructor
    | |- List.NoDup (_ :: _) => constructor
    | |- ~ List.In _ [] => exact (fun H => H)
    | |- ~ List.In _ (_ :: _) =>
        apply List.not_in_cons; split; [apply not_eq_sym; names_differ|]
    end.

(** X18.  The histograms and records of a bin are stored under names that differ
    from each other, whatever the identifier of the bin: no write of a bin
    replaces another record of that bin, in the ROOT file and in the YAML
    file. *)
Theorem records_of_a_bin_have_different_names (c : Correlations.Correlations) :
  List.NoDup (Persistence.root_names c) /\ List.NoDup (Persistence.yaml_names c).
Proof.
  unfold Persistence.root_names, Persistence.yaml_names.
  split; names_are_distinct.
Qed.

(** X19.  The subtracted correlations that a bin writes to the YAML file, another
    object of the same bin reads back unchanged.  A correlation that the
    writer does not have is not written: the reader then gets what the file
    held under that name before, if anything. *)
Theorem subtracted_correlations_are_read_back
    (s : Correlations.State) (reader : Correlations.Correlations) (lg : list string) :
  let c := Correlations.self s in
  let after write := Correlations.files (snd (write s)) in
  let before := Persistence.yaml_file s in
  Persistence.same_bin c reader ->
  (exists s',
     Correlations.init_1d_subtracted_delta_phi_corerlations_from_file
       (Persistence.reading
          (after Correlations.write_1d_subtracted_delta_phi_correlations) lg reader)
     = (Ok tt, s')
     /\ Correlations.signal_dominated
          (Correlations.correlation_hists_delta_phi_subtracted (Correlations.self s'))
        = Persistence.read_back
            (Correlations.signal_dominated
               (Correlations.correlation_hists_delta_phi_subtracted c))
            before (Correlations.name_1d_subtracted c "delta_phi" "signal_dominated")
     /\ Correlations.background_dominated
          (Correlations.correlation_hists_delta_phi_subtracted (Correlations.self s'))
        = Persistence.read_back
            (Correlations.background_dominated
               (Correlations.correlation_hists_delta_phi_subtracted c))
            before (Correlations.name_1d_subtracted c "delta_phi" "background_dominated"))
  /\ (exists s',
        Correlations.init_1d_subtracted_delta_eta_corerlations_from_file
          (Persistence.reading
             (after Correlations.write_1d_subtracted_delta_eta_correlations) lg reader)
        = (Ok tt, s')
        /\ Correlations.near_side
             (Correlations.correlation_hists_delta_eta_subtracted (Correlations.self s'))
           = Persistence.read_back
               (Correlations.near_side
                  (Correlations.correlation_hists_delta_eta_subtracted c))
               before (Correlations.name_1d_subtracted c "delta_eta" "near_side")
        /\ Correlations.away_side
             (Correlations.correlation_hists_delta_eta_subtracted (Correlations.self s'))
           = Persistence.read_back
               (Correlations.away_side
                  (Correlations.correlation_hists_delta_eta_subtracted c))
               before (Correlations.name_1d_subtracted c "delta_eta" "away_side")).
Proof.
  intros c after before (Hid & _ & Hyaml). subst after before c.
  assert (Hnames : forall c' : Correlations.Correlations,
            Correlations.identifier c' = Correlations.identifier (Correlations.self s) ->
            forall axis type,
              Correlations.name_1d_subtracted c' axis type
              = Correlations.name_1d_subtracted (Correlations.self s) axis type).
  { intros c' E axis type.
    unfold Correlations.name_1d_subtracted, Correlations.name_1d. rewrite E. reflexivity. }
  assert (Hphi : Correlations.name_1d_subtracted (Correlations.self s)
                   "delta_phi" "signal_dominated"
                 <> Correlations.name_1d_subtracted (Correlations.self s)
                      "delta_phi" "background_dominated") by names_differ.
  assert (Heta : Correlations.name_1d_subtracted (Correlations.self s)
                   "delta_eta" "near_side"
                 <> Correlations.name_1d_subtracted (Correlations.self s)
                      "delta_eta" "away_side") by names_differ.
  split.
  - change (Correlations.write_1d_subtracted_delta_phi_correlations s) with
      (Correlations.write_to_yaml
         [(Correlations.name_1d_subtracted (Correlations.self s) "delta_phi"
             "signal_dominated",
           option_map Correlations.YamlHistogram
             (Correlations.signal_dominated
                (Correlations.correlation_hists_delta_phi_subtracted (Correlations.self s))));
          (Correlations.name_1d_subtracted (Correlations.self s) "delta_phi"
             "background_dominated",
           option_map Correlations.YamlHistogram
             (Correlations.background_dominated
                (Correlations.correlation_hists_delta_phi_subtracted (Correlations.self s))))]
         s).
    unfold Correlations.init_1d_subtracted_delta_phi_corerlations_from_file.
    rewrite (bind_returned _ _ _ _ _ _ _ (open_yaml_file_after_write _ s lg reader Hyaml)).
    eexists. split; [reflexivity|].
    cbn [Correlations.self Persistence.reading Correlations.correlation_hists_delta_phi_subtracted
         Correlations.set_correlation_hists_delta_phi_subtracted
         Correlations.signal_dominated Correlations.background_dominated
         Correlations.write_objects List.fold_left].
    rewrite !(Hnames reader Hid).
    destruct (Correlations.signal_dominated
                (Correlations.correlation_hists_delta_phi_subtracted (Correlations.self s)))
      as [h1|];
      destruct (Correlations.background_dominated
                  (Correlations.correlation_hists_delta_phi_subtracted (Correlations.self s)))
      as [h2|];
      cbn [option_map Persistence.read_back];
      rewrite ?lookup_insert_eq, ?(lookup_insert_ne _ _ _ _ (not_eq_sym Hphi)),
        ?lookup_insert_eq, ?(lookup_insert_ne _ _ _ _ Hphi);
      split; reflexivity.
  - change (Correlations.write_1d_subtracted_delta_eta_correlations s) with
      (Correlations.write_to_yaml
         [(Correlations.name_1d_subtracted (Correlations.self s) "delta_eta" "near_side",
           option_map Correlations.YamlHistogram
             (Correlations.near_side
                (Correlations.correlation_hists_delta_eta_subtracted (Correlations.self s))));
          (Correlations.name_1d_subtracted (Correlations.self s) "delta_eta" "away_side",
           option_map Correlations.YamlHistogram
             (Correlations.away_side
                (Correlations.correlation_hists_delta_eta_subtracted (Correlations.self s))))]
         s).
    unfold Correlations.init_1d_subtracted_delta_eta_corerlations_from_file.
    rewrite (bind_returned _ _ _ _ _ _ _ (open_yaml_file_after_write _ s lg reader Hyaml)).
    eexists. split; [reflexivity|].
    cbn [Correlations.self Persistence.reading Correlations.correlation_hists_delta_eta_subtracted
         Correlations.set_correlation_hists_delta_eta_subtracted
         Correlations.near_side Correlations.away_side
         Correlations.write_objects List.fold_left].
    rewrite !(Hnames reader Hid).
    destruct (Correlations.near_side
                (Correlations.correlation_hists_delta_eta_subtracted (Correlations.self s)))
      as [h1|];
      destruct (Correlations.away_side
                  (Correlations.correlation_hists_delta_eta_subtracted (Correlations.self s)))
      as [h2|];
      cbn [option_map Persistence.read_back];
      rewrite ?lookup_insert_eq, ?(lookup_insert_ne _ _ _ _ (not_eq_sym Heta)),
        ?lookup_insert_eq, ?(lookup_insert_ne _ _ _ _ Heta);
      split; reflexivity.
Qed.

Lemma subtracted_correlations_are_read_back_witness :
  let s := Example.subtracted in
  let reader := Example.fresh in
  let lg : list string := [] in
  let c := Correlations.self s in
  let after write := Correlations.files (snd (write s)) in
  let before := Persistence.yaml_file s in
  Persistence.same_bin c reader
  /\ (exists s',
        Correlations.init_1d_subtracted_delta_phi_corerlations_from_file
          (Persistence.reading
             (after Correlations.write_1d_subtracted_delta_phi_correlations) lg reader)
        = (Ok tt, s')
        /\ Correlations.signal_dominated
             (Correlations.correlation_hists_delta_phi_subtracted (Correlations.self s'))
           = Persistence.read_back
               (Correlations.signal_dominated
                  (Correlations.correlation_hists_delta_phi_subtracted c))
               before (Correlations.name_1d_subtracted c "delta_phi" "signal_dominated")
        /\ Correlations.background_dominated
             (Correlations.correlation_hists_delta_phi_subtracted (Correlations.self s'))
           = Persistence.read_back
               (Correlations.background_dominated
                  (Correlations.correlation_hists_delta_phi_subtracted c))
               before
               (Correlations.name_1d_subtracted c "delta_phi" "background_dominated"))
  /\ (exists s',
        Correlations.init_1d_subtracted_delta_eta_corerlations_from_file
          (Persistence.reading
             (after Correlations.write_1d_subtracted_delta_eta_correlations) lg reader)
        = (Ok tt, s')
        /\ Correlations.near_side
             (Correlations.correlation_hists_delta_eta_subtracted (Correlations.self s'))
           = Persistence.read_back
               (Correlations.near_side
                  (Correlations.correlation_hists_delta_eta_subtracted c))
               before (Correlations.name_1d_subtracted c "delta_eta" "near_side")
        /\ Correlations.away_side
             (Correlations.correlation_hists_delta_eta_subtracted (Correlations.self s'))
           = Persistence.read_back
               (Correlations.away_side
                  (Correlations.correlation_hists_delta_eta_subtracted c))
               before (Correlations.name_1d_subtracted c "delta_eta" "away_side")).
Proof.
  intros s reader lg c after before.
  assert (H : Persistence.same_bin c reader) by (repeat split).
  split; [exact H|].
  exact (subtracted_correlations_are_read_back s reader lg H).
Defined.

(* ===================================================================== *)
(** * The caching policy of the projection stages *)
(* ===================================================================== *)

Section StoredProjectionProofs.

Import Histogram.
Import Correlations.
Import Properties.
Import Persistence.

Lemma as_TH2_written (h : option ROOT.TH2) : as_TH2 (option_map RootTH2 h) = h.
Proof. destruct h; reflexivity. Qed.

Lemma as_TH1_written (h : option Histogram1D) : as_TH1 (option_map RootTH1 h) = h.
Proof. destruct h; reflexivity. Qed.

(** A write of one object: the other names keep what they held. *)
Lemma write_objects_one (V : Type) (name : string) (hist : option V) (file : gmap string V)
    (name' : string) :
  write_objects [(name, hist)] file !! name'
  = if decide (name = name') then
      match hist with Some h => Some h | None => file !! name' end
    else file !! name'.
Proof.
  cbn [write_objects List.fold_left]. destruct hist as [h|].
  - destruct (decide (name = name')) as [->|N];
      [apply lookup_insert_eq | apply lookup_insert_ne, N].
  - destruct (decide (name = name')); reflexivity.
Qed.

Lemma write_objects_cons (V : Type) (name : string) (hist : option V)
    (rest : list (string * option V)) (file : gmap string V) :
  write_objects ((name, hist) :: rest) file
  = write_objects rest (write_objects [(name, hist)] file).
Proof. reflexivity. Qed.

(** The exact effect of a write to the ROOT file. *)
Lemma post_write_hists_to_root_file_exact hists (s : State) Q :
  Q (Ok tt)
    {| files :=
         {| root_files :=
              <[output_filename (self s) :=
                  write_objects hists
                    (default ∅ (root_files (files s) !! output_filename (self s)))]>
                (root_files (files s));
            yaml_files := yaml_files (files s) |};
       log := log s;
       self := self s |} ->
  Py.post (_write_hists_to_root_file hists) s Q.
Proof. exact (fun H => H). Qed.

End StoredProjectionProofs.

(** One step of a method, keeping track of what is written. *)
Ltac post_step_exact :=
  match goal with
  | |- Py.post (Py.bindM _ _) _ _ => apply post_bind
  | |- Py.post Correlations.get_self _ _ => apply post_get_self
  | |- Py.post Correlations.get_files _ _ => apply post_get_files
  | |- Py.post (Correlations.update_self _) _ _ => apply post_update_self
  | |- Py.post (Correlations.logger_info _) _ _ => apply post_logger_info
  | |- Py.post (Correlations._write_hists_to_root_file _) _ _ =>
      apply post_write_hists_to_root_file_exact
  | |- Py.post (Py.lift _) _ _ => apply post_lift
  | |- Py.post (Py.ret _) _ _ => apply post_ret
  | |- Py.post (Py.raise _) _ _ => apply post_raise
  | |- Py.post (let '(_, _) := ?p in _) _ _ => destruct p
  end;
  cbn [Correlations.self Correlations.files Correlations.log].

(** Executes a method step by step; at a collaborator, an option or a
    branch it splits. *)
Ltac post_exec_step :=
  first
    [ post_step_exact
    | match goal with
      | |- Py.post (if ?b then _ else _) _ _ => destruct b eqn:?
      | |- Py.post (match ?x with _ => _ end) _ _ => destruct x eqn:?
      | |- match ?r with Ok _ => _ | Raise _ => _ end => destruct r eqn:?
      end ].

Section ScalingProofs.

Import Histogram.
Import Correlations.

(** What is scaled is there. *)
Lemma scale_by_bin_width_returned (hist scaled : option Histogram1D) :
  scale_by_bin_width hist = Ok scaled -> exists h, scaled = Some h.
Proof.
  destruct hist as [h|]; [|discriminate]. cbn.
  destruct (calculate_bin_width_scale_factor h 1) as [f|e]; [|discriminate].
  cbn. intros [= <-]. eexists. reflexivity.
Qed.

End ScalingProofs.

(** What the collaborators and the scaling returned. *)
Ltac returned_values :=
  repeat match goal with
         | u : unit |- _ => destruct u
         | H : Correlations.scale_by_bin_width _ = Ok ?a |- _ =>
             is_var a; destruct (scale_by_bin_width_returned _ _ H) as (? & ->)
         end.

Section ProjectionProofs.

Import Histogram.
Import Correlations.
Import Properties.
Import Persistence.

Variable _create_2d_raw_and_mixed_correlations :
  Correlations -> result (ROOT.TH2 * ROOT.TH2 * Histogram1D * Q).
Variable _create_2d_signal_correlation : Correlations -> result ROOT.TH2.
Variable plot_correlations : PlotCorrelations.
Variable _setup_1d_projectors : Correlations -> result unit.
Variable _create_1d_correlations : Correlations -> result (HistsDeltaPhi * HistsDeltaEta).
Variable _compare_unsubtracted_1d_signal_correlation_to_joel : Correlations -> result unit.

Local Abbreviation _run_2d_projections :=
  (Correlations._run_2d_projections _create_2d_raw_and_mixed_correlations
     _create_2d_signal_correlation plot_correlations).

Local Abbreviation _run_1d_projections :=
  (Correlations._run_1d_projections plot_correlations _setup_1d_projectors
     _create_1d_correlations _compare_unsubtracted_1d_signal_correlation_to_joel).

Local Abbreviation run_projections :=
  (Correlations.run_projections _create_2d_raw_and_mixed_correlations
     _create_2d_signal_correlation plot_correlations _setup_1d_projectors
     _create_1d_correlations _compare_unsubtracted_1d_signal_correlation_to_joel).

(** With its option set, the 1D stage that returns has called the
    projectors, holds what they returned, scaled, and has written it. *)
Lemma run_1d_projections_computes (s1 : State) :
  processing_options (self s1) !! "generate1DCorrelations" = Some true ->
  Py.post _run_1d_projections s1
    (fun r s2 =>
       r = Ok tt ->
       exists created,
         _setup_1d_projectors (self s1) = Ok tt
         /\ _create_1d_correlations (self s1) = Ok created
         /\ holds_the_projected created (self s2)
         /\ stores_the_projected (files s2) (self s2)
         /\ processing_options (self s2) !! "fit1DCorrelations" = Some true).
Proof.
  intros Hgen.
  unfold Correlations._run_1d_projections, _post_1d_projection_scaling,
    _write_1d_correlations.
  repeat post_step_exact. unfold processing_option at 1. rewrite Hgen.
  repeat post_exec_step; try discriminate.
  all: intros _; returned_values.
  all: eexists; split; [reflexivity|]; split; [reflexivity|].
  all: split; [repeat split; assumption|].
  all: split; [|apply lookup_insert_eq].
  all: unfold stores_the_projected, name_1d.
  all: cbn [self files root_files output_filename identifier set_processing_options
            set_correlation_hists_delta_phi set_correlation_hists_delta_eta
            correlation_hists_delta_phi correlation_hists_delta_eta
            signal_dominated background_dominated near_side away_side].
  all: rewrite !lookup_insert_eq; cbn [default from_option]; unfold Datatypes.id.
  all: eexists; split; [reflexivity|].
  all: cbn [option_map write_objects List.fold_left].
  all: assert (Hlookup : forall (file : gmap string RootObject) name name' o,
                 name <> name' -> <[name := o]> file !! name' = file !! name')
         by (intros; apply lookup_insert_ne; assumption).
  all: repeat split;
         repeat first
           [ rewrite lookup_insert_eq
           | rewrite Hlookup by names_differ ];
         reflexivity.
Qed.

(** The lines that a stage has logged, from its first line on. *)
Ltac logged_lines :=
  eexists; split; [rewrite <- ?List.app_assoc; reflexivity|];
  split; [intros H; cbn in H; intuition discriminate|].

(** In compute mode the 2D stage logs that it projects and, when it
    returns, has set the option of the 1D stage. *)
Lemma run_2d_projections_in_compute_mode (s : State) :
  runs_2d_in_compute_mode s ->
  Py.post _run_2d_projections s
    (fun r s1 =>
       exists rest,
         log s1 = log s ++ "Projecting 2D correlations" :: rest
         /\ ~ List.In "Loading 1D correlations from file" rest
         /\ (r = Ok tt ->
             processing_options (self s1) !! "generate1DCorrelations" = Some true)).
Proof.
  intros (generate & Hgen & Hmode).
  unfold Correlations._run_2d_projections, _write_2d_correlations,
    _write_number_of_triggers_hist.
  assert (Hbranch :
            generate || negb (match root_files (files s) !! output_filename (self s) with
                              | Some _ => true
                              | None => false
                              end) = true).
  { destruct Hmode as [-> | ->]; [reflexivity | apply orb_true_r]. }
  repeat post_step_exact. unfold processing_option at 1. rewrite Hgen, Hbranch.
  repeat post_exec_step; logged_lines; try discriminate.
  all: intros _; apply lookup_insert_eq.
Qed.

(** With its option set, the 1D stage sets up and calls the projectors and
    does not load: what they raise, the stage raises. *)
Lemma run_1d_projections_in_compute_mode (s1 : State) :
  processing_options (self s1) !! "generate1DCorrelations" = Some true ->
  Py.post _run_1d_projections s1
    (fun r s2 =>
       (exists rest,
          log s2 = log s1 ++ "Setting up 1D correlations projectors." :: rest
          /\ ~ List.In "Loading 1D correlations from file" rest
          /\ (r = Ok tt -> List.In "Projecting 1D correlations" rest))
       /\ (forall e, _setup_1d_projectors (self s1) = Raise e -> r = Raise e)
       /\ (_setup_1d_projectors (self s1) = Ok tt ->
           forall e, _create_1d_correlations (self s1) = Raise e -> r = Raise e)).
Proof.
  intros Hgen.
  unfold Correlations._run_1d_projections, _post_1d_projection_scaling,
    _write_1d_correlations.
  repeat post_step_exact. unfold processing_option at 1. rewrite Hgen.
  repeat post_exec_step.
  all: split; [logged_lines; first [discriminate | intros _; left; reflexivity]|].
  all: split; [intros ? ?; congruence | intros ? ? ?; congruence].
Qed.

(** The two stages in a row. *)
Lemma projections_in_compute_mode
    (s : Correlations.State) (r : result unit) (s' : Correlations.State) :
  Properties.runs_2d_in_compute_mode s ->
  run_projections s = (r, s') ->
  exists new : list string,
    Correlations.log s' = Correlations.log s ++ new
    /\ List.In "Projecting 2D correlations" new
    /\ ~ List.In "Loading 1D correlations from file" new
    /\ (forall s1,
          _run_2d_projections s = (Ok tt, s1) ->
          Correlations.processing_options (Correlations.self s1) !! "generate1DCorrelations"
          = Some true
          /\ List.In "Setting up 1D correlations projectors." new
          /\ (forall e, _setup_1d_projectors (Correlations.self s1) = Raise e ->
                        r = Raise e)
          /\ (_setup_1d_projectors (Correlations.self s1) = Ok tt ->
              forall e, _create_1d_correlations (Correlations.self s1) = Raise e ->
                        r = Raise e))
    /\ (r = Ok tt ->
        List.In "Projecting 1D correlations" new
        /\ Correlations.ran_projections (Correlations.self s') = true
        /\ exists s1 created,
             _run_2d_projections s = (Ok tt, s1)
             /\ _setup_1d_projectors (Correlations.self s1) = Ok tt
             /\ _create_1d_correlations (Correlations.self s1) = Ok created
             /\ Properties.holds_the_projected created (Correlations.self s')
             /\ Properties.stores_the_projected (Correlations.files s')
                  (Correlations.self s')
             /\ Correlations.processing_options (Correlations.self s')
                  !! "fit1DCorrelations" = Some true).
Proof.
  intros Hmode Hrun.
  unfold Correlations.run_projections in Hrun. unfold Py.bindM at 1 in Hrun.
  destruct (_run_2d_projections s) as [r2 s1] eqn:E2.
  destruct (post_run _ _ _ _ _ _ (run_2d_projections_in_compute_mode s Hmode) E2)
    as (rest2 & Hlog2 & Hrest2 & Hopt).
  destruct r2 as [[]|e2].
  - specialize (Hopt eq_refl). unfold Py.bindM at 1 in Hrun.
    destruct (_run_1d_projections s1) as [r1 s2] eqn:E1.
    destruct (post_run _ _ _ _ _ _ (run_1d_projections_in_compute_mode s1 Hopt) E1)
      as ((rest1 & Hlog1 & Hrest1 & Hprojecting) & Hsetup & Hcreate).
    pose proof (post_run _ _ _ _ _ _ (run_1d_projections_computes s1 Hopt) E1) as Hcomputed.
    assert (Hlog : forall s3, Correlations.log s3 = Correlations.log s2 ->
              Correlations.log s3
              = Correlations.log s
                ++ ("Projecting 2D correlations" :: rest2)
                ++ "Setting up 1D correlations projectors." :: rest1).
    { intros s3 ->. rewrite Hlog1, Hlog2, <- List.app_assoc. reflexivity. }
    assert (Hno : ~ List.In "Loading 1D correlations from file"
                    (("Projecting 2D correlations" :: rest2)
                     ++ "Setting up 1D correlations projectors." :: rest1)).
    { intros H. apply List.in_app_or in H. destruct H as [[H|H]|[H|H]];
        [discriminate H | exact (Hrest2 H) | discriminate H | exact (Hrest1 H)]. }
    assert (Hsetting : List.In "Setting up 1D correlations projectors."
                         (("Projecting 2D correlations" :: rest2)
                          ++ "Setting up 1D correlations projectors." :: rest1)).
    { apply List.in_or_app. right. left. reflexivity. }
    destruct r1 as [[]|e1]; injection Hrun as <- <-.
    + eexists. split; [apply Hlog; reflexivity|].
      split; [left; reflexivity|]. split; [exact Hno|]. split.
      * intros s1' [= <-]. split; [exact Hopt|]. split; [exact Hsetting|].
        split; [exact Hsetup | exact Hcreate].
      * intros _. split.
        { apply List.in_or_app. right. right. exact (Hprojecting eq_refl). }
        split; [reflexivity|].
        destruct (Hcomputed eq_refl) as (created & H1 & H2 & H3 & H4 & H5).
        exists s1, created. repeat split; try assumption; apply H3.
    + eexists. split; [apply Hlog; reflexivity|].
      split; [left; reflexivity|]. split; [exact Hno|]. split.
      * intros s1' [= <-]. split; [exact Hopt|]. split; [exact Hsetting|].
        split; [exact Hsetup | exact Hcreate].
      * discriminate.
  - injection Hrun as <- <-.
    exists ("Projecting 2D correlations" :: rest2). split; [exact Hlog2|].
    split; [left; reflexivity|]. split.
    + intros [H|H]; [discriminate H | exact (Hrest2 H)].
    + split; [intros s1' [=] | discriminate].
Qed.

(** In compute mode the 2D stage that returns has written its histograms. *)
Lemma run_2d_projections_stores (s : State) :
  runs_2d_in_compute_mode s ->
  Py.post _run_2d_projections s
    (fun r s1 =>
       r = Ok tt ->
       identifier (self s1) = identifier (self s)
       /\ output_filename (self s1) = output_filename (self s)
       /\ exists file,
            root_files (files s1) !! output_filename (self s1) = Some file
            /\ as_TH2 (file !! name_2d (self s1) "raw") = raw (correlation_hists_2d (self s1))
            /\ as_TH2 (file !! name_2d (self s1) "mixed_event")
               = mixed_event (correlation_hists_2d (self s1))
            /\ as_TH2 (file !! name_2d (self s1) "signal")
               = signal (correlation_hists_2d (self s1))
            /\ as_TH1 (file !! name_number_of_triggers)
               = number_of_triggers_hist (correlation_hists_2d (self s1))).
Proof.
  intros (generate & Hgen & Hmode).
  unfold Correlations._run_2d_projections, _write_2d_correlations,
    _write_number_of_triggers_hist.
  assert (Hbranch :
            generate || negb (match root_files (files s) !! output_filename (self s) with
                              | Some _ => true
                              | None => false
                              end) = true).
  { destruct Hmode as [-> | ->]; [reflexivity | apply orb_true_r]. }
  repeat post_step_exact. unfold processing_option at 1. rewrite Hgen, Hbranch.
  repeat post_exec_step; try discriminate.
  all: intros _; split; [reflexivity|]; split; [reflexivity|].
  all: unfold name_2d, name_number_of_triggers.
  all: cbn [self files root_files output_filename identifier set_processing_options
            set_correlation_hists_2d correlation_hists_2d raw mixed_event signal
            number_of_triggers_hist].
  all: rewrite !lookup_insert_eq; cbn [default from_option]; unfold Datatypes.id.
  all: eexists; split; [reflexivity|].
  all: cbn [option_map write_objects List.fold_left].
  all: assert (Hlookup : forall (file : gmap string RootObject) name name' o,
                 name <> name' -> <[name := o]> file !! name' = file !! name')
         by (intros; apply lookup_insert_ne; assumption).
  all: repeat split;
         repeat first
           [ rewrite lookup_insert_eq
           | rewrite Hlookup by names_differ ];
         reflexivity.
Qed.

(** The 1D stage in compute mode leaves the rest of the object and of the
    ROOT file as they are. *)
Lemma run_1d_projections_keeps_the_rest (s1 : State) :
  processing_options (self s1) !! "generate1DCorrelations" = Some true ->
  Py.post _run_1d_projections s1
    (fun r s2 =>
       r = Ok tt ->
       identifier (self s2) = identifier (self s1)
       /\ output_filename (self s2) = output_filename (self s1)
       /\ correlation_hists_2d (self s2) = correlation_hists_2d (self s1)
       /\ forall name,
            ~ List.In name [name_1d (self s1) "delta_phi" "signal_dominated";
                            name_1d (self s1) "delta_phi" "background_dominated";
                            name_1d (self s1) "delta_eta" "near_side";
                            name_1d (self s1) "delta_eta" "away_side"] ->
            default ∅ (root_files (files s2) !! output_filename (self s1)) !! name
            = default ∅ (root_files (files s1) !! output_filename (self s1)) !! name).
Proof.
  intros Hgen.
  unfold Correlations._run_1d_projections, _post_1d_projection_scaling,
    _write_1d_correlations.
  repeat post_step_exact. unfold processing_option at 1. rewrite Hgen.
  repeat post_exec_step; try discriminate.
  all: intros _; returned_values.
  all: split; [reflexivity|]; split; [reflexivity|]; split; [reflexivity|].
  all: intros name Hname.
  all: unfold name_1d in *.
  all: cbn [self files root_files output_filename identifier set_processing_options
            set_correlation_hists_delta_phi set_correlation_hists_delta_eta
            correlation_hists_delta_phi correlation_hists_delta_eta
            signal_dominated background_dominated near_side away_side] in *.
  all: rewrite !lookup_insert_eq; cbn [default from_option]; unfold Datatypes.id.
  all: cbn [option_map write_objects List.fold_left].
  all: rewrite !lookup_insert_ne; [reflexivity|..];
         intros E; apply Hname; rewrite <- E; cbn; tauto.
Qed.

(** In compute mode the file holds the histograms of the object when the
    stage returns. *)
Lemma computed_projections_are_stored (s s' : State) :
  runs_2d_in_compute_mode s ->
  run_projections s = (Ok tt, s') ->
  identifier (self s') = identifier (self s)
  /\ output_filename (self s') = output_filename (self s)
  /\ projections_stored (files s') (self s').
Proof.
  intros Hmode Hrun.
  unfold Correlations.run_projections in Hrun. unfold Py.bindM at 1 in Hrun.
  destruct (_run_2d_projections s) as [[[]|e2] s1] eqn:E2; [|discriminate Hrun].
  destruct (post_run _ _ _ _ _ _ (run_2d_projections_in_compute_mode s Hmode) E2)
    as (_ & _ & _ & Hopt).
  specialize (Hopt eq_refl).
  destruct (post_run _ _ _ _ _ _ (run_2d_projections_stores s Hmode) E2 eq_refl)
    as (Hid1 & Hname1 & file1 & Hfile1 & Hraw & Hmixed & Hsignal & Htrig).
  unfold Py.bindM at 1 in Hrun.
  destruct (_run_1d_projections s1) as [[[]|e1] s2] eqn:E1; [|discriminate Hrun].
  destruct (post_run _ _ _ _ _ _ (run_1d_projections_computes s1 Hopt) E1 eq_refl)
    as (created & _ & _ & _ & (file2 & Hfile2 & Hsd & Hbd & Hns & Has) & _).
  destruct (post_run _ _ _ _ _ _ (run_1d_projections_keeps_the_rest s1 Hopt) E1 eq_refl)
    as (Hid2 & Hname2 & H2d & Hframe).
  injection Hrun as <-.
  cbn [self files identifier output_filename set_ran_projections set_flags].
  split; [congruence|]. split; [congruence|].
  assert (Hkept : forall name,
            ~ List.In name [name_1d (self s1) "delta_phi" "signal_dominated";
                            name_1d (self s1) "delta_phi" "background_dominated";
                            name_1d (self s1) "delta_eta" "near_side";
                            name_1d (self s1) "delta_eta" "away_side"] ->
            file2 !! name = file1 !! name).
  { intros name Hname. specialize (Hframe name Hname).
    rewrite Hname2 in Hfile2. rewrite Hfile2, Hfile1 in Hframe. exact Hframe. }
  exists file2. split; [exact Hfile2|].
  unfold name_2d, name_1d in *.
  cbn [self identifier set_ran_projections set_flags correlation_hists_2d
       correlation_hists_delta_phi correlation_hists_delta_eta] in *.
  rewrite Hid2 in *. rewrite H2d.
  repeat split; try assumption.
  all: rewrite Hkept; [assumption|].
  all: names_are_distinct.
Qed.

(** In load mode, an object of the same bin gets the histograms that the
    file holds. *)
Lemma stored_projections_are_loaded (fs : Files) (c reader : Correlations)
    (lg : list string) :
  projections_stored fs c ->
  identifier reader = identifier c ->
  output_filename reader = output_filename c ->
  loads_projections reader ->
  Py.post run_projections (reading fs lg reader)
    (fun r s2 =>
       r = Ok tt
       /\ same_projections c (self s2)
       /\ ran_projections (self s2) = true
       /\ number_of_triggers (correlation_hists_2d (self s2))
          = number_of_triggers (correlation_hists_2d reader)
       /\ files s2 = fs).
Proof.
  intros (file & Hfile & Hraw & Hmixed & Hsignal & Htrig & Hsd & Hbd & Hns & Has)
    Hid Hname (H2d & H1d & Hp2 & Hp3 & Hp1).
  unfold Correlations.run_projections, Correlations._run_2d_projections,
    Correlations._run_1d_projections, _init_2d_correlations_hists_from_root_file,
    _init_number_of_triggers_hist_from_root_file,
    _init_1d_correlations_hists_from_root_file, open_root_file, reading.
  repeat first
    [ post_step_exact
    | progress unfold processing_option
    | progress cbn [processing_options output_filename set_correlation_hists_2d
                    set_correlation_hists_delta_phi set_correlation_hists_delta_eta
                    orb negb]
    | rewrite H2d | rewrite H1d | rewrite Hp2 | rewrite Hp3 | rewrite Hp1
    | rewrite Hname | rewrite Hfile ].
  split; [reflexivity|].
  unfold same_projections, name_2d, name_1d.
  cbn [self identifier set_flags set_ran_projections set_correlation_hists_2d
       set_correlation_hists_delta_phi set_correlation_hists_delta_eta
       correlation_hists_2d correlation_hists_delta_phi correlation_hists_delta_eta
       raw mixed_event signal number_of_triggers_hist number_of_triggers
       ran_projections flags flag_ran_projections].
  rewrite Hid.
  fold (name_2d c "raw"). fold (name_2d c "mixed_event"). fold (name_2d c "signal").
  fold (name_1d c "delta_phi" "signal_dominated").
  fold (name_1d c "delta_phi" "background_dominated").
  fold (name_1d c "delta_eta" "near_side"). fold (name_1d c "delta_eta" "away_side").
  rewrite Hraw, Hmixed, Hsignal, Htrig, Hsd, Hbd, Hns, Has.
  split; [|repeat split].
  repeat split.
  - destruct (correlation_hists_delta_phi c); reflexivity.
  - destruct (correlation_hists_delta_eta c); reflexivity.
Qed.

End ProjectionProofs.

(** C8.  If the 2D projection stage runs in compute mode, then the 1D
    projection stage of that bin runs in compute mode too, whatever its own
    option says (even when it is unset).  Once the 2D stage has returned,
    the option [generate1DCorrelations] is set; the 1D stage then sets up
    and calls the projectors, raises what they raise, and never loads from
    file.  When [run_projections] returns, the projectors have returned
    correlations, the object holds them scaled by their bin widths, the
    ROOT file holds them under their names, the option [fit1DCorrelations]
    is set and the projections flag is set. *)
Theorem projecting_2d_forces_projecting_1d
    (_create_2d_raw_and_mixed_correlations :
       Correlations.Correlations ->
       result (ROOT.TH2 * ROOT.TH2 * Histogram.Histogram1D * Q))
    (_create_2d_signal_correlation : Correlations.Correlations -> result ROOT.TH2)
    (plot_correlations : Correlations.PlotCorrelations)
    (_setup_1d_projectors : Correlations.Correlations -> result unit)
    (_create_1d_correlations :
       Correlations.Correlations ->
       result (Correlations.HistsDeltaPhi * Correlations.HistsDeltaEta))
    (_compare_unsubtracted_1d_signal_correlation_to_joel :
       Correlations.Correlations -> result unit)
    (s : Correlations.State) (r : result unit) (s' : Correlations.State) :
  Properties.runs_2d_in_compute_mode s ->
  Correlations.run_projections _create_2d_raw_and_mixed_correlations
    _create_2d_signal_correlation plot_correlations _setup_1d_projectors
    _create_1d_correlations _compare_unsubtracted_1d_signal_correlation_to_joel s
  = (r, s') ->
  exists new : list string,
    Correlations.log s' = Correlations.log s ++ new
    /\ List.In "Projecting 2D correlations" new
    /\ ~ List.In "Loading 1D correlations from file" new
    /\ (forall s1,
          Correlations._run_2d_projections _create_2d_raw_and_mixed_correlations
            _create_2d_signal_correlation plot_correlations s
          = (Ok tt, s1) ->
          Correlations.processing_options (Correlations.self s1) !! "generate1DCorrelations"
          = Some true
          /\ List.In "Setting up 1D correlations projectors." new
          /\ (forall e, _setup_1d_projectors (Correlations.self s1) = Raise e ->
                        r = Raise e)
          /\ (_setup_1d_projectors (Correlations.self s1) = Ok tt ->
              forall e, _create_1d_correlations (Correlations.self s1) = Raise e ->
                        r = Raise e))
    /\ (r = Ok tt ->
        List.In "Projecting 1D correlations" new
        /\ Correlations.ran_projections (Correlations.self s') = true
        /\ exists s1 created,
             Correlations._run_2d_projections _create_2d_raw_and_mixed_correlations
               _create_2d_signal_correlation plot_correlations s
             = (Ok tt, s1)
             /\ _setup_1d_projectors (Correlations.self s1) = Ok tt
             /\ _create_1d_correlations (Correlations.self s1) = Ok created
             /\ Properties.holds_the_projected created (Correlations.self s')
             /\ Properties.stores_the_projected (Correlations.files s')
                  (Correlations.self s')
             /\ Correlations.processing_options (Correlations.self s')
                  !! "fit1DCorrelations" = Some true).
Proof.
  apply projections_in_compute_mode.
Qed.

(** X20.  What the projection stage computes and writes, a later run of the
    same bin that is told to load, and not to plot, gets back: if the stage
    ran in compute mode and returned, then the stage of an object of the
    same bin whose generate and plot options are all [False] returns, with
    the same three two dimensional correlations, the same trigger spectrum
    and the same one dimensional correlations, with its projection flag set
    and the files as they were.  The number of triggers is not stored: it
    stays what it was in the loading object. *)
Theorem computed_projections_are_loaded_back
    (_create_2d_raw_and_mixed_correlations :
       Correlations.Correlations ->
       result (ROOT.TH2 * ROOT.TH2 * Histogram.Histogram1D * Q))
    (_create_2d_signal_correlation : Correlations.Correlations -> result ROOT.TH2)
    (plot_correlations : Correlations.PlotCorrelations)
    (_setup_1d_projectors : Correlations.Correlations -> result unit)
    (_create_1d_correlations :
       Correlations.Correlations ->
       result (Correlations.HistsDeltaPhi * Correlations.HistsDeltaEta))
    (_compare_unsubtracted_1d_signal_correlation_to_joel :
       Correlations.Correlations -> result unit)
    (s s1 : Correlations.State) (reader : Correlations.Correlations) (lg : list string) :
  let run_projections :=
    Correlations.run_projections _create_2d_raw_and_mixed_correlations
      _create_2d_signal_correlation plot_correlations _setup_1d_projectors
      _create_1d_correlations _compare_unsubtracted_1d_signal_correlation_to_joel in
  Properties.runs_2d_in_compute_mode s ->
  run_projections s = (Ok tt, s1) ->
  Persistence.same_bin (Correlations.self s) reader ->
  Persistence.loads_projections reader ->
  exists s2,
    run_projections (Persistence.reading (Correlations.files s1) lg reader) = (Ok tt, s2)
    /\ Persistence.same_projections (Correlations.self s1) (Correlations.self s2)
    /\ Correlations.ran_projections (Correlations.self s2) = true
    /\ Correlations.number_of_triggers
         (Correlations.correlation_hists_2d (Correlations.self s2))
       = Correlations.number_of_triggers (Correlations.correlation_hists_2d reader)
    /\ Correlations.files s2 = Correlations.files s1.
Proof.
  intros run_projections Hmode Hrun (Hid & Hname & _) Hloads.
  destruct (computed_projections_are_stored _create_2d_raw_and_mixed_correlations
              _create_2d_signal_correlation plot_correlations _setup_1d_projectors
              _create_1d_correlations _compare_unsubtracted_1d_signal_correlation_to_joel
              s s1 Hmode Hrun)
    as (Hid1 & Hname1 & Hstored).
  destruct (run_projections (Persistence.reading (Correlations.files s1) lg reader))
    as [r s2] eqn:E.
  destruct (post_run _ _ _ _ _ _
              (stored_projections_are_loaded _create_2d_raw_and_mixed_correlations
                 _create_2d_signal_correlation plot_correlations _setup_1d_projectors
                 _create_1d_correlations
                 _compare_unsubtracted_1d_signal_correlation_to_joel
                 (Correlations.files s1) (Correlations.self s1) reader lg Hstored
                 (eq_trans Hid (eq_sym Hid1)) (eq_trans Hname (eq_sym Hname1)) Hloads) E)
    as (-> & Hsame & Hflag & Hn & Hfiles).
  exists s2. repeat split; try assumption; apply Hsame.
Qed.

(** On the example bin the option of the 1D stage is [False], and the 2D
    stage runs in compute mode. *)
Lemma projecting_2d_forces_projecting_1d_witness :
  let _run_2d_projections :=
    Correlations._run_2d_projections Example.project_2d Example.divide_2d
      Example.plots in
  let s := Example.start in
  let r : result unit := Ok tt in
  let s' := Example.projected in
  Correlations.processing_options (Correlations.self s) !! "generate1DCorrelations"
  = Some false
  /\ Properties.runs_2d_in_compute_mode s
  /\ Correlations.run_projections Example.project_2d Example.divide_2d
       Example.plots Example.setup_projectors Example.project_1d Example.compare_to_joel s
     = (r, s')
  /\ exists new : list string,
       Correlations.log s' = Correlations.log s ++ new
       /\ List.In "Projecting 2D correlations" new
       /\ ~ List.In "Loading 1D correlations from file" new
       /\ (forall s1,
             _run_2d_projections s = (Ok tt, s1) ->
             Correlations.processing_options (Correlations.self s1)
               !! "generate1DCorrelations" = Some true
             /\ List.In "Setting up 1D correlations projectors." new
             /\ (forall e, Example.setup_projectors (Correlations.self s1) = Raise e ->
                           r = Raise e)
             /\ (Example.setup_projectors (Correlations.self s1) = Ok tt ->
                 forall e, Example.project_1d (Correlations.self s1) = Raise e ->
                           r = Raise e))
       /\ (r = Ok tt ->
           List.In "Projecting 1D correlations" new
           /\ Correlations.ran_projections (Correlations.self s') = true
           /\ exists s1 created,
                _run_2d_projections s = (Ok tt, s1)
                /\ Example.setup_projectors (Correlations.self s1) = Ok tt
                /\ Example.project_1d (Correlations.self s1) = Ok created
                /\ Properties.holds_the_projected created (Correlations.self s')
                /\ Properties.stores_the_projected (Correlations.files s')
                     (Correlations.self s')
                /\ Correlations.processing_options (Correlations.self s')
                     !! "fit1DCorrelations" = Some true).
Proof.
  intros _run_2d_projections s r s'.
  assert (H0 : Correlations.processing_options (Correlations.self s)
                 !! "generate1DCorrelations" = Some false) by (vm_compute; reflexivity).
  assert (H1 : Properties.runs_2d_in_compute_mode s).
  { exists true. split; [vm_compute; reflexivity | left; reflexivity]. }
  assert (H2 : Correlations.run_projections Example.project_2d Example.divide_2d
                 Example.plots Example.setup_projectors
                 Example.project_1d Example.compare_to_joel s = (r, s'))
    by (vm_compute; reflexivity).
  split; [exact H0|]. split; [exact H1|]. split; [exact H2|].
  exact (projecting_2d_forces_projecting_1d Example.project_2d Example.divide_2d
           Example.plots Example.setup_projectors
           Example.project_1d Example.compare_to_joel s r s' H1 H2).
Defined.

Lemma computed_projections_are_loaded_back_witness :
  let run_projections :=
    Correlations.run_projections Example.project_2d Example.divide_2d
      Example.plots Example.setup_projectors Example.project_1d Example.compare_to_joel in
  let s := Example.start in
  let s1 := Example.projected in
  let reader := LoadExample.reader in
  Properties.runs_2d_in_compute_mode s
  /\ run_projections s = (Ok tt, s1)
  /\ Persistence.same_bin (Correlations.self s) reader
  /\ Persistence.loads_projections reader
  /\ exists s2,
       run_projections (Persistence.reading (Correlations.files s1) [] reader) = (Ok tt, s2)
       /\ Persistence.same_projections (Correlations.self s1) (Correlations.self s2)
       /\ Correlations.ran_projections (Correlations.self s2) = true
       /\ Correlations.number_of_triggers
            (Correlations.correlation_hists_2d (Correlations.self s2))
          = Correlations.number_of_triggers (Correlations.correlation_hists_2d reader)
       /\ Correlations.files s2 = Correlations.files s1.
Proof.
  intros run_projections s s1 reader.
  assert (H1 : Properties.runs_2d_in_compute_mode s).
  { exists true. split; [vm_compute; reflexivity | left; reflexivity]. }
  assert (H2 : run_projections s = (Ok tt, s1)) by (vm_compute; reflexivity).
  assert (H3 : Persistence.same_bin (Correlations.self s) reader) by (repeat split).
  assert (H4 : Persistence.loads_projections reader)
    by (repeat split; vm_compute; reflexivity).
  split; [exact H1|]. split; [exact H2|]. split; [exact H3|]. split; [exact H4|].
  exact (computed_projections_are_loaded_back Example.project_2d Example.divide_2d
           Example.plots Example.setup_projectors
           Example.project_1d Example.compare_to_joel s s1 reader [] H1 H2 H3 H4).
Defined.

(* ===================================================================== *)
(** * The preconditions of the stages of the manager *)
(* ===================================================================== *)

Section StageCheckProofs.

Import Histogram.
Import Correlations.
Import CorrelationsManager.
Import Properties.
Import StageOrder.

Lemma touches_only_ret (A : Type) (i : nat) (a : A) : touches_only i (Py.ret a).
Proof. intros st k _. reflexivity. Qed.

Lemma touches_only_raise (A : Type) (i : nat) (e : exn) :
  touches_only i (@Py.raise ManagerState A e).
Proof. intros st k _. reflexivity. Qed.

Lemma touches_only_lift (A : Type) (i : nat) (r : result A) : touches_only i (Py.lift r).
Proof. intros st k _. reflexivity. Qed.

Lemma touches_only_bind (A B : Type) (i : nat) (m : MM A) (k : A -> MM B) :
  touches_only i m -> (forall a, touches_only i (k a)) -> touches_only i (Py.bindM m k).
Proof.
  intros Hm Hk st j Hj. unfold Py.bindM. specialize (Hm st j Hj).
  destruct (m st) as [[a|e] st1]; cbn in *.
  - rewrite (Hk a st1 j Hj). exact Hm.
  - exact Hm.
Qed.

Lemma touches_only_on_analysis (A : Type) (i : nat) (method : Correlations.M A) :
  touches_only i (on_analysis i method).
Proof.
  intros st k Hk. unfold on_analysis.
  destruct (analyses st !! i) as [a|]; [|reflexivity].
  destruct (method _) as [r s]. cbn.
  apply list_lookup_insert_ne. intros E. apply Hk. symmetry. exact E.
Qed.

(** A step on the analysis object at [i] that returns found that object. *)
Lemma on_analysis_returned (A : Type) (i : nat) (method : Correlations.M A)
    (st st' : ManagerState) (r : A) :
  on_analysis i method st = (Ok r, st') ->
  exists a s',
    analyses st !! i = Some a
    /\ method {| files := m_files st; log := m_log st; self := a |} = (Ok r, s')
    /\ analyses st' !! i = Some (self s').
Proof.
  unfold on_analysis. destruct (analyses st !! i) as [a|] eqn:Ea; [|discriminate].
  destruct (method _) as [r' s] eqn:Em. intros [= -> <-]. cbn.
  exists a, s. split; [reflexivity|]. split; [exact Em|].
  apply list_lookup_insert_eq. eapply lookup_lt_Some. exact Ea.
Qed.

Lemma analysis_at_returned (i : nat) (st st' : ManagerState) (a : Correlations) :
  analysis_at i st = (Ok a, st') -> analyses st !! i = Some a /\ st' = st.
Proof.
  unfold analysis_at, on_analysis.
  destruct (analyses st !! i) as [a0|] eqn:Ea; [|discriminate].
  cbn. intros [= <- <-]. split; [reflexivity|].
  destruct st as [fs lg an fo]. cbn in *. f_equal. apply list_insert_id, Ea.
Qed.

(** A loop over different positions, whose body changes the object at its
    position only and returns only if that object satisfies [P], returns only
    if the objects at all its positions satisfy [P] when the loop starts. *)
Lemma for_each_checks (P : Correlations -> bool) (body : nat -> MM unit) :
  (forall i, touches_only i (body i)) ->
  (forall i st st', body i st = (Ok tt, st') ->
                    exists a, analyses st !! i = Some a /\ P a = true) ->
  forall (l : list nat) (st st' : ManagerState),
    List.NoDup l ->
    Py.for_each l body st = (Ok tt, st') ->
    forall i, List.In i l -> exists a, analyses st !! i = Some a /\ P a = true.
Proof.
  intros Hframe Hcheck. induction l as [|j l IH]; intros st st' Hnd Hrun i Hi;
    [destruct Hi|].
  inversion Hnd as [|? ? Hj Hnd']; subst.
  cbn [Py.for_each] in Hrun. unfold Py.bindM in Hrun.
  destruct (body j st) as [[[]|e] st1] eqn:Ej; [|discriminate Hrun].
  destruct Hi as [<-|Hi]; [exact (Hcheck _ _ _ Ej)|].
  destruct (IH st1 st' Hnd' Hrun i Hi) as (a & Ha & HP).
  exists a. split; [|exact HP].
  rewrite <- Ha. symmetry.
  pose proof (Hframe j st i) as H. rewrite Ej in H. apply H.
  intros ->. exact (Hj Hi).
Qed.

Lemma all_analyses_returned (st : ManagerState) :
  all_analyses st = (Ok (List.seq 0 (List.length (analyses st))), st).
Proof. reflexivity. Qed.

Variable integral : Histogram1D -> Q -> Q -> Q * Q.
Variable fit_pedestal_with_extended_gaussian :
  FitPedestalWithExtendedGaussian -> Histogram1D -> result WidthFitResult.
Variable manager : Manager.

Lemma extract_yields_checks (st : ManagerState) (b : bool) :
  fst (CorrelationsManager.extract_yields integral manager st) = Ok b ->
  every_analysis ran_post_fit_processing st.
Proof.
  unfold CorrelationsManager.extract_yields. unfold Py.bindM at 1.
  rewrite all_analyses_returned.
  unfold Py.bindM at 1.
  match goal with
  | |- context [Py.for_each ?l ?body st] =>
      destruct (Py.for_each l body st) as [[[]|e] st'] eqn:Erun; [|discriminate];
      pose proof (for_each_checks ran_post_fit_processing body) as Hloop
  end.
  intros _ i a Ha.
  destruct (Hloop) with (l := List.seq 0 (List.length (analyses st))) (st := st) (st' := st')
                        (i := i) as (a' & Ha' & HP).
  - intros j. apply touches_only_bind; [apply touches_only_on_analysis|].
    intros analysis. destruct (negb _); [apply touches_only_raise|].
    apply touches_only_bind; [apply touches_only_lift|].
    intros [|]; [|apply touches_only_on_analysis].
    apply touches_only_bind; [apply touches_only_on_analysis|].
    intros _. apply touches_only_on_analysis.
  - intros j st1 st2 Hbody. unfold Py.bindM in Hbody.
    destruct (analysis_at j st1) as [[analysis|e] st1'] eqn:Eat; [|discriminate Hbody].
    destruct (analysis_at_returned _ _ _ _ Eat) as (Hj & ->).
    exists analysis. split; [exact Hj|].
    destruct (ran_post_fit_processing analysis); [reflexivity | discriminate Hbody].
  - apply List.seq_NoDup.
  - exact Erun.
  - apply List.in_seq. apply lookup_lt_Some in Ha. lia.
  - congruence.
Qed.

Lemma extract_widths_checks (st : ManagerState) (b : bool) :
  fst (CorrelationsManager.extract_widths fit_pedestal_with_extended_gaussian manager st)
  = Ok b ->
  every_analysis ran_post_fit_processing st.
Proof.
  unfold CorrelationsManager.extract_widths. unfold Py.bindM at 1.
  rewrite all_analyses_returned.
  unfold Py.bindM at 1.
  match goal with
  | |- context [Py.for_each ?l ?body st] =>
      destruct (Py.for_each l body st) as [[[]|e] st'] eqn:Erun; [|discriminate];
      pose proof (for_each_checks ran_post_fit_processing body) as Hloop
  end.
  intros _ i a Ha.
  destruct (Hloop) with (l := List.seq 0 (List.length (analyses st))) (st := st) (st' := st')
                        (i := i) as (a' & Ha' & HP).
  - intros j. apply touches_only_bind; [apply touches_only_on_analysis|].
    intros analysis. destruct (negb _); [apply touches_only_raise|].
    apply touches_only_bind; [apply touches_only_lift|].
    intros [|]; [|apply touches_only_on_analysis].
    apply touches_only_bind; [apply touches_only_on_analysis|].
    intros _. apply touches_only_on_analysis.
  - intros j st1 st2 Hbody. unfold Py.bindM in Hbody.
    destruct (analysis_at j st1) as [[analysis|e] st1'] eqn:Eat; [|discriminate Hbody].
    destruct (analysis_at_returned _ _ _ _ Eat) as (Hj & ->).
    exists analysis. split; [exact Hj|].
    destruct (ran_post_fit_processing analysis); [reflexivity | discriminate Hbody].
  - apply List.seq_NoDup.
  - exact Erun.
  - apply List.in_seq. apply lookup_lt_Some in Ha. lia.
  - congruence.
Qed.

End StageCheckProofs.

(** X21.  The extraction of the yields and the extraction of the widths return
    only if every bin had completed its post fit processing when the stage
    was called: with one bin whose flag is unset they raise. *)
Theorem extraction_needs_post_fit_processing
    (integral : Histogram.Histogram1D -> Q -> Q -> Q * Q)
    (fit_pedestal_with_extended_gaussian :
       Correlations.FitPedestalWithExtendedGaussian -> Histogram.Histogram1D ->
       result Correlations.WidthFitResult)
    (manager : CorrelationsManager.Manager) (st : CorrelationsManager.ManagerState) :
  (is_ok (fst (CorrelationsManager.extract_yields integral manager st)) = true ->
   StageOrder.every_analysis Correlations.ran_post_fit_processing st)
  /\ (is_ok (fst (CorrelationsManager.extract_widths fit_pedestal_with_extended_gaussian
                    manager st)) = true ->
      StageOrder.every_analysis Correlations.ran_post_fit_processing st).
Proof.
  split; intros H.
  - destruct (fst (CorrelationsManager.extract_yields integral manager st)) as [b|e] eqn:E;
      [|discriminate H].
    exact (extract_yields_checks integral manager st b E).
  - destruct (fst (CorrelationsManager.extract_widths fit_pedestal_with_extended_gaussian
                     manager st)) as [b|e] eqn:E; [|discriminate H].
    exact (extract_widths_checks fit_pedestal_with_extended_gaussian manager st b E).
Qed.

(* ===================================================================== *)
(** * What the stages of the manager leave behind *)
(* ===================================================================== *)

Section StageProgressProofs.

Import Histogram.
Import Correlations.
Import CorrelationsManager.
Import Properties.
Import StageOrder.

Lemma set_flag_stays_set (before after : bool) :
  unchanged_or_set before after -> before = true -> after = true.
Proof. intros [-> | ->] H; [exact H | reflexivity]. Qed.

(** A flag that is set stays set in a later state. *)
Lemma flags_stay_set (st st' : ManagerState) (i : nat) (a : Correlations) :
  all_flags_monotonic st st' ->
  analyses st !! i = Some a ->
  exists a',
    analyses st' !! i = Some a'
    /\ (ran_projections a = true -> ran_projections a' = true)
    /\ (ran_fitting a = true -> ran_fitting a' = true)
    /\ (ran_post_fit_processing a = true -> ran_post_fit_processing a' = true).
Proof.
  intros Hmono Ha. destruct (Hmono i a Ha) as (a' & Ha' & H1 & H2 & H3).
  exists a'. split; [exact Ha'|].
  repeat split; apply set_flag_stays_set; assumption.
Qed.

(** The loops that record the progress. *)
Lemma for_each_sets_flag (set_flag : Correlations -> Correlations)
    (P : Correlations -> bool) :
  (forall c, P (set_flag c) = true) ->
  (forall c, flags_monotonic c (set_flag c)) ->
  (forall a a', flags_monotonic a a' -> P a = true -> P a' = true) ->
  forall (members : list nat) (st st' : ManagerState),
    Py.for_each members (fun i => on_analysis i (update_self set_flag)) st = (Ok tt, st') ->
    forall i, List.In i members -> exists a, analyses st' !! i = Some a /\ P a = true.
Proof.
  intros Hset Hmono HP. induction members as [|j members IH]; intros st st' Hrun i Hi;
    [destruct Hi|].
  cbn [Py.for_each] in Hrun. unfold Py.bindM in Hrun.
  destruct (on_analysis j (update_self set_flag) st) as [[[]|e] st1] eqn:Ej;
    [|discriminate Hrun].
  destruct (List.in_dec Nat.eq_dec i members) as [Hin|Hnot]; [exact (IH _ _ Hrun i Hin)|].
  destruct Hi as [<-|Hi]; [|contradiction].
  destruct (on_analysis_returned _ _ _ _ _ _ Ej) as (a & s' & Ha & Em & Ha1).
  injection Em as <-. cbn in Ha1.
  assert (Hkeeps : keeps_all_flags
                     (Py.for_each members (fun i => on_analysis i (update_self set_flag)))).
  { apply keeps_all_flags_for_each. intros k. apply keeps_all_flags_on_analysis.
    apply keeps_flags_update_self. exact Hmono. }
  specialize (Hkeeps st1). rewrite Hrun in Hkeeps. cbn in Hkeeps.
  destruct (Hkeeps j _ Ha1) as (a' & Ha' & Hflags).
  exists a'. split; [exact Ha'|]. exact (HP _ _ Hflags (Hset a)).
Qed.

(** The loops that check a flag of every member. *)
Lemma for_each_checked (P : Correlations -> bool) (body : nat -> MM unit) :
  (forall i, keeps_all_flags (body i)) ->
  (forall a a', flags_monotonic a a' -> P a = true -> P a' = true) ->
  (forall i st st', body i st = (Ok tt, st') ->
                    exists a, analyses st !! i = Some a /\ P a = true) ->
  forall (members : list nat) (st st' : ManagerState),
    Py.for_each members body st = (Ok tt, st') ->
    forall i, List.In i members -> exists a, analyses st' !! i = Some a /\ P a = true.
Proof.
  intros Hkeeps HP Hcheck. induction members as [|j members IH]; intros st st' Hrun i Hi;
    [destruct Hi|].
  cbn [Py.for_each] in Hrun. unfold Py.bindM in Hrun.
  destruct (body j st) as [[[]|e] st1] eqn:Ej; [|discriminate Hrun].
  destruct Hi as [<-|Hi]; [|exact (IH _ _ Hrun i Hi)].
  destruct (Hcheck _ _ _ Ej) as (a & Ha & Pa).
  pose proof (Hkeeps j st) as H1. rewrite Ej in H1. cbn in H1.
  destruct (H1 j a Ha) as (a1 & Ha1 & F1).
  pose proof (keeps_all_flags_for_each _ members body Hkeeps st1) as H2.
  rewrite Hrun in H2. cbn in H2.
  destruct (H2 j a1 Ha1) as (a2 & Ha2 & F2).
  exists a2. split; [exact Ha2|]. exact (HP _ _ F2 (HP _ _ F1 Pa)).
Qed.

Lemma ran_projections_stays (a a' : Correlations) :
  flags_monotonic a a' -> ran_projections a = true -> ran_projections a' = true.
Proof. intros (H & _ & _). apply set_flag_stays_set, H. Qed.

Lemma ran_fitting_stays (a a' : Correlations) :
  flags_monotonic a a' -> ran_fitting a = true -> ran_fitting a' = true.
Proof. intros (_ & H & _). apply set_flag_stays_set, H. Qed.

Lemma ran_post_fit_processing_stays (a a' : Correlations) :
  flags_monotonic a a' ->
  ran_post_fit_processing a = true -> ran_post_fit_processing a' = true.
Proof. intros (_ & _ & H). apply set_flag_stays_set, H. Qed.

Variable _create_2d_raw_and_mixed_correlations :
  Correlations -> result (ROOT.TH2 * ROOT.TH2 * Histogram1D * Q).
Variable _create_2d_signal_correlation : Correlations -> result ROOT.TH2.
Variable plot_correlations : PlotCorrelations.
Variable _setup_1d_projectors : Correlations -> result unit.
Variable _create_1d_correlations : Correlations -> result (HistsDeltaPhi * HistsDeltaEta).
Variable _compare_unsubtracted_1d_signal_correlation_to_joel : Correlations -> result unit.
Variable fit_pedestal_to_delta_eta_background_dominated_region :
  Histogram1D -> SelectedRange -> result (Q * Q).
Variable integral : Histogram1D -> Q -> Q -> Q * Q.
Variable fit_pedestal_with_extended_gaussian :
  FitPedestalWithExtendedGaussian -> Histogram1D -> result WidthFitResult.
Variable reaction_plane_fit :
  list (string * option Histogram1D) -> list (string * option Histogram1D) ->
  result (bool * ReactionPlaneFit).
Variable read_fit_results : string -> result ReactionPlaneFit.
Variable manager : Manager.

(** The sanity check of the reaction plane fit. *)
Lemma collect_input_hists_checks (members : list nat) :
  forall inclusive_analysis signal background st st' r,
    collect_input_hists members inclusive_analysis signal background st = (Ok r, st') ->
    st' = st
    /\ forall i, List.In i members ->
         exists a, analyses st !! i = Some a /\ ran_projections a = true.
Proof.
  induction members as [|j members IH]; intros incl sig bg st st' r Hrun.
  - injection Hrun as _ <-. split; [reflexivity | intros i []].
  - cbn [collect_input_hists] in Hrun. unfold Py.bindM in Hrun.
    destruct (analysis_at j st) as [[analysis|e] st1] eqn:Eat; [|discriminate Hrun].
    destruct (analysis_at_returned _ _ _ _ Eat) as (Hj & ->).
    destruct (ran_projections analysis) eqn:Eflag; cbn [negb] in Hrun;
      [|discriminate Hrun].
    destruct (is_inclusive (reaction_plane_orientation analysis));
      destruct (IH _ _ _ _ _ _ Hrun) as (-> & Hrest);
      (split; [reflexivity|]);
      intros i [<-|Hi]; first [exists analysis; split; assumption | exact (Hrest i Hi)].
Qed.

(** One group of the reaction plane fit. *)
Lemma reaction_plane_fit_of_a_group (key : string) (members : list nat)
    (st st' : ManagerState) :
  (do '(inclusive_analysis, signal_hists, background_hists) <-
     collect_input_hists members None [] [] ;
   match inclusive_analysis with
   | None => Py.raise (UnboundLocalError "inclusive_analysis")
   | Some inclusive_analysis =>
       let rpf_filename :=
         String.append "RPFitResult_"
           (String.append (identifier inclusive_analysis) ".yaml") in
       do fit_correlations <- manager_option manager "fit_correlations" ;
       do fit_obj <-
         (if fit_correlations then
            do '(fit_success, fit_obj) <-
              Py.lift (reaction_plane_fit signal_hists background_hists) ;
            if negb fit_success then
              Py.raise (RuntimeError
                          (String.append "Fit failed for " (identifier inclusive_analysis)))
            else Py.ret fit_obj
          else Py.lift (read_fit_results rpf_filename)) ;
       run store_fit_object key fit_obj ;
       run store_components fit_obj members ;
       Py.for_each members (fun i =>
         on_analysis i (update_self (set_ran_fitting true)))
   end) st = (Ok tt, st') ->
  forall i, List.In i members ->
    exists a, analyses st' !! i = Some a
              /\ ran_projections a = true /\ ran_fitting a = true.
Proof.
  intros Hrun i Hi.
  assert (Hkeeps : all_flags_monotonic st st').
  { match type of Hrun with ?m st = _ =>
      assert (K : keeps_all_flags m)
    end.
    { unfold store_components.
      pose proof keeps_all_flags_collect_input_hists as ?.
      pose proof (keeps_all_flags_manager_option manager) as ?.
      pose proof keeps_all_flags_analysis_at as ?.
      keeps_all_flags_auto. }
    specialize (K st). rewrite Hrun in K. exact K. }
  unfold Py.bindM at 1 in Hrun.
  destruct (collect_input_hists members None [] [] st) as [[[[incl sig] bg]|e] st0] eqn:Ec;
    [|discriminate Hrun].
  destruct (collect_input_hists_checks _ _ _ _ _ _ _ Ec) as (-> & Hchecked).
  destruct incl as [ia|]; [|discriminate Hrun].
  cbv zeta in Hrun. unfold Py.bindM at 1 in Hrun.
  destruct (manager_option manager "fit_correlations" st) as [[fc|e] st1] eqn:E1;
    [|discriminate Hrun].
  unfold Py.bindM at 1 in Hrun.
  match type of Hrun with
  | match ?m st1 with _ => _ end = _ => destruct (m st1) as [[fit_obj|e] st2] eqn:E2
  end; [|discriminate Hrun].
  unfold Py.bindM at 1 in Hrun. cbn [store_fit_object Py.modify] in Hrun.
  unfold Py.bindM at 1 in Hrun.
  match type of Hrun with
  | match ?m ?s with _ => _ end = _ => destruct (m s) as [[[]|e] st3] eqn:E3
  end; [|discriminate Hrun].
  destruct (for_each_sets_flag (set_ran_fitting true) ran_fitting
              (fun c => eq_refl) flags_monotonic_set_ran_fitting ran_fitting_stays
              members _ _ Hrun i Hi) as (a' & Ha' & Hfit).
  exists a'. split; [exact Ha'|]. split; [|exact Hfit].
  destruct (Hchecked i Hi) as (a & Ha & Hproj).
  destruct (Hkeeps i a Ha) as (a'' & Ha'' & Hflags).
  rewrite Ha' in Ha''. injection Ha'' as <-.
  exact (ran_projections_stays _ _ Hflags Hproj).
Qed.

Lemma reaction_plane_fit_marks_the_groups (gs : list (string * list nat)) :
  forall st st',
    Py.for_each gs (fun '(fit_key_index, members) =>
      do '(inclusive_analysis, signal_hists, background_hists) <-
        collect_input_hists members None [] [] ;
      match inclusive_analysis with
      | None => Py.raise (UnboundLocalError "inclusive_analysis")
      | Some inclusive_analysis =>
          let rpf_filename :=
            String.append "RPFitResult_"
              (String.append (identifier inclusive_analysis) ".yaml") in
          do fit_correlations <- manager_option manager "fit_correlations" ;
          do fit_obj <-
            (if fit_correlations then
               do '(fit_success, fit_obj) <-
                 Py.lift (reaction_plane_fit signal_hists background_hists) ;
               if negb fit_success then
                 Py.raise (RuntimeError
                             (String.append "Fit failed for "
                                (identifier inclusive_analysis)))
               else Py.ret fit_obj
             else Py.lift (read_fit_results rpf_filename)) ;
          run store_fit_object fit_key_index fit_obj ;
          run store_components fit_obj members ;
          Py.for_each members (fun i =>
            on_analysis i (update_self (set_ran_fitting true)))
      end) st = (Ok tt, st') ->
    every_member gs (fun a => ran_projections a && ran_fitting a) st'.
Proof.
  induction gs as [|[key members] gs IH]; intros st st' Hrun key' members' i Hg Hi;
    [destruct Hg|].
  cbn [Py.for_each] in Hrun. unfold Py.bindM at 1 in Hrun.
  match type of Hrun with
  | match ?m st with _ => _ end = _ => destruct (m st) as [[[]|e] st1] eqn:E1
  end; [|discriminate Hrun].
  destruct Hg as [[= <- <-]|Hg]; [|exact (IH _ _ Hrun key' members' i Hg Hi)].
  destruct (reaction_plane_fit_of_a_group key members st st1 E1 i Hi)
    as (a & Ha & Hproj & Hfit).
  match type of Hrun with ?m st1 = _ =>
    assert (K : keeps_all_flags m)
  end.
  { unfold store_components.
    pose proof keeps_all_flags_collect_input_hists as ?.
    pose proof (keeps_all_flags_manager_option manager) as ?.
    pose proof keeps_all_flags_analysis_at as ?.
    keeps_all_flags_auto. }
  specialize (K st1). rewrite Hrun in K. cbn in K.
  destruct (K i a Ha) as (a' & Ha' & Hflags).
  exists a'. split; [exact Ha'|].
  rewrite (ran_projections_stays _ _ Hflags Hproj), (ran_fitting_stays _ _ Hflags Hfit).
  reflexivity.
Qed.

End StageProgressProofs.

(* ===================================================================== *)
(** * Steps that leave the flags as they are *)
(* ===================================================================== *)

Section LeavesFlagsProofs.

Import Histogram.
Import Correlations.
Import StageOrder.

Lemma leaves_flags_ret (A : Type) (a : A) : leaves_flags (Py.ret a).
Proof. intros s. reflexivity. Qed.

Lemma leaves_flags_raise (A : Type) (e : exn) : leaves_flags (@Py.raise State A e).
Proof. intros s. reflexivity. Qed.

Lemma leaves_flags_lift (A : Type) (r : result A) : leaves_flags (Py.lift r).
Proof. intros s. reflexivity. Qed.

Lemma leaves_flags_bind (A B : Type) (m : M A) (k : A -> M B) :
  leaves_flags m -> (forall a, leaves_flags (k a)) -> leaves_flags (Py.bindM m k).
Proof.
  intros Hm Hk s. unfold Py.bindM. specialize (Hm s).
  destruct (m s) as [[a|e] s1]; cbn in *; [rewrite (Hk a s1)|]; exact Hm.
Qed.

Lemma leaves_flags_update_self (f : Correlations -> Correlations) :
  (forall c, flags (f c) = flags c) -> leaves_flags (update_self f).
Proof. intros Hf s. apply Hf. Qed.

Lemma leaves_flags_logger_info (msg : string) : leaves_flags (logger_info msg).
Proof. intros s. reflexivity. Qed.

Lemma leaves_flags_get_self : leaves_flags get_self.
Proof. intros s. reflexivity. Qed.

Lemma leaves_flags_get_files : leaves_flags get_files.
Proof. intros s. reflexivity. Qed.

Lemma leaves_flags_write_root hists : leaves_flags (_write_hists_to_root_file hists).
Proof. intros s. reflexivity. Qed.

Lemma leaves_flags_write_yaml objects : leaves_flags (write_to_yaml objects).
Proof. intros s. reflexivity. Qed.

Lemma leaves_flags_open_root_file : leaves_flags open_root_file.
Proof.
  intros s. unfold open_root_file, get_self, get_files, Py.bindM, Py.get, Py.ret. cbn.
  destruct (root_files (files s) !! output_filename (self s)); reflexivity.
Qed.

Lemma leaves_flags_open_yaml_file : leaves_flags open_yaml_file.
Proof.
  intros s. unfold open_yaml_file, get_self, get_files, Py.bindM, Py.get, Py.ret. cbn.
  destruct (yaml_files (files s) !! output_filename_yaml (self s)); reflexivity.
Qed.

Lemma leaves_flag_of_flags (A : Type) (method : M A) :
  leaves_flags method ->
  leaves_flag ran_projections method /\ leaves_flag ran_fitting method
  /\ leaves_flag ran_post_fit_processing method.
Proof.
  intros H. repeat split; intros s;
    unfold ran_projections, ran_fitting, ran_post_fit_processing; rewrite (H s);
    reflexivity.
Qed.

End LeavesFlagsProofs.

Create HintDb leaves discriminated.

#[export] Hint Resolve leaves_flags_ret leaves_flags_raise leaves_flags_lift
  leaves_flags_logger_info leaves_flags_get_self leaves_flags_get_files
  leaves_flags_write_root leaves_flags_write_yaml leaves_flags_open_root_file
  leaves_flags_open_yaml_file : leaves.

(** Walks through a method that does not assign to a flag. *)
Ltac leaves_flags_step :=
  match goal with
  | |- StageOrder.leaves_flags (Py.bindM _ _) => apply leaves_flags_bind; [|intros]
  | |- StageOrder.leaves_flags (Correlations.update_self _) =>
      apply leaves_flags_update_self; intros; reflexivity
  | |- StageOrder.leaves_flags (match ?x with _ => _ end) => destruct x
  | |- StageOrder.leaves_flags (if ?b then _ else _) => destruct b
  | |- StageOrder.leaves_flags (let '(_, _) := ?p in _) => destruct p
  | |- StageOrder.leaves_flags _ => solve [auto with leaves]
  end.

Ltac leaves_flags_auto := repeat leaves_flags_step.

Section MethodsLeaveFlagsProofs.

Import Histogram.
Import Correlations.
Import StageOrder.

Variable _create_2d_raw_and_mixed_correlations :
  Correlations -> result (ROOT.TH2 * ROOT.TH2 * Histogram1D * Q).
Variable _create_2d_signal_correlation : Correlations -> result ROOT.TH2.
Variable plot_correlations : PlotCorrelations.
Variable _setup_1d_projectors : Correlations -> result unit.
Variable _create_1d_correlations : Correlations -> result (HistsDeltaPhi * HistsDeltaEta).
Variable _compare_unsubtracted_1d_signal_correlation_to_joel : Correlations -> result unit.

Lemma leaves_flags_run_2d_projections :
  leaves_flags (_run_2d_projections _create_2d_raw_and_mixed_correlations
                  _create_2d_signal_correlation plot_correlations).
Proof.
  unfold _run_2d_projections, _write_2d_correlations, _write_number_of_triggers_hist,
    _init_2d_correlations_hists_from_root_file, _init_number_of_triggers_hist_from_root_file.
  leaves_flags_auto.
Qed.

Lemma leaves_flags_run_1d_projections :
  leaves_flags (_run_1d_projections plot_correlations _setup_1d_projectors
    _create_1d_correlations _compare_unsubtracted_1d_signal_correlation_to_joel).
Proof.
  unfold _run_1d_projections, _post_1d_projection_scaling, _write_1d_correlations,
    _init_1d_correlations_hists_from_root_file.
  leaves_flags_auto.
Qed.

Lemma leaves_flags_subtract_background_fit_function_from_signal_dominated :
  leaves_flags subtract_background_fit_function_from_signal_dominated.
Proof. unfold subtract_background_fit_function_from_signal_dominated. leaves_flags_auto. Qed.

Lemma leaves_flags_write_1d_subtracted_delta_phi_correlations :
  leaves_flags write_1d_subtracted_delta_phi_correlations.
Proof. unfold write_1d_subtracted_delta_phi_correlations. leaves_flags_auto. Qed.

Lemma leaves_flags_init_1d_subtracted_delta_phi_corerlations_from_file :
  leaves_flags init_1d_subtracted_delta_phi_corerlations_from_file.
Proof. unfold init_1d_subtracted_delta_phi_corerlations_from_file. leaves_flags_auto. Qed.

Lemma flags_after_run_projections (s : State) :
  flags (self (snd (run_projections _create_2d_raw_and_mixed_correlations
                      _create_2d_signal_correlation plot_correlations _setup_1d_projectors
                      _create_1d_correlations
                      _compare_unsubtracted_1d_signal_correlation_to_joel s)))
  = flags_after_projections
      (is_ok (fst (run_projections _create_2d_raw_and_mixed_correlations
                     _create_2d_signal_correlation plot_correlations _setup_1d_projectors
                     _create_1d_correlations
                     _compare_unsubtracted_1d_signal_correlation_to_joel s)))
      (flags (self s)).
Proof.
  unfold run_projections.
  pose proof leaves_flags_run_2d_projections as H2.
  pose proof leaves_flags_run_1d_projections as H1.
  set (projections_2d := _run_2d_projections _ _ _) in *.
  set (projections_1d := _run_1d_projections _ _ _ _) in *.
  clearbody projections_2d projections_1d.
  unfold Py.bindM. specialize (H2 s).
  destruct (projections_2d s) as [[[]|e2] s1]; cbn in H2 |- *; [|exact H2].
  specialize (H1 s1).
  destruct (projections_1d s1) as [[[]|e1] s2]; cbn in H1 |- *.
  - unfold ran_fitting, ran_post_fit_processing.
    rewrite H1, H2. reflexivity.
  - rewrite H1. exact H2.
Qed.

End MethodsLeaveFlagsProofs.

(** X22.  The projection stage of a bin records its success and nothing else in
    the flags: when [run_projections] returns, the projection flag is set;
    when it raises, whichever of its steps raised, the three flags are as
    they were.  It never changes the other two flags. *)
Theorem run_projections_sets_its_flag_only_when_it_returns
    (_create_2d_raw_and_mixed_correlations :
       Correlations.Correlations ->
       result (ROOT.TH2 * ROOT.TH2 * Histogram.Histogram1D * Q))
    (_create_2d_signal_correlation : Correlations.Correlations -> result ROOT.TH2)
    (plot_correlations : Correlations.PlotCorrelations)
    (_setup_1d_projectors : Correlations.Correlations -> result unit)
    (_create_1d_correlations :
       Correlations.Correlations ->
       result (Correlations.HistsDeltaPhi * Correlations.HistsDeltaEta))
    (_compare_unsubtracted_1d_signal_correlation_to_joel :
       Correlations.Correlations -> result unit)
    (s : Correlations.State) :
  let outcome :=
    Correlations.run_projections _create_2d_raw_and_mixed_correlations
      _create_2d_signal_correlation plot_correlations _setup_1d_projectors
      _create_1d_correlations _compare_unsubtracted_1d_signal_correlation_to_joel s in
  Correlations.flags (Correlations.self (snd outcome))
  = StageOrder.flags_after_projections (is_ok (fst outcome))
      (Correlations.flags (Correlations.self s)).
Proof.
  exact (flags_after_run_projections _create_2d_raw_and_mixed_correlations
           _create_2d_signal_correlation plot_correlations _setup_1d_projectors
           _create_1d_correlations _compare_unsubtracted_1d_signal_correlation_to_joel s).
Qed.

(* ===================================================================== *)
(** * Stages that leave a flag of every bin as it is *)
(* ===================================================================== *)

Section KeepsFlagProofs.

Import Histogram.
Import Correlations.
Import CorrelationsManager.
Import Properties.
Import StageOrder.

Variable flag : Correlations -> bool.

Lemma keeps_flag_ret (A : Type) (a : A) : keeps_flag flag (Py.ret a).
Proof. intros st. reflexivity. Qed.

Lemma keeps_flag_raise (A : Type) (e : exn) :
  keeps_flag flag (@Py.raise ManagerState A e).
Proof. intros st. reflexivity. Qed.

Lemma keeps_flag_lift (A : Type) (r : result A) : keeps_flag flag (Py.lift r).
Proof. intros st. reflexivity. Qed.

Lemma keeps_flag_get : keeps_flag flag Py.get.
Proof. intros st. reflexivity. Qed.

Lemma keeps_flag_bind (A B : Type) (m : MM A) (k : A -> MM B) :
  keeps_flag flag m -> (forall a, keeps_flag flag (k a)) -> keeps_flag flag (Py.bindM m k).
Proof.
  intros Hm Hk st. unfold Py.bindM. specialize (Hm st).
  destruct (m st) as [[a|e] st1]; cbn in *; [rewrite (Hk a st1)|]; exact Hm.
Qed.

Lemma keeps_flag_for_each (A : Type) (l : list A) (body : A -> MM unit) :
  (forall a, keeps_flag flag (body a)) -> keeps_flag flag (Py.for_each l body).
Proof.
  intros Hbody. induction l as [|a l IH]; cbn [Py.for_each].
  - apply keeps_flag_ret.
  - apply keeps_flag_bind; [apply Hbody | intros _; exact IH].
Qed.

Lemma map_flag_insert (l : list Correlations) :
  forall (i : nat) (a c : Correlations),
    l !! i = Some a -> flag c = flag a ->
    List.map flag (<[i := c]> l) = List.map flag l.
Proof.
  induction l as [|b l IH]; intros i a c Hi Hc; [reflexivity|].
  destruct i as [|i]; cbn in *.
  - injection Hi as ->. rewrite Hc. reflexivity.
  - f_equal. exact (IH i a c Hi Hc).
Qed.

Lemma keeps_flag_on_analysis (A : Type) (i : nat) (method : Correlations.M A) :
  leaves_flag flag method -> keeps_flag flag (on_analysis i method).
Proof.
  intros Hm st. unfold on_analysis.
  destruct (analyses st !! i) as [a|] eqn:Ei; [|reflexivity].
  specialize (Hm {| files := m_files st; log := m_log st; self := a |}).
  destruct (method _) as [r s]. cbn in *.
  exact (map_flag_insert _ _ _ _ Ei Hm).
Qed.

Lemma keeps_flag_store_fit_object key fit : keeps_flag flag (store_fit_object key fit).
Proof. intros st. reflexivity. Qed.

Lemma keeps_flag_analysis_at i : keeps_flag flag (analysis_at i).
Proof. apply keeps_flag_on_analysis. intros s. reflexivity. Qed.

Lemma keeps_flag_manager_option manager key : keeps_flag flag (manager_option manager key).
Proof. apply keeps_flag_lift. Qed.

Lemma keeps_flag_collect_input_hists members :
  forall inclusive_analysis signal background,
    keeps_flag flag (collect_input_hists members inclusive_analysis signal background).
Proof.
  induction members as [|i members IH]; intros; cbn [collect_input_hists].
  - apply keeps_flag_ret.
  - apply keeps_flag_bind; [apply keeps_flag_analysis_at | intros analysis].
    destruct (negb _); [apply keeps_flag_raise|].
    destruct (is_inclusive _); apply IH.
Qed.

(** What a flag is after such a step, it was before. *)
Lemma flag_before (A : Type) (step : MM A) (st : ManagerState) (i : nat)
    (a' : Correlations) :
  keeps_flag flag step ->
  analyses (snd (step st)) !! i = Some a' ->
  exists a, analyses st !! i = Some a /\ flag a = flag a'.
Proof.
  intros Hkeeps Ha'. specialize (Hkeeps st).
  assert (H : List.map flag (analyses (snd (step st))) !! i = Some (flag a')).
  { rewrite list_lookup_fmap, Ha'. reflexivity. }
  rewrite Hkeeps, list_lookup_fmap in H.
  destruct (analyses st !! i) as [a|]; [|discriminate H].
  exists a. split; [reflexivity|]. cbn in H. congruence.
Qed.

(** A loop whose body leaves the flag as it is and returns only if the flag
    of the object at its position is set, returns only if the flag is set at
    all its positions when the loop starts. *)
Lemma for_each_checks_flag (body : nat -> MM unit) :
  (forall i, keeps_flag flag (body i)) ->
  (forall i st st', body i st = (Ok tt, st') ->
                    exists a, analyses st !! i = Some a /\ flag a = true) ->
  forall (l : list nat) (st st' : ManagerState),
    Py.for_each l body st = (Ok tt, st') ->
    forall i, List.In i l -> exists a, analyses st !! i = Some a /\ flag a = true.
Proof.
  intros Hkeeps Hcheck. induction l as [|j l IH]; intros st st' Hrun i Hi; [destruct Hi|].
  cbn [Py.for_each] in Hrun. unfold Py.bindM in Hrun.
  destruct (body j st) as [[[]|e] st1] eqn:Ej; [|discriminate Hrun].
  destruct Hi as [<-|Hi]; [exact (Hcheck _ _ _ Ej)|].
  destruct (IH st1 st' Hrun i Hi) as (a1 & Ha1 & Hflag).
  destruct (flag_before _ (body j) st i a1 (Hkeeps j)) as (a & Ha & E).
  { rewrite Ej. exact Ha1. }
  exists a. split; [exact Ha | congruence].
Qed.

End KeepsFlagProofs.

Section LeavesOneFlagProofs.

Import Correlations.
Import StageOrder.

Lemma leaves_ran_projections (A : Type) (method : M A) :
  leaves_flags method -> leaves_flag ran_projections method.
Proof. intros H. apply (leaves_flag_of_flags _ _ H). Qed.

Lemma leaves_ran_fitting (A : Type) (method : M A) :
  leaves_flags method -> leaves_flag ran_fitting method.
Proof. intros H. apply (leaves_flag_of_flags _ _ H). Qed.

Lemma leaves_ran_post_fit_processing (A : Type) (method : M A) :
  leaves_flags method -> leaves_flag ran_post_fit_processing method.
Proof. intros H. apply (leaves_flag_of_flags _ _ H). Qed.

End LeavesOneFlagProofs.

#[export] Hint Resolve keeps_flag_ret keeps_flag_raise keeps_flag_lift keeps_flag_get
  keeps_flag_store_fit_object keeps_flag_analysis_at keeps_flag_manager_option
  keeps_flag_collect_input_hists
  leaves_flags_subtract_background_fit_function_from_signal_dominated
  leaves_flags_write_1d_subtracted_delta_phi_correlations
  leaves_flags_init_1d_subtracted_delta_phi_corerlations_from_file : leaves.

(** Walks through a stage that does not assign to the flag. *)
Ltac keeps_flag_step :=
  match goal with
  | |- StageOrder.keeps_flag _ (Py.bindM _ _) => apply keeps_flag_bind; [|intros]
  | |- StageOrder.keeps_flag _ (Py.for_each _ _) => apply keeps_flag_for_each; intros
  | |- StageOrder.keeps_flag _ (CorrelationsManager.on_analysis _ _) =>
      apply keeps_flag_on_analysis
  | |- StageOrder.keeps_flag _ (match ?x with _ => _ end) => destruct x
  | |- StageOrder.keeps_flag _ (if ?b then _ else _) => destruct b
  | |- StageOrder.keeps_flag _ (let '(_, _) := ?p in _) => destruct p
  | |- StageOrder.keeps_flag _ _ => solve [auto with leaves]
  | |- StageOrder.leaves_flag _ (Correlations.update_self _) => intros ?; reflexivity
  | |- StageOrder.leaves_flag Correlations.ran_projections _ =>
      apply leaves_ran_projections; solve [auto with leaves]
  | |- StageOrder.leaves_flag Correlations.ran_fitting _ =>
      apply leaves_ran_fitting; solve [auto with leaves]
  | |- StageOrder.leaves_flag Correlations.ran_post_fit_processing _ =>
      apply leaves_ran_post_fit_processing; solve [auto with leaves]
  end.

Ltac keeps_flag_auto := repeat keeps_flag_step.

(* ===================================================================== *)
(** * The reaction plane fit and the subtraction of its result *)
(* ===================================================================== *)

Section FitStageProofs.

Import Histogram.
Import Correlations.
Import CorrelationsManager.
Import Properties.
Import StageOrder.

Variable reaction_plane_fit :
  list (string * option Histogram1D) -> list (string * option Histogram1D) ->
  result (bool * ReactionPlaneFit).
Variable read_fit_results : string -> result ReactionPlaneFit.
Variable manager : Manager.

(** The body of the loop of [_reaction_plane_fit]. *)
Local Abbreviation fit_group := (fun '(fit_key_index, members) =>
  do '(inclusive_analysis, signal_hists, background_hists) <-
    collect_input_hists members None [] [] ;
  match inclusive_analysis with
  | None => Py.raise (UnboundLocalError "inclusive_analysis")
  | Some inclusive_analysis =>
      let rpf_filename :=
        String.append "RPFitResult_"
          (String.append (identifier inclusive_analysis) ".yaml") in
      do fit_correlations <- manager_option manager "fit_correlations" ;
      do fit_obj <-
        (if fit_correlations then
           do '(fit_success, fit_obj) <-
             Py.lift (reaction_plane_fit signal_hists background_hists) ;
           if negb fit_success then
             Py.raise (RuntimeError
                         (String.append "Fit failed for "
                            (identifier inclusive_analysis)))
           else Py.ret fit_obj
         else Py.lift (read_fit_results rpf_filename)) ;
      run store_fit_object fit_key_index fit_obj ;
      run store_components fit_obj members ;
      Py.for_each members (fun i =>
        on_analysis i (update_self (set_ran_fitting true)))
  end).

Lemma keeps_ran_projections_fit_group (group : string * list nat) :
  keeps_flag ran_projections (fit_group group).
Proof. destruct group as [key members]. unfold store_components. keeps_flag_auto. Qed.

Lemma reaction_plane_fit_checks_the_groups (gs : list (string * list nat)) :
  forall st st',
    Py.for_each gs fit_group st = (Ok tt, st') ->
    every_member gs ran_projections st.
Proof.
  induction gs as [|[key members] gs IH]; intros st st' Hrun key' members' i Hg Hi;
    [destruct Hg|].
  cbn [Py.for_each] in Hrun. unfold Py.bindM at 1 in Hrun.
  destruct (fit_group (key, members) st) as [[[]|e] st1] eqn:E1; [|discriminate Hrun].
  destruct Hg as [[= <- <-]|Hg].
  - unfold Py.bindM at 1 in E1.
    destruct (collect_input_hists members None [] [] st) as [[[[incl sig] bg]|e] st0] eqn:Ec;
      [|discriminate E1].
    destruct (collect_input_hists_checks _ _ _ _ _ _ _ Ec) as (_ & Hchecked).
    exact (Hchecked i Hi).
  - destruct (IH _ _ Hrun key' members' i Hg Hi) as (a1 & Ha1 & Hflag).
    destruct (flag_before ran_projections _ (fit_group (key, members)) st i a1
                (keeps_ran_projections_fit_group (key, members))) as (a & Ha & E).
    { rewrite E1. exact Ha1. }
    exists a. split; [exact Ha | congruence].
Qed.

(** The body of the loop of [_subtract_reaction_plane_fits]. *)
Local Abbreviation subtract_group :=
  (fun '((_, members), rp_fit) =>
     run Py.for_each members (fun i =>
       do analysis <- analysis_at i ;
       if negb (ran_fitting analysis) then
         Py.raise (RuntimeError "Must run the fitting before subtracting!")
       else
         do subtract_correlations <- manager_option manager "subtract_correlations" ;
         if subtract_correlations then
           run on_analysis i subtract_background_fit_function_from_signal_dominated ;
           on_analysis i write_1d_subtracted_delta_phi_correlations
         else
           on_analysis i init_1d_subtracted_delta_phi_corerlations_from_file) ;
     Py.for_each members (fun i =>
       on_analysis i (update_self (set_ran_post_fit_processing true)))).

Lemma keeps_ran_fitting_subtract_group (group : string * list nat * string) :
  keeps_flag ran_fitting (subtract_group group).
Proof. destruct group as [[key members] rp_fit]. keeps_flag_auto. Qed.

Lemma keeps_all_flags_subtract_group (group : string * list nat * string) :
  keeps_all_flags (subtract_group group).
Proof.
  destruct group as [[key members] rp_fit].
  pose proof keeps_flags_reading_and_writing as (? & _ & _ & _ & _ & ? & _ & _ & _ & _).
  pose proof keeps_flags_subtract_background_fit_function_from_signal_dominated as ?.
  pose proof keeps_all_flags_analysis_at as ?.
  pose proof (keeps_all_flags_manager_option manager) as ?.
  keeps_all_flags_auto.
Qed.

Lemma subtract_group_checks_and_marks (key rp_fit : string) (members : list nat)
    (st st' : ManagerState) :
  subtract_group ((key, members), rp_fit) st = (Ok tt, st') ->
  forall i, List.In i members ->
    (exists a, analyses st !! i = Some a /\ ran_fitting a = true)
    /\ (exists a', analyses st' !! i = Some a'
                   /\ ran_fitting a' = true /\ ran_post_fit_processing a' = true).
Proof.
  intros Hrun i Hi.
  pose proof (keeps_all_flags_subtract_group ((key, members), rp_fit) st) as Hmono.
  cbv beta iota in Hmono, Hrun. rewrite Hrun in Hmono. cbn [snd] in Hmono.
  unfold Py.bindM at 1 in Hrun.
  match type of Hrun with
  | match Py.for_each members ?body st with _ => _ end = _ =>
      destruct (Py.for_each members body st) as [[[]|e] st1] eqn:Echeck;
      [|discriminate Hrun];
      pose proof (for_each_checks_flag ran_fitting body) as Hloop
  end.
  destruct (Hloop) with (l := members) (st := st) (st' := st1) (i := i)
    as (a & Ha & Hfit); [| |exact Echeck|exact Hi|].
  - intros j. keeps_flag_auto.
  - intros j s s' Hbody. unfold Py.bindM at 1 in Hbody.
    destruct (analysis_at j s) as [[analysis|e] s1] eqn:Eat; [|discriminate Hbody].
    destruct (analysis_at_returned _ _ _ _ Eat) as (Hj & ->).
    exists analysis. split; [exact Hj|].
    destruct (ran_fitting analysis); [reflexivity | discriminate Hbody].
  - split; [exists a; split; assumption|].
    destruct (for_each_sets_flag (set_ran_post_fit_processing true) ran_post_fit_processing
                (fun c => eq_refl) flags_monotonic_set_ran_post_fit_processing
                ran_post_fit_processing_stays members _ _ Hrun i Hi)
      as (a' & Ha' & Hpost).
    exists a'. split; [exact Ha'|]. split; [|exact Hpost].
    destruct (Hmono i a Ha) as (a'' & Ha'' & Hflags).
    rewrite Ha' in Ha''. injection Ha'' as <-.
    exact (ran_fitting_stays _ _ Hflags Hfit).
Qed.

Lemma subtract_groups_check_and_mark (gs : list (string * list nat * string)) :
  forall st st',
    Py.for_each gs subtract_group st = (Ok tt, st') ->
    forall key members rp_fit i,
      List.In ((key, members), rp_fit) gs -> List.In i members ->
      (exists a, analyses st !! i = Some a /\ ran_fitting a = true)
      /\ (exists a', analyses st' !! i = Some a'
                     /\ ran_fitting a' = true /\ ran_post_fit_processing a' = true).
Proof.
  induction gs as [|[[key members] rp_fit] gs IH];
    intros st st' Hrun key' members' rp_fit' i Hg Hi; [destruct Hg|].
  cbn [Py.for_each] in Hrun. unfold Py.bindM at 1 in Hrun.
  destruct (subtract_group ((key, members), rp_fit) st) as [[[]|e] st1] eqn:E1;
    [|discriminate Hrun].
  assert (Hrest : all_flags_monotonic st1 st').
  { change st' with (snd (Ok tt, st')). rewrite <- Hrun.
    apply (keeps_all_flags_for_each _ gs _ keeps_all_flags_subtract_group). }
  destruct Hg as [[= <- <- <-]|Hg].
  - destruct (subtract_group_checks_and_marks key rp_fit members st st1 E1 i Hi)
      as (Hbefore & a1 & Ha1 & Hfit & Hpost).
    split; [exact Hbefore|].
    destruct (Hrest i a1 Ha1) as (a' & Ha' & Hflags).
    exists a'. split; [exact Ha'|].
    split; [exact (ran_fitting_stays _ _ Hflags Hfit)
           | exact (ran_post_fit_processing_stays _ _ Hflags Hpost)].
  - destruct (IH _ _ Hrun key' members' rp_fit' i Hg Hi) as ((a1 & Ha1 & Hfit) & Hafter).
    split; [|exact Hafter].
    destruct (flag_before ran_fitting _ (subtract_group ((key, members), rp_fit)) st i a1
                (keeps_ran_fitting_subtract_group ((key, members), rp_fit))) as (a & Ha & E).
    { rewrite E1. exact Ha1. }
    exists a. split; [exact Ha | congruence].
Qed.

(** Pairing the groups with the keys of the stored fits reaches the first
    groups, as many as there are fits. *)
Lemma reached_by_combine (A B : Type) (gs : list A) :
  forall (ks : list B) (g : A),
    List.In g (List.firstn (List.length ks) gs) ->
    exists k, List.In (g, k) (List.combine gs ks).
Proof.
  induction gs as [|g0 gs IH]; intros ks g Hg.
  - destruct ks; destruct Hg.
  - destruct ks as [|k ks]; [destruct Hg|].
    destruct Hg as [<-|Hg].
    + exists k. left. reflexivity.
    + destruct (IH ks g Hg) as (k' & Hk'). exists k'. right. exact Hk'.
Qed.

Lemma subtract_reaction_plane_fits_loop (st : ManagerState) :
  _subtract_reaction_plane_fits manager st
  = Py.for_each (List.combine (groups manager) (Dict.keys (fit_objects st)))
      subtract_group st.
Proof. reflexivity. Qed.

End FitStageProofs.

(** X23.  The reaction plane fit takes the groups of bins that share jet and
    track pt in turn.  It returns only if every bin of every group had run
    its projections when the stage was called, and then every bin of every
    group has both its projection flag and its fitting flag set. *)
Theorem reaction_plane_fit_needs_projections_and_marks_its_bins
    (reaction_plane_fit :
       list (string * option Histogram.Histogram1D) ->
       list (string * option Histogram.Histogram1D) ->
       result (bool * CorrelationsManager.ReactionPlaneFit))
    (read_fit_results : string -> result CorrelationsManager.ReactionPlaneFit)
    (manager : CorrelationsManager.Manager) (st : CorrelationsManager.ManagerState) :
  fst (CorrelationsManager._reaction_plane_fit reaction_plane_fit read_fit_results
         manager st) = Ok tt ->
  StageOrder.every_member (CorrelationsManager.groups manager)
    Correlations.ran_projections st
  /\ StageOrder.every_member (CorrelationsManager.groups manager)
       (fun a => Correlations.ran_projections a && Correlations.ran_fitting a)
       (snd (CorrelationsManager._reaction_plane_fit reaction_plane_fit read_fit_results
               manager st)).
Proof.
  unfold CorrelationsManager._reaction_plane_fit.
  match goal with
  | |- context [Py.for_each ?l ?body st] =>
      destruct (Py.for_each l body st) as [r st'] eqn:Erun
  end.
  cbn [fst snd]. intros ->. split.
  - exact (reaction_plane_fit_checks_the_groups reaction_plane_fit read_fit_results manager
             _ _ _ Erun).
  - exact (reaction_plane_fit_marks_the_groups reaction_plane_fit read_fit_results manager
             _ _ _ Erun).
Qed.

(** X24.  The subtraction of the reaction plane fit pairs the groups of bins with
    the stored fits, so it reaches only as many groups, from the first on, as
    there are stored fits.  It returns only if every bin of the groups it
    reaches had been fitted when the stage was called, and then every bin of
    these groups has its post fit processing flag set (and is still marked
    as fitted). *)
Theorem delta_phi_subtraction_checks_and_marks_the_groups_with_a_fit
    (manager : CorrelationsManager.Manager) (st : CorrelationsManager.ManagerState) :
  fst (CorrelationsManager._subtract_reaction_plane_fits manager st) = Ok tt ->
  StageOrder.every_member (StageOrder.reached_groups manager st) Correlations.ran_fitting st
  /\ StageOrder.every_member (StageOrder.reached_groups manager st)
       (fun a => Correlations.ran_fitting a && Correlations.ran_post_fit_processing a)
       (snd (CorrelationsManager._subtract_reaction_plane_fits manager st)).
Proof.
  rewrite (subtract_reaction_plane_fits_loop manager st).
  match goal with
  | |- context [Py.for_each ?l ?body st] =>
      destruct (Py.for_each l body st) as [r st'] eqn:Erun
  end.
  cbn [fst snd]. intros ->.
  assert (H : forall key members i,
             List.In (key, members) (StageOrder.reached_groups manager st) ->
             List.In i members ->
             (exists a, CorrelationsManager.analyses st !! i = Some a
                        /\ Correlations.ran_fitting a = true)
             /\ (exists a', CorrelationsManager.analyses st' !! i = Some a'
                            /\ Correlations.ran_fitting a' = true
                            /\ Correlations.ran_post_fit_processing a' = true)).
  { intros key members i Hg Hi. unfold StageOrder.reached_groups in Hg.
    replace (List.length (CorrelationsManager.fit_objects st))
      with (List.length (Dict.keys (CorrelationsManager.fit_objects st))) in Hg
      by apply List.length_map.
    destruct (reached_by_combine _ _ _ _ _ Hg) as (rp_fit & Hin).
    exact (subtract_groups_check_and_mark manager _ _ _ Erun key members rp_fit i Hin Hi). }
  split; intros key members i Hg Hi; destruct (H key members i Hg Hi) as (Hb & Ha).
  - exact Hb.
  - destruct Ha as (a' & Ha' & Hfit & Hpost). exists a'. split; [exact Ha'|].
    rewrite Hfit, Hpost. reflexivity.
Qed.

(* ===================================================================== *)
(** * The whole run *)
(* ===================================================================== *)

Section RunProofs.

Import Histogram.
Import Correlations.
Import CorrelationsManager.
Import Properties.
Import StageOrder.

(** A loop that calls on every member a method that sets a flag when it
    returns. *)
Lemma for_each_method_marks (method : Correlations.M unit) (P : Correlations -> bool) :
  keeps_flags method ->
  (forall s s', method s = (Ok tt, s') -> P (self s') = true) ->
  (forall a a', flags_monotonic a a' -> P a = true -> P a' = true) ->
  forall (members : list nat) (st st' : ManagerState),
    Py.for_each members (fun i => on_analysis i method) st = (Ok tt, st') ->
    forall i, List.In i members -> exists a, analyses st' !! i = Some a /\ P a = true.
Proof.
  intros Hkeeps Hset HP. induction members as [|j members IH]; intros st st' Hrun i Hi;
    [destruct Hi|].
  cbn [Py.for_each] in Hrun. unfold Py.bindM in Hrun.
  destruct (on_analysis j method st) as [[[]|e] st1] eqn:Ej; [|discriminate Hrun].
  destruct (List.in_dec Nat.eq_dec i members) as [Hin|Hnot]; [exact (IH _ _ Hrun i Hin)|].
  destruct Hi as [<-|Hi]; [|contradiction].
  destruct (on_analysis_returned _ _ _ _ _ _ Ej) as (a & s' & Ha & Em & Ha1).
  assert (Hrest : keeps_all_flags (Py.for_each members (fun i => on_analysis i method))).
  { apply keeps_all_flags_for_each. intros k. apply keeps_all_flags_on_analysis.
    exact Hkeeps. }
  specialize (Hrest st1). rewrite Hrun in Hrest. cbn in Hrest.
  destruct (Hrest j _ Ha1) as (a' & Ha' & Hflags).
  exists a'. split; [exact Ha'|]. exact (HP _ _ Hflags (Hset _ _ Em)).
Qed.

Variable _create_2d_raw_and_mixed_correlations :
  Correlations -> result (ROOT.TH2 * ROOT.TH2 * Histogram1D * Q).
Variable _create_2d_signal_correlation : Correlations -> result ROOT.TH2.
Variable plot_correlations : PlotCorrelations.
Variable _setup_1d_projectors : Correlations -> result unit.
Variable _create_1d_correlations : Correlations -> result (HistsDeltaPhi * HistsDeltaEta).
Variable _compare_unsubtracted_1d_signal_correlation_to_joel : Correlations -> result unit.
Variable fit_pedestal_to_delta_eta_background_dominated_region :
  Histogram1D -> SelectedRange -> result (Q * Q).
Variable integral : Histogram1D -> Q -> Q -> Q * Q.
Variable fit_pedestal_with_extended_gaussian :
  FitPedestalWithExtendedGaussian -> Histogram1D -> result WidthFitResult.
Variable reaction_plane_fit :
  list (string * option Histogram1D) -> list (string * option Histogram1D) ->
  result (bool * ReactionPlaneFit).
Variable read_fit_results : string -> result ReactionPlaneFit.
Variable manager : Manager.

Local Abbreviation run_projections :=
  (Correlations.run_projections _create_2d_raw_and_mixed_correlations
     _create_2d_signal_correlation plot_correlations _setup_1d_projectors
     _create_1d_correlations _compare_unsubtracted_1d_signal_correlation_to_joel).

Local Abbreviation run_all_projections :=
  (CorrelationsManager.run_all_projections _create_2d_raw_and_mixed_correlations
     _create_2d_signal_correlation plot_correlations _setup_1d_projectors
     _create_1d_correlations _compare_unsubtracted_1d_signal_correlation_to_joel).

Local Abbreviation run_manager :=
  (CorrelationsManager.run_manager _create_2d_raw_and_mixed_correlations
     _create_2d_signal_correlation plot_correlations _setup_1d_projectors
     _create_1d_correlations _compare_unsubtracted_1d_signal_correlation_to_joel
     fit_pedestal_to_delta_eta_background_dominated_region integral
     fit_pedestal_with_extended_gaussian reaction_plane_fit read_fit_results manager).

Lemma run_projections_returned (s s' : State) :
  run_projections s = (Ok tt, s') -> ran_projections (self s') = true.
Proof.
  intros Hrun.
  pose proof (flags_after_run_projections _create_2d_raw_and_mixed_correlations
                _create_2d_signal_correlation plot_correlations _setup_1d_projectors
                _create_1d_correlations _compare_unsubtracted_1d_signal_correlation_to_joel
                s) as H.
  rewrite Hrun in H. cbn in H. unfold ran_projections. rewrite H. reflexivity.
Qed.

Lemma run_all_projections_marks (st st' : ManagerState) :
  run_all_projections st = (Ok tt, st') ->
  forall i a, analyses st !! i = Some a ->
    exists a', analyses st' !! i = Some a' /\ ran_projections a' = true.
Proof.
  unfold CorrelationsManager.run_all_projections. unfold Py.bindM at 1.
  rewrite all_analyses_returned.
  intros Hrun i a Ha.
  apply (for_each_method_marks _ ran_projections
           (keeps_flags_run_projections _ _ _ _ _ _) run_projections_returned
           ran_projections_stays _ _ _ Hrun).
  apply List.in_seq. apply lookup_lt_Some in Ha. lia.
Qed.

(** The stages after the projections, and the two extractions. *)
Lemma keeps_all_flags_after_the_projections :
  keeps_all_flags
    (do _ <- fit fit_pedestal_to_delta_eta_background_dominated_region
               reaction_plane_fit read_fit_results manager ;
     do _ <- subtract_fits manager ;
     do _ <- CorrelationsManager.extract_yields integral manager ;
     do _ <- CorrelationsManager.extract_widths fit_pedestal_with_extended_gaussian
               manager ;
     Py.ret true).
Proof.
  unfold fit, subtract_fits.
  repeat first
    [ apply keeps_all_flags_ret
    | apply keeps_all_flags_fit_delta_eta_correlations
    | apply keeps_all_flags_reaction_plane_fit
    | apply keeps_all_flags_subtract_reaction_plane_fits
    | apply keeps_all_flags_subtract_delta_eta_fits
    | apply keeps_all_flags_extract_yields
    | apply keeps_all_flags_extract_widths
    | apply keeps_all_flags_bind; [|intros] ].
Qed.

Lemma keeps_all_flags_the_extractions :
  keeps_all_flags
    (do _ <- CorrelationsManager.extract_yields integral manager ;
     do _ <- CorrelationsManager.extract_widths fit_pedestal_with_extended_gaussian
               manager ;
     Py.ret true).
Proof.
  repeat first
    [ apply keeps_all_flags_ret
    | apply keeps_all_flags_extract_yields
    | apply keeps_all_flags_extract_widths
    | apply keeps_all_flags_bind; [|intros] ].
Qed.

Lemma completed_run (st : ManagerState) (b : bool) :
  fst (run_manager st) = Ok b ->
  every_analysis_then (fun a => ran_projections a && ran_post_fit_processing a) st
    (snd (run_manager st)).
Proof.
  unfold CorrelationsManager.run_manager. unfold Py.bindM at 1 6.
  destruct (run_all_projections st) as [[[]|e1] st1] eqn:E1; [|discriminate].
  pose proof (keeps_all_flags_after_the_projections st1) as Hmono1.
  unfold Py.bindM at 1 5. unfold Py.bindM at 1 in Hmono1.
  destruct (fit _ _ _ _ st1) as [[b2|e2] st2] eqn:E2; [|discriminate].
  unfold Py.bindM at 1 4. unfold Py.bindM at 1 in Hmono1.
  destruct (subtract_fits _ st2) as [[b3|e3] st3] eqn:E3; [|discriminate].
  pose proof (keeps_all_flags_the_extractions st3) as Hmono3.
  match goal with
  | |- fst (?tail st3) = _ -> _ => set (rest := tail) in *
  end.
  intros Hrun i a Ha.
  destruct (run_all_projections_marks _ _ E1 i a Ha) as (a1 & Ha1 & Hproj).
  destruct (Hmono1 i a1 Ha1) as (a5 & Ha5 & Hflags1).
  exists a5. split; [exact Ha5|].
  rewrite (ran_projections_stays _ _ Hflags1 Hproj). cbn [andb].
  assert (Hpost : every_analysis ran_post_fit_processing st3).
  { subst rest. unfold Py.bindM at 1 in Hrun.
    destruct (CorrelationsManager.extract_yields integral manager st3) as [[b4|e4] st4] eqn:E4;
      [|discriminate Hrun].
    apply (extract_yields_checks integral manager st3 b4). rewrite E4. reflexivity. }
  assert (H13 : all_flags_monotonic st1 st3).
  { assert (K : keeps_all_flags
                  (do _ <- fit fit_pedestal_to_delta_eta_background_dominated_region
                             reaction_plane_fit read_fit_results manager ;
                   do _ <- subtract_fits manager ; Py.ret true)).
    { unfold fit, subtract_fits.
      repeat first
        [ apply keeps_all_flags_ret
        | apply keeps_all_flags_fit_delta_eta_correlations
        | apply keeps_all_flags_reaction_plane_fit
        | apply keeps_all_flags_subtract_reaction_plane_fits
        | apply keeps_all_flags_subtract_delta_eta_fits
        | apply keeps_all_flags_bind; [|intros] ]. }
    specialize (K st1). unfold Py.bindM at 1 in K. rewrite E2 in K.
    unfold Py.bindM at 1 in K. rewrite E3 in K. exact K. }
  destruct (H13 i a1 Ha1) as (a3 & Ha3 & _).
  destruct (Hmono3 i a3 Ha3) as (a5' & Ha5' & Hflags3).
  rewrite Ha5 in Ha5'. injection Ha5' as <-.
  exact (ran_post_fit_processing_stays _ _ Hflags3 (Hpost i a3 Ha3)).
Qed.

End RunProofs.

(** X25.  A run of the manager that returns has taken every bin through the
    whole chain: every bin that the manager started with is still there, has
    its projection flag set and has its post fit processing flag set. *)
Theorem a_run_that_returns_has_processed_every_bin
    (_create_2d_raw_and_mixed_correlations :
       Correlations.Correlations ->
       result (ROOT.TH2 * ROOT.TH2 * Histogram.Histogram1D * Q))
    (_create_2d_signal_correlation : Correlations.Correlations -> result ROOT.TH2)
    (plot_correlations : Correlations.PlotCorrelations)
    (_setup_1d_projectors : Correlations.Correlations -> result unit)
    (_create_1d_correlations :
       Correlations.Correlations ->
       result (Correlations.HistsDeltaPhi * Correlations.HistsDeltaEta))
    (_compare_unsubtracted_1d_signal_correlation_to_joel :
       Correlations.Correlations -> result unit)
    (fit_pedestal_to_delta_eta_background_dominated_region :
       Histogram.Histogram1D -> Correlations.SelectedRange -> result (Q * Q))
    (integral : Histogram.Histogram1D -> Q -> Q -> Q * Q)
    (fit_pedestal_with_extended_gaussian :
       Correlations.FitPedestalWithExtendedGaussian -> Histogram.Histogram1D ->
       result Correlations.WidthFitResult)
    (reaction_plane_fit :
       list (string * option Histogram.Histogram1D) ->
       list (string * option Histogram.Histogram1D) ->
       result (bool * CorrelationsManager.ReactionPlaneFit))
    (read_fit_results : string -> result CorrelationsManager.ReactionPlaneFit)
    (manager : CorrelationsManager.Manager) (st : CorrelationsManager.ManagerState)
    (b : bool) :
  fst (CorrelationsManager.run_manager _create_2d_raw_and_mixed_correlations
         _create_2d_signal_correlation plot_correlations _setup_1d_projectors
         _create_1d_correlations _compare_unsubtracted_1d_signal_correlation_to_joel
         fit_pedestal_to_delta_eta_background_dominated_region integral
         fit_pedestal_with_extended_gaussian reaction_plane_fit read_fit_results
         manager st) = Ok b ->
  StageOrder.every_analysis_then
    (fun a => Correlations.ran_projections a && Correlations.ran_post_fit_processing a)
    st
    (snd (CorrelationsManager.run_manager _create_2d_raw_and_mixed_correlations
            _create_2d_signal_correlation plot_correlations _setup_1d_projectors
            _create_1d_correlations _compare_unsubtracted_1d_signal_correlation_to_joel
            fit_pedestal_to_delta_eta_background_dominated_region integral
            fit_pedestal_with_extended_gaussian reaction_plane_fit read_fit_results
            manager st)).
Proof.
  apply completed_run.
Qed.

(* ===================================================================== *)
(** * The stages on the example bin *)
(* ===================================================================== *)

Lemma extraction_needs_post_fit_processing_witness :
  (is_ok (fst (CorrelationsManager.extract_yields Example.integrate Example.manager
                 ManagerExample.subtracted)) = true
   /\ is_ok (fst (CorrelationsManager.extract_widths ManagerExample.fit_widths
                    Example.manager ManagerExample.subtracted)) = true)
  /\ StageOrder.every_analysis Correlations.ran_post_fit_processing
       ManagerExample.subtracted.
Proof.
  split; [split; vm_compute; reflexivity|].
  apply (proj1 (extraction_needs_post_fit_processing Example.integrate
                  ManagerExample.fit_widths Example.manager ManagerExample.subtracted)).
  vm_compute. reflexivity.
Defined.

Lemma reaction_plane_fit_needs_projections_and_marks_its_bins_witness :
  fst (CorrelationsManager._reaction_plane_fit ManagerExample.reaction_plane_fit
         ManagerExample.read_fit_results Example.manager Example.before_fit) = Ok tt
  /\ StageOrder.every_member (CorrelationsManager.groups Example.manager)
       Correlations.ran_projections Example.before_fit
  /\ StageOrder.every_member (CorrelationsManager.groups Example.manager)
       (fun a => Correlations.ran_projections a && Correlations.ran_fitting a)
       (snd (CorrelationsManager._reaction_plane_fit ManagerExample.reaction_plane_fit
               ManagerExample.read_fit_results Example.manager Example.before_fit)).
Proof.
  split; [vm_compute; reflexivity|].
  apply (reaction_plane_fit_needs_projections_and_marks_its_bins
           ManagerExample.reaction_plane_fit ManagerExample.read_fit_results
           Example.manager Example.before_fit).
  vm_compute. reflexivity.
Defined.

Lemma delta_phi_subtraction_checks_and_marks_the_groups_with_a_fit_witness :
  fst (CorrelationsManager._subtract_reaction_plane_fits Example.manager
         ManagerExample.fitted) = Ok tt
  /\ StageOrder.reached_groups Example.manager ManagerExample.fitted
     = CorrelationsManager.groups Example.manager
  /\ StageOrder.every_member
       (StageOrder.reached_groups Example.manager ManagerExample.fitted)
       Correlations.ran_fitting ManagerExample.fitted
  /\ StageOrder.every_member
       (StageOrder.reached_groups Example.manager ManagerExample.fitted)
       (fun a => Correlations.ran_fitting a && Correlations.ran_post_fit_processing a)
       (snd (CorrelationsManager._subtract_reaction_plane_fits Example.manager
               ManagerExample.fitted)).
Proof.
  split; [vm_compute; reflexivity|].
  split; [vm_compute; reflexivity|].
  apply (delta_phi_subtraction_checks_and_marks_the_groups_with_a_fit
           Example.manager ManagerExample.fitted).
  vm_compute. reflexivity.
Defined.

Lemma a_run_that_returns_has_processed_every_bin_witness :
  let run_manager :=
    CorrelationsManager.run_manager Example.project_2d Example.divide_2d Example.plots
      Example.setup_projectors Example.project_1d Example.compare_to_joel
      ManagerExample.fit_pedestal Example.integrate ManagerExample.fit_widths
      ManagerExample.reaction_plane_fit ManagerExample.read_fit_results Example.manager in
  fst (run_manager ManagerExample.start) = Ok true
  /\ StageOrder.every_analysis_then
       (fun a => Correlations.ran_projections a && Correlations.ran_post_fit_processing a)
       ManagerExample.start (snd (run_manager ManagerExample.start)).
Proof.
  intros run_manager.
  split; [vm_compute; reflexivity|].
  apply (a_run_that_returns_has_processed_every_bin Example.project_2d Example.divide_2d
           Example.plots Example.setup_projectors Example.project_1d
           Example.compare_to_joel ManagerExample.fit_pedestal Example.integrate
           ManagerExample.fit_widths ManagerExample.reaction_plane_fit
           ManagerExample.read_fit_results Example.manager ManagerExample.start true).
  vm_compute. reflexivity.
Defined.

